(** * OpenMeal: the record store, the analysis pipeline and the Health Connect bridge

    A shallow embedding of

    - [services/FileSystemStorageService] (the record store: one JSON file per
      meal plus an index file),
    - [services/AnalysisProcessor] ([processMeal], [resumePending],
      [retryMeal]),
    - [services/HealthConnectService] (the versioned write of a meal to Health
      Connect),

    followed by the properties of these three services.

    Modelling conventions.
    - An [async] method is a computation in the monad [M S], a state monad
      over the device state [S] with exceptions: the state reached when an
      exception is thrown is kept, as writes made before a [throw] stay on
      disk. [try ... catch] is [try_catch].
    - The file system is a finite map per kind of file: meal files (by file
      name inside [mealsDir]), the index file, and every other file by its
      URI (images in [imagesDir], camera and gallery files). Reading a file
      that is absent or does not parse throws; writes, deletes with
      [idempotent: true] and directory creation succeed: the embedding
      covers the runs of the services in which the file system takes them.
      (The methods of the store that write rethrow a failed write; such a
      run is outside the embedding, and no property below speaks of it.)
    - [Date.now()] / [new Date()] is the parameter [now] of an operation
      (milliseconds since the epoch); parsing a timestamp string with
      [new Date(s).getTime()] is the parameter [getTime] of the development
      ([None] is [NaN]).
    - JavaScript numbers that count milliseconds or versions are [Z]. *)

From Stdlib Require Import ZArith Ascii String List Lia Bool Sorted Permutation.
From stdpp Require Import base option list strings gmap pretty.

Local Open Scope string_scope.
Local Open Scope Z_scope.

(** ** Strings as the services use them *)

Module Str.

(** [s.startsWith(p)] *)
Definition startsWith (s p : string) : bool := String.prefix p s.

(** A string of the source is held as its UTF-8 encoding; on it the
    operations that look at single characters (the dot before an extension,
    white space) are exact.

    The white space [trim] strips is the [WhiteSpace] and [LineTerminator]
    code points of ECMAScript. In one byte: U+0009 to U+000D and U+0020. *)
Definition isSpace (c : ascii) : bool :=
  match nat_of_ascii c with
  | 9 | 10 | 11 | 12 | 13 | 32 => true
  | _ => false
  end%nat.

(** In two bytes: U+00A0. *)
Definition isSpace2 (c1 c2 : ascii) : bool :=
  ((N_of_ascii c1 =? 194) && (N_of_ascii c2 =? 160))%N.

(** In three bytes: U+1680; U+2000 to U+200A, U+2028, U+2029 and U+202F;
    U+205F; U+3000; U+FEFF. *)
Definition isSpace3 (c1 c2 c3 : ascii) : bool :=
  let b1 := N_of_ascii c1 in
  let b2 := N_of_ascii c2 in
  let b3 := N_of_ascii c3 in
  ((b1 =? 225) && (b2 =? 154) && (b3 =? 128)
   || (b1 =? 226) && (b2 =? 128)
      && ((128 <=? b3) && (b3 <=? 138) || (b3 =? 168) || (b3 =? 169) || (b3 =? 175))
   || (b1 =? 226) && (b2 =? 129) && (b3 =? 159)
   || (b1 =? 227) && (b2 =? 128) && (b3 =? 128)
   || (b1 =? 239) && (b2 =? 187) && (b3 =? 191))%N.

(** The string without the white space it starts with, the encodings of
    two and three bytes being told by [space2] and [space3]. *)
Fixpoint stripSpaces (space2 : ascii -> ascii -> bool)
    (space3 : ascii -> ascii -> ascii -> bool) (s : string) : string :=
  match s with
  | String c1 s1 =>
      if isSpace c1 then stripSpaces space2 space3 s1
      else
        match s1 with
        | String c2 s2 =>
            if space2 c1 c2 then stripSpaces space2 space3 s2
            else
              match s2 with
              | String c3 s3 =>
                  if space3 c1 c2 c3 then stripSpaces space2 space3 s3 else s
              | EmptyString => s
              end
        | EmptyString => s
        end
  | EmptyString => EmptyString
  end.

(** [s.trimStart()] *)
Definition trimStart (s : string) : string := stripSpaces isSpace2 isSpace3 s.

(** [s.trimEnd()]: the white space at the end is the white space at the
    start of the bytes read backwards. *)
Definition trimEnd (s : string) : string :=
  String.rev
    (stripSpaces (fun c1 c2 => isSpace2 c2 c1) (fun c1 c2 c3 => isSpace3 c3 c2 c1)
       (String.rev s)).

(** [s.trim()] *)
Definition trim (s : string) : string := trimEnd (trimStart s).

(** A string is truthy when it is not empty. *)
Definition truthy (s : string) : bool :=
  match s with EmptyString => false | _ => true end.

(** An optional string ([undefined] when absent) is truthy when it is
    present and not empty. *)
Definition truthyOpt (o : option string) : bool :=
  match o with Some s => truthy s | None => false end.

Fixpoint lastSegmentFrom (acc s : string) : string :=
  match s with
  | String c s' =>
      if Ascii.eqb c "."%char then lastSegmentFrom EmptyString s'
      else lastSegmentFrom (acc ++ String c EmptyString) s'
  | EmptyString => acc
  end.

(** [s.split('.').pop()] *)
Definition lastSegment (s : string) : string := lastSegmentFrom EmptyString s.

End Str.

(** ** Data model *)

(** The analysis object returned by the inference service. [analysis: any]
    in the source; the fields are those the services read. *)
Record Totals := {
  total_calories : option Z;
  total_total_carbohydrate_g : option Z;
  total_protein_g : option Z;
  total_total_fat_g : option Z
}.

Record MealItem := {
  item_name : string;
  estimated_serving_size : string;
  calories : Z;
  total_carbohydrate_g : Z;
  protein_g : Z;
  total_fat_g : Z;
  notes : string
}.

Record AnalysisObject := {
  title : option string;
  meal_items : list MealItem;
  total_meal_nutritional_values : option Totals;
  health_benefits : list string;
  health_concerns : list string;
  overall_meal_notes : option string;
  unidentified_items_description : option string
}.

(** [analysis] is [null] while the meal is pending. *)
Inductive Analysis :=
  | ANull
  | AObject (a : AnalysisObject).

Definition EMPTY_ANALYSIS : AnalysisObject := {|
  title := None;
  meal_items := [];
  total_meal_nutritional_values :=
    Some {| total_calories := Some 0; total_total_carbohydrate_g := Some 0;
            total_protein_g := Some 0; total_total_fat_g := Some 0 |};
  health_benefits := [];
  health_concerns := [];
  overall_meal_notes := Some "";
  unidentified_items_description := Some ""
|}.

(** [interface MealAnalysis]. [id], [timestamp] and [imageUri] are required
    strings: a caller that has no value passes the empty string (as the
    import and [MealDetailModal] do for [imageUri]). Optional fields are
    [None] when the key is absent ([undefined]). *)
Record MealAnalysis := {
  m_id : string;
  m_timestamp : string;
  m_imageUri : string;
  m_afterImageUri : option string;
  m_analysis : Analysis;
  m_comment : option string;
  m_isLoading : option bool;
  m_hasError : option bool
}.

(** The argument of [savePendingMeal] is [any]: the keys it reads may all be
    absent. *)
Record PendingMeal := {
  p_id : option string;
  p_timestamp : option string;
  p_imageUri : option string;
  p_afterImageUri : option string;
  p_comment : option string
}.

(** The second argument of [updateMealAnalysis] is spread over the stored
    record: a key that is absent ([None]) keeps the stored value, a key that
    is present overrides it; for an optional field the overriding value may
    itself be [undefined]. *)
Record MealPatch := {
  u_id : option string;
  u_timestamp : option string;
  u_imageUri : option string;
  u_afterImageUri : option (option string);
  u_analysis : option Analysis;
  u_comment : option (option string);
  u_isLoading : option (option bool);
  u_hasError : option (option bool)
}.

(** [{...existing, ...patch}] *)
Definition spread (existing : MealAnalysis) (patch : MealPatch) : MealAnalysis := {|
  m_id := default (m_id existing) (u_id patch);
  m_timestamp := default (m_timestamp existing) (u_timestamp patch);
  m_imageUri := default (m_imageUri existing) (u_imageUri patch);
  m_afterImageUri := default (m_afterImageUri existing) (u_afterImageUri patch);
  m_analysis := default (m_analysis existing) (u_analysis patch);
  m_comment := default (m_comment existing) (u_comment patch);
  m_isLoading := default (m_isLoading existing) (u_isLoading patch);
  m_hasError := default (m_hasError existing) (u_hasError patch)
|}.

(** A whole [MealAnalysis] object used as a patch: the required keys are
    present, an optional key is present when it has a value. *)
Definition patchOf (m : MealAnalysis) : MealPatch := {|
  u_id := Some (m_id m);
  u_timestamp := Some (m_timestamp m);
  u_imageUri := Some (m_imageUri m);
  u_afterImageUri := Some <$> m_afterImageUri m;
  u_analysis := Some (m_analysis m);
  u_comment := Some <$> m_comment m;
  u_isLoading := Some <$> m_isLoading m;
  u_hasError := Some <$> m_hasError m
|}.

(** [interface MealIndex] *)
Record IndexEntry := {
  e_id : string;
  e_timestamp : string;
  e_filename : string
}.

Record MealIndex := {
  meals : list IndexEntry;
  lastUpdated : Z
}.

(** What a file of the meals directory holds: a meal as JSON, or something
    [JSON.parse] rejects. *)
Inductive MealFile :=
  | MealJson (m : MealAnalysis)
  | MealGarbage.

Inductive IndexFile :=
  | IndexMissing
  | IndexGarbage
  | IndexJson (i : MealIndex).

Record Disk := {
  mealFiles : gmap string MealFile;
  indexFile : IndexFile;
  files : gmap string string
}.

Definition setMealFiles (f : gmap string MealFile) (d : Disk) : Disk :=
  {| mealFiles := f; indexFile := indexFile d; files := files d |}.
Definition setIndexFile (i : IndexFile) (d : Disk) : Disk :=
  {| mealFiles := mealFiles d; indexFile := i; files := files d |}.
Definition setFiles (f : gmap string string) (d : Disk) : Disk :=
  {| mealFiles := mealFiles d; indexFile := indexFile d; files := f |}.

(** ** Exceptions and the monad of the services *)

Inductive Error :=
  | MissingRequiredMealData
  | MissingRequiredPendingMealData
  | NoImageOrComment
  | MealNotFound (mealId : string)
  | FileNotReadable (path : string)
  | JsonSyntaxError (path : string)
  | AnalysisFailure
  | InvalidTimeValue
  | HealthConnectFailure.

Inductive Result (A : Type) :=
  | Ok (a : A)
  | Throw (e : Error).
Arguments Ok {A} a.
Arguments Throw {A} e.

Definition M (S A : Type) : Type := S -> Result A * S.

Definition ret {S A} (a : A) : M S A := fun s => (Ok a, s).
Definition throw {S A} (e : Error) : M S A := fun s => (Throw e, s).
Definition bind {S A B} (c : M S A) (k : A -> M S B) : M S B :=
  fun s => match c s with
           | (Ok a, s') => k a s'
           | (Throw e, s') => (Throw e, s')
           end.
Definition try_catch {S A} (c : M S A) (handler : Error -> M S A) : M S A :=
  fun s => match c s with
           | (Ok a, s') => (Ok a, s')
           | (Throw e, s') => handler e s'
           end.
Definition get {S} : M S S := fun s => (Ok s, s).
Definition modify {S} (f : S -> S) : M S unit := fun s => (Ok tt, f s).
Definition when {S} (b : bool) (c : M S unit) : M S unit :=
  if b then c else ret tt.

Declare Scope m_scope.
Delimit Scope m_scope with m.
Notation "x <- c ;; k" := (bind c (fun x => k))
  (at level 100, c at next level, right associativity) : m_scope.
Notation "c ;;; k" := (bind c (fun _ => k))
  (at level 100, right associativity) : m_scope.
Local Open Scope m_scope.

(** [for (const x of l) body(x)] *)
Fixpoint forEach {S A} (l : list A) (body : A -> M S unit) : M S unit :=
  match l with
  | [] => ret tt
  | x :: l' => body x ;;; forEach l' body
  end.

(** ** The record store: [FileSystemStorageService] *)

(** [meal_${id}.json] *)
Definition mealFilename (mealId : string) : string :=
  "meal_" ++ mealId ++ ".json".

(** [analysis] in a condition: [null] is falsy, an object is truthy. *)
Definition analysisTruthy (a : Analysis) : bool :=
  match a with ANull => false | AObject _ => true end.

(** An optional boolean in a condition ([undefined] is falsy). *)
Definition flag (o : option bool) : bool := default false o.

(** [l.findIndex(p)]; [None] is [-1]. *)
Fixpoint findIndex {A} (p : A -> bool) (l : list A) : option nat :=
  match l with
  | [] => None
  | x :: l' => if p x then Some 0%nat else S <$> findIndex p l'
  end.

Definition setTimestamp (ts : string) (e : IndexEntry) : IndexEntry :=
  {| e_id := e_id e; e_timestamp := ts; e_filename := e_filename e |}.

Definition entryHasId (mealId : string) (e : IndexEntry) : bool :=
  bool_decide (e_id e = mealId).

(** [index.meals.filter(m => m.id !== id)] *)
Definition withoutId (mealId : string) (l : list IndexEntry) : list IndexEntry :=
  List.filter (fun e => negb (entryHasId mealId e)) l.

(** The retained count of [saveMealAnalysis]. *)
Definition MAX_MEALS : nat := 50.

Inductive TimeRange := hour | day | month | year | all.

#[global] Instance TimeRange_eq_dec : EqDecision TimeRange.
Proof. solve_decision. Defined.

Section FileSystemStorageService.

(** [FileSystem.documentDirectory] *)
Variable documentDirectory : string.
(** [new Date(s).getTime()], [None] for an invalid date *)
Variable getTime : string -> option Z.

Definition mealsDir : string := documentDirectory ++ "meals/".
Definition imagesDir : string := documentDirectory ++ "meals/images/".

(** The comparator of [updateMealAnalysis],
    [new Date(b.timestamp).getTime() - new Date(a.timestamp).getTime()];
    [None] is [NaN]. *)
Definition compareEntries (a b : IndexEntry) : option Z :=
  match getTime (e_timestamp b), getTime (e_timestamp a) with
  | Some tb, Some ta => Some (tb - ta)
  | _, _ => None
  end.

(** [Array.prototype.sort] is stable, and a comparator result that is
    [NaN] counts as [0]: an element moves behind another one only when the
    comparator is positive. On a consistent comparator every conforming
    sort returns this list. *)
Fixpoint insertEntry (x : IndexEntry) (l : list IndexEntry) : list IndexEntry :=
  match l with
  | [] => [x]
  | y :: l' =>
      match compareEntries x y with
      | Some c => if 0 <? c then y :: insertEntry x l' else x :: y :: l'
      | None => x :: y :: l'
      end
  end.

Definition sortEntries (l : list IndexEntry) : list IndexEntry :=
  foldr insertEntry [] l.

(** [FileSystem.readAsStringAsync(mealFile)] followed by [JSON.parse] *)
Definition readMealFile (filename : string) : M Disk MealAnalysis :=
  d <- get ;;
  match mealFiles d !! filename with
  | Some (MealJson m) => ret m
  | Some MealGarbage => throw (JsonSyntaxError filename)
  | None => throw (FileNotReadable filename)
  end.

(** [FileSystem.writeAsStringAsync(mealFile, JSON.stringify(meal))] *)
Definition writeMealFile (filename : string) (m : MealAnalysis) : M Disk unit :=
  modify (fun d => setMealFiles (<[filename := MealJson m]> (mealFiles d)) d).

(** [FileSystem.deleteAsync(mealFile, { idempotent: true })] *)
Definition deleteMealFile (filename : string) : M Disk unit :=
  modify (fun d => setMealFiles (delete filename (mealFiles d)) d).

Definition initializeStorage (now : Z) : M Disk unit :=
  d <- get ;;
  match indexFile d with
  | IndexMissing =>
      modify (setIndexFile (IndexJson {| meals := []; lastUpdated := now |}))
  | _ => ret tt
  end.

Definition readIndex (now : Z) : M Disk MealIndex :=
  d <- get ;;
  match indexFile d with
  | IndexJson i => ret i
  | _ => ret {| meals := []; lastUpdated := now |}
  end.

Definition writeIndex (now : Z) (l : list IndexEntry) : M Disk unit :=
  modify (setIndexFile (IndexJson {| meals := l; lastUpdated := now |})).

Definition imageFilename (now : Z) (sourceUri mealId suffix : string) : string :=
  let extension :=
    let e := Str.lastSegment sourceUri in
    if Str.truthy e then e else "jpg" in
  mealId ++ (if Str.truthy suffix then "_" ++ suffix else "")
    ++ "_" ++ pretty now ++ "." ++ extension.

Definition copyImageToStorage (now : Z) (sourceUri mealId suffix : string)
  : M Disk string :=
  let destinationUri := imagesDir ++ imageFilename now sourceUri mealId suffix in
  d <- get ;;
  match files d !! sourceUri with
  | Some content =>
      modify (setFiles (<[destinationUri := content]> (files d))) ;;;
      ret destinationUri
  | None => throw (FileNotReadable sourceUri)
  end.

Definition entryOf (mealId timestamp : string) : IndexEntry :=
  {| e_id := mealId; e_timestamp := timestamp; e_filename := mealFilename mealId |}.

(** The block [if (index.meals.length > 50) { ... }] of [saveMealAnalysis]:
    the files of the entries beyond the first 50 are deleted (their images
    are not), and the first 50 entries are kept. *)
Definition keepLastMeals (unshifted : list IndexEntry) : M Disk (list IndexEntry) :=
  if (MAX_MEALS <? length unshifted)%nat
  then
    forEach (drop MAX_MEALS unshifted)
      (fun oldMeal =>
         try_catch (deleteMealFile (e_filename oldMeal)) (fun _ => ret tt)) ;;;
    ret (take MAX_MEALS unshifted)
  else ret unshifted.

Definition saveMealAnalysis (now : Z) (meal : MealAnalysis) : M Disk unit :=
  initializeStorage now ;;;
  when (negb (Str.truthy (m_id meal)) || negb (Str.truthy (m_timestamp meal))
        || negb (Str.truthy (m_imageUri meal)) || negb (analysisTruthy (m_analysis meal)))
       (throw MissingRequiredMealData) ;;;
  storageImageUri <-
    (if negb (Str.startsWith (m_imageUri meal) imagesDir)
     then copyImageToStorage now (m_imageUri meal) (m_id meal) ""
     else ret (m_imageUri meal)) ;;
  storageAfterImageUri <-
    (match m_afterImageUri meal with
     | Some a =>
         if Str.truthy a && negb (Str.startsWith a imagesDir)
         then (u <- copyImageToStorage now a (m_id meal) "after" ;; ret (Some u))
         else ret (Some a)
     | None => ret None
     end) ;;
  let mealToSave := {|
    m_id := m_id meal;
    m_timestamp := m_timestamp meal;
    m_imageUri := storageImageUri;
    m_afterImageUri := storageAfterImageUri;
    m_analysis := m_analysis meal;
    m_comment := m_comment meal;
    m_isLoading := m_isLoading meal;
    m_hasError := m_hasError meal |} in
  writeMealFile (mealFilename (m_id meal)) mealToSave ;;;
  index <- readIndex now ;;
  let unshifted :=
    entryOf (m_id meal) (m_timestamp meal) :: withoutId (m_id meal) (meals index) in
  kept <- keepLastMeals unshifted ;;
  writeIndex now kept.

Definition savePendingMeal (now : Z) (pendingMeal : PendingMeal) : M Disk unit :=
  initializeStorage now ;;;
  when (negb (Str.truthyOpt (p_id pendingMeal))
        || negb (Str.truthyOpt (p_timestamp pendingMeal)))
       (throw MissingRequiredPendingMealData) ;;;
  let mealId := default "" (p_id pendingMeal) in
  let timestamp := default "" (p_timestamp pendingMeal) in
  storageImageUri <-
    (match p_imageUri pendingMeal with
     | Some i =>
         if Str.truthy i && Str.truthy (Str.trim i)
         then copyImageToStorage now i mealId ""
         else ret ""
     | None => ret ""
     end) ;;
  storageAfterImageUri <-
    (match p_afterImageUri pendingMeal with
     | Some a =>
         if Str.truthy a && Str.truthy (Str.trim a)
         then (u <- copyImageToStorage now a mealId "after" ;; ret (Some u))
         else ret None
     | None => ret None
     end) ;;
  let mealToSave := {|
    m_id := mealId;
    m_timestamp := timestamp;
    m_imageUri := storageImageUri;
    m_afterImageUri := storageAfterImageUri;
    m_analysis := ANull;
    m_comment :=
      Some (if Str.truthyOpt (p_comment pendingMeal)
            then default "" (p_comment pendingMeal) else "");
    m_isLoading := Some true;
    m_hasError := Some false |} in
  writeMealFile (mealFilename mealId) mealToSave ;;;
  index <- readIndex now ;;
  writeIndex now (entryOf mealId timestamp :: withoutId mealId (meals index)).

Definition saveCommentMeal (now : Z) (mealId timestamp comment : string)
  : M Disk unit :=
  initializeStorage now ;;;
  let mealToSave := {|
    m_id := mealId;
    m_timestamp := timestamp;
    m_imageUri := "";
    m_afterImageUri := None;
    m_analysis := AObject EMPTY_ANALYSIS;
    m_comment := Some (if Str.truthy comment then comment else "");
    m_isLoading := Some false;
    m_hasError := Some false |} in
  writeMealFile (mealFilename mealId) mealToSave ;;;
  index <- readIndex now ;;
  writeIndex now (entryOf mealId timestamp :: withoutId mealId (meals index)).

(** [{...existingMeal, ...meal, isLoading: false, hasError: false}] *)
Definition clearFlags (m : MealAnalysis) : MealAnalysis := {|
  m_id := m_id m;
  m_timestamp := m_timestamp m;
  m_imageUri := m_imageUri m;
  m_afterImageUri := m_afterImageUri m;
  m_analysis := m_analysis m;
  m_comment := m_comment m;
  m_isLoading := Some false;
  m_hasError := Some false |}.

(** [{...existingMeal, isLoading: false, hasError: true}] *)
Definition errorFlags (m : MealAnalysis) : MealAnalysis := {|
  m_id := m_id m;
  m_timestamp := m_timestamp m;
  m_imageUri := m_imageUri m;
  m_afterImageUri := m_afterImageUri m;
  m_analysis := m_analysis m;
  m_comment := m_comment m;
  m_isLoading := Some false;
  m_hasError := Some true |}.

Definition updateMealAnalysis (now : Z) (mealId : string) (meal : MealPatch)
  : M Disk unit :=
  initializeStorage now ;;;
  let filename := mealFilename mealId in
  existingMeal <- readMealFile filename ;;
  let updatedMeal := clearFlags (spread existingMeal meal) in
  writeMealFile filename updatedMeal ;;;
  index <- readIndex now ;;
  let synced :=
    match findIndex (entryHasId mealId) (meals index) with
    | Some entryIndex =>
        alter (setTimestamp (m_timestamp updatedMeal)) entryIndex (meals index)
    | None => entryOf mealId (m_timestamp updatedMeal) :: meals index
    end in
  writeIndex now (sortEntries synced).

Definition updateMealAnalysisError (now : Z) (mealId : string) : M Disk unit :=
  initializeStorage now ;;;
  let filename := mealFilename mealId in
  existingMeal <- readMealFile filename ;;
  writeMealFile filename (errorFlags existingMeal).

Fixpoint readMeals (refs : list IndexEntry) : M Disk (list MealAnalysis) :=
  match refs with
  | [] => ret []
  | mealRef :: refs' =>
      pushed <- try_catch (m <- readMealFile (e_filename mealRef) ;; ret [m])
                          (fun _ => ret []) ;;
      rest <- readMeals refs' ;;
      ret (pushed ++ rest)%list
  end.

Definition getMealHistory (now : Z) : M Disk (list MealAnalysis) :=
  try_catch
    (initializeStorage now ;;;
     index <- readIndex now ;;
     readMeals (meals index))
    (fun _ => ret []).

Definition deleteMeal (now : Z) (mealId : string) : M Disk unit :=
  initializeStorage now ;;;
  index <- readIndex now ;;
  match List.find (entryHasId mealId) (meals index) with
  | Some mealToDelete =>
      writeIndex now (withoutId mealId (meals index)) ;;;
      deleteMealFile (e_filename mealToDelete)
  | None => ret tt
  end.

Definition clearHistory (now : Z) : M Disk unit :=
  initializeStorage now ;;;
  index <- readIndex now ;;
  forEach (meals index)
    (fun mealRef =>
       try_catch (deleteMealFile (e_filename mealRef)) (fun _ => ret tt)) ;;;
  writeIndex now [].

Definition rangeMillis (timeRange : TimeRange) : Z :=
  match timeRange with
  | hour => 60 * 60 * 1000
  | day => 24 * 60 * 60 * 1000
  | month => 30 * 24 * 60 * 60 * 1000
  | year => 365 * 24 * 60 * 60 * 1000
  | all => 0
  end.

(** [mealDate >= cutoffDate]: false when the timestamp is not a date. *)
Definition atOrAfter (cutoff : Z) (mealRef : IndexEntry) : bool :=
  match getTime (e_timestamp mealRef) with
  | Some t => cutoff <=? t
  | None => false
  end.

Definition clearHistoryByTimeRange (now : Z) (timeRange : TimeRange) : M Disk unit :=
  initializeStorage now ;;;
  match timeRange with
  | all => clearHistory now
  | _ =>
      let cutoffDate := now - rangeMillis timeRange in
      index <- readIndex now ;;
      let mealsToDelete := List.filter (atOrAfter cutoffDate) (meals index) in
      let mealsToKeep :=
        List.filter (fun r => negb (atOrAfter cutoffDate r)) (meals index) in
      forEach mealsToDelete
        (fun mealRef =>
           try_catch (deleteMealFile (e_filename mealRef)) (fun _ => ret tt)) ;;;
      writeIndex now mealsToKeep
  end.

(** [null] is [None]. *)
Definition getMealById (now : Z) (mealId : string) : M Disk (option MealAnalysis) :=
  try_catch
    (initializeStorage now ;;;
     m <- readMealFile (mealFilename mealId) ;;
     ret (Some m))
    (fun _ => ret None).

Definition getMealCount (now : Z) : M Disk nat :=
  try_catch
    (initializeStorage now ;;;
     index <- readIndex now ;;
     ret (length (meals index)))
    (fun _ => ret 0%nat).

End FileSystemStorageService.

(** ** The device beyond the disk *)

(** The records [writeMealToHealthConnect] sends. Times are milliseconds
    since the epoch (the source sends them as ISO strings). *)
Record NutritionRecord := {
  clientRecordId : string;
  clientRecordVersion : Z;
  startTime : Z;
  endTime : Z;
  name : string;
  energy : Z;
  protein : Z;
  totalCarbohydrate : Z;
  totalFat : Z
}.

(** The two items of [expo-secure-store] the bridge owns:
    [HC_WRITE_PERMISSION_GRANTED] and [HC_MEAL_VERSION_MAP]. *)
Record SecureStore := {
  permissionItem : option string;
  versionMapItem : option (gmap string Z)
}.

Inductive GeminiRequest :=
  | AnalyzeFoodFromText (comment : string)
  | AnalyzeFood (base64Image : string) (comment : option string)
  | AnalyzeFoodBeforeAfter (base64Before base64After : string) (comment : option string).

(** The device: the disk, the secure store, and what has left the
    application so far, most recent first: the ['mealUpdated'] events, the
    requests made to the inference service, and the writes attempted on
    Health Connect with their outcome. *)
Record World := {
  disk : Disk;
  secureStore : SecureStore;
  mealUpdated : list MealAnalysis;
  geminiRequests : list GeminiRequest;
  healthConnectWrites : list (NutritionRecord * bool)
}.

Definition setDisk (d : Disk) (w : World) : World :=
  {| disk := d; secureStore := secureStore w; mealUpdated := mealUpdated w;
     geminiRequests := geminiRequests w; healthConnectWrites := healthConnectWrites w |}.
Definition setSecureStore (s : SecureStore) (w : World) : World :=
  {| disk := disk w; secureStore := s; mealUpdated := mealUpdated w;
     geminiRequests := geminiRequests w; healthConnectWrites := healthConnectWrites w |}.
Definition setMealUpdated (l : list MealAnalysis) (w : World) : World :=
  {| disk := disk w; secureStore := secureStore w; mealUpdated := l;
     geminiRequests := geminiRequests w; healthConnectWrites := healthConnectWrites w |}.
Definition setGeminiRequests (l : list GeminiRequest) (w : World) : World :=
  {| disk := disk w; secureStore := secureStore w; mealUpdated := mealUpdated w;
     geminiRequests := l; healthConnectWrites := healthConnectWrites w |}.
Definition setHealthConnectWrites (l : list (NutritionRecord * bool)) (w : World) : World :=
  {| disk := disk w; secureStore := secureStore w; mealUpdated := mealUpdated w;
     geminiRequests := geminiRequests w; healthConnectWrites := l |}.

(** A method of the record store called from another service. *)
Definition onDisk {A} (c : M Disk A) : M World A :=
  fun w => match c (disk w) with (r, d) => (r, setDisk d w) end.

Record Permission := {
  recordType : string;
  accessType : string
}.

Inductive WriteApi := InsertRecords | WriteRecords | NoWriteApi.

(** How Health Connect and the secure store behave during one call of the
    bridge. *)
Record HealthConnect := {
  (** [Platform.OS === 'android'] *)
  platformIsAndroid : bool;
  (** the native module was loaded ([healthConnect] is not [null]) *)
  moduleLoaded : bool;
  (** the value of [healthConnect.initialize()], [None] when it throws *)
  initializeResult : option bool;
  (** the array [getGrantedPermissions()] returns; [None] when it throws,
      is missing or returns no array *)
  grantedPermissions : option (list Permission);
  (** which write method the module has *)
  writeApi : WriteApi;
  (** whether that method accepts the record (it throws otherwise) *)
  writeAccepted : bool;
  (** [SecureStore.getItemAsync] throws, or the stored map does not parse *)
  secureGetFails : bool;
  (** [SecureStore.setItemAsync] / [deleteItemAsync] throws *)
  secureSetFails : bool
}.

(** What the outside world does during one call of [processMeal]. *)
Record Collaborators := {
  now : Z;
  (** [GeminiService]: the analysis, or [None] when the call throws *)
  gemini : GeminiRequest -> option AnalysisObject;
  healthConnect : HealthConnect
}.

(** ** The bridge: [HealthConnectService] *)

Definition isNutritionWrite (p : Permission) : bool :=
  bool_decide (recordType p = "Nutrition") && bool_decide (accessType p = "write").

Section HealthConnectService.

Variable getTime : string -> option Z.
Variable hc : HealthConnect.

Definition readVersionMap : M World (gmap string Z) :=
  w <- get ;;
  if secureGetFails hc then ret ∅
  else ret (default ∅ (versionMapItem (secureStore w))).

Definition writeVersionMap (map : gmap string Z) : M World unit :=
  if secureSetFails hc then ret tt
  else modify (fun w =>
         setSecureStore {| permissionItem := permissionItem (secureStore w);
                           versionMapItem := Some map |} w).

(** [(map[mealId] ?? 0) + 1], together with the map that was read *)
Definition getNextVersion (mealId : string) : M World (Z * gmap string Z) :=
  map <- readVersionMap ;;
  ret (default 0 (map !! mealId) + 1, map).

Definition setPermissionGranted (granted : bool) : M World unit :=
  if secureSetFails hc then ret tt
  else modify (fun w =>
         setSecureStore {| permissionItem := if granted then Some "true" else None;
                           versionMapItem := versionMapItem (secureStore w) |} w).

Definition getPersistedPermission : M World bool :=
  w <- get ;;
  if secureGetFails hc then ret false
  else ret (bool_decide (permissionItem (secureStore w) = Some "true")).

Definition ensureInitialized : M World bool :=
  if negb (platformIsAndroid hc) || negb (moduleLoaded hc) then ret false
  else ret (default false (initializeResult hc)).

Definition hasWritePermission : M World bool :=
  if negb (platformIsAndroid hc) || negb (moduleLoaded hc) then ret false
  else
    ensureInitialized ;;;
    match grantedPermissions hc with
    | Some grantedList =>
        let granted := existsb isNutritionWrite grantedList in
        setPermissionGranted granted ;;;
        ret granted
    | None => getPersistedPermission
    end.

(** [null] is [None]; the builder throws on [toISOString] when the
    timestamp is not a date. *)
Definition convertMealToNutritionRecord (meal : MealAnalysis)
  : option (Z -> M World NutritionRecord) :=
  match m_analysis meal with
  | AObject a =>
      match total_meal_nutritional_values a with
      | Some totals =>
          Some (fun version =>
            match getTime (m_timestamp meal) with
            | Some mealDate =>
                ret {| clientRecordId := m_id meal;
                       clientRecordVersion := version;
                       startTime := mealDate;
                       endTime := mealDate + 60 * 1000;
                       name := default "Meal" (title a);
                       energy := default 0 (total_calories totals);
                       protein := default 0 (total_protein_g totals);
                       totalCarbohydrate := default 0 (total_total_carbohydrate_g totals);
                       totalFat := default 0 (total_total_fat_g totals) |}
            | None => throw InvalidTimeValue
            end)
      | None => None
      end
  | ANull => None
  end.

(** [insertRecords([record])] or [writeRecords('Nutrition', [record])] *)
Definition sendRecord (record : NutritionRecord) : M World unit :=
  modify (fun w =>
    setHealthConnectWrites ((record, writeAccepted hc) :: healthConnectWrites w) w) ;;;
  if writeAccepted hc then ret tt else throw HealthConnectFailure.

Definition writeMealToHealthConnect (meal : MealAnalysis) : M World unit :=
  permitted <-
    (if negb (platformIsAndroid hc) then ret false else hasWritePermission) ;;
  if negb permitted || negb (moduleLoaded hc) then ret tt
  else
    next <- getNextVersion (m_id meal) ;;
    let '(version, map) := next in
    match convertMealToNutritionRecord meal with
    | None => ret tt
    | Some recordBuilder =>
        record <- recordBuilder version ;;
        initOK <- ensureInitialized ;;
        if negb initOK then ret tt
        else
          try_catch
            (match writeApi hc with
             | NoWriteApi => ret tt
             | _ =>
                 sendRecord record ;;;
                 writeVersionMap (<[m_id meal := version]> map)
             end)
            (fun _ => ret tt)
    end.

End HealthConnectService.

(** ** The pipeline: [AnalysisProcessor] *)

Definition MEAL_TIMEOUT_MS : Z := 24 * 60 * 60 * 1000.

Definition emitMealUpdated (meal : MealAnalysis) : M World unit :=
  modify (fun w => setMealUpdated (meal :: mealUpdated w) w).

Definition withFlags (isLoading hasError : bool) (m : MealAnalysis) : MealAnalysis := {|
  m_id := m_id m;
  m_timestamp := m_timestamp m;
  m_imageUri := m_imageUri m;
  m_afterImageUri := m_afterImageUri m;
  m_analysis := m_analysis m;
  m_comment := m_comment m;
  m_isLoading := Some isLoading;
  m_hasError := Some hasError |}.

Definition withAnalysis (a : Analysis) (m : MealAnalysis) : MealAnalysis := {|
  m_id := m_id m;
  m_timestamp := m_timestamp m;
  m_imageUri := m_imageUri m;
  m_afterImageUri := m_afterImageUri m;
  m_analysis := a;
  m_comment := m_comment m;
  m_isLoading := m_isLoading m;
  m_hasError := m_hasError m |}.

Section AnalysisProcessor.

Variable getTime : string -> option Z.

(** One call of [GeminiService]. *)
Definition callGemini (c : Collaborators) (request : GeminiRequest)
  : M World AnalysisObject :=
  modify (fun w => setGeminiRequests (request :: geminiRequests w) w) ;;;
  match gemini c request with
  | Some analysis => ret analysis
  | None => throw AnalysisFailure
  end.

(** [FileSystem.readAsStringAsync(uri, { encoding: Base64 })] *)
Definition readBase64 (uri : string) : M World string :=
  w <- get ;;
  match files (disk w) !! uri with
  | Some content => ret content
  | None => throw (FileNotReadable uri)
  end.

(** [now - mealTime > MEAL_TIMEOUT_MS]; false when the timestamp is not a
    date. *)
Definition expired (c : Collaborators) (meal : MealAnalysis) : bool :=
  match getTime (m_timestamp meal) with
  | Some mealTime => MEAL_TIMEOUT_MS <? now c - mealTime
  | None => false
  end.

(** The block [if (meal.hasError) { ... }] of [processMeal]. *)
Definition retryTransition (c : Collaborators) (meal : MealAnalysis) : M World unit :=
  when (flag (m_hasError meal))
    (let retryMeal := withFlags true false meal in
     onDisk (updateMealAnalysis getTime (now c) (m_id meal) (patchOf retryMeal)) ;;;
     emitMealUpdated retryMeal).

(** The choice of the inference mode and the call. *)
Definition analyse (c : Collaborators) (meal : MealAnalysis) : M World AnalysisObject :=
  if negb (Str.truthy (m_imageUri meal))
     || negb (Str.truthy (Str.trim (m_imageUri meal)))
  then
    if negb (Str.truthyOpt (m_comment meal))
       || negb (Str.truthy (Str.trim (default "" (m_comment meal))))
    then throw NoImageOrComment
    else callGemini c (AnalyzeFoodFromText (default "" (m_comment meal)))
  else
    if Str.truthyOpt (m_afterImageUri meal)
    then
      base64Before <- readBase64 (m_imageUri meal) ;;
      base64After <- readBase64 (default "" (m_afterImageUri meal)) ;;
      callGemini c (AnalyzeFoodBeforeAfter base64Before base64After (m_comment meal))
    else
      base64 <- readBase64 (m_imageUri meal) ;;
      callGemini c (AnalyzeFood base64 (m_comment meal)).

(** The [catch] block of [processMeal]. *)
Definition markFailed (c : Collaborators) (meal : MealAnalysis) : M World unit :=
  try_catch
    (onDisk (updateMealAnalysisError (now c) (m_id meal)) ;;;
     emitMealUpdated (withFlags false true meal))
    (fun _ => ret tt).

Definition processMeal (c : Collaborators) (meal : MealAnalysis) : M World unit :=
  try_catch
    (if expired c meal
     then
       onDisk (updateMealAnalysisError (now c) (m_id meal)) ;;;
       emitMealUpdated (withFlags false true meal)
     else
       retryTransition c meal ;;;
       analysis <- analyse c meal ;;
       let completedMeal := withFlags false false (withAnalysis (AObject analysis) meal) in
       onDisk (updateMealAnalysis getTime (now c) (m_id meal) (patchOf completedMeal)) ;;;
       when (platformIsAndroid (healthConnect c))
         (try_catch
            (writeMealToHealthConnect getTime (healthConnect c) completedMeal)
            (fun _ => ret tt)) ;;;
       emitMealUpdated completedMeal)
    (fun _ => markFailed c meal).

(** The loop of [resumePending]; [world i] is what the outside world does
    during the [i]-th call of [processMeal] (the pause between two calls
    shows in the clocks of the successive [world i]). *)
Fixpoint resumeLoop (world : nat -> Collaborators) (i : nat) (toRetry : list MealAnalysis)
  : M World unit :=
  match toRetry with
  | [] => ret tt
  | meal :: rest =>
      try_catch (processMeal (world i) meal) (fun _ => ret tt) ;;;
      resumeLoop world (S i) rest
  end.

Definition needsRetry (m : MealAnalysis) : bool :=
  flag (m_isLoading m) || flag (m_hasError m).

Definition resumePending (start : Z) (world : nat -> Collaborators) : M World unit :=
  try_catch
    (meals <- onDisk (getMealHistory start) ;;
     let toRetry := List.filter needsRetry meals in
     resumeLoop world 0 toRetry)
    (fun _ => ret tt).

Definition retryMeal (c : Collaborators) (mealId : string) : M World unit :=
  found <- onDisk (getMealById (now c) mealId) ;;
  match found with
  | Some meal => processMeal c meal
  | None => throw (MealNotFound mealId)
  end.

End AnalysisProcessor.

(** ** A concrete device for the examples *)

(** [new Date(s).getTime()] on the strings [toISOString] produces,
    [YYYY-MM-DDTHH:mm:ss.sssZ]; every other string is not a date here. *)
Module Iso.

Definition digit (c : ascii) : option Z :=
  let n := Z.of_nat (nat_of_ascii c) in
  if (48 <=? n) && (n <=? 57) then Some (n - 48) else None.

Fixpoint number (acc : Z) (l : list ascii) : option Z :=
  match l with
  | [] => Some acc
  | c :: l' => d ← digit c; number (10 * acc + d) l'
  end.

(** Days from 1970-01-01 to the given civil date. *)
Definition daysFromCivil (y m d : Z) : Z :=
  let y' := if m <=? 2 then y - 1 else y in
  let era := y' / 400 in
  let yoe := y' - era * 400 in
  let doy := (153 * (if 2 <? m then m - 3 else m + 9) + 2) / 5 + d - 1 in
  let doe := yoe * 365 + yoe / 4 - yoe / 100 + doy in
  era * 146097 + doe - 719468.

Definition isChar (c : ascii) (x : ascii) : bool := Ascii.eqb c x.

Definition getTime (s : string) : option Z :=
  match list_ascii_of_string s with
  | [y1; y2; y3; y4; c1; mo1; mo2; c2; d1; d2; c3; h1; h2; c4; mi1; mi2; c5;
     s1; s2; c6; f1; f2; f3; c7] =>
      if isChar c1 "-" && isChar c2 "-" && isChar c3 "T" && isChar c4 ":" && isChar c5 ":"
         && isChar c6 "." && isChar c7 "Z"
      then
        y ← number 0 [y1; y2; y3; y4];
        mo ← number 0 [mo1; mo2];
        d ← number 0 [d1; d2];
        h ← number 0 [h1; h2];
        mi ← number 0 [mi1; mi2];
        sec ← number 0 [s1; s2];
        ms ← number 0 [f1; f2; f3];
        if (1 <=? mo) && (mo <=? 12) && (1 <=? d) && (d <=? 31)
           && (h <? 24) && (mi <? 60) && (sec <? 60)
        then Some ((((daysFromCivil y mo d * 24 + h) * 60 + mi) * 60 + sec) * 1000 + ms)
        else None
      else None
  | _ => None
  end.

End Iso.


(** ** The bridge from the settings screen: permission request and full sync *)

(** The records [syncMealsToHealthConnect] sends: those of
    [writeMealToHealthConnect] without the metadata (no client record id,
    no version). *)
Record SyncRecord := {
  s_startTime : Z;
  s_endTime : Z;
  s_name : string;
  s_energy : Z;
  s_protein : Z;
  s_totalCarbohydrate : Z;
  s_totalFat : Z
}.

(** [Alert.alert(title, message)] *)
Record Alert := {
  alertTitle : string;
  alertMessage : string
}.

(** The device as the settings screen sees it: the world of the services,
    the alerts shown and the batches of records sent to Health Connect with
    their outcome, most recent first. *)
Record Screen := {
  world : World;
  alerts : list Alert;
  healthConnectBatches : list (list SyncRecord * bool)
}.

Definition setWorld (w : World) (s : Screen) : Screen :=
  {| world := w; alerts := alerts s; healthConnectBatches := healthConnectBatches s |}.
Definition setAlerts (l : list Alert) (s : Screen) : Screen :=
  {| world := world s; alerts := l; healthConnectBatches := healthConnectBatches s |}.
Definition setHealthConnectBatches (l : list (list SyncRecord * bool)) (s : Screen) : Screen :=
  {| world := world s; alerts := alerts s; healthConnectBatches := l |}.

(** A service called from the screen. *)
Definition onWorld {A} (c : M World A) : M Screen A :=
  fun s => match c (world s) with (r, w) => (r, setWorld w s) end.

Definition alert (title message : string) : M Screen unit :=
  modify (fun s =>
    setAlerts ({| alertTitle := title; alertMessage := message |} :: alerts s) s).

(** How Health Connect behaves during one call made from the settings
    screen. *)
Record PermissionDialog := {
  dialogHealthConnect : HealthConnect;
  (** the array [healthConnect.requestPermission(...)] returns, [None] when
      the call throws *)
  requestPermissionResult : option (list Permission);
  (** whether the write method accepts the batch (it throws otherwise) *)
  batchAccepted : bool
}.

(** The analysis and the totals of a record
    ([m.analysis && m.analysis.total_meal_nutritional_values]). *)
Definition totalsOf (meal : MealAnalysis) : option (AnalysisObject * Totals) :=
  match m_analysis meal with
  | AObject a =>
      match total_meal_nutritional_values a with
      | Some totals => Some (a, totals)
      | None => None
      end
  | ANull => None
  end.

Section HealthConnectSettings.

Variable getTime : string -> option Z.
(** [error.message], [None] when the error has none *)
Variable messageOf : Error -> option string.

(** [error.message || fallback] *)
Definition messageOr (fallback : string) (e : Error) : string :=
  match messageOf e with
  | Some m => if Str.truthy m then m else fallback
  | None => fallback
  end.

(** [meals.filter(m => m.analysis && m.analysis.total_meal_nutritional_values)
    .map(meal => ...)]: the records of the meals that have totals, in their
    order; [toISOString] throws on the first of them whose timestamp is not
    a date. *)
Fixpoint toSyncRecords (meals : list MealAnalysis) : M Screen (list SyncRecord) :=
  match meals with
  | [] => ret []
  | meal :: rest =>
      match totalsOf meal with
      | Some (a, totals) =>
          match getTime (m_timestamp meal) with
          | Some mealDate =>
              records <- toSyncRecords rest ;;
              ret ({| s_startTime := mealDate;
                      s_endTime := mealDate + 60 * 1000;
                      s_name := default "Meal" (title a);
                      s_energy := default 0 (total_calories totals);
                      s_protein := default 0 (total_protein_g totals);
                      s_totalCarbohydrate := default 0 (total_total_carbohydrate_g totals);
                      s_totalFat := default 0 (total_total_fat_g totals) |} :: records)
          | None => throw InvalidTimeValue
          end
      | None => toSyncRecords rest
      end
  end.

(** [writeRecords('Nutrition', records)] or [insertRecords(records)] *)
Definition sendBatch (p : PermissionDialog) (records : list SyncRecord) : M Screen unit :=
  match writeApi (dialogHealthConnect p) with
  | NoWriteApi => throw HealthConnectFailure
  | _ =>
      modify (fun s =>
        setHealthConnectBatches ((records, batchAccepted p) :: healthConnectBatches s) s) ;;;
      if batchAccepted p then ret tt else throw HealthConnectFailure
  end.

Definition syncMealsToHealthConnect (now : Z) (p : PermissionDialog) : M Screen unit :=
  let hc := dialogHealthConnect p in
  if negb (platformIsAndroid hc)
  then alert "Not supported" "Health Connect is only available on Android devices."
  else if negb (moduleLoaded hc)
  then alert "Health Connect not available"
         "Please ensure you have installed the Health Connect library and rebuilt the app."
  else
    try_catch
      (initialized <-
         match initializeResult hc with
         | Some b => ret b
         | None => throw HealthConnectFailure
         end ;;
       if negb initialized
       then alert "Failed to initialize" "Failed to initialize Health Connect client"
       else
         permissions <-
           match requestPermissionResult p with
           | Some l => ret l
           | None => throw HealthConnectFailure
           end ;;
         let hasWritePermission :=
           (0 <? length permissions)%nat && existsb isNutritionWrite permissions in
         if negb hasWritePermission
         then alert "Permission required"
                "Write permission to Nutrition data in Health Connect was not granted."
         else
           meals <- onWorld (onDisk (getMealHistory now)) ;;
           match meals with
           | [] => alert "No meals found" "There is no logged meal data to sync."
           | _ =>
               nutritionRecords <- toSyncRecords meals ;;
               match nutritionRecords with
               | [] => alert "Nothing to sync"
                         "No meals contained nutritional information to write."
               | _ =>
                   try_catch
                     (counts <-
                        try_catch
                          (sendBatch p nutritionRecords ;;;
                           ret (length nutritionRecords, 0%nat))
                          (fun _ => ret (0%nat, length nutritionRecords)) ;;
                      let '(successCount, failedCount) := counts in
                      if (0 <? successCount)%nat
                      then alert "Sync complete"
                             ("Successfully synced " ++ pretty successCount ++ " meal"
                                ++ (if negb (successCount =? 1)%nat then "s" else "")
                                ++ " to Health Connect."
                                ++ (if (0 <? failedCount)%nat
                                    then " " ++ pretty failedCount ++ " meals failed to sync."
                                    else ""))
                      else alert "Sync failed"
                             "No meals were successfully synced to Health Connect.")
                     (fun writeError =>
                        alert "Sync failed"
                          ("An error occurred while syncing with Health Connect: "
                             ++ messageOr "Unknown error" writeError))
               end
           end)
      (fun error =>
         alert "Sync failed"
           ("Failed to sync with Health Connect: " ++ messageOr "Unknown error" error)).

(** [pSync] is how Health Connect behaves during the full sync that follows
    a granted request. *)
Definition requestHealthConnectPermission (now : Z) (p pSync : PermissionDialog)
  : M Screen bool :=
  let hc := dialogHealthConnect p in
  if negb (platformIsAndroid hc)
  then alert "Not supported" "Health Connect is only available on Android devices." ;;;
       ret false
  else if negb (moduleLoaded hc)
  then alert "Health Connect not available"
         "Please ensure you have installed the Health Connect library and rebuilt the app." ;;;
       ret false
  else
    initOK <- onWorld (ensureInitialized hc) ;;
    if negb initOK
    then alert "Initialization failed" "Failed to initialize Health Connect." ;;;
         ret false
    else
      try_catch
        (permissions <-
           match requestPermissionResult p with
           | Some l => ret l
           | None => throw HealthConnectFailure
           end ;;
         let granted := existsb isNutritionWrite permissions in
         if granted
         then
           onWorld (setPermissionGranted hc true) ;;;
           try_catch (syncMealsToHealthConnect now pSync) (fun _ => ret tt) ;;;
           ret true
         else
           alert "Permission not granted" "Nutrition write permission was declined." ;;;
           onWorld (setPermissionGranted hc false) ;;;
           ret false)
        (fun err =>
           alert "Permission error"
             (default "Unknown error requesting permission." (messageOf err)) ;;;
           ret false).

End HealthConnectSettings.

(** ** The settings kept in [AsyncStorage], the export and the import

    [services/UserProfileService], [services/DailyGoalsService], the two
    storage methods of [services/MealRemindersService], and
    [services/ExportImportService] ([exportData] and [importData] with the
    methods they call, called without a progress callback).

    These services throw errors the record store does not know: their
    computations live in the monad [X S], built as [M S] is, over the
    errors [Failure]. Numbers of a profile or of the goals are only stored
    and read back; they are [Z] here. As in the record store, the write and
    the deletion of a file of the document directory succeed; what a Base64
    write does with its contents is left to the platform. *)

Inductive Gender := male | female.
Inductive Goal := lose | maintain | gain.
Inductive Units := imperial | metric.

(** [interface UserProfile] *)
Record UserProfile := {
  pr_age : Z;
  pr_gender : Gender;
  pr_heightCm : Z;
  pr_weightKg : Z;
  pr_activityLevel : Z;
  pr_goal : Goal;
  pr_units : Units
}.

(** [interface DailyGoals] *)
Record DailyGoals := {
  g_calories : Z;
  g_protein : Z;
  g_fats : Z;
  g_carbs : Z
}.

Definition DEFAULT_GOALS : DailyGoals :=
  {| g_calories := 2000; g_protein := 150; g_fats := 65; g_carbs := 250 |}.

(** [keyof DailyGoals] *)
Inductive NutrientType := calories_goal | protein_goal | fats_goal | carbs_goal.

#[global] Instance NutrientType_eq_dec : EqDecision NutrientType.
Proof. solve_decision. Defined.

(** [interface MealReminder] *)
Record MealReminder := {
  r_id : string;
  r_name : string;
  r_time : string;
  r_enabled : bool;
  r_isDefault : bool
}.

Definition DEFAULT_REMINDERS : list MealReminder :=
  [ {| r_id := "breakfast"; r_name := "Breakfast"; r_time := "07:00";
       r_enabled := true; r_isDefault := true |};
    {| r_id := "lunch"; r_name := "Lunch"; r_time := "12:00";
       r_enabled := true; r_isDefault := true |};
    {| r_id := "dinner"; r_name := "Dinner"; r_time := "18:00";
       r_enabled := true; r_isDefault := true |} ].

(** The four items of [AsyncStorage] the services own:
    [openmeal_user_profile], [openmeal_ai_model], [openmeal_daily_goals]
    and [@OpenMeal/mealReminders]. An item holds what [JSON.parse] makes of
    the string stored. *)
Record AsyncStorage := {
  userProfileItem : option UserProfile;
  aiModelItem : option string;
  dailyGoalsItem : option DailyGoals;
  mealRemindersItem : option (list MealReminder)
}.

(** [interface ExportedMeal], as [JSON.parse] returns it: a key may be
    absent; an [analysis] that is absent or [null] is [ANull]. *)
Record ExportedMeal := {
  x_id : option string;
  x_timestamp : option string;
  x_image_data : option string;
  x_after_image_data : option string;
  x_analysis : Analysis;
  x_comment : option string
}.

(** [interface ExportData], as [JSON.parse] returns it. [version] and
    [export_date] are [None] when they are absent or no string, [meals]
    when it is no array, the other keys when they are absent or [null];
    [ai_model] is [data.app_preferences?.ai_model]. *)
Record ExportData := {
  x_version : option string;
  x_export_date : option string;
  x_user_profile : option UserProfile;
  x_daily_goals : option DailyGoals;
  x_meal_reminders : option (list MealReminder);
  x_ai_model : option string;
  x_meals : option (list ExportedMeal)
}.

(** What a document holds (a file picked for the import, a file the export
    writes): something [JSON.parse] rejects, a JSON value that is no object
    ([null], a number, a string, a Boolean), or an object. *)
Inductive Document :=
  | NotJson
  | JsonNoObject
  | JsonObject (data : ExportData).

(** How the share sheet behaves when it is asked once. *)
Record ShareSheet := {
  (** the value of [Sharing.isAvailableAsync()], [None] when it rejects *)
  isAvailable : option bool;
  (** [Sharing.shareAsync] resolves (it rejects otherwise) *)
  shareResolves : bool
}.

(** The device of the export and of the import: the disk of the record
    store, [AsyncStorage], the documents by URI (those the user can pick,
    those the export writes), and the files handed to the share sheet, most
    recent first, each with the behaviour of the share sheet then. *)
Record Device := {
  deviceDisk : Disk;
  asyncStorage : AsyncStorage;
  documents : gmap string Document;
  shareLog : list (string * ShareSheet)
}.

Definition setDeviceDisk (d : Disk) (s : Device) : Device :=
  {| deviceDisk := d; asyncStorage := asyncStorage s; documents := documents s;
     shareLog := shareLog s |}.
Definition setAsyncStorage (a : AsyncStorage) (s : Device) : Device :=
  {| deviceDisk := deviceDisk s; asyncStorage := a; documents := documents s;
     shareLog := shareLog s |}.
Definition setDocuments (m : gmap string Document) (s : Device) : Device :=
  {| deviceDisk := deviceDisk s; asyncStorage := asyncStorage s; documents := m;
     shareLog := shareLog s |}.
Definition setShareLog (l : list (string * ShareSheet)) (s : Device) : Device :=
  {| deviceDisk := deviceDisk s; asyncStorage := asyncStorage s; documents := documents s;
     shareLog := l |}.

Definition setUserProfileItem (o : option UserProfile) (a : AsyncStorage) : AsyncStorage :=
  {| userProfileItem := o; aiModelItem := aiModelItem a;
     dailyGoalsItem := dailyGoalsItem a; mealRemindersItem := mealRemindersItem a |}.
Definition setAiModelItem (o : option string) (a : AsyncStorage) : AsyncStorage :=
  {| userProfileItem := userProfileItem a; aiModelItem := o;
     dailyGoalsItem := dailyGoalsItem a; mealRemindersItem := mealRemindersItem a |}.
Definition setDailyGoalsItem (o : option DailyGoals) (a : AsyncStorage) : AsyncStorage :=
  {| userProfileItem := userProfileItem a; aiModelItem := aiModelItem a;
     dailyGoalsItem := o; mealRemindersItem := mealRemindersItem a |}.
Definition setMealRemindersItem (o : option (list MealReminder)) (a : AsyncStorage)
  : AsyncStorage :=
  {| userProfileItem := userProfileItem a; aiModelItem := aiModelItem a;
     dailyGoalsItem := dailyGoalsItem a; mealRemindersItem := o |}.

(** What these services throw. *)
Inductive Failure :=
  (** an error of the record store *)
  | StoreFailure (e : Error)
  (** [AsyncStorage.getItem] or [setItem] rejects *)
  | AsyncStorageFailure
  (** a call of [expo-file-system] on the URI rejects *)
  | FileSystemFailure (uri : string)
  (** [JSON.parse] throws *)
  | JsonSyntaxFailure
  (** a property of [undefined] is read *)
  | TypeErrorFailure
  (** ['Invalid data format'] *)
  | InvalidDataFormat
  (** ['Missing or invalid version field'] *)
  | InvalidVersionField
  (** ['Missing or invalid export_date field'] *)
  | InvalidExportDateField
  (** ['Missing or invalid meals array'] *)
  | InvalidMealsArray
  (** ['Invalid meal data: missing required fields'] *)
  | InvalidMealData
  (** ['Invalid export file format'] *)
  | InvalidExportFileFormat
  (** a call of the Storage Access Framework rejects *)
  | StorageAccessFailure
  (** [Sharing.isAvailableAsync] or [Sharing.shareAsync] rejects *)
  | SharingFailure
  (** ['Sharing is not available on this device'] *)
  | SharingNotAvailable.

Inductive Outcome (A : Type) :=
  | Done (a : A)
  | Failed (e : Failure).
Arguments Done {A} a.
Arguments Failed {A} e.

Definition X (S A : Type) : Type := S -> Outcome A * S.

Definition xret {S A} (a : A) : X S A := fun s => (Done a, s).
Definition xthrow {S A} (e : Failure) : X S A := fun s => (Failed e, s).
Definition xbind {S A B} (c : X S A) (k : A -> X S B) : X S B :=
  fun s => match c s with
           | (Done a, s') => k a s'
           | (Failed e, s') => (Failed e, s')
           end.
Definition xcatch {S A} (c : X S A) (handler : Failure -> X S A) : X S A :=
  fun s => match c s with
           | (Done a, s') => (Done a, s')
           | (Failed e, s') => handler e s'
           end.
Definition xget {S} : X S S := fun s => (Done s, s).
Definition xmodify {S} (f : S -> S) : X S unit := fun s => (Done tt, f s).

(** A method of the record store called from these services. *)
Definition fromStore {A} (c : M Disk A) : X Device A :=
  fun s => match c (deviceDisk s) with
           | (Ok a, d) => (Done a, setDeviceDisk d s)
           | (Throw e, d) => (Failed (StoreFailure e), setDeviceDisk d s)
           end.

Declare Scope x_scope.
Delimit Scope x_scope with x.
Notation "x <- c ;; k" := (xbind c (fun x => k))
  (at level 100, c at next level, right associativity) : x_scope.
Notation "c ;;; k" := (xbind c (fun _ => k))
  (at level 100, right associativity) : x_scope.

(** [dataUri.split(',')[1]]: what lies between the first comma and the
    second, [None] ([undefined]) when there is no comma. *)
Fixpoint untilComma (s : string) : string :=
  match s with
  | String c s' => if Ascii.eqb c ","%char then EmptyString else String c (untilComma s')
  | EmptyString => EmptyString
  end.

Fixpoint secondSegment (s : string) : option string :=
  match s with
  | String c s' => if Ascii.eqb c ","%char then Some (untilComma s') else secondSegment s'
  | EmptyString => None
  end.

(** [s.toLowerCase()] on the letters A to Z; the services compare the
    result with ['png'] only, which holds no other letter. *)
Definition lowerAscii (c : ascii) : ascii :=
  let n := nat_of_ascii c in
  if (65 <=? n)%nat && (n <=? 90)%nat then ascii_of_nat (n + 32) else c.

Fixpoint toLowerCase (s : string) : string :=
  match s with
  | String c s' => String (lowerAscii c) (toLowerCase s')
  | EmptyString => EmptyString
  end.

(** How the platform behaves during one call of these services. *)
Record Platform := {
  (** [AsyncStorage.getItem] rejects *)
  asyncGetFails : bool;
  (** [AsyncStorage.setItem] rejects *)
  asyncSetFails : bool;
  (** [FileSystem.writeAsStringAsync(uri, contents, { encoding: Base64 })]:
      what a Base64 read of the file written returns, [None] when the call
      rejects; the contents are [None] when they are [undefined] *)
  base64Write : option string -> option string
}.

(** How the platform behaves while the export saves its file. *)
Record Saving := {
  (** [Platform.OS === 'android'] *)
  savingOnAndroid : bool;
  (** [StorageAccessFramework.requestDirectoryPermissionsAsync()]: [None]
      when it rejects, [Some None] when the permission is not granted,
      the URI of the directory otherwise *)
  directoryPermissions : option (option string);
  (** [StorageAccessFramework.createFileAsync(...)]: the URI of the file
      created, [None] when it rejects *)
  createdFile : option string;
  (** [FileSystem.writeAsStringAsync] on the file created resolves *)
  createdFileWritten : bool;
  (** the share sheet, by the number of times it was asked before *)
  shareSheets : nat -> ShareSheet
}.

(** The clock of an export: [new Date().toISOString()], the local day
    [yyyy-mm-dd] of the file name, and [Date.now()] in [getMealHistory]. *)
Record ExportClock := {
  exportDate : string;
  exportDay : string;
  historyRead : Z
}.

(** [Date.now()] while the meal of a given rank is imported: in the copy of
    its image, in the copy of its second image, and in [saveMealAnalysis]. *)
Record ImportClock := {
  imageCopied : nat -> Z;
  afterImageCopied : nat -> Z;
  mealSaved : nat -> Z
}.

Section SettingsServices.

Variable platform : Platform.

Local Open Scope x_scope.

(** [AsyncStorage.getItem(key)] followed by the reading of the item *)
Definition getItem {A} (item : AsyncStorage -> option A) : X Device (option A) :=
  if asyncGetFails platform then xthrow AsyncStorageFailure
  else (s <- xget ;; xret (item (asyncStorage s))).

(** [AsyncStorage.setItem(key, value)] *)
Definition setItem (store : AsyncStorage -> AsyncStorage) : X Device unit :=
  if asyncSetFails platform then xthrow AsyncStorageFailure
  else xmodify (fun s => setAsyncStorage (store (asyncStorage s)) s).

(** *** [UserProfileService] *)

Definition saveProfile (profile : UserProfile) : X Device unit :=
  setItem (setUserProfileItem (Some profile)).

Definition getProfile : X Device (option UserProfile) :=
  getItem userProfileItem.

Definition saveAIModel (model : string) : X Device unit :=
  setItem (setAiModelItem (Some model)).

Definition getAIModel : X Device string :=
  model <- getItem aiModelItem ;;
  xret (if Str.truthyOpt model then default "" model else "gemini-2.5-flash").

(** *** [DailyGoalsService] *)

Definition getDailyGoals : X Device DailyGoals :=
  xcatch
    (goalsJson <- getItem dailyGoalsItem ;;
     xret (default DEFAULT_GOALS goalsJson))
    (fun _ => xret DEFAULT_GOALS).

Definition saveDailyGoals (goals : DailyGoals) : X Device unit :=
  xcatch (setItem (setDailyGoalsItem (Some goals))) (fun error => xthrow error).

(** [{...currentGoals, [nutrientType]: value}] *)
Definition withGoal (nutrientType : NutrientType) (value : Z) (goals : DailyGoals)
  : DailyGoals :=
  match nutrientType with
  | calories_goal =>
      {| g_calories := value; g_protein := g_protein goals;
         g_fats := g_fats goals; g_carbs := g_carbs goals |}
  | protein_goal =>
      {| g_calories := g_calories goals; g_protein := value;
         g_fats := g_fats goals; g_carbs := g_carbs goals |}
  | fats_goal =>
      {| g_calories := g_calories goals; g_protein := g_protein goals;
         g_fats := value; g_carbs := g_carbs goals |}
  | carbs_goal =>
      {| g_calories := g_calories goals; g_protein := g_protein goals;
         g_fats := g_fats goals; g_carbs := value |}
  end.

Definition updateGoal (nutrientType : NutrientType) (value : Z) : X Device unit :=
  xcatch
    (currentGoals <- getDailyGoals ;;
     let updatedGoals := withGoal nutrientType value currentGoals in
     saveDailyGoals updatedGoals)
    (fun error => xthrow error).

(** *** [MealRemindersService]: the stored list *)

Definition saveReminders (reminders : list MealReminder) : X Device unit :=
  xcatch (setItem (setMealRemindersItem (Some reminders))) (fun error => xthrow error).

(** An item that holds the empty string is read as absent
    ([if (!stored)]); its parsed value is never an empty string. *)
Definition getReminders : X Device (list MealReminder) :=
  xcatch
    (stored <- getItem mealRemindersItem ;;
     match stored with
     | None => saveReminders DEFAULT_REMINDERS ;;; xret DEFAULT_REMINDERS
     | Some reminders => xret reminders
     end)
    (fun _ => xret DEFAULT_REMINDERS).

End SettingsServices.

(** *** [ExportImportService]: the export *)

Section ExportService.

Variable documentDirectory : string.
Variable platform : Platform.
Variable saving : Saving.
Variable clock : ExportClock.

Local Open Scope x_scope.

(** [FileSystem.readAsStringAsync(uri, { encoding: Base64 })] on a file
    outside the meals directory *)
Definition readImage (uri : string) : X Device string :=
  s <- xget ;;
  match files (deviceDisk s) !! uri with
  | Some content => xret content
  | None => xthrow (FileSystemFailure uri)
  end.

Definition imageToBase64 (uri : string) : X Device (option string) :=
  xcatch
    (if negb (Str.truthy uri) || negb (Str.truthy (Str.trim uri)) then xret None
     else
       base64 <- readImage uri ;;
       let extension := toLowerCase (Str.lastSegment uri) in
       let mimeType := if String.eqb extension "png" then "image/png" else "image/jpeg" in
       xret (Some ("data:" ++ mimeType ++ ";base64," ++ base64)))
    (fun _ => xret None).

(** The loop over the meals of [exportData]. *)
Fixpoint exportMeals (meals : list MealAnalysis) : X Device (list ExportedMeal) :=
  match meals with
  | [] => xret []
  | meal :: rest =>
      image_data <-
        (if Str.truthy (m_imageUri meal) then imageToBase64 (m_imageUri meal)
         else xret None) ;;
      after_image_data <-
        (if Str.truthyOpt (m_afterImageUri meal)
         then imageToBase64 (default "" (m_afterImageUri meal))
         else xret None) ;;
      let exportedMeal := {|
        x_id := Some (m_id meal);
        x_timestamp := Some (m_timestamp meal);
        x_image_data := image_data;
        x_after_image_data := after_image_data;
        x_analysis := m_analysis meal;
        x_comment := m_comment meal |} in
      exportedMeals <- exportMeals rest ;;
      xret (exportedMeal :: exportedMeals)
  end.

(** [FileSystem.writeAsStringAsync(uri, JSON.stringify(exportData))] on a
    file of the document directory *)
Definition writeDocument (uri : string) (content : ExportData) : X Device unit :=
  xmodify (fun s => setDocuments (<[uri := JsonObject content]> (documents s)) s).

Definition fallbackToSharing (content : ExportData) (filename : string) : X Device unit :=
  let tempFileUri := documentDirectory ++ filename in
  writeDocument tempFileUri content ;;;
  s <- xget ;;
  let sheet := shareSheets saving (length (shareLog s)) in
  xmodify (fun s => setShareLog ((tempFileUri, sheet) :: shareLog s) s) ;;;
  available <-
    match isAvailable sheet with
    | Some available => xret available
    | None => xthrow SharingFailure
    end ;;
  (if available
   then if shareResolves sheet then xret tt else xthrow SharingFailure
   else xthrow SharingNotAvailable) ;;;
  xmodify (fun s => setDocuments (delete tempFileUri (documents s)) s).

(** The file [createFileAsync] creates is empty. *)
Definition saveFileAndroid (content : ExportData) (filename : string) : X Device unit :=
  xcatch
    (permissions <-
       match directoryPermissions saving with
       | Some permissions => xret permissions
       | None => xthrow StorageAccessFailure
       end ;;
     match permissions with
     | None => fallbackToSharing content filename
     | Some directoryUri =>
         fileUri <-
           match createdFile saving with
           | Some fileUri =>
               xmodify (fun s => setDocuments (<[fileUri := NotJson]> (documents s)) s) ;;;
               xret fileUri
           | None => xthrow StorageAccessFailure
           end ;;
         if createdFileWritten saving then writeDocument fileUri content
         else xthrow StorageAccessFailure
     end)
    (fun _ => fallbackToSharing content filename).

Definition saveFileIOS (content : ExportData) (filename : string) : X Device unit :=
  fallbackToSharing content filename.

Definition exportData : X Device unit :=
  xcatch
    (userProfile <- getProfile platform ;;
     dailyGoals <- getDailyGoals platform ;;
     mealReminders <- getReminders platform ;;
     aiModel <- getAIModel platform ;;
     meals <- fromStore (getMealHistory (historyRead clock)) ;;
     exportedMeals <- exportMeals meals ;;
     let exportData := {|
       x_version := Some "1.0.0";
       x_export_date := Some (exportDate clock);
       x_user_profile := userProfile;
       x_daily_goals := Some dailyGoals;
       x_meal_reminders := Some mealReminders;
       x_ai_model := Some aiModel;
       x_meals := Some exportedMeals |} in
     let filename := "OpenMeal_Export_" ++ exportDay clock ++ ".json" in
     if savingOnAndroid saving then saveFileAndroid exportData filename
     else saveFileIOS exportData filename)
    (fun error => xthrow error).

End ExportService.

(** *** [ExportImportService]: the import *)

Section ImportService.

Variable documentDirectory : string.
Variable platform : Platform.
Variable clock : ImportClock.

Local Open Scope x_scope.

(** [FileSystem.writeAsStringAsync(fileUri, base64Data, { encoding: Base64 })]
    on a file outside the meals directory *)
Definition writeBase64 (fileUri : string) (base64Data : option string) : X Device unit :=
  match base64Write platform base64Data with
  | Some content =>
      xmodify (fun s =>
        setDeviceDisk (setFiles (<[fileUri := content]> (files (deviceDisk s)))
                         (deviceDisk s)) s)
  | None => xthrow (FileSystemFailure fileUri)
  end.

(** [FileSystem.deleteAsync(uri, { idempotent: true })] on a file outside
    the meals directory *)
Definition deleteFile (uri : string) : X Device unit :=
  xmodify (fun s =>
    setDeviceDisk (setFiles (delete uri (files (deviceDisk s))) (deviceDisk s)) s).

Definition base64ToImage (dataUri filename : string) : X Device string :=
  xcatch
    (let base64Data := secondSegment dataUri in
     let fileUri := documentDirectory ++ "temp_import_" ++ filename in
     writeBase64 fileUri base64Data ;;;
     xret fileUri)
    (fun error => xthrow error).

(** [for (const meal of data.meals)] of [validateExportData] *)
Fixpoint validateMeals (meals : list ExportedMeal) : X Device unit :=
  match meals with
  | [] => xret tt
  | meal :: rest =>
      if negb (Str.truthyOpt (x_id meal)) || negb (Str.truthyOpt (x_timestamp meal))
      then xthrow InvalidMealData
      else validateMeals rest
  end.

(** The type guard [data is ExportData]: it returns [true], here the
    object guarded, or throws. *)
Definition validateExportData (data : Document) : X Device ExportData :=
  match data with
  | NotJson | JsonNoObject => xthrow InvalidDataFormat
  | JsonObject data =>
      if negb (Str.truthyOpt (x_version data)) then xthrow InvalidVersionField
      else if negb (Str.truthyOpt (x_export_date data)) then xthrow InvalidExportDateField
      else
        match x_meals data with
        | None => xthrow InvalidMealsArray
        | Some meals => validateMeals meals ;;; xret data
        end
  end.

(** [FileSystem.readAsStringAsync(fileUri)] followed by [JSON.parse] *)
Definition readDocument (fileUri : string) : X Device Document :=
  s <- xget ;;
  match documents s !! fileUri with
  | None => xthrow (FileSystemFailure fileUri)
  | Some NotJson => xthrow JsonSyntaxFailure
  | Some data => xret data
  end.

(** The body of the loop over [data.meals], for the meal of rank [i]. The
    id and the timestamp are there after the validation. *)
Definition importMeal (i : nat) (exportedMeal : ExportedMeal) : X Device unit :=
  let mealId := default "" (x_id exportedMeal) in
  imageUri <-
    (if Str.truthyOpt (x_image_data exportedMeal)
     then
       tempImageUri <-
         base64ToImage (default "" (x_image_data exportedMeal)) (mealId ++ "_main.jpg") ;;
       imageUri <-
         fromStore (copyImageToStorage documentDirectory (imageCopied clock i)
                      tempImageUri mealId "") ;;
       deleteFile tempImageUri ;;;
       xret imageUri
     else xret "") ;;
  afterImageUri <-
    (if Str.truthyOpt (x_after_image_data exportedMeal)
     then
       tempAfterImageUri <-
         base64ToImage (default "" (x_after_image_data exportedMeal))
           (mealId ++ "_after.jpg") ;;
       afterImageUri <-
         fromStore (copyImageToStorage documentDirectory (afterImageCopied clock i)
                      tempAfterImageUri mealId "after") ;;
       deleteFile tempAfterImageUri ;;;
       xret (Some afterImageUri)
     else xret None) ;;
  let meal := {|
    m_id := mealId;
    m_timestamp := default "" (x_timestamp exportedMeal);
    m_imageUri := imageUri;
    m_afterImageUri := afterImageUri;
    m_analysis :=
      (if analysisTruthy (x_analysis exportedMeal) then x_analysis exportedMeal
       else AObject EMPTY_ANALYSIS);
    m_comment := x_comment exportedMeal;
    m_isLoading := Some false;
    m_hasError := Some false |} in
  fromStore (saveMealAnalysis documentDirectory (mealSaved clock i) meal).

(** [for (let i = 0; i < data.meals.length; i++)], from rank [i] on *)
Fixpoint importMeals (i : nat) (meals : list ExportedMeal) : X Device unit :=
  match meals with
  | [] => xret tt
  | exportedMeal :: rest => importMeal i exportedMeal ;;; importMeals (S i) rest
  end.

(** The blocks [// Import user profile], [// Import daily goals],
    [// Import meal reminders] and [// Import app preferences] of
    [importData]. *)
Definition importSettings (data : ExportData) : X Device unit :=
  match x_user_profile data with
  | Some profile => saveProfile platform profile
  | None => xret tt
  end ;;;
  match x_daily_goals data with
  | Some goals => saveDailyGoals platform goals
  | None => xret tt
  end ;;;
  match x_meal_reminders data with
  | Some reminders =>
      if (0 <? length reminders)%nat then saveReminders platform reminders else xret tt
  | None => xret tt
  end ;;;
  if Str.truthyOpt (x_ai_model data)
  then saveAIModel platform (default "" (x_ai_model data))
  else xret tt.

Definition importData (fileUri : string) : X Device unit :=
  xcatch
    (data <- readDocument fileUri ;;
     data <- validateExportData data ;;
     importSettings data ;;;
     match x_meals data with
     | Some meals => importMeals 0 meals
     | None => xthrow TypeErrorFailure
     end)
    (fun error => xthrow error).

End ImportService.

(** ** The list of meals of the home screen: [app/(tabs)/index]

    The state of [HomeScreen] that follows the events of the record store
    and of the pipeline: the meals shown and the nutrition of the day. *)

(** The state [dailyNutrition]. *)
Record DailyNutrition := {
  d_calories : Z;
  d_protein : Z;
  d_fats : Z;
  d_carbs : Z
}.

Record Home := {
  homeDisk : Disk;
  h_meals : list MealAnalysis;
  h_dailyNutrition : DailyNutrition
}.

Definition setHomeDisk (d : Disk) (s : Home) : Home :=
  {| homeDisk := d; h_meals := h_meals s; h_dailyNutrition := h_dailyNutrition s |}.
Definition setMeals (l : list MealAnalysis) (s : Home) : Home :=
  {| homeDisk := homeDisk s; h_meals := l; h_dailyNutrition := h_dailyNutrition s |}.
Definition setDailyNutrition (n : DailyNutrition) (s : Home) : Home :=
  {| homeDisk := homeDisk s; h_meals := h_meals s; h_dailyNutrition := n |}.

(** A method of the record store called from the screen. *)
Definition onHomeDisk {A} (c : M Disk A) : X Home A :=
  fun s => match c (homeDisk s) with
           | (Ok a, d) => (Done a, setHomeDisk d s)
           | (Throw e, d) => (Failed (StoreFailure e), setHomeDisk d s)
           end.

Section HomeScreen.

(** [new Date(s).toDateString()]: the local day of a timestamp
    (['Invalid Date'] when it is not a date) *)
Variable toDateString : string -> string.

Local Open Scope x_scope.

(** The predicate of the filter of [calculateDailyNutrition]; [today] is
    [new Date().toDateString()]. *)
Definition countsToday (today : string) (meal : MealAnalysis) : bool :=
  String.eqb (toDateString (m_timestamp meal)) today
  && analysisTruthy (m_analysis meal)
  && negb (flag (m_isLoading meal))
  && negb (flag (m_hasError meal)).

(** The function reduced over the meals of the day: reading the totals of
    an analysis that has none throws a [TypeError]. *)
Definition addNutrition (acc : DailyNutrition) (meal : MealAnalysis)
  : X Home DailyNutrition :=
  match m_analysis meal with
  | AObject a =>
      match total_meal_nutritional_values a with
      | Some nutrition =>
          xret {| d_calories := d_calories acc + default 0 (total_calories nutrition);
                  d_protein := d_protein acc + default 0 (total_protein_g nutrition);
                  d_fats := d_fats acc + default 0 (total_total_fat_g nutrition);
                  d_carbs := d_carbs acc + default 0 (total_total_carbohydrate_g nutrition) |}
      | None => xthrow TypeErrorFailure
      end
  | ANull => xthrow TypeErrorFailure
  end.

(** [todaysMeals.reduce(..., acc)] *)
Fixpoint reduceNutrition (acc : DailyNutrition) (todaysMeals : list MealAnalysis)
  : X Home DailyNutrition :=
  match todaysMeals with
  | [] => xret acc
  | meal :: rest => acc' <- addNutrition acc meal ;; reduceNutrition acc' rest
  end.

Definition calculateDailyNutrition (today : string) (mealHistory : list MealAnalysis)
  : X Home unit :=
  let todaysMeals := List.filter (countsToday today) mealHistory in
  totals <-
    reduceNutrition {| d_calories := 0; d_protein := 0; d_fats := 0; d_carbs := 0 |}
      todaysMeals ;;
  xmodify (setDailyNutrition totals).

(** The updater passed to [setMeals] computes the nutrition of the day
    before it returns the new list. *)
Definition addMealToState (today : string) (meal : MealAnalysis) : X Home unit :=
  s <- xget ;;
  let prevMeals := h_meals s in
  match findIndex (fun m => bool_decide (m_id m = m_id meal)) prevMeals with
  | Some existingIndex =>
      let updatedMeals := <[existingIndex := meal]> prevMeals in
      calculateDailyNutrition today updatedMeals ;;;
      xmodify (setMeals updatedMeals)
  | None =>
      let newMeals := meal :: prevMeals in
      calculateDailyNutrition today newMeals ;;;
      xmodify (setMeals newMeals)
  end.

Definition updateMealInState (today : string) (updatedMeal : MealAnalysis) : X Home unit :=
  s <- xget ;;
  let prevMeals := h_meals s in
  let updatedMeals :=
    map (fun meal => if bool_decide (m_id meal = m_id updatedMeal) then updatedMeal else meal)
        prevMeals in
  calculateDailyNutrition today updatedMeals ;;;
  xmodify (setMeals updatedMeals).

Definition loadMeals (now : Z) (today : string) : X Home unit :=
  xcatch
    (mealHistory <- onHomeDisk (getMealHistory now) ;;
     xmodify (setMeals mealHistory) ;;;
     calculateDailyNutrition today mealHistory)
    (fun _ => xret tt).

End HomeScreen.
(** ** Vocabulary of the statements *)

(** The entries [readIndex] returns: those of the index file, none when the
    file is missing or does not parse. *)
Definition indexMeals (d : Disk) : list IndexEntry :=
  match indexFile d with
  | IndexJson i => meals i
  | _ => []
  end.

(** The record [getMealById] returns. *)
Definition storedMeal (mealId : string) (d : Disk) : option MealAnalysis :=
  match mealFiles d !! mealFilename mealId with
  | Some (MealJson m) => Some m
  | _ => None
  end.

(** The disk after [initializeStorage]. *)
Definition initialized (now : Z) (d : Disk) : Disk :=
  match indexFile d with
  | IndexMissing => setIndexFile (IndexJson {| meals := []; lastUpdated := now |}) d
  | _ => d
  end.

(** The ranges of [clearHistoryByTimeRange] in milliseconds, as the claim
    reads them: the last hour, the last day of 24 hours, the last month of
    30 days and the last year of 365 days. The range [all] has no length. *)
Definition millisOfRange (timeRange : TimeRange) : option Z :=
  match timeRange with
  | hour => Some 3600000
  | day => Some 86400000
  | month => Some 2592000000
  | year => Some 31536000000
  | all => None
  end.

(** The meal files left after deleting the listed file names in turn. *)
Definition deleteAll (filenames : list string) (m : gmap string MealFile)
  : gmap string MealFile :=
  foldl (fun acc f => delete f acc) m filenames.

(** Every entry of the index names the file of its own id. *)
Definition indexNamesOwnFiles (d : Disk) : Prop :=
  Forall (fun e => e_filename e = mealFilename (e_id e)) (indexMeals d).

(** A disk on which the store has not been used yet: no meal file, no index;
    [images] are the files of the device. *)
Definition freshDisk (images : gmap string string) : Disk :=
  {| mealFiles := ∅; indexFile := IndexMissing; files := images |}.

(** The images of a record are files of the device. *)
Definition imagesOnDisk (meal : MealAnalysis) (d : Disk) : Prop :=
  is_Some (files d !! m_imageUri meal)
  /\ forall a, m_afterImageUri meal = Some a -> a <> "" -> is_Some (files d !! a).

(** The images [saveMealAnalysis] has to copy (those outside the images
    directory) are files of the device. *)
Definition imagesCopyable (documentDirectory : string) (meal : MealAnalysis) (d : Disk)
  : Prop :=
  (negb (Str.startsWith (m_imageUri meal) (imagesDir documentDirectory)) = true ->
   is_Some (files d !! m_imageUri meal))
  /\ forall a, m_afterImageUri meal = Some a ->
       Str.truthy a && negb (Str.startsWith a (imagesDir documentDirectory)) = true ->
       is_Some (files d !! a).

(** The URI [saveMealAnalysis] stores for the image of a record: the image
    itself when it is in the images directory already, its copy otherwise. *)
Definition storageImageUri (documentDirectory : string) (now : Z) (meal : MealAnalysis)
  : string :=
  if negb (Str.startsWith (m_imageUri meal) (imagesDir documentDirectory))
  then imagesDir documentDirectory
         ++ imageFilename now (m_imageUri meal) (m_id meal) ""
  else m_imageUri meal.

Definition storageAfterImageUri (documentDirectory : string) (now : Z)
  (meal : MealAnalysis) : option string :=
  match m_afterImageUri meal with
  | Some a =>
      if Str.truthy a && negb (Str.startsWith a (imagesDir documentDirectory))
      then Some (imagesDir documentDirectory ++ imageFilename now a (m_id meal) "after")
      else Some a
  | None => None
  end.

(** The record [saveMealAnalysis] writes. *)
Definition mealToSave (documentDirectory : string) (now : Z) (meal : MealAnalysis)
  : MealAnalysis := {|
  m_id := m_id meal;
  m_timestamp := m_timestamp meal;
  m_imageUri := storageImageUri documentDirectory now meal;
  m_afterImageUri := storageAfterImageUri documentDirectory now meal;
  m_analysis := m_analysis meal;
  m_comment := m_comment meal;
  m_isLoading := m_isLoading meal;
  m_hasError := m_hasError meal |}.

(** The four fields [saveMealAnalysis] requires. *)
Definition hasRequiredMealData (meal : MealAnalysis) : Prop :=
  m_id meal <> "" /\ m_timestamp meal <> "" /\ m_imageUri meal <> ""
  /\ m_analysis meal <> ANull.

(** The disks a successful copy phase of [saveMealAnalysis] can lead to:
    meal files and index untouched, no file of the device lost. *)
Definition extendsFiles (d d' : Disk) : Prop :=
  mealFiles d' = mealFiles d /\ indexFile d' = indexFile d
  /\ forall p, is_Some (files d !! p) -> is_Some (files d' !! p).

(** A key of the argument of [savePendingMeal] is missing: absent or the
    empty string. *)
Definition missing (o : option string) : Prop := o = None \/ o = Some "".

(** An optional image of [savePendingMeal] is copied when it is present and
    not blank. *)
Definition toCopy (o : option string) : option string :=
  match o with
  | Some u => if Str.truthy u && Str.truthy (Str.trim u) then Some u else None
  | None => None
  end.

(** The images [savePendingMeal] has to copy are files of the device. *)
Definition pendingImagesReadable (pendingMeal : PendingMeal) (d : Disk) : Prop :=
  (forall u, toCopy (p_imageUri pendingMeal) = Some u -> is_Some (files d !! u))
  /\ (forall u, toCopy (p_afterImageUri pendingMeal) = Some u -> is_Some (files d !! u)).

(** The record [savePendingMeal] writes. *)
Definition pendingToSave (documentDirectory : string) (now : Z)
  (pendingMeal : PendingMeal) : MealAnalysis :=
  let mealId := default "" (p_id pendingMeal) in {|
  m_id := mealId;
  m_timestamp := default "" (p_timestamp pendingMeal);
  m_imageUri :=
    match toCopy (p_imageUri pendingMeal) with
    | Some u => imagesDir documentDirectory ++ imageFilename now u mealId ""
    | None => ""
    end;
  m_afterImageUri :=
    match toCopy (p_afterImageUri pendingMeal) with
    | Some u => Some (imagesDir documentDirectory ++ imageFilename now u mealId "after")
    | None => None
    end;
  m_analysis := ANull;
  m_comment := Some (default "" (p_comment pendingMeal));
  m_isLoading := Some true;
  m_hasError := Some false |}.

(** A computation never throws the error [e]. *)
Definition neverThrows {S A} (e : Error) (c : M S A) : Prop :=
  forall s, (c s).1 <> Throw e.

Section Chronology.

Variable getTime : string -> option Z.

(** The timestamp of an entry is a date. *)
Definition validDate (e : IndexEntry) : Prop :=
  is_Some (getTime (e_timestamp e)).

(** [a] is not older than [b]. *)
Definition newerOrEqual (a b : IndexEntry) : Prop :=
  match getTime (e_timestamp a), getTime (e_timestamp b) with
  | Some ta, Some tb => tb <= ta
  | _, _ => False
  end.

(** A list of entries sorted by timestamp, descending: every entry is not
    older than each entry behind it. *)
Definition newestFirst (l : list IndexEntry) : Prop :=
  StronglySorted newerOrEqual l.

(** The entries [updateMealAnalysis] sorts: the index with the timestamp
    of the first entry of [mealId] replaced, or with a new entry in front
    when there is none. *)
Definition syncedEntries (mealId timestamp : string) (l : list IndexEntry)
  : list IndexEntry :=
  match findIndex (entryHasId mealId) l with
  | Some entryIndex => alter (setTimestamp timestamp) entryIndex l
  | None => entryOf mealId timestamp :: l
  end.

End Chronology.

(** The device after [processMeal] has been called on each record of a list
    in turn, the [i]-th call in the world [world i], whatever each call
    did. *)
Fixpoint processAll (getTime : string -> option Z) (world : nat -> Collaborators)
  (i : nat) (toRetry : list MealAnalysis) (w : World) : World :=
  match toRetry with
  | [] => w
  | meal :: rest =>
      processAll getTime world (S i) rest (processMeal getTime (world i) meal w).2
  end.

(** The version map the secure store holds (empty when there is none). *)
Definition versionMap (w : World) : gmap string Z :=
  default ∅ (versionMapItem (secureStore w)).


(** The analysis of a record has the totals [convertMealToNutritionRecord]
    needs. *)
Definition hasTotals (meal : MealAnalysis) : Prop :=
  exists a totals,
    m_analysis meal = AObject a /\ total_meal_nutritional_values a = Some totals.

(** A call of [saveMealAnalysis]: the time of the call and the record. *)
Definition callId (c : Z * MealAnalysis) : string := m_id c.2.

Definition entryOfCall (c : Z * MealAnalysis) : IndexEntry :=
  entryOf (m_id c.2) (m_timestamp c.2).

(** The disk after a sequence of calls of [saveMealAnalysis]. *)
Fixpoint createAll (documentDirectory : string) (calls : list (Z * MealAnalysis))
  (d : Disk) : Disk :=
  match calls with
  | [] => d
  | c :: rest =>
      createAll documentDirectory rest (saveMealAnalysis documentDirectory c.1 c.2 d).2
  end.

(** Every call of the sequence returns. *)
Fixpoint allCreated (documentDirectory : string) (calls : list (Z * MealAnalysis))
  (d : Disk) : Prop :=
  match calls with
  | [] => True
  | c :: rest =>
      (saveMealAnalysis documentDirectory c.1 c.2 d).1 = Ok tt
      /\ allCreated documentDirectory rest (saveMealAnalysis documentDirectory c.1 c.2 d).2
  end.

(** The entries of an index as the store writes them: each names the file
    of its own id, and no two have the same id. *)
Definition wellFormedEntries (l : list IndexEntry) : Prop :=
  Forall (fun e => e_filename e = mealFilename (e_id e)) l /\ NoDup (map e_id l).

Definition wellFormedIndex (d : Disk) : Prop := wellFormedEntries (indexMeals d).

(** A computation keeps the property [I] of the state, whether it returns or
    throws, and what it returns has the property [R]. *)
Definition keeps {S A} (I : S -> Prop) (c : M S A) (R : A -> Prop) : Prop :=
  forall s, I s -> I (c s).2 /\ forall a, (c s).1 = Ok a -> R a.

(** ** Vocabulary of the further properties of the record store *)

(** The record an entry of the index leads to: the content of the file the
    entry names, when the file is there and parses. *)
Definition readableMeal (d : Disk) (e : IndexEntry) : option MealAnalysis :=
  match mealFiles d !! e_filename e with
  | Some (MealJson m) => Some m
  | _ => None
  end.

(** Every entry of the index leads to a record. *)
Definition indexBacked (d : Disk) : Prop :=
  Forall (fun e => is_Some (readableMeal d e)) (indexMeals d).

(** A store in which the index is well formed and every entry of the index
    leads to a record. *)
Definition consistentStore (d : Disk) : Prop :=
  wellFormedIndex d /\ indexBacked d.

(** The images of a record are in the images directory of the store already:
    [saveMealAnalysis] has nothing to copy. *)
Definition imagesInStorage (documentDirectory : string) (meal : MealAnalysis) : Prop :=
  Str.startsWith (m_imageUri meal) (imagesDir documentDirectory) = true
  /\ forall a, m_afterImageUri meal = Some a ->
       a = "" \/ Str.startsWith a (imagesDir documentDirectory) = true.

(** The extension of the copy [copyImageToStorage] makes:
    [sourceUri.split('.').pop() || 'jpg']. *)
Definition extensionOf (sourceUri : string) : string :=
  if Str.truthy (Str.lastSegment sourceUri) then Str.lastSegment sourceUri else "jpg".

(** The string holds no dot. *)
Fixpoint dotFree (s : string) : bool :=
  match s with
  | String c s' => negb (Ascii.eqb c "."%char) && dotFree s'
  | EmptyString => true
  end.

(** The record [saveCommentMeal] writes. *)
Definition commentMealToSave (mealId timestamp comment : string) : MealAnalysis := {|
  m_id := mealId;
  m_timestamp := timestamp;
  m_imageUri := "";
  m_afterImageUri := None;
  m_analysis := AObject EMPTY_ANALYSIS;
  m_comment := Some comment;
  m_isLoading := Some false;
  m_hasError := Some false |}.

(** The result is a value, not an exception. *)
Definition isOk {A} (r : Result A) : bool :=
  match r with Ok _ => true | Throw _ => false end.

(** A call of a public method of the record store. *)
Inductive StoreCall :=
  | SaveMealAnalysis (meal : MealAnalysis)
  | SavePendingMeal (pendingMeal : PendingMeal)
  | SaveCommentMeal (mealId timestamp comment : string)
  | UpdateMealAnalysis (mealId : string) (meal : MealPatch)
  | UpdateMealAnalysisError (mealId : string)
  | GetMealHistory
  | DeleteMeal (mealId : string)
  | ClearHistory
  | ClearHistoryByTimeRange (timeRange : TimeRange)
  | GetMealById (mealId : string)
  | GetMealCount
  | CopyImageToStorage (sourceUri mealId suffix : string)
  | InitializeStorage.

(** A call of the record store at a given time, or of the pipeline or the
    bridge in a given world. *)
Inductive Call :=
  | StoreMethod (now : Z) (c : StoreCall)
  | ProcessMeal (c : Collaborators) (meal : MealAnalysis)
  | ResumePending (start : Z) (world : nat -> Collaborators)
  | RetryMeal (c : Collaborators) (mealId : string)
  | WriteMealToHealthConnect (hc : HealthConnect) (meal : MealAnalysis).

Section Sessions.

Variable documentDirectory : string.
Variable getTime : string -> option Z.

(** The disk a call of the record store leaves, whether the call returns
    or throws one of the errors of the embedding (missing data, a file that
    cannot be read or parsed). *)
Definition afterStoreCall (now : Z) (c : StoreCall) (d : Disk) : Disk :=
  match c with
  | SaveMealAnalysis meal => (saveMealAnalysis documentDirectory now meal d).2
  | SavePendingMeal pendingMeal => (savePendingMeal documentDirectory now pendingMeal d).2
  | SaveCommentMeal mealId timestamp comment =>
      (saveCommentMeal now mealId timestamp comment d).2
  | UpdateMealAnalysis mealId meal => (updateMealAnalysis getTime now mealId meal d).2
  | UpdateMealAnalysisError mealId => (updateMealAnalysisError now mealId d).2
  | GetMealHistory => (getMealHistory now d).2
  | DeleteMeal mealId => (deleteMeal now mealId d).2
  | ClearHistory => (clearHistory now d).2
  | ClearHistoryByTimeRange timeRange => (clearHistoryByTimeRange getTime now timeRange d).2
  | GetMealById mealId => (getMealById now mealId d).2
  | GetMealCount => (getMealCount now d).2
  | CopyImageToStorage sourceUri mealId suffix =>
      (copyImageToStorage documentDirectory now sourceUri mealId suffix d).2
  | InitializeStorage => (initializeStorage now d).2
  end.

(** The call of the record store returns: it throws nothing. *)
Definition storeCallReturns (now : Z) (c : StoreCall) (d : Disk) : bool :=
  match c with
  | SaveMealAnalysis meal => isOk (saveMealAnalysis documentDirectory now meal d).1
  | SavePendingMeal pendingMeal =>
      isOk (savePendingMeal documentDirectory now pendingMeal d).1
  | SaveCommentMeal mealId timestamp comment =>
      isOk (saveCommentMeal now mealId timestamp comment d).1
  | UpdateMealAnalysis mealId meal => isOk (updateMealAnalysis getTime now mealId meal d).1
  | UpdateMealAnalysisError mealId => isOk (updateMealAnalysisError now mealId d).1
  | GetMealHistory => isOk (getMealHistory now d).1
  | DeleteMeal mealId => isOk (deleteMeal now mealId d).1
  | ClearHistory => isOk (clearHistory now d).1
  | ClearHistoryByTimeRange timeRange =>
      isOk (clearHistoryByTimeRange getTime now timeRange d).1
  | GetMealById mealId => isOk (getMealById now mealId d).1
  | GetMealCount => isOk (getMealCount now d).1
  | CopyImageToStorage sourceUri mealId suffix =>
      isOk (copyImageToStorage documentDirectory now sourceUri mealId suffix d).1
  | InitializeStorage => isOk (initializeStorage now d).1
  end.

(** The device a call leaves. *)
Definition afterCall (c : Call) (w : World) : World :=
  match c with
  | StoreMethod now c => setDisk (afterStoreCall now c (disk w)) w
  | ProcessMeal c meal => (processMeal getTime c meal w).2
  | ResumePending start world => (resumePending getTime start world w).2
  | RetryMeal c mealId => (retryMeal getTime c mealId w).2
  | WriteMealToHealthConnect hc meal => (writeMealToHealthConnect getTime hc meal w).2
  end.

(** The device after a sequence of calls, made one after the other. *)
Definition afterCalls (calls : list Call) (w : World) : World :=
  foldl (fun w c => afterCall c w) w calls.

(** Every call of the record store in the sequence returns, each at the
    state the calls before it have left. The calls of the pipeline and of
    the bridge are under no condition. *)
Fixpoint storeMethodsReturn (calls : list Call) (w : World) : Prop :=
  match calls with
  | [] => True
  | c :: rest =>
      match c with
      | StoreMethod now c => storeCallReturns now c (disk w) = true
      | _ => True
      end
      /\ storeMethodsReturn rest (afterCall c w)
  end.

End Sessions.

(** ** Vocabulary of the properties of the bridge *)

Section SettingsVocabulary.

Variable getTime : string -> option Z.

(** The record the full sync sends for a meal that has totals and whose
    timestamp is a date. *)
Definition syncRecordOf (meal : MealAnalysis) : option SyncRecord :=
  match totalsOf meal, getTime (m_timestamp meal) with
  | Some (a, totals), Some mealDate =>
      Some {| s_startTime := mealDate;
              s_endTime := mealDate + 60 * 1000;
              s_name := default "Meal" (title a);
              s_energy := default 0 (total_calories totals);
              s_protein := default 0 (total_protein_g totals);
              s_totalCarbohydrate := default 0 (total_total_carbohydrate_g totals);
              s_totalFat := default 0 (total_total_fat_g totals) |}
  | _, _ => None
  end.

(** The meals the full sync keeps: those that have totals. *)
Definition withTotals (meals : list MealAnalysis) : list MealAnalysis :=
  List.filter (fun meal => bool_decide (is_Some (totalsOf meal))) meals.

(** The timestamp of every meal that has totals is a date. *)
Definition datedTotals (meals : list MealAnalysis) : Prop :=
  Forall (fun meal => is_Some (getTime (m_timestamp meal))) (withTotals meals).

(** Health Connect grants the write permission for nutrition records when
    asked. *)
Definition grantsNutritionWrite (p : PermissionDialog) : Prop :=
  exists permissions,
    requestPermissionResult p = Some permissions
    /\ existsb isNutritionWrite permissions = true.

(** Health Connect is installed and starts. *)
Definition healthConnectReady (hc : HealthConnect) : Prop :=
  platformIsAndroid hc = true /\ moduleLoaded hc = true
  /\ initializeResult hc = Some true.


End SettingsVocabulary.

(** ** Vocabulary of the properties of the settings and of the import *)

(** [goals[nutrientType]] *)
Definition goalOf (nutrientType : NutrientType) (goals : DailyGoals) : Z :=
  match nutrientType with
  | calories_goal => g_calories goals
  | protein_goal => g_protein goals
  | fats_goal => g_fats goals
  | carbs_goal => g_carbs goals
  end.

(** The goals [getDailyGoals] reads: the stored ones, the default ones when
    none is stored or when the read fails. *)
Definition goalsRead (platform : Platform) (s : Device) : DailyGoals :=
  if asyncGetFails platform then DEFAULT_GOALS
  else default DEFAULT_GOALS (dailyGoalsItem (asyncStorage s)).

(** A platform whose [AsyncStorage] takes reads and writes. *)
Definition storageWorks (platform : Platform) : Prop :=
  asyncGetFails platform = false /\ asyncSetFails platform = false.

(** The failures that reject the file picked: the one of [JSON.parse] and
    those of [validateExportData]. *)
Definition rejectsFile (f : Failure) : Prop :=
  f = JsonSyntaxFailure \/ f = InvalidDataFormat \/ f = InvalidVersionField
  \/ f = InvalidExportDateField \/ f = InvalidMealsArray \/ f = InvalidMealData.

(** The failures of the file system and of the record store. *)
Definition diskFailure (f : Failure) : Prop :=
  (exists e, f = StoreFailure e) \/ (exists uri, f = FileSystemFailure uri).

(** A computation that leaves [AsyncStorage], the documents and the share
    sheet as they are, and fails with a failure of the disk only. *)
Definition diskOnly {A} (c : X Device A) : Prop :=
  forall s,
    asyncStorage (c s).2 = asyncStorage s
    /\ documents (c s).2 = documents s
    /\ shareLog (c s).2 = shareLog s
    /\ forall f, (c s).1 = Failed f -> diskFailure f.

(** An exported meal has an id and a timestamp. *)
Definition identified (m : ExportedMeal) : Prop :=
  Str.truthyOpt (x_id m) = true /\ Str.truthyOpt (x_timestamp m) = true.

(** The object has a version, a date and the array [meals] of meals that
    have an id and a timestamp. *)
Definition validExport (data : ExportData) (meals : list ExportedMeal) : Prop :=
  Str.truthyOpt (x_version data) = true
  /\ Str.truthyOpt (x_export_date data) = true
  /\ x_meals data = Some meals
  /\ Forall identified meals.

(** The same export with another array of meals. *)
Definition withMeals (meals : list ExportedMeal) (data : ExportData) : ExportData := {|
  x_version := x_version data;
  x_export_date := x_export_date data;
  x_user_profile := x_user_profile data;
  x_daily_goals := x_daily_goals data;
  x_meal_reminders := x_meal_reminders data;
  x_ai_model := x_ai_model data;
  x_meals := Some meals
|}.

(** [AsyncStorage] once the settings of an export are imported: an item is
    replaced when the export has it (the reminders when the list is not
    empty, the model when it is not the empty string), and kept
    otherwise. *)
Definition importedSettings (data : ExportData) (a : AsyncStorage) : AsyncStorage := {|
  userProfileItem :=
    match x_user_profile data with Some profile => Some profile | None => userProfileItem a end;
  aiModelItem :=
    if Str.truthyOpt (x_ai_model data) then x_ai_model data else aiModelItem a;
  dailyGoalsItem :=
    match x_daily_goals data with Some goals => Some goals | None => dailyGoalsItem a end;
  mealRemindersItem :=
    match x_meal_reminders data with
    | Some (reminder :: reminders) => Some (reminder :: reminders)
    | _ => mealRemindersItem a
    end
|}.

(** The exported meal has no image: neither a first nor a second one. *)
Definition withoutImages (m : ExportedMeal) : Prop :=
  Str.truthyOpt (x_image_data m) = false /\ Str.truthyOpt (x_after_image_data m) = false.

Section ImportVocabulary.

Variable documentDirectory : string.
Variable platform : Platform.
Variable clock : ImportClock.

(** The temporary file [base64ToImage] writes. *)
Definition tempImportUri (filename : string) : string :=
  documentDirectory ++ "temp_import_" ++ filename.

(** The URI is one of a temporary file of the import. *)
Definition temporary (uri : string) : bool :=
  Str.startsWith uri (documentDirectory ++ "temp_import_").

(** What an import makes of the files of the device outside the meals
    directory: it loses none that is not temporary, and leaves no temporary
    one that was not there. *)
Definition keepsFiles (d d' : Disk) : Prop :=
  (forall uri, temporary uri = false -> is_Some (files d !! uri) -> is_Some (files d' !! uri))
  /\ (forall uri, temporary uri = true -> files d !! uri = None -> files d' !! uri = None).

(** The image data are there and the platform takes their payload. *)
Definition decodable (dataUri : option string) : Prop :=
  Str.truthyOpt dataUri = true
  /\ is_Some (base64Write platform (secondSegment (default "" dataUri))).

(** The exported meal has a first image, and the platform takes the
    payload of each image it has. *)
Definition importable (m : ExportedMeal) : Prop :=
  decodable (x_image_data m)
  /\ (Str.truthyOpt (x_after_image_data m) = true -> decodable (x_after_image_data m)).

(** The files outside the meals directory once an image is imported
    through the temporary file [temp] into [dest]. *)
Definition importedFiles (temp dest content : string) (f : gmap string string)
  : gmap string string :=
  delete temp (<[dest := content]> (<[temp := content]> f)).

(** The URI of the copy of an imported image. *)
Definition importedImageUri (now : Z) (mealId suffix : string) : string :=
  imagesDir documentDirectory
    ++ mealId ++ (if Str.truthy suffix then "_" ++ suffix else "")
    ++ "_" ++ pretty now ++ ".jpg".

(** The record the import stores for the exported meal of rank [i]. *)
Definition importedMeal (i : nat) (m : ExportedMeal) : MealAnalysis := {|
  m_id := default "" (x_id m);
  m_timestamp := default "" (x_timestamp m);
  m_imageUri := importedImageUri (imageCopied clock i) (default "" (x_id m)) "";
  m_afterImageUri :=
    if Str.truthyOpt (x_after_image_data m)
    then Some (importedImageUri (afterImageCopied clock i) (default "" (x_id m)) "after")
    else None;
  m_analysis :=
    if analysisTruthy (x_analysis m) then x_analysis m else AObject EMPTY_ANALYSIS;
  m_comment := x_comment m;
  m_isLoading := Some false;
  m_hasError := Some false
|}.

(** The entry of the index of an imported meal. *)
Definition importedEntry (m : ExportedMeal) : IndexEntry :=
  entryOf (default "" (x_id m)) (default "" (x_timestamp m)).

(** The id of an exported meal. *)
Definition importedId (m : ExportedMeal) : string := default "" (x_id m).

(** The meals of an export are new to the store and fit in it: their ids
    are distinct and none is in the index, which has room for them all. *)
Definition newToStore (meals : list ExportedMeal) (d : Disk) : Prop :=
  NoDup (map importedId meals)
  /\ (forall m, m ∈ meals -> importedId m ∉ map e_id (indexMeals d))
  /\ (length meals + length (indexMeals d) <= MAX_MEALS)%nat.

End ImportVocabulary.

(** ** Vocabulary of the properties of the export *)

(** The data URI [imageToBase64] makes of an image of the disk;
    [undefined] for a URI that is empty or blank, and for one that is not a
    file of the device. *)
Definition imageData (d : Disk) (uri : string) : option string :=
  if negb (Str.truthy uri) || negb (Str.truthy (Str.trim uri)) then None
  else
    match files d !! uri with
    | Some base64 =>
        Some ("data:"
                ++ (if String.eqb (toLowerCase (Str.lastSegment uri)) "png"
                    then "image/png" else "image/jpeg")
                ++ ";base64," ++ base64)
    | None => None
    end.

(** The exported form of a record. *)
Definition exportedMeal (d : Disk) (meal : MealAnalysis) : ExportedMeal := {|
  x_id := Some (m_id meal);
  x_timestamp := Some (m_timestamp meal);
  x_image_data :=
    if Str.truthy (m_imageUri meal) then imageData d (m_imageUri meal) else None;
  x_after_image_data :=
    if Str.truthyOpt (m_afterImageUri meal)
    then imageData d (default "" (m_afterImageUri meal)) else None;
  x_analysis := m_analysis meal;
  x_comment := m_comment meal
|}.

(** The records [getMealHistory] lists. *)
Definition listedMeals (d : Disk) : list MealAnalysis :=
  omap (readableMeal d) (indexMeals d).

(** The object an export makes of a device whose [AsyncStorage] takes the
    reads. *)
Definition exportedDocument (clock : ExportClock) (s : Device) : ExportData := {|
  x_version := Some "1.0.0";
  x_export_date := Some (exportDate clock);
  x_user_profile := userProfileItem (asyncStorage s);
  x_daily_goals := Some (default DEFAULT_GOALS (dailyGoalsItem (asyncStorage s)));
  x_meal_reminders := Some (default DEFAULT_REMINDERS (mealRemindersItem (asyncStorage s)));
  x_ai_model :=
    Some (if Str.truthyOpt (aiModelItem (asyncStorage s))
          then default "" (aiModelItem (asyncStorage s)) else "gemini-2.5-flash");
  x_meals := Some (map (exportedMeal (deviceDisk s)) (listedMeals (deviceDisk s)))
|}.

(** The share sheet takes the file. *)
Definition shares (sheet : ShareSheet) : bool :=
  bool_decide (isAvailable sheet = Some true) && shareResolves sheet.

(** The failure of a share sheet that does not take the file. *)
Definition shareFailure (sheet : ShareSheet) : Failure :=
  match isAvailable sheet with
  | Some false => SharingNotAvailable
  | _ => SharingFailure
  end.

(** The export file is saved through the Storage Access Framework, in the
    file of the given URI. *)
Definition savesTo (saving : Saving) (fileUri : string) : Prop :=
  savingOnAndroid saving = true
  /\ (exists directoryUri, directoryPermissions saving = Some (Some directoryUri))
  /\ createdFile saving = Some fileUri
  /\ createdFileWritten saving = true.

(** What an export leaves of the data of the device: the records, the
    index, the images and the settings, but for the default reminders,
    which are stored when no reminders were. *)
Definition keepsData (s s' : Device) : Prop :=
  mealFiles (deviceDisk s') = mealFiles (deviceDisk s)
  /\ indexMeals (deviceDisk s') = indexMeals (deviceDisk s)
  /\ files (deviceDisk s') = files (deviceDisk s)
  /\ userProfileItem (asyncStorage s') = userProfileItem (asyncStorage s)
  /\ aiModelItem (asyncStorage s') = aiModelItem (asyncStorage s)
  /\ dailyGoalsItem (asyncStorage s') = dailyGoalsItem (asyncStorage s)
  /\ (mealRemindersItem (asyncStorage s') = mealRemindersItem (asyncStorage s)
      \/ (mealRemindersItem (asyncStorage s) = None
          /\ mealRemindersItem (asyncStorage s') = Some DEFAULT_REMINDERS)).

(** The record can be exported and imported again: it has an id, a
    timestamp and an image that is a file of the device, and its second
    image, when it has one, is a file of the device. *)
Definition exportable (d : Disk) (meal : MealAnalysis) : Prop :=
  m_id meal <> "" /\ m_timestamp meal <> ""
  /\ is_Some (imageData d (m_imageUri meal))
  /\ (Str.truthyOpt (m_afterImageUri meal) = true ->
      is_Some (imageData d (default "" (m_afterImageUri meal)))).

(** The record an export followed by an import makes of a record, up to
    the URIs of its images. *)
Definition restored (meal m : MealAnalysis) : Prop :=
  m_id m = m_id meal
  /\ m_timestamp m = m_timestamp meal
  /\ m_comment m = m_comment meal
  /\ m_analysis m
     = (if analysisTruthy (m_analysis meal) then m_analysis meal else AObject EMPTY_ANALYSIS)
  /\ m_isLoading m = Some false /\ m_hasError m = Some false
  /\ (is_Some (m_afterImageUri m) <-> Str.truthyOpt (m_afterImageUri meal) = true).

(** A computation that leaves the disk and [AsyncStorage] as they are. *)
Definition documentsOnly {A} (c : X Device A) : Prop :=
  forall s, deviceDisk (c s).2 = deviceDisk s /\ asyncStorage (c s).2 = asyncStorage s.

(** ** Sample data of the examples *)

Definition sampleDirectory : string := "file:///data/user/0/openmeal/files/".

(** The files of the device outside the store: two photos of the camera. *)
Definition sampleImages : gmap string string :=
  <["file:///cache/Camera/before.jpg" := "QkVGT1JF"]>
    (<["file:///cache/Camera/after.jpg" := "QUZURVI="]> ∅).

Definition sampleAnalysis : AnalysisObject := {|
  title := Some "Lentil soup";
  meal_items :=
    [ {| item_name := "Lentil soup"; estimated_serving_size := "1 bowl";
         calories := 230; total_carbohydrate_g := 40; protein_g := 18;
         total_fat_g := 1; notes := "" |} ];
  total_meal_nutritional_values :=
    Some {| total_calories := Some 230; total_total_carbohydrate_g := Some 40;
            total_protein_g := Some 18; total_total_fat_g := Some 1 |};
  health_benefits := ["High in fibre"];
  health_concerns := [];
  overall_meal_notes := None;
  unidentified_items_description := None
|}.

(** 2024-06-10T06:13:20.000Z is 1718000000000. *)
Definition sampleNow : Z := 1718000000000.

Definition photoMeal : MealAnalysis := {|
  m_id := "1718000000000";
  m_timestamp := "2024-06-10T06:13:20.000Z";
  m_imageUri := "file:///cache/Camera/before.jpg";
  m_afterImageUri := None;
  m_analysis := AObject sampleAnalysis;
  m_comment := Some "lunch";
  m_isLoading := Some false;
  m_hasError := Some false
|}.

(** A record with an id, a timestamp and a comment, and no image. *)
Definition commentOnlyMeal : MealAnalysis := {|
  m_id := "1718000000000";
  m_timestamp := "2024-06-10T06:13:20.000Z";
  m_imageUri := "";
  m_afterImageUri := None;
  m_analysis := AObject EMPTY_ANALYSIS;
  m_comment := Some "lentil soup";
  m_isLoading := Some false;
  m_hasError := Some false
|}.

(** A pending record with an id and a timestamp, and neither image nor
    comment. *)
Definition emptyPendingMeal : PendingMeal := {|
  p_id := Some "1718000000000";
  p_timestamp := Some "2024-06-10T06:13:20.000Z";
  p_imageUri := Some "";
  p_afterImageUri := None;
  p_comment := None
|}.

(** A text-only meal entered at [sampleNow] and a photographed meal entered
    an hour later, as [AddMealModal] passes them to [savePendingMeal]. *)
Definition soupPending : PendingMeal := {|
  p_id := Some "1718000000000";
  p_timestamp := Some "2024-06-10T06:13:20.000Z";
  p_imageUri := Some "";
  p_afterImageUri := None;
  p_comment := Some "lentil soup"
|}.

Definition saladPending : PendingMeal := {|
  p_id := Some "1718003600000";
  p_timestamp := Some "2024-06-10T07:13:20.000Z";
  p_imageUri := Some "file:///cache/Camera/before.jpg";
  p_afterImageUri := None;
  p_comment := None
|}.

(** The text-only meal as [processMeal] receives it. *)
Definition soupMeal : MealAnalysis := {|
  m_id := "1718000000000";
  m_timestamp := "2024-06-10T06:13:20.000Z";
  m_imageUri := "";
  m_afterImageUri := None;
  m_analysis := ANull;
  m_comment := Some "lentil soup";
  m_isLoading := Some true;
  m_hasError := Some false
|}.

(** The same meal after a failed analysis, as [getMealById] returns it. *)
Definition erroredSoup : MealAnalysis := {|
  m_id := "1718000000000";
  m_timestamp := "2024-06-10T06:13:20.000Z";
  m_imageUri := "";
  m_afterImageUri := None;
  m_analysis := ANull;
  m_comment := Some "lentil soup";
  m_isLoading := Some false;
  m_hasError := Some true
|}.

Definition worldOf (d : Disk) : World := {|
  disk := d;
  secureStore := {| permissionItem := None; versionMapItem := None |};
  mealUpdated := [];
  geminiRequests := [];
  healthConnectWrites := []
|}.

(** Health Connect installed, permitted and accepting writes. *)
Definition healthOn : HealthConnect := {|
  platformIsAndroid := true;
  moduleLoaded := true;
  initializeResult := Some true;
  grantedPermissions := Some [ {| recordType := "Nutrition"; accessType := "write" |} ];
  writeApi := InsertRecords;
  writeAccepted := true;
  secureGetFails := false;
  secureSetFails := false
|}.




(** One minute after [sampleNow], with an inference service that fails. *)
Definition failingCall : Collaborators := {|
  now := sampleNow + 60 * 1000;
  gemini := fun _ => None;
  healthConnect := healthOn
|}.

(** Two minutes after [sampleNow], with an inference service that answers. *)
Definition answeringCall : Collaborators := {|
  now := sampleNow + 2 * 60 * 1000;
  gemini := fun _ => Some sampleAnalysis;
  healthConnect := healthOn
|}.


(** The device after both meals were entered. *)
Definition pendingWorld : World :=
  worldOf
    (savePendingMeal sampleDirectory (sampleNow + 3600000) saladPending
       (savePendingMeal sampleDirectory sampleNow soupPending (freshDisk sampleImages)).2).2.

(** The device after the analysis of the text-only meal failed. *)
Definition erroredWorld : World :=
  (processMeal Iso.getTime failingCall soupMeal pendingWorld).2.

(** The device after the analysis of the text-only meal succeeded. *)
Definition analysedWorld : World :=
  (processMeal Iso.getTime answeringCall soupMeal pendingWorld).2.

Definition analysedSoup : MealAnalysis :=
  withFlags false false (withAnalysis (AObject sampleAnalysis) soupMeal).

(** An update that changes the comment only. *)
Definition commentPatch : MealPatch := {|
  u_id := None;
  u_timestamp := None;
  u_imageUri := None;
  u_afterImageUri := None;
  u_analysis := None;
  u_comment := Some (Some "lentil soup with bread");
  u_isLoading := None;
  u_hasError := None
|}.

(** Five text-only meals, 30 minutes, 12 hours, 3 days, 40 days and 400 days
    before [sampleNow], entered oldest first. *)
Definition agedPending (mealId timestamp : string) : PendingMeal := {|
  p_id := Some mealId;
  p_timestamp := Some timestamp;
  p_imageUri := None;
  p_afterImageUri := None;
  p_comment := Some "snack"
|}.

Definition agedMeals : list PendingMeal :=
  [ agedPending "age400d" "2023-05-07T06:13:20.000Z";
    agedPending "age40d" "2024-05-01T06:13:20.000Z";
    agedPending "age3d" "2024-06-07T06:13:20.000Z";
    agedPending "age12h" "2024-06-09T18:13:20.000Z";
    agedPending "age30m" "2024-06-10T05:43:20.000Z" ].

Definition agedDisk : Disk :=
  foldl (fun d p => (savePendingMeal sampleDirectory sampleNow p d).2)
        (freshDisk ∅) agedMeals.

(** 51 photographed meals, one second apart, with the ids [meal0] to
    [meal50]. *)
Definition numberedCall (i : nat) : Z * MealAnalysis :=
  (sampleNow + 1000 * Z.of_nat i,
   {| m_id := "meal" ++ pretty i;
      m_timestamp := "2024-06-10T06:13:20.000Z";
      m_imageUri := "file:///cache/Camera/before.jpg";
      m_afterImageUri := Some "file:///cache/Camera/after.jpg";
      m_analysis := AObject sampleAnalysis;
      m_comment := None;
      m_isLoading := Some false;
      m_hasError := Some false |}).

Definition numberedCalls : list (Z * MealAnalysis) := map numberedCall (seq 0 51).

(** A record with an id, a timestamp and an image, and no analysis yet. *)
Definition unanalysedPhotoMeal : MealAnalysis := withAnalysis ANull photoMeal.

(** 51 pending text-only meals with the ids [meal0] to [meal50], entered in
    turn on a fresh disk. *)
Definition numberedPendings : list PendingMeal :=
  map (fun i : nat => agedPending ("meal" ++ pretty i) "2024-06-10T06:13:20.000Z")
      (seq 0 51).

Definition numberedPendingDisk : Disk :=
  foldl (fun d p => (savePendingMeal sampleDirectory sampleNow p d).2)
        (freshDisk ∅) numberedPendings.

(** ** Vocabulary of the properties of the home screen *)

(** One of the totals of a record, [0] when the record has no totals or
    the total is missing. *)
Definition totalOf (field : Totals -> option Z) (meal : MealAnalysis) : Z :=
  match totalsOf meal with
  | Some (_, totals) => default 0 (field totals)
  | None => 0
  end.

(** The sum of a quantity over a list of records, added from the left as
    [reduce] does, starting from [start]. *)
Definition sumOver (quantity : MealAnalysis -> Z) (start : Z) (l : list MealAnalysis) : Z :=
  fold_left (fun acc meal => acc + quantity meal) l start.

(** The nutrition of a list of records that all have totals. *)
Definition nutritionOf (l : list MealAnalysis) : DailyNutrition := {|
  d_calories := sumOver (totalOf total_calories) 0 l;
  d_protein := sumOver (totalOf total_protein_g) 0 l;
  d_fats := sumOver (totalOf total_total_fat_g) 0 l;
  d_carbs := sumOver (totalOf total_total_carbohydrate_g) 0 l
|}.

(** The list with the records of the id replaced. *)
Definition replaced (meal : MealAnalysis) (l : list MealAnalysis) : list MealAnalysis :=
  map (fun m => if bool_decide (m_id m = m_id meal) then meal else m) l.

(** The records of the day counted by the home screen all have totals. *)
Definition complete (l : list MealAnalysis) : Prop :=
  Forall (fun meal => is_Some (totalsOf meal)) l.

(** The ids of a list of records. *)
Definition idsOf (l : list MealAnalysis) : list string := map m_id l.

Section HomeVocabulary.

Variable toDateString : string -> string.

(** The records that [calculateDailyNutrition] counts on the day [today]. *)
Definition countedOn (today : string) (l : list MealAnalysis) : list MealAnalysis :=
  List.filter (countsToday toDateString today) l.

(** From [s] the screen has come to show the list [l], with the nutrition
    of the day computed from it. *)
Definition shows (today : string) (l : list MealAnalysis) (s s' : Home) : Prop :=
  h_meals s' = l
  /\ homeDisk s' = homeDisk s
  /\ h_dailyNutrition s' = nutritionOf (countedOn today l).

End HomeVocabulary.

(** ** Sample data of the further examples *)

(** The photographed meal as [AddMealModal] passes it to [processMeal]:
    with the URI of the photo of the camera. *)
Definition saladMeal : MealAnalysis := {|
  m_id := "1718003600000";
  m_timestamp := "2024-06-10T07:13:20.000Z";
  m_imageUri := "file:///cache/Camera/before.jpg";
  m_afterImageUri := None;
  m_analysis := ANull;
  m_comment := None;
  m_isLoading := Some true;
  m_hasError := None
|}.

(** A photographed meal whose timestamp is not a date. *)
Definition undatedMeal : MealAnalysis := {|
  m_id := "imported";
  m_timestamp := "yesterday";
  m_imageUri := "file:///cache/Camera/before.jpg";
  m_afterImageUri := None;
  m_analysis := AObject sampleAnalysis;
  m_comment := None;
  m_isLoading := Some false;
  m_hasError := Some false
|}.

(** The device after both meals were entered, the text-only meal was
    analysed and the meal without a date was saved. *)
Definition undatedWorld : World :=
  worldOf (saveMealAnalysis sampleDirectory sampleNow undatedMeal (disk analysedWorld)).2.

(** The settings screen with no alert shown and no batch sent. *)
Definition screenOf (w : World) : Screen :=
  {| world := w; alerts := []; healthConnectBatches := [] |}.

(** Health Connect granting the write permission and accepting the batch. *)
Definition grantingDialog : PermissionDialog := {|
  dialogHealthConnect := healthOn;
  requestPermissionResult := Some [ {| recordType := "Nutrition"; accessType := "write" |} ];
  batchAccepted := true
|}.

(** The message of the [RangeError] of [toISOString]; the other errors of
    the examples have none. *)
Definition sampleMessageOf (e : Error) : option string :=
  match e with
  | InvalidTimeValue => Some "Invalid time value"
  | _ => None
  end.

(** A session: the text-only meal is entered and its analysis fails, a
    record that is not there is deleted, the pending meals are resumed with
    an inference service that answers, the photographed meal is saved, a
    comment meal is saved, and the last hour is cleared. *)
Definition sampleSession : list Call :=
  [ StoreMethod sampleNow (SavePendingMeal soupPending);
    ProcessMeal failingCall soupMeal;
    StoreMethod (sampleNow + 1000) (DeleteMeal "1718003600000");
    ResumePending (sampleNow + 2000) (fun _ => answeringCall);
    StoreMethod (sampleNow + 3000) (SaveMealAnalysis photoMeal);
    StoreMethod (sampleNow + 4000)
      (SaveCommentMeal "1717990000000" "2024-06-10T03:26:40.000Z" "tea");
    StoreMethod (sampleNow + 5000) (ClearHistoryByTimeRange hour) ].

(** A text-only meal whose comment is one ideographic space (U+3000), as
    [AddMealModal] passes it on, and the device after it was entered. *)
Definition blankPending : PendingMeal := {|
  p_id := Some "1718007200000";
  p_timestamp := Some "2024-06-10T08:13:20.000Z";
  p_imageUri := Some "";
  p_afterImageUri := None;
  p_comment := Some (String "227" (String "128" (String "128" "")))
|}.

Definition blankMeal : MealAnalysis :=
  pendingToSave sampleDirectory (sampleNow + 7200000) blankPending.

Definition blankWorld : World :=
  worldOf (savePendingMeal sampleDirectory (sampleNow + 7200000) blankPending
             (freshDisk sampleImages)).2.

(** A minute later, with an inference service that answers. *)
Definition blankCall : Collaborators := {|
  now := sampleNow + 7200000 + 60 * 1000;
  gemini := fun _ => Some sampleAnalysis;
  healthConnect := healthOn
|}.

(** ** Sample data of the examples of the export and of the import *)

(** A platform whose [AsyncStorage] works and which writes every payload
    (nothing for [undefined]). *)
Definition samplePlatform : Platform := {|
  asyncGetFails := false;
  asyncSetFails := false;
  base64Write := fun payload => Some (default "" payload)
|}.

Definition acceptingSheet : ShareSheet :=
  {| isAvailable := Some true; shareResolves := true |}.

(** The share sheet as the user dismisses it. *)
Definition dismissedSheet : ShareSheet :=
  {| isAvailable := Some true; shareResolves := false |}.

(** The user picks a directory, and the file is written there. *)
Definition sampleSaving : Saving := {|
  savingOnAndroid := true;
  directoryPermissions := Some (Some "content://documents/tree/downloads");
  createdFile := Some "content://documents/tree/downloads/OpenMeal_Export_2024-06-10.json";
  createdFileWritten := true;
  shareSheets := fun _ => acceptingSheet
|}.

(** The user grants no directory and dismisses the share sheet twice. *)
Definition deniedSaving : Saving := {|
  savingOnAndroid := true;
  directoryPermissions := Some None;
  createdFile := None;
  createdFileWritten := false;
  shareSheets := fun _ => dismissedSheet
|}.

Definition sampleExportClock : ExportClock := {|
  exportDate := "2024-06-10T08:00:00.000Z";
  exportDay := "2024-06-10";
  historyRead := sampleNow + 2 * 3600000
|}.

(** The import runs a day later, a second for each step. *)
Definition sampleImportClock : ImportClock := {|
  imageCopied := fun i => sampleNow + 86400000 + 3000 * Z.of_nat i;
  afterImageCopied := fun i => sampleNow + 86400000 + 3000 * Z.of_nat i + 1000;
  mealSaved := fun i => sampleNow + 86400000 + 3000 * Z.of_nat i + 2000
|}.

Definition emptyStorage : AsyncStorage := {|
  userProfileItem := None;
  aiModelItem := None;
  dailyGoalsItem := None;
  mealRemindersItem := None
|}.

Definition sampleProfile : UserProfile := {|
  pr_age := 34;
  pr_gender := female;
  pr_heightCm := 170;
  pr_weightKg := 65;
  pr_activityLevel := 3;
  pr_goal := maintain;
  pr_units := metric
|}.

(** A device with a profile and with the records of a disk. *)
Definition deviceOf (d : Disk) : Device := {|
  deviceDisk := d;
  asyncStorage := setUserProfileItem (Some sampleProfile) emptyStorage;
  documents := ∅;
  shareLog := []
|}.

(** The device with the photographed meal stored. *)
Definition photoDevice : Device :=
  deviceOf (saveMealAnalysis sampleDirectory sampleNow photoMeal (freshDisk sampleImages)).2.

(** The device with the photographed meal pending and the text-only meal
    analysed. *)
Definition mixedDevice : Device := deviceOf (disk analysedWorld).

(** An exported meal with its image, and one without. *)
Definition photoExported : ExportedMeal := {|
  x_id := Some "1718000000000";
  x_timestamp := Some "2024-06-10T06:13:20.000Z";
  x_image_data := Some "data:image/jpeg;base64,QkVGT1JF";
  x_after_image_data := None;
  x_analysis := AObject sampleAnalysis;
  x_comment := Some "lunch"
|}.

Definition textExported : ExportedMeal := {|
  x_id := Some "1718003600000";
  x_timestamp := Some "2024-06-10T07:13:20.000Z";
  x_image_data := None;
  x_after_image_data := None;
  x_analysis := AObject sampleAnalysis;
  x_comment := Some "lentil soup"
|}.

Definition sampleExport (meals : list ExportedMeal) : ExportData := {|
  x_version := Some "1.0.0";
  x_export_date := Some "2024-06-10T08:00:00.000Z";
  x_user_profile := Some sampleProfile;
  x_daily_goals := Some DEFAULT_GOALS;
  x_meal_reminders := Some DEFAULT_REMINDERS;
  x_ai_model := Some "gemini-2.5-flash";
  x_meals := Some meals
|}.

(** A device with an empty store, nothing in [AsyncStorage], and the
    documents given. *)
Definition importingDevice (docs : gmap string Document) : Device := {|
  deviceDisk := freshDisk ∅;
  asyncStorage := emptyStorage;
  documents := docs;
  shareLog := []
|}.

(** The file with the two meals, and the file cut before the meal that has
    no image. *)
Definition pickedDevice : Device :=
  importingDevice
    (<["file:///cache/export.json" := JsonObject (sampleExport [photoExported; textExported])]>
       (<["file:///cache/cut.json" := JsonObject (sampleExport [photoExported])]> ∅)).

(** ** Sample data of the home screen *)

(** A calendar for the examples: the day of a timestamp is its first ten
    characters. *)
Definition sampleDay (timestamp : string) : string := String.substring 0 10 timestamp.

(** The photographed salad once its analysis has arrived. *)
Definition settledSalad : MealAnalysis := {|
  m_id := "1718003600000";
  m_timestamp := "2024-06-10T07:13:20.000Z";
  m_imageUri := "file:///cache/Camera/before.jpg";
  m_afterImageUri := None;
  m_analysis := AObject sampleAnalysis;
  m_comment := None;
  m_isLoading := Some false;
  m_hasError := Some false
|}.

(** The home screen showing the salad being analysed above the analysed
    photographed meal, before the nutrition of the day was computed. *)
Definition sampleHome : Home := {|
  homeDisk := disk analysedWorld;
  h_meals := [saladMeal; photoMeal];
  h_dailyNutrition := {| d_calories := 0; d_protein := 0; d_fats := 0; d_carbs := 0 |}
|}.
(** ** Running the services *)

Create HintDb services.
#[local] Hint Unfold bind ret throw get modify when try_catch onDisk : services.
#[local] Hint Unfold readMealFile writeMealFile deleteMealFile initializeStorage
  readIndex writeIndex : services.

Ltac run := repeat (autounfold with services in *; simpl in * ).

Lemma truthy_true s : Str.truthy s = true <-> s <> "".
Proof. destruct s; simpl; split; intros; congruence. Qed.

Lemma truthy_false s : Str.truthy s = false <-> s = "".
Proof. destruct s; simpl; split; intros; congruence. Qed.

Lemma analysisTruthy_true a : analysisTruthy a = true <-> a <> ANull.
Proof. destruct a; simpl; split; intros; congruence. Qed.

Lemma append_nil (s : string) : "" ++ s = s.
Proof. reflexivity. Qed.

Lemma append_cons c (a b : string) : String c a ++ b = String c (a ++ b).
Proof. reflexivity. Qed.

Lemma string_length_app (a b : string) :
  String.length (a ++ b) = (String.length a + String.length b)%nat.
Proof.
  induction a as [|c a IH]; [done|].
  rewrite append_cons. simpl. by rewrite IH.
Qed.

Lemma string_app_inv_r (a b s : string) : a ++ s = b ++ s -> a = b.
Proof.
  revert b; induction a as [|c a IH]; intros [|c' b] H; auto;
    rewrite ?append_nil, ?append_cons in H.
  - exfalso. apply (f_equal String.length) in H. simpl in H.
    rewrite (string_length_app b s) in H. lia.
  - exfalso. apply (f_equal String.length) in H. simpl in H.
    rewrite (string_length_app a s) in H. lia.
  - injection H as -> H. f_equal. auto.
Qed.

Lemma mealFilename_inj a b : mealFilename a = mealFilename b -> a = b.
Proof.
  unfold mealFilename. intros H.
  apply (inj (String.app "meal_")) in H.
  by apply string_app_inv_r in H.
Qed.

Lemma initializeStorage_run now d :
  initializeStorage now d = (Ok tt, initialized now d).
Proof. unfold initialized. run. by destruct (indexFile d). Qed.

Lemma readIndex_run now d :
  exists u, readIndex now d = (Ok {| meals := indexMeals d; lastUpdated := u |}, d).
Proof.
  unfold indexMeals. run. destruct (indexFile d) as [| |[l u]]; simpl; eauto.
Qed.

Lemma initialized_mealFiles now d : mealFiles (initialized now d) = mealFiles d.
Proof. unfold initialized. by destruct (indexFile d). Qed.

Lemma initialized_files now d : files (initialized now d) = files d.
Proof. unfold initialized. by destruct (indexFile d). Qed.

Lemma initialized_indexMeals now d : indexMeals (initialized now d) = indexMeals d.
Proof. unfold initialized, indexMeals. by destruct d as [? [| |?] ?]. Qed.

Lemma initialized_storedMeal now mealId d :
  storedMeal mealId (initialized now d) = storedMeal mealId d.
Proof. unfold storedMeal. by rewrite initialized_mealFiles. Qed.

Lemma getMealById_run now mealId d :
  getMealById now mealId d = (Ok (storedMeal mealId d), initialized now d).
Proof.
  unfold getMealById, try_catch, bind at 1. rewrite initializeStorage_run.
  unfold storedMeal. rewrite <- (initialized_mealFiles now d). run.
  by destruct (mealFiles (initialized now d) !! mealFilename mealId) as [[]|].
Qed.

Lemma getMealCount_run now d :
  getMealCount now d = (Ok (length (indexMeals d)), initialized now d).
Proof.
  unfold getMealCount, try_catch, bind at 1. rewrite initializeStorage_run.
  unfold bind. destruct (readIndex_run now (initialized now d)) as [u ->].
  simpl. unfold ret. by rewrite initialized_indexMeals.
Qed.

Lemma deleteAll_lookup filenames m f :
  deleteAll filenames m !! f = if bool_decide (f ∈ filenames) then None else m !! f.
Proof.
  unfold deleteAll. revert m. induction filenames as [|g l IH]; intros m.
  - by rewrite bool_decide_eq_false_2 by apply not_elem_of_nil.
  - cbn [foldl]. rewrite IH. destruct (decide (f = g)) as [->|Hne].
    + rewrite lookup_delete_eq.
      destruct (bool_decide (g ∈ l)); by rewrite bool_decide_eq_true_2 by left.
    + rewrite lookup_delete_ne by done.
      by rewrite (bool_decide_ext (f ∈ g :: l) (f ∈ l))
        by (rewrite elem_of_cons; split; [intros [?|?]; [congruence|done] | auto]).
Qed.

Lemma deleteFiles_run (l : list IndexEntry) d :
  forEach l (fun e => try_catch (deleteMealFile (e_filename e)) (fun _ => ret tt)) d
  = (Ok tt, setMealFiles (deleteAll (map e_filename l) (mealFiles d)) d).
Proof.
  revert d. induction l as [|e l IH]; intros d; simpl.
  - unfold ret. by destruct d.
  - unfold bind at 1. unfold try_catch, deleteMealFile, modify at 1. rewrite IH.
    by destruct d.
Qed.

Lemma bind_ok {S A B} (c : M S A) (k : A -> M S B) s a s' :
  c s = (Ok a, s') -> bind c k s = k a s'.
Proof. unfold bind. by intros ->. Qed.

Lemma bind_throw {S A B} (c : M S A) (k : A -> M S B) s e s' :
  c s = (Throw e, s') -> bind c k s = (Throw e, s').
Proof. unfold bind. by intros ->. Qed.

Lemma bind_ret {S A B} (a : A) (k : A -> M S B) s : bind (ret a) k s = k a s.
Proof. reflexivity. Qed.

Lemma setMealFiles_id d : setMealFiles (mealFiles d) d = d.
Proof. by destruct d. Qed.

Lemma keepLastMeals_run l d :
  keepLastMeals l d
  = (Ok (take MAX_MEALS l),
     setMealFiles (deleteAll (map e_filename (drop MAX_MEALS l)) (mealFiles d)) d).
Proof.
  unfold keepLastMeals. destruct (MAX_MEALS <? length l)%nat eqn:E.
  - unfold bind. by rewrite deleteFiles_run.
  - apply Nat.ltb_ge in E. rewrite take_ge, drop_ge by done.
    unfold ret. simpl. by rewrite setMealFiles_id.
Qed.

Lemma neverThrows_ret {S A} e (a : A) : neverThrows (S := S) e (ret a).
Proof. by intros s. Qed.

Lemma neverThrows_modify {S} e (f : S -> S) : neverThrows e (modify f).
Proof. by intros s. Qed.

Lemma neverThrows_get {S} e : neverThrows (S := S) e get.
Proof. by intros s. Qed.

Lemma neverThrows_throw {S A} e e' : e <> e' -> neverThrows (S := S) (A := A) e (throw e').
Proof. intros Hne s. simpl. congruence. Qed.

Lemma neverThrows_bind {S A B} e (c : M S A) (k : A -> M S B) :
  neverThrows e c -> (forall a, neverThrows e (k a)) -> neverThrows e (bind c k).
Proof.
  intros Hc Hk s. unfold bind. specialize (Hc s).
  destruct (c s) as [[a|e'] s']; [apply Hk |].
  simpl in *. intros [= ->]. by apply Hc.
Qed.

Lemma neverThrows_catch {S A} e (c : M S A) (h : Error -> M S A) :
  (forall e', neverThrows e (h e')) -> neverThrows e (try_catch c h).
Proof.
  intros Hh s. unfold try_catch.
  destruct (c s) as [[a|e'] s']; [discriminate | apply Hh].
Qed.

Section StoreFacts.

Variable documentDirectory : string.
Variable getTime : string -> option Z.

Local Abbreviation imagesDir := (imagesDir documentDirectory).
Local Abbreviation copyImageToStorage := (copyImageToStorage documentDirectory).
Local Abbreviation saveMealAnalysis := (saveMealAnalysis documentDirectory).
Local Abbreviation savePendingMeal := (savePendingMeal documentDirectory).
Local Abbreviation updateMealAnalysis := (updateMealAnalysis getTime).
Local Abbreviation storageImageUri := (storageImageUri documentDirectory).
Local Abbreviation storageAfterImageUri := (storageAfterImageUri documentDirectory).
Local Abbreviation mealToSave := (mealToSave documentDirectory).

Lemma copyImageToStorage_run now sourceUri mealId suffix d content :
  files d !! sourceUri = Some content ->
  copyImageToStorage now sourceUri mealId suffix d
  = (Ok (imagesDir ++ imageFilename now sourceUri mealId suffix),
     setFiles (<[imagesDir ++ imageFilename now sourceUri mealId suffix := content]>
                 (files d)) d).
Proof. intros H. unfold copyImageToStorage. run. by rewrite H. Qed.

Lemma copyImageToStorage_missing now sourceUri mealId suffix d :
  files d !! sourceUri = None ->
  copyImageToStorage now sourceUri mealId suffix d
  = (Throw (FileNotReadable sourceUri), d).
Proof. intros H. unfold copyImageToStorage. run. by rewrite H. Qed.

Lemma extendsFiles_refl d : extendsFiles d d.
Proof. by repeat split. Qed.

Lemma extendsFiles_copy d p content :
  extendsFiles d (setFiles (<[p := content]> (files d)) d).
Proof.
  repeat split; simpl. intros q Hq.
  destruct (decide (p = q)) as [->|Hne].
  - rewrite lookup_insert_eq. eauto.
  - by rewrite lookup_insert_ne.
Qed.

Lemma extendsFiles_trans d1 d2 d3 :
  extendsFiles d1 d2 -> extendsFiles d2 d3 -> extendsFiles d1 d3.
Proof.
  intros (A1 & B1 & C1) (A2 & B2 & C2). repeat split; try congruence. eauto.
Qed.

Lemma copyIfOutside_run (outside : bool) now sourceUri mealId suffix d :
  (outside = true -> is_Some (files d !! sourceUri)) ->
  let stored :=
    if outside then imagesDir ++ imageFilename now sourceUri mealId suffix
    else sourceUri in
  exists d1,
    (if outside then copyImageToStorage now sourceUri mealId suffix
     else ret sourceUri) d = (Ok stored, d1)
    /\ extendsFiles d d1
    /\ (is_Some (files d !! sourceUri) -> is_Some (files d1 !! stored)).
Proof.
  intros Hc. destruct outside; simpl.
  - destruct (Hc eq_refl) as [content Hcontent].
    eexists. rewrite (copyImageToStorage_run _ _ _ _ _ _ Hcontent).
    split; [reflexivity|]. split; [apply extendsFiles_copy|].
    simpl. rewrite lookup_insert_eq. eauto.
  - exists d. unfold ret. split; [done|]. split; [apply extendsFiles_refl|eauto].
Qed.

Lemma required_passes meal :
  hasRequiredMealData meal ->
  negb (Str.truthy (m_id meal)) || negb (Str.truthy (m_timestamp meal))
  || negb (Str.truthy (m_imageUri meal)) || negb (analysisTruthy (m_analysis meal))
  = false.
Proof.
  intros (A & B & C & D).
  apply truthy_true in A, B, C. apply analysisTruthy_true in D.
  by rewrite A, B, C, D.
Qed.

Lemma saveMealAnalysis_run now meal d :
  hasRequiredMealData meal -> imagesCopyable documentDirectory meal d ->
  let unshifted :=
    entryOf (m_id meal) (m_timestamp meal) :: withoutId (m_id meal) (indexMeals d) in
  exists d',
    saveMealAnalysis now meal d = (Ok tt, d')
    /\ indexMeals d' = take MAX_MEALS unshifted
    /\ mealFiles d'
       = deleteAll (map e_filename (drop MAX_MEALS unshifted))
           (<[mealFilename (m_id meal) := MealJson (mealToSave now meal)]> (mealFiles d))
    /\ (forall p, is_Some (files d !! p) -> is_Some (files d' !! p))
    /\ (is_Some (files d !! m_imageUri meal) ->
        is_Some (files d' !! storageImageUri now meal))
    /\ (forall a u, m_afterImageUri meal = Some a -> is_Some (files d !! a) ->
                   storageAfterImageUri now meal = Some u ->
                   is_Some (files d' !! u)).
Proof.
  intros Hreq [Himg Hafter] unshifted.
  unfold saveMealAnalysis.
  rewrite (bind_ok _ _ _ _ _ (initializeStorage_run now d)).
  rewrite (required_passes _ Hreq). unfold when. rewrite bind_ret.
  rewrite <- (initialized_files now d) in Himg.
  destruct (copyIfOutside_run (negb (Str.startsWith (m_imageUri meal) imagesDir))
              now (m_imageUri meal) (m_id meal) "" _ Himg)
    as (d1 & E1 & X1 & S1).
  rewrite (bind_ok _ _ _ _ _ E1).
  fold (storageImageUri now meal) in S1 |- *.
  destruct X1 as (M1 & I1 & F1).
  assert (exists d2,
    (match m_afterImageUri meal with
     | Some a =>
         if Str.truthy a && negb (Str.startsWith a imagesDir)
         then (u <- copyImageToStorage now a (m_id meal) "after" ;; ret (Some u))
         else ret (Some a)
     | None => ret None
     end) d1 = (Ok (storageAfterImageUri now meal), d2)
    /\ extendsFiles d1 d2
    /\ (forall a u, m_afterImageUri meal = Some a -> is_Some (files d !! a) ->
                   storageAfterImageUri now meal = Some u ->
                   is_Some (files d2 !! u))) as (d2 & E2 & X2 & S2).
  { unfold storageAfterImageUri. destruct (m_afterImageUri meal) as [a|] eqn:Ea.
    - destruct (Str.truthy a && negb (Str.startsWith a imagesDir)) eqn:Eo.
      + destruct (Hafter a eq_refl Eo) as [content Hc].
        destruct (F1 a) as [c1 Hc1]; [rewrite initialized_files; eauto|].
        eexists. unfold bind. rewrite (copyImageToStorage_run _ _ _ _ _ _ Hc1).
        unfold ret. split; [reflexivity|]. split; [apply extendsFiles_copy|].
        intros ? u [= <-] _ [= <-]. simpl. rewrite lookup_insert_eq. eauto.
      + exists d1. unfold ret. split; [done|]. split; [apply extendsFiles_refl|].
        intros ? u [= <-] Ha [= <-]. apply F1. by rewrite initialized_files.
    - exists d1. unfold ret. split; [done|]. split; [apply extendsFiles_refl|].
      intros ? u [=]. }
  rewrite (bind_ok _ _ _ _ _ E2).
  fold (mealToSave now meal).
  destruct X2 as (M2 & I2 & F2).
  unfold bind at 1, writeMealFile at 1, modify at 1.
  set (d3 := setMealFiles _ d2).
  destruct (readIndex_run now d3) as [u Eidx].
  rewrite (bind_ok _ _ _ _ _ Eidx). cbn [meals].
  assert (indexMeals d3 = indexMeals d) as ->.
  { rewrite <- (initialized_indexMeals now d). unfold indexMeals, d3. simpl.
    by rewrite I2, I1. }
  fold unshifted.
  rewrite (bind_ok _ _ _ _ _ (keepLastMeals_run unshifted d3)).
  unfold writeIndex, modify. eexists. split; [reflexivity|].
  unfold indexMeals; simpl. split; [done|]. split.
  { by rewrite M2, M1, initialized_mealFiles. }
  split; [|split].
  - intros p Hp. apply F2, F1. by rewrite initialized_files.
  - intros Hp. apply F2, S1. by rewrite initialized_files.
  - done.
Qed.

Lemma startsWith_app (p x : string) : Str.startsWith (p ++ x) p = true.
Proof.
  unfold Str.startsWith. induction p as [|c p IH]; [by destruct x|].
  rewrite append_cons. simpl. rewrite IH. by destruct (ascii_dec c c).
Qed.

(** What [saveMealAnalysis] throws on a record that has the required
    fields: nothing, or the failure of a copy. *)
Lemma saveMealAnalysis_outcomes now meal d :
  hasRequiredMealData meal ->
  (saveMealAnalysis now meal d).1 = Ok tt
  \/ exists p, (saveMealAnalysis now meal d).1 = Throw (FileNotReadable p).
Proof.
  intros Hreq.
  assert (imagesCopyable documentDirectory meal d ->
          (saveMealAnalysis now meal d).1 = Ok tt) as Hok.
  { intros Hc. by destruct (saveMealAnalysis_run now meal d Hreq Hc) as (d' & -> & _). }
  assert (forall k : string -> M Disk unit, forall outside : bool,
    (outside = true -> files d !! m_imageUri meal = None) -> outside = true ->
    exists p, (bind (if outside
                     then copyImageToStorage now (m_imageUri meal) (m_id meal) ""
                     else ret (m_imageUri meal)) k (initialized now d)).1
              = Throw (FileNotReadable p)) as Hfirst.
  { intros k outside Hnone ->. eexists. erewrite bind_throw; [done|].
    apply copyImageToStorage_missing. rewrite initialized_files. auto. }
  unfold saveMealAnalysis in *.
  rewrite (bind_ok _ _ _ _ _ (initializeStorage_run now d)) in *.
  rewrite (required_passes _ Hreq) in *. unfold when in *.
  rewrite bind_ret in *.
  destruct (negb (Str.startsWith (m_imageUri meal) imagesDir)) eqn:Eout.
  - destruct (files d !! m_imageUri meal) as [c|] eqn:Ec.
    2:{ right. by apply (Hfirst _ true). }
    destruct (m_afterImageUri meal) as [a|] eqn:Ea.
    2:{ left. apply Hok. split; [eauto|]. by rewrite Ea. }
    destruct (Str.truthy a && negb (Str.startsWith a imagesDir)) eqn:Eo.
    2:{ left. apply Hok. split; [eauto|]. intros a0 ? Eo'. simplify_eq.
        by rewrite Eo in Eo'. }
    destruct (files d !! a) as [ca|] eqn:Eca.
    { left. apply Hok. split; [eauto|]. intros a0 ? _. simplify_eq. eauto. }
    right. exists a.
    erewrite bind_ok;
      [|apply (copyImageToStorage_run _ _ _ _ _ c); by rewrite initialized_files].
    erewrite bind_throw; [done|].
    erewrite bind_throw; [done|].
    apply copyImageToStorage_missing. simpl.
    rewrite initialized_files, lookup_insert_ne; [done|].
    intros Heq. apply andb_true_iff in Eo as [_ Eo].
    by rewrite <- Heq, startsWith_app in Eo.
  - destruct (m_afterImageUri meal) as [a|] eqn:Ea.
    2:{ left. apply Hok. split; [by rewrite Eout|]. by rewrite Ea. }
    destruct (Str.truthy a && negb (Str.startsWith a imagesDir)) eqn:Eo.
    2:{ left. apply Hok. split; [by rewrite Eout|]. intros a0 ? Eo'. simplify_eq.
        by rewrite Eo in Eo'. }
    destruct (files d !! a) as [ca|] eqn:Eca.
    { left. apply Hok. split; [by rewrite Eout|]. intros a0 ? _. simplify_eq. eauto. }
    right. exists a.
    rewrite bind_ret. erewrite bind_throw; [done|].
    erewrite bind_throw; [done|].
    apply copyImageToStorage_missing. by rewrite initialized_files.
Qed.

Lemma neverThrows_copy e now sourceUri mealId suffix :
  (forall p, e <> FileNotReadable p) ->
  neverThrows e (copyImageToStorage now sourceUri mealId suffix).
Proof.
  intros He d. unfold copyImageToStorage. run.
  destruct (files d !! sourceUri); simpl; [done|]. intros [=]. by eapply He.
Qed.

Lemma neverThrows_readIndex e now : neverThrows e (readIndex now).
Proof. intros d. destruct (readIndex_run now d) as [u Hu]. by rewrite Hu. Qed.

Lemma pendingCopy_run now o mealId suffix d :
  (forall u, toCopy o = Some u -> is_Some (files d !! u)) ->
  exists d1,
    (match o with
     | Some i =>
         if Str.truthy i && Str.truthy (Str.trim i)
         then copyImageToStorage now i mealId suffix
         else ret ""
     | None => ret ""
     end) d
    = (Ok (match toCopy o with
           | Some u => imagesDir ++ imageFilename now u mealId suffix
           | None => ""
           end), d1)
    /\ extendsFiles d d1.
Proof.
  unfold toCopy. intros Hc.
  destruct o as [i|]; [destruct (Str.truthy i && Str.truthy (Str.trim i))|].
  - destruct (Hc i eq_refl) as [content Hcontent].
    eexists. rewrite (copyImageToStorage_run _ _ _ _ _ _ Hcontent).
    split; [reflexivity | apply extendsFiles_copy].
  - exists d. split; [done | apply extendsFiles_refl].
  - exists d. split; [done | apply extendsFiles_refl].
Qed.

Lemma pendingAfterCopy_run now o mealId d :
  (forall u, toCopy o = Some u -> is_Some (files d !! u)) ->
  exists d1,
    (match o with
     | Some a =>
         if Str.truthy a && Str.truthy (Str.trim a)
         then (u <- copyImageToStorage now a mealId "after" ;; ret (Some u))
         else ret None
     | None => ret None
     end) d
    = (Ok (match toCopy o with
           | Some u => Some (imagesDir ++ imageFilename now u mealId "after")
           | None => None
           end), d1)
    /\ extendsFiles d d1.
Proof.
  unfold toCopy. intros Hc.
  destruct o as [i|]; [destruct (Str.truthy i && Str.truthy (Str.trim i))|].
  - destruct (Hc i eq_refl) as [content Hcontent].
    eexists. unfold bind. rewrite (copyImageToStorage_run _ _ _ _ _ _ Hcontent).
    split; [reflexivity | apply extendsFiles_copy].
  - exists d. split; [done | apply extendsFiles_refl].
  - exists d. split; [done | apply extendsFiles_refl].
Qed.

Lemma present_truthy o : ~ missing o -> Str.truthyOpt o = true.
Proof.
  unfold missing. destruct o as [[|c s]|]; simpl; intros H; auto; exfalso; auto.
Qed.

Lemma missing_falsy o : missing o -> Str.truthyOpt o = false.
Proof. by intros [-> | ->]. Qed.

Lemma comment_default (o : option string) :
  (if Str.truthyOpt o then default "" o else "") = default "" o.
Proof. by destruct o as [[|c s]|]. Qed.

Lemma savePendingMeal_run now pendingMeal d :
  ~ missing (p_id pendingMeal) -> ~ missing (p_timestamp pendingMeal) ->
  pendingImagesReadable pendingMeal d ->
  let mealId := default "" (p_id pendingMeal) in
  exists d',
    savePendingMeal now pendingMeal d = (Ok tt, d')
    /\ indexMeals d'
       = entryOf mealId (default "" (p_timestamp pendingMeal))
           :: withoutId mealId (indexMeals d)
    /\ mealFiles d'
       = <[mealFilename mealId := MealJson (pendingToSave documentDirectory now pendingMeal)]>
           (mealFiles d)
    /\ (forall p, is_Some (files d !! p) -> is_Some (files d' !! p)).
Proof.
  intros Hid Hts [Himg Hafter] mealId. unfold savePendingMeal.
  rewrite (bind_ok _ _ _ _ _ (initializeStorage_run now d)).
  rewrite (present_truthy _ Hid), (present_truthy _ Hts). unfold when. simpl negb.
  simpl orb. cbv iota. rewrite bind_ret.
  fold mealId.
  destruct (pendingCopy_run now (p_imageUri pendingMeal) mealId "" (initialized now d))
    as (d1 & E1 & M1 & I1 & F1).
  { intros u Hu. rewrite initialized_files. auto. }
  rewrite (bind_ok _ _ _ _ _ E1).
  destruct (pendingAfterCopy_run now (p_afterImageUri pendingMeal) mealId d1)
    as (d2 & E2 & M2 & I2 & F2).
  { intros u Hu. apply F1. rewrite initialized_files. auto. }
  rewrite (bind_ok _ _ _ _ _ E2).
  rewrite comment_default.
  unfold bind at 1, writeMealFile at 1, modify at 1.
  set (d3 := setMealFiles _ d2).
  destruct (readIndex_run now d3) as [u Eidx].
  rewrite (bind_ok _ _ _ _ _ Eidx). cbn [meals].
  assert (indexMeals d3 = indexMeals d) as ->.
  { rewrite <- (initialized_indexMeals now d). unfold indexMeals, d3. simpl.
    by rewrite I2, I1. }
  unfold writeIndex, modify. eexists. split; [reflexivity|].
  unfold indexMeals; simpl. split; [done|]. split.
  { rewrite M2, M1, initialized_mealFiles. done. }
  intros p Hp. apply F2, F1. by rewrite initialized_files.
Qed.

Lemma savePendingMeal_invalid now pendingMeal d :
  missing (p_id pendingMeal) \/ missing (p_timestamp pendingMeal) ->
  savePendingMeal now pendingMeal d
  = (Throw MissingRequiredPendingMealData, initialized now d).
Proof.
  intros H. unfold savePendingMeal.
  rewrite (bind_ok _ _ _ _ _ (initializeStorage_run now d)).
  assert (negb (Str.truthyOpt (p_id pendingMeal))
          || negb (Str.truthyOpt (p_timestamp pendingMeal)) = true) as ->.
  { destruct H as [H|H]; rewrite (missing_falsy _ H); simpl; [done|].
    apply orb_true_r. }
  done.
Qed.

Lemma savePendingMeal_valid_outcome now pendingMeal d :
  ~ missing (p_id pendingMeal) -> ~ missing (p_timestamp pendingMeal) ->
  (savePendingMeal now pendingMeal d).1 <> Throw MissingRequiredPendingMealData.
Proof.
  intros Hid Hts. unfold savePendingMeal.
  rewrite (bind_ok _ _ _ _ _ (initializeStorage_run now d)).
  rewrite (present_truthy _ Hid), (present_truthy _ Hts). unfold when. simpl negb.
  simpl orb. cbv iota. rewrite bind_ret.
  revert d. generalize (initialized now). intros f d. generalize (f d). clear f d.
  apply neverThrows_bind.
  { destruct (p_imageUri pendingMeal) as [i|]; [|apply neverThrows_ret].
    destruct (_ && _); [|apply neverThrows_ret]. by apply neverThrows_copy. }
  intros uri. apply neverThrows_bind.
  { destruct (p_afterImageUri pendingMeal) as [i|]; [|apply neverThrows_ret].
    destruct (_ && _); [|apply neverThrows_ret].
    apply neverThrows_bind; [by apply neverThrows_copy|].
    intros; apply neverThrows_ret. }
  intros after. apply neverThrows_bind; [apply neverThrows_modify|].
  intros _. apply neverThrows_bind; [apply neverThrows_readIndex|].
  intros idx. apply neverThrows_modify.
Qed.

End StoreFacts.

Section SortFacts.

Variable getTime : string -> option Z.

Local Abbreviation insertEntry := (insertEntry getTime).
Local Abbreviation sortEntries := (sortEntries getTime).
Local Abbreviation validDate := (validDate getTime).
Local Abbreviation newerOrEqual := (newerOrEqual getTime).
Local Abbreviation newestFirst := (newestFirst getTime).

Lemma insertEntry_Permutation x l : insertEntry x l ≡ₚ x :: l.
Proof.
  induction l as [|y l IH]; simpl; [done|].
  destruct (compareEntries getTime x y) as [c|]; [|done].
  destruct (0 <? c); [|done].
  rewrite IH. apply perm_swap.
Qed.

Lemma sortEntries_cons x l : sortEntries (x :: l) = insertEntry x (sortEntries l).
Proof. reflexivity. Qed.

Lemma sortEntries_Permutation l : sortEntries l ≡ₚ l.
Proof.
  induction l as [|x l IH]; [done|].
  rewrite sortEntries_cons, insertEntry_Permutation. by constructor.
Qed.

Lemma newerOrEqual_trans a b c :
  newerOrEqual a b -> newerOrEqual b c -> newerOrEqual a c.
Proof.
  unfold newerOrEqual.
  destruct (getTime (e_timestamp a)), (getTime (e_timestamp b)),
    (getTime (e_timestamp c)); try done. lia.
Qed.

Lemma insertEntry_sorted x l :
  validDate x -> Forall validDate l -> newestFirst l -> newestFirst (insertEntry x l).
Proof.
  unfold newestFirst. intros [tx Hx] Hvalid Hsorted.
  induction Hsorted as [|y l Hl IH Hy]; simpl.
  - repeat constructor.
  - apply Forall_cons in Hvalid as [[ty Hty] Hvalid].
    unfold compareEntries. rewrite Hx, Hty.
    destruct (0 <? ty - tx) eqn:E.
    + apply Z.ltb_lt in E. constructor; [by apply IH|].
      rewrite insertEntry_Permutation. constructor; [|done].
      unfold newerOrEqual. rewrite Hx, Hty. lia.
    + apply Z.ltb_ge in E.
      assert (newerOrEqual x y) as Hxy.
      { unfold newerOrEqual. rewrite Hx, Hty. lia. }
      constructor; [by constructor|]. constructor; [done|].
      eapply Forall_impl; [exact Hy|]. intros z Hz.
      by apply (newerOrEqual_trans x y z).
Qed.

Lemma sortEntries_sorted l : Forall validDate l -> newestFirst (sortEntries l).
Proof.
  induction l as [|x l IH]; intros Hvalid.
  - constructor.
  - apply Forall_cons in Hvalid as [Hx Hvalid].
    rewrite sortEntries_cons. apply insertEntry_sorted; [done| |by apply IH].
    by rewrite sortEntries_Permutation.
Qed.

Lemma findIndex_Some {A} (p : A -> bool) l i :
  findIndex p l = Some i -> exists x, l !! i = Some x /\ p x = true.
Proof.
  revert i. induction l as [|y l IH]; intros i; simpl; [done|].
  destruct (p y) eqn:Ep.
  - intros [= <-]. eauto.
  - destruct (findIndex p l) as [j|]; [|done]. intros [= <-].
    simpl. by apply IH.
Qed.

Lemma syncedEntries_valid mealId timestamp l :
  is_Some (getTime timestamp) -> Forall validDate l ->
  Forall validDate (syncedEntries mealId timestamp l).
Proof.
  intros Hts Hvalid. unfold syncedEntries.
  destruct (findIndex (entryHasId mealId) l) as [i|].
  - apply Forall_alter; [done|]. intros e _ _. exact Hts.
  - by constructor.
Qed.

Lemma syncedEntries_entry mealId timestamp l :
  exists e, e ∈ syncedEntries mealId timestamp l
            /\ e_id e = mealId /\ e_timestamp e = timestamp.
Proof.
  unfold syncedEntries.
  destruct (findIndex (entryHasId mealId) l) as [i|] eqn:Ei.
  - apply findIndex_Some in Ei as (x & Hx & Hp).
    exists (setTimestamp timestamp x). split; [|split].
    + apply list_elem_of_lookup. exists i.
      by rewrite list_lookup_alter_eq, Hx.
    + simpl. unfold entryHasId in Hp. by apply bool_decide_eq_true in Hp.
    + done.
  - exists (entryOf mealId timestamp). split; [left|done].
Qed.

Lemma updateMealAnalysis_run now mealId patch d existing :
  storedMeal mealId d = Some existing ->
  let updatedMeal := clearFlags (spread existing patch) in
  exists d',
    updateMealAnalysis getTime now mealId patch d = (Ok tt, d')
    /\ mealFiles d' = <[mealFilename mealId := MealJson updatedMeal]> (mealFiles d)
    /\ indexMeals d'
       = sortEntries (syncedEntries mealId (m_timestamp updatedMeal) (indexMeals d))
    /\ files d' = files d.
Proof.
  intros Hstored updatedMeal. unfold updateMealAnalysis.
  rewrite (bind_ok _ _ _ _ _ (initializeStorage_run now d)).
  assert (readMealFile (mealFilename mealId) (initialized now d)
          = (Ok existing, initialized now d)) as Hread.
  { unfold storedMeal in Hstored. unfold readMealFile, bind, get.
    rewrite initialized_mealFiles.
    by destruct (mealFiles d !! mealFilename mealId) as [[m|]|]; simplify_eq. }
  rewrite (bind_ok _ _ _ _ _ Hread). fold updatedMeal.
  unfold bind at 1, writeMealFile at 1, modify at 1.
  set (d1 := setMealFiles _ _).
  destruct (readIndex_run now d1) as [u Eidx].
  rewrite (bind_ok _ _ _ _ _ Eidx). cbn [meals].
  assert (indexMeals d1 = indexMeals d) as ->.
  { rewrite <- (initialized_indexMeals now d). done. }
  fold (syncedEntries mealId (m_timestamp updatedMeal) (indexMeals d)).
  unfold writeIndex, modify. eexists. split; [reflexivity|].
  unfold indexMeals; simpl.
  by rewrite initialized_mealFiles, initialized_files.
Qed.

Lemma updateMealAnalysis_missing now mealId patch d :
  storedMeal mealId d = None ->
  exists e, updateMealAnalysis getTime now mealId patch d = (Throw e, initialized now d).
Proof.
  intros Hstored. unfold updateMealAnalysis.
  rewrite (bind_ok _ _ _ _ _ (initializeStorage_run now d)).
  unfold storedMeal in Hstored. unfold readMealFile, bind at 1, bind at 1, get.
  rewrite initialized_mealFiles.
  destruct (mealFiles d !! mealFilename mealId) as [[m|]|]; simplify_eq; eauto.
Qed.

Lemma updateMealAnalysisError_run now mealId d existing :
  storedMeal mealId d = Some existing ->
  exists d',
    updateMealAnalysisError now mealId d = (Ok tt, d')
    /\ mealFiles d' = <[mealFilename mealId := MealJson (errorFlags existing)]> (mealFiles d)
    /\ indexMeals d' = indexMeals d
    /\ files d' = files d.
Proof.
  intros Hstored. unfold updateMealAnalysisError.
  rewrite (bind_ok _ _ _ _ _ (initializeStorage_run now d)).
  assert (readMealFile (mealFilename mealId) (initialized now d)
          = (Ok existing, initialized now d)) as Hread.
  { unfold storedMeal in Hstored. unfold readMealFile, bind, get.
    rewrite initialized_mealFiles.
    by destruct (mealFiles d !! mealFilename mealId) as [[m|]|]; simplify_eq. }
  rewrite (bind_ok _ _ _ _ _ Hread).
  unfold writeMealFile, modify. eexists. split; [reflexivity|]. simpl.
  rewrite initialized_mealFiles, initialized_files.
  split; [done|]. split; [|done].
  rewrite <- (initialized_indexMeals now d). done.
Qed.

Lemma updateMealAnalysisError_missing now mealId d :
  storedMeal mealId d = None ->
  exists e, updateMealAnalysisError now mealId d = (Throw e, initialized now d).
Proof.
  intros Hstored. unfold updateMealAnalysisError.
  rewrite (bind_ok _ _ _ _ _ (initializeStorage_run now d)).
  unfold storedMeal in Hstored. unfold readMealFile, bind at 1, bind at 1, get.
  rewrite initialized_mealFiles.
  destruct (mealFiles d !! mealFilename mealId) as [[m|]|]; simplify_eq; eauto.
Qed.

Lemma clearHistory_run now d :
  exists d',
    clearHistory now d = (Ok tt, d')
    /\ indexMeals d' = []
    /\ mealFiles d' = deleteAll (map e_filename (indexMeals d)) (mealFiles d)
    /\ files d' = files d.
Proof.
  unfold clearHistory.
  rewrite (bind_ok _ _ _ _ _ (initializeStorage_run now d)).
  destruct (readIndex_run now (initialized now d)) as [u Eidx].
  rewrite (bind_ok _ _ _ _ _ Eidx). cbn [meals].
  rewrite (bind_ok _ _ _ _ _ (deleteFiles_run _ _)).
  unfold writeIndex, modify. eexists. split; [reflexivity|]. simpl.
  by rewrite initialized_indexMeals, initialized_mealFiles, initialized_files.
Qed.

Lemma clearHistoryByTimeRange_run now timeRange d :
  timeRange <> all ->
  let cutoffDate := now - rangeMillis timeRange in
  exists d',
    clearHistoryByTimeRange getTime now timeRange d = (Ok tt, d')
    /\ indexMeals d'
       = List.filter (fun r => negb (atOrAfter getTime cutoffDate r)) (indexMeals d)
    /\ mealFiles d'
       = deleteAll
           (map e_filename (List.filter (atOrAfter getTime cutoffDate) (indexMeals d)))
           (mealFiles d)
    /\ files d' = files d.
Proof.
  intros Hrange cutoffDate. unfold clearHistoryByTimeRange.
  rewrite (bind_ok _ _ _ _ _ (initializeStorage_run now d)).
  assert (exists d',
    (index <- readIndex now ;;
     forEach (List.filter (atOrAfter getTime cutoffDate) (meals index))
       (fun mealRef =>
          try_catch (deleteMealFile (e_filename mealRef)) (fun _ => ret tt)) ;;;
     writeIndex now
       (List.filter (fun r => negb (atOrAfter getTime cutoffDate r)) (meals index)))
      (initialized now d) = (Ok tt, d')
    /\ indexMeals d'
       = List.filter (fun r => negb (atOrAfter getTime cutoffDate r)) (indexMeals d)
    /\ mealFiles d'
       = deleteAll
           (map e_filename (List.filter (atOrAfter getTime cutoffDate) (indexMeals d)))
           (mealFiles d)
    /\ files d' = files d) as H.
  { destruct (readIndex_run now (initialized now d)) as [u Eidx].
    rewrite (bind_ok _ _ _ _ _ Eidx). cbn [meals].
    rewrite (bind_ok _ _ _ _ _ (deleteFiles_run _ _)).
    unfold writeIndex, modify. eexists. split; [reflexivity|]. simpl.
    by rewrite initialized_indexMeals, initialized_mealFiles, initialized_files. }
  by destruct timeRange.
Qed.

Lemma clearHistoryByTimeRange_all now d :
  clearHistoryByTimeRange getTime now all d = clearHistory now (initialized now d).
Proof.
  unfold clearHistoryByTimeRange.
  by rewrite (bind_ok _ _ _ _ _ (initializeStorage_run now d)).
Qed.

End SortFacts.

Lemma onDisk_run {A} (c : M Disk A) w r d' :
  c (disk w) = (r, d') -> onDisk c w = (r, setDisk d' w).
Proof. unfold onDisk. by intros ->. Qed.

Section PipelineFacts.

Variable getTime : string -> option Z.

Local Abbreviation processMeal := (processMeal getTime).
Local Abbreviation retryTransition := (retryTransition getTime).
Local Abbreviation expired := (expired getTime).
Local Abbreviation resumeLoop := (resumeLoop getTime).
Local Abbreviation resumePending := (resumePending getTime).
Local Abbreviation processAll := (processAll getTime).
Local Abbreviation updateMealAnalysis := (updateMealAnalysis getTime).

(** What [markFailed] does: it returns; it leaves everything but the meal
    files, the index file and the events as they are; it marks the record
    when it is stored. *)
Lemma markFailed_run c meal w :
  exists w',
    markFailed c meal w = (Ok tt, w')
    /\ geminiRequests w' = geminiRequests w
    /\ healthConnectWrites w' = healthConnectWrites w
    /\ secureStore w' = secureStore w
    /\ files (disk w') = files (disk w)
    /\ (forall existing, storedMeal (m_id meal) (disk w) = Some existing ->
          storedMeal (m_id meal) (disk w') = Some (errorFlags existing)
          /\ mealUpdated w' = withFlags false true meal :: mealUpdated w).
Proof.
  unfold markFailed, try_catch, bind at 1.
  destruct (storedMeal (m_id meal) (disk w)) as [existing|] eqn:Hstored.
  - destruct (updateMealAnalysisError_run (now c) _ _ _ Hstored)
      as (d' & Hrun & Hfiles & _ & Himg).
    rewrite (onDisk_run _ _ _ _ Hrun). eexists. split; [reflexivity|]. simpl.
    do 4 (split; [done|]). intros ? [= <-]. split; [|done].
    unfold storedMeal. by rewrite Hfiles, lookup_insert_eq.
  - destruct (updateMealAnalysisError_missing (now c) _ _ Hstored) as (e & Hrun).
    rewrite (onDisk_run _ _ _ _ Hrun). eexists. split; [reflexivity|]. simpl.
    rewrite initialized_files. do 4 (split; [done|]). intros ? [=].
Qed.

Lemma processMeal_total c meal w : (processMeal c meal w).1 = Ok tt.
Proof.
  unfold processMeal, try_catch.
  match goal with
  | |- context [match ?b w with _ => _ end] => destruct (b w) as [[[]|e] w1]
  end.
  - done.
  - by destruct (markFailed_run c meal w1) as (w' & -> & _).
Qed.

Lemma resumeLoop_run world i l w :
  resumeLoop world i l w = (Ok tt, processAll world i l w).
Proof.
  revert i w. induction l as [|meal l IH]; intros i w; simpl; [done|].
  unfold bind, try_catch. pose proof (processMeal_total (world i) meal w) as H.
  destruct (processMeal (world i) meal w) as [[[]|e] w1]; simpl in *; [|done].
  apply IH.
Qed.

Lemma readMeals_total refs d :
  exists l, readMeals refs d = (Ok l, d).
Proof.
  induction refs as [|r refs [l IH]]; simpl; [by eexists|].
  unfold bind at 1, try_catch, bind at 1, readMealFile, bind at 1, get.
  destruct (mealFiles d !! e_filename r) as [[m|]|]; simpl;
    unfold bind; rewrite IH; eauto.
Qed.

Lemma getMealHistory_total start d :
  exists l, getMealHistory start d = (Ok l, initialized start d).
Proof.
  unfold getMealHistory, try_catch.
  rewrite (bind_ok _ _ _ _ _ (initializeStorage_run start d)).
  destruct (readIndex_run start (initialized start d)) as [u Eidx].
  rewrite (bind_ok _ _ _ _ _ Eidx). cbn [meals].
  destruct (readMeals_total (indexMeals (initialized start d)) (initialized start d))
    as [l ->]. eauto.
Qed.

Lemma resumePending_run start world w meals w1 :
  onDisk (getMealHistory start) w = (Ok meals, w1) ->
  resumePending start world w
  = (Ok tt, processAll world 0 (List.filter needsRetry meals) w1).
Proof.
  intros H. unfold resumePending, try_catch.
  rewrite (bind_ok _ _ _ _ _ H). by rewrite resumeLoop_run.
Qed.

(** [retryTransition] on a stored record: it returns, the record stays
    stored and no file of the device changes. *)
Lemma retryTransition_run c meal w existing :
  storedMeal (m_id meal) (disk w) = Some existing ->
  exists w1 r1,
    retryTransition c meal w = (Ok tt, w1)
    /\ storedMeal (m_id meal) (disk w1) = Some r1
    /\ (flag (m_hasError meal) = true ->
        r1 = clearFlags (spread existing (patchOf (withFlags true false meal))))
    /\ (flag (m_hasError meal) = false -> w1 = w)
    /\ files (disk w1) = files (disk w)
    /\ geminiRequests w1 = geminiRequests w
    /\ healthConnectWrites w1 = healthConnectWrites w
    /\ secureStore w1 = secureStore w.
Proof.
  intros Hstored. unfold retryTransition, when.
  destruct (flag (m_hasError meal)).
  - destruct (updateMealAnalysis_run getTime (now c) (m_id meal)
                (patchOf (withFlags true false meal)) _ _ Hstored)
      as (d' & Hrun & Hfiles & _ & Himg).
    rewrite (bind_ok _ _ _ _ _ (onDisk_run _ _ _ _ Hrun)).
    eexists _, _. split; [reflexivity|]. simpl. split.
    { unfold storedMeal. by rewrite Hfiles, lookup_insert_eq. }
    by repeat split.
  - exists w, existing. by repeat split.
Qed.

Lemma readBase64_run uri w :
  readBase64 uri w
  = (match files (disk w) !! uri with
     | Some content => Ok content
     | None => Throw (FileNotReadable uri)
     end, w).
Proof. unfold readBase64, bind, get. by destruct (files (disk w) !! uri). Qed.

(** [analyse] reads the image files and calls the inference service: its
    outcome depends on the files of the device only, and it changes
    nothing but the list of the requests made. *)
Lemma analyse_run c meal w :
  exists r requests,
    analyse c meal w = (r, setGeminiRequests requests w)
    /\ forall w', files (disk w') = files (disk w) ->
         exists requests',
           analyse c meal w' = (r, setGeminiRequests requests' w').
Proof.
  assert (forall request w0,
            callGemini c request w0
            = (match gemini c request with
               | Some a => Ok a
               | None => Throw AnalysisFailure
               end, setGeminiRequests (request :: geminiRequests w0) w0)) as Hcall.
  { intros request w0. unfold callGemini, bind, modify.
    by destruct (gemini c request). }
  assert (forall w0 : World, w0 = setGeminiRequests (geminiRequests w0) w0) as Hid.
  { by intros []. }
  unfold analyse.
  destruct (negb (Str.truthy (m_imageUri meal))
            || negb (Str.truthy (Str.trim (m_imageUri meal)))).
  - destruct (negb (Str.truthyOpt (m_comment meal))
              || negb (Str.truthy (Str.trim (default "" (m_comment meal))))).
    + eexists _, _. split; [unfold throw; by rewrite (Hid w) at 1|].
      intros w' _. eexists. unfold throw. by rewrite (Hid w') at 1.
    + eexists _, _. split; [apply Hcall|]. intros w' _. eexists. apply Hcall.
  - destruct (Str.truthyOpt (m_afterImageUri meal)).
    + unfold bind at 1. rewrite readBase64_run.
      destruct (files (disk w) !! m_imageUri meal) as [b|] eqn:Eb.
      * unfold bind at 1. rewrite readBase64_run.
        destruct (files (disk w) !! default "" (m_afterImageUri meal)) as [a|] eqn:Ea.
        -- eexists _, _. split; [apply Hcall|]. intros w' Hw'. eexists.
           unfold bind at 1. rewrite readBase64_run, Hw', Eb.
           unfold bind at 1. rewrite readBase64_run, Hw', Ea. apply Hcall.
        -- eexists _, _. split; [by rewrite (Hid w) at 1|]. intros w' Hw'. eexists.
           unfold bind at 1. rewrite readBase64_run, Hw', Eb.
           unfold bind at 1. rewrite readBase64_run, Hw', Ea. by rewrite (Hid w') at 1.
      * eexists _, _. split; [by rewrite (Hid w) at 1|]. intros w' Hw'. eexists.
        unfold bind at 1. rewrite readBase64_run, Hw', Eb. by rewrite (Hid w') at 1.
    + unfold bind at 1. rewrite readBase64_run.
      destruct (files (disk w) !! m_imageUri meal) as [b|] eqn:Eb.
      * eexists _, _. split; [apply Hcall|]. intros w' Hw'. eexists.
        unfold bind at 1. rewrite readBase64_run, Hw', Eb. apply Hcall.
      * eexists _, _. split; [by rewrite (Hid w) at 1|]. intros w' Hw'. eexists.
        unfold bind at 1. rewrite readBase64_run, Hw', Eb. by rewrite (Hid w') at 1.
Qed.

End PipelineFacts.

Section BridgeFacts.

Variable getTime : string -> option Z.

Local Abbreviation writeMealToHealthConnect := (writeMealToHealthConnect getTime).
Local Abbreviation convertMealToNutritionRecord := (convertMealToNutritionRecord getTime).

(** [hasWritePermission] returns, and touches nothing but the permission
    item of the secure store. *)
Lemma hasWritePermission_run hc w :
  exists granted w1,
    hasWritePermission hc w = (Ok granted, w1)
    /\ versionMapItem (secureStore w1) = versionMapItem (secureStore w)
    /\ healthConnectWrites w1 = healthConnectWrites w
    /\ disk w1 = disk w
    /\ geminiRequests w1 = geminiRequests w
    /\ mealUpdated w1 = mealUpdated w.
Proof.
  unfold hasWritePermission, ensureInitialized, setPermissionGranted,
    getPersistedPermission.
  destruct (negb (platformIsAndroid hc) || negb (moduleLoaded hc)); [by eexists _, _|].
  unfold bind at 1, ret at 1.
  destruct (grantedPermissions hc) as [l|].
  - destruct (secureSetFails hc); by eexists _, _.
  - unfold bind, get. destruct (secureGetFails hc); by eexists _, _.
Qed.

Lemma getNextVersion_run hc mealId w :
  getNextVersion hc mealId w
  = (Ok (default 0 ((if secureGetFails hc then ∅ else versionMap w) !! mealId) + 1,
         if secureGetFails hc then ∅ else versionMap w), w).
Proof.
  unfold getNextVersion, readVersionMap, bind, get, versionMap.
  by destruct (secureGetFails hc).
Qed.

Lemma convert_None meal :
  ~ hasTotals meal -> convertMealToNutritionRecord meal = None.
Proof.
  unfold hasTotals, convertMealToNutritionRecord.
  intros H. destruct (m_analysis meal) as [|a]; [done|].
  destruct (total_meal_nutritional_values a) as [totals|] eqn:E; [|done].
  exfalso. apply H. eauto.
Qed.

Lemma convert_Some meal builder version w :
  convertMealToNutritionRecord meal = Some builder ->
  (exists e, builder version w = (Throw e, w))
  \/ (exists record, builder version w = (Ok record, w)
                     /\ clientRecordId record = m_id meal
                     /\ clientRecordVersion record = version).
Proof.
  unfold convertMealToNutritionRecord.
  destruct (m_analysis meal) as [|a]; [done|].
  destruct (total_meal_nutritional_values a) as [totals|]; [|done].
  intros [= <-]. destruct (getTime (m_timestamp meal)) as [t|].
  - right. by eexists.
  - left. by eexists.
Qed.



End BridgeFacts.

(** ** The index stays well formed *)

Lemma keeps_ret {S A} (I : S -> Prop) (a : A) (R : A -> Prop) :
  R a -> keeps I (ret a) R.
Proof. intros Ha s Hs. split; [done|]. by intros ? [= <-]. Qed.

Lemma keeps_throw {S A} (I : S -> Prop) e (R : A -> Prop) :
  keeps I (throw e) R.
Proof. intros s Hs. by split. Qed.

Lemma keeps_bind {S A B} (I : S -> Prop) (c : M S A) (k : A -> M S B) R1 R2 :
  keeps I c R1 -> (forall a, R1 a -> keeps I (k a) R2) -> keeps I (bind c k) R2.
Proof.
  intros Hc Hk s Hs. unfold bind. destruct (Hc s Hs) as [Hs' Ha].
  destruct (c s) as [[a|e] s']; simpl in *; [|by split].
  by apply (Hk a (Ha a eq_refl)).
Qed.

Lemma keeps_catch {S A} (I : S -> Prop) (c : M S A) (h : Error -> M S A) R :
  keeps I c R -> (forall e, keeps I (h e) R) -> keeps I (try_catch c h) R.
Proof.
  intros Hc Hh s Hs. unfold try_catch. destruct (Hc s Hs) as [Hs' Ha].
  destruct (c s) as [[a|e] s']; simpl in *; [by split|].
  by apply Hh.
Qed.

Lemma keeps_modify {S} (I : S -> Prop) (f : S -> S) :
  (forall s, I s -> I (f s)) -> keeps I (modify f) (fun _ => True).
Proof. intros Hf s Hs. split; [by apply Hf|done]. Qed.

Lemma keeps_get {S} (I : S -> Prop) : keeps I get I.
Proof. intros s Hs. split; [done|]. by intros ? [= <-]. Qed.

Lemma keeps_weaken {S A} (I : S -> Prop) (c : M S A) (R R' : A -> Prop) :
  (forall a, R a -> R' a) -> keeps I c R -> keeps I c R'.
Proof. intros HR Hc s Hs. destruct (Hc s Hs) as [Hs' Ha]. split; [done|]. eauto. Qed.

Lemma keeps_when {S} (I : S -> Prop) b (c : M S unit) :
  keeps I c (fun _ => True) -> keeps I (when b c) (fun _ => True).
Proof. intros Hc. destruct b; [done|]. by apply keeps_ret. Qed.

Lemma keeps_forEach {S A} (I : S -> Prop) (l : list A) (body : A -> M S unit) :
  (forall x, keeps I (body x) (fun _ => True)) ->
  keeps I (forEach l body) (fun _ => True).
Proof.
  intros Hbody. induction l as [|x l IH]; simpl; [by apply keeps_ret|].
  eapply keeps_bind; [apply Hbody|]. intros _ _. exact IH.
Qed.

Lemma wellFormedEntries_nil : wellFormedEntries [].
Proof. split; constructor. Qed.

Lemma wellFormedEntries_sublist l l' :
  l' `sublist_of` l -> wellFormedEntries l -> wellFormedEntries l'.
Proof.
  intros Hsub [Hown Hnodup]. split.
  - rewrite Forall_forall in Hown |- *. intros e He.
    apply Hown. by eapply elem_of_sublist.
  - eapply sublist_NoDup; [exact Hnodup|]. by apply fmap_sublist.
Qed.

Lemma withoutId_sublist mealId l : withoutId mealId l `sublist_of` l.
Proof.
  unfold withoutId. induction l as [|x l IH]; simpl; [constructor|].
  destruct (negb _); by constructor.
Qed.

Lemma filter_sublist {A} (p : A -> bool) l : List.filter p l `sublist_of` l.
Proof.
  induction l as [|x l IH]; simpl; [constructor|].
  destruct (p x); by constructor.
Qed.

Lemma wellFormedEntries_unshift mealId timestamp l :
  wellFormedEntries l ->
  wellFormedEntries (entryOf mealId timestamp :: withoutId mealId l).
Proof.
  intros Hl.
  destruct (wellFormedEntries_sublist _ _ (withoutId_sublist mealId l) Hl) as [Hown Hnodup].
  split; [by constructor|]. simpl. apply NoDup_cons. split; [|done].
  intros (e & Hid & He)%list_elem_of_fmap.
  apply list_elem_of_In, filter_In in He as [_ He].
  unfold entryHasId in He. apply negb_true_iff, bool_decide_eq_false in He. done.
Qed.

Lemma wellFormedEntries_Permutation l l' :
  l ≡ₚ l' -> wellFormedEntries l -> wellFormedEntries l'.
Proof.
  intros Hp [Hown Hnodup]. split; [by rewrite <- Hp|].
  by rewrite <- Hp.
Qed.

Lemma findIndex_None {A} (p : A -> bool) l :
  findIndex p l = None -> Forall (fun x => p x = false) l.
Proof.
  induction l as [|y l IH]; simpl; [constructor|].
  destruct (p y) eqn:Ep; [done|].
  destruct (findIndex p l); [done|]. intros _. constructor; [done|]. by apply IH.
Qed.

Lemma alter_setTimestamp_ids timestamp i l :
  map e_id (alter (setTimestamp timestamp) i l) = map e_id l.
Proof.
  change (e_id <$> alter (setTimestamp timestamp) i l = e_id <$> l).
  rewrite (list_fmap_alter e_id (setTimestamp timestamp) (fun x => x) l i).
  - by apply list_alter_id.
  - by apply Forall_true.
Qed.

Lemma wellFormedEntries_synced mealId timestamp l :
  wellFormedEntries l -> wellFormedEntries (syncedEntries mealId timestamp l).
Proof.
  intros [Hown Hnodup]. unfold syncedEntries.
  destruct (findIndex (entryHasId mealId) l) as [i|] eqn:Ei.
  - split.
    + apply Forall_alter; [done|]. intros e _ He. exact He.
    + by rewrite alter_setTimestamp_ids.
  - apply findIndex_None in Ei. split; [by constructor|]. simpl.
    apply NoDup_cons. split; [|done].
    intros (e & Hid & He)%list_elem_of_fmap.
    rewrite Forall_forall in Ei. specialize (Ei e He).
    unfold entryHasId in Ei. apply bool_decide_eq_false in Ei. done.
Qed.

Section IndexInvariant.

Variable documentDirectory : string.
Variable getTime : string -> option Z.

Local Abbreviation unit_ok := (fun _ : unit => True).

Lemma keeps_initializeStorage now :
  keeps wellFormedIndex (initializeStorage now) unit_ok.
Proof.
  intros d Hd. rewrite initializeStorage_run. simpl. split; [|done].
  unfold wellFormedIndex. by rewrite initialized_indexMeals.
Qed.

Lemma keeps_readIndex now :
  keeps wellFormedIndex (readIndex now) (fun index => wellFormedEntries (meals index)).
Proof.
  intros d Hd. destruct (readIndex_run now d) as [u ->]. simpl. split; [done|].
  by intros ? [= <-].
Qed.

Lemma keeps_writeIndex now l :
  wellFormedEntries l -> keeps wellFormedIndex (writeIndex now l) unit_ok.
Proof. intros Hl. by apply keeps_modify. Qed.

Lemma keeps_writeMealFile filename m :
  keeps wellFormedIndex (writeMealFile filename m) unit_ok.
Proof. by apply keeps_modify. Qed.

Lemma keeps_deleteMealFile filename :
  keeps wellFormedIndex (deleteMealFile filename) unit_ok.
Proof. by apply keeps_modify. Qed.

Lemma keeps_readMealFile filename :
  keeps wellFormedIndex (readMealFile filename) (fun _ => True).
Proof.
  intros d Hd. unfold readMealFile, bind, get.
  by destruct (mealFiles d !! filename) as [[m|]|].
Qed.

Lemma keeps_copyImageToStorage now sourceUri mealId suffix :
  keeps wellFormedIndex (copyImageToStorage documentDirectory now sourceUri mealId suffix)
    (fun _ => True).
Proof.
  intros d Hd. unfold copyImageToStorage, bind, get, modify.
  by destruct (files d !! sourceUri).
Qed.

Lemma keeps_deleteFiles (l : list IndexEntry) :
  keeps wellFormedIndex
    (forEach l (fun e => try_catch (deleteMealFile (e_filename e)) (fun _ => ret tt)))
    unit_ok.
Proof.
  apply keeps_forEach. intros e.
  apply keeps_catch; [apply keeps_deleteMealFile|]. intros _. by apply keeps_ret.
Qed.

Lemma keeps_keepLastMeals l :
  wellFormedEntries l -> keeps wellFormedIndex (keepLastMeals l) wellFormedEntries.
Proof.
  intros Hl. unfold keepLastMeals. destruct (MAX_MEALS <? length l)%nat.
  - eapply keeps_bind; [apply keeps_deleteFiles|]. intros _ _.
    apply keeps_ret. eapply wellFormedEntries_sublist; [apply sublist_take|done].
  - by apply keeps_ret.
Qed.

Lemma keeps_unshift now mealId timestamp :
  keeps wellFormedIndex
    (index <- readIndex now ;;
     writeIndex now (entryOf mealId timestamp :: withoutId mealId (meals index)))
    unit_ok.
Proof.
  eapply keeps_bind; [apply keeps_readIndex|]. intros index Hindex.
  by apply keeps_writeIndex, wellFormedEntries_unshift.
Qed.

Lemma keeps_saveMealAnalysis now meal :
  keeps wellFormedIndex (saveMealAnalysis documentDirectory now meal) unit_ok.
Proof.
  unfold saveMealAnalysis.
  eapply keeps_bind; [apply keeps_initializeStorage|]. intros _ _.
  eapply keeps_bind; [apply keeps_when, keeps_throw|]. intros _ _.
  eapply (keeps_bind _ _ _ (fun _ => True)).
  { destruct (negb _); [apply keeps_copyImageToStorage | by apply keeps_ret]. }
  intros storageImageUri _.
  eapply (keeps_bind _ _ _ (fun _ => True)).
  { destruct (m_afterImageUri meal) as [a|]; [|by apply keeps_ret].
    destruct (_ && _); [|by apply keeps_ret].
    eapply keeps_bind; [apply keeps_copyImageToStorage|]. intros u _. by apply keeps_ret. }
  intros storageAfterImageUri _.
  eapply keeps_bind; [apply keeps_writeMealFile|]. intros _ _.
  eapply keeps_bind; [apply keeps_readIndex|]. intros index Hindex.
  eapply keeps_bind; [by apply keeps_keepLastMeals, wellFormedEntries_unshift|].
  intros kept Hkept. by apply keeps_writeIndex.
Qed.

Lemma keeps_savePendingMeal now pendingMeal :
  keeps wellFormedIndex (savePendingMeal documentDirectory now pendingMeal) unit_ok.
Proof.
  unfold savePendingMeal.
  eapply keeps_bind; [apply keeps_initializeStorage|]. intros _ _.
  eapply keeps_bind; [apply keeps_when, keeps_throw|]. intros _ _.
  eapply (keeps_bind _ _ _ (fun _ => True)).
  { destruct (p_imageUri pendingMeal) as [i|]; [|by apply keeps_ret].
    destruct (_ && _); [apply keeps_copyImageToStorage | by apply keeps_ret]. }
  intros storageImageUri _.
  eapply (keeps_bind _ _ _ (fun _ => True)).
  { destruct (p_afterImageUri pendingMeal) as [a|]; [|by apply keeps_ret].
    destruct (_ && _); [|by apply keeps_ret].
    eapply keeps_bind; [apply keeps_copyImageToStorage|]. intros u _. by apply keeps_ret. }
  intros storageAfterImageUri _.
  eapply keeps_bind; [apply keeps_writeMealFile|]. intros _ _.
  apply keeps_unshift.
Qed.

Lemma keeps_saveCommentMeal now mealId timestamp comment :
  keeps wellFormedIndex (saveCommentMeal now mealId timestamp comment) unit_ok.
Proof.
  unfold saveCommentMeal.
  eapply keeps_bind; [apply keeps_initializeStorage|]. intros _ _.
  eapply keeps_bind; [apply keeps_writeMealFile|]. intros _ _.
  apply keeps_unshift.
Qed.

Lemma keeps_updateMealAnalysis now mealId patch :
  keeps wellFormedIndex (updateMealAnalysis getTime now mealId patch) unit_ok.
Proof.
  unfold updateMealAnalysis.
  eapply keeps_bind; [apply keeps_initializeStorage|]. intros _ _.
  eapply keeps_bind; [apply keeps_readMealFile|]. intros existingMeal _.
  eapply keeps_bind; [apply keeps_writeMealFile|]. intros _ _.
  eapply keeps_bind; [apply keeps_readIndex|]. intros index Hindex.
  apply keeps_writeIndex.
  eapply wellFormedEntries_Permutation; [symmetry; apply sortEntries_Permutation|].
  by apply wellFormedEntries_synced.
Qed.

Lemma keeps_updateMealAnalysisError now mealId :
  keeps wellFormedIndex (updateMealAnalysisError now mealId) unit_ok.
Proof.
  unfold updateMealAnalysisError.
  eapply keeps_bind; [apply keeps_initializeStorage|]. intros _ _.
  eapply keeps_bind; [apply keeps_readMealFile|]. intros existingMeal _.
  apply keeps_writeMealFile.
Qed.

Lemma keeps_deleteMeal now mealId :
  keeps wellFormedIndex (deleteMeal now mealId) unit_ok.
Proof.
  unfold deleteMeal.
  eapply keeps_bind; [apply keeps_initializeStorage|]. intros _ _.
  eapply keeps_bind; [apply keeps_readIndex|]. intros index Hindex.
  destruct (List.find _ _); [|by apply keeps_ret].
  eapply keeps_bind; [|intros _ _; apply keeps_deleteMealFile].
  apply keeps_writeIndex.
  eapply wellFormedEntries_sublist; [apply withoutId_sublist|done].
Qed.

Lemma keeps_clearHistory now :
  keeps wellFormedIndex (clearHistory now) unit_ok.
Proof.
  unfold clearHistory.
  eapply keeps_bind; [apply keeps_initializeStorage|]. intros _ _.
  eapply keeps_bind; [apply keeps_readIndex|]. intros index Hindex.
  eapply keeps_bind; [apply keeps_deleteFiles|]. intros _ _.
  apply keeps_writeIndex, wellFormedEntries_nil.
Qed.

Lemma keeps_clearHistoryByTimeRange now timeRange :
  keeps wellFormedIndex (clearHistoryByTimeRange getTime now timeRange) unit_ok.
Proof.
  unfold clearHistoryByTimeRange.
  eapply keeps_bind; [apply keeps_initializeStorage|]. intros _ _.
  destruct timeRange; try apply keeps_clearHistory;
    (eapply keeps_bind; [apply keeps_readIndex|]; intros index Hindex;
     eapply keeps_bind; [apply keeps_deleteFiles|]; intros _ _;
     apply keeps_writeIndex;
     eapply wellFormedEntries_sublist; [apply filter_sublist|done]).
Qed.

Lemma keeps_getMealById now mealId :
  keeps wellFormedIndex (getMealById now mealId) (fun _ => True).
Proof.
  intros d Hd. rewrite getMealById_run. simpl. split; [|done].
  unfold wellFormedIndex. by rewrite initialized_indexMeals.
Qed.

Lemma keeps_getMealHistory now :
  keeps wellFormedIndex (getMealHistory now) (fun _ => True).
Proof.
  intros d Hd. destruct (getMealHistory_total now d) as [l ->]. simpl. split; [|done].
  unfold wellFormedIndex. by rewrite initialized_indexMeals.
Qed.

Lemma wellFormedIndex_fresh images : wellFormedIndex (freshDisk images).
Proof. apply wellFormedEntries_nil. Qed.

Lemma wellFormedIndex_own d : wellFormedIndex d -> indexNamesOwnFiles d.
Proof. by intros [H _]. Qed.

Lemma wellFormedIndex_filenames d :
  wellFormedIndex d -> NoDup (map e_filename (indexMeals d)).
Proof.
  intros [Hown Hnodup].
  assert (map e_filename (indexMeals d) = map mealFilename (map e_id (indexMeals d))) as ->.
  { rewrite map_map. apply map_ext_in. intros e He.
    rewrite Forall_forall in Hown. apply Hown. by apply list_elem_of_In. }
  assert (Inj (=) (=) mealFilename) by (intros a b; apply mealFilename_inj).
  by apply NoDup_fmap_2.
Qed.

(** The services called by the pipeline leave the disk as it is but for the
    calls of the record store. *)
Lemma keeps_onDisk {A} (c : M Disk A) R :
  keeps wellFormedIndex c R -> keeps (fun w => wellFormedIndex (disk w)) (onDisk c) R.
Proof.
  intros Hc w Hw. unfold onDisk. destruct (Hc (disk w) Hw) as [Hd Ha].
  by destruct (c (disk w)) as [r d'].
Qed.

Local Abbreviation worldOk := (fun w : World => wellFormedIndex (disk w)).

Lemma keeps_writeMealToHealthConnect hc meal :
  keeps worldOk (writeMealToHealthConnect getTime hc meal) unit_ok.
Proof.
  assert (forall A (c : M World A),
            (forall w, disk (c w).2 = disk w) -> keeps worldOk c (fun _ => True)) as Hframe.
  { intros A c Hc w Hw. split; [|done]. by rewrite Hc. }
  unfold writeMealToHealthConnect.
  eapply (keeps_bind _ _ _ (fun _ => True)).
  { apply Hframe. intros w. destruct (negb _); [done|].
    by destruct (hasWritePermission_run hc w) as (g & w1 & -> & _ & _ & Hd & _). }
  intros permitted _. destruct (_ || _); [by apply keeps_ret|].
  eapply (keeps_bind _ _ _ (fun _ => True)).
  { apply Hframe. intros w. by rewrite getNextVersion_run. }
  intros [version map] _.
  destruct (convertMealToNutritionRecord getTime meal) as [builder|] eqn:Hconv;
    [|by apply keeps_ret].
  eapply (keeps_bind _ _ _ (fun _ => True)).
  { apply Hframe. intros w.
    by destruct (convert_Some getTime meal builder version w Hconv)
      as [[e ->]|(record & -> & _)]. }
  intros record _.
  eapply (keeps_bind _ _ _ (fun _ => True)).
  { apply Hframe. intros w. unfold ensureInitialized. by destruct (_ || _). }
  intros initOK _. destruct (negb initOK); [by apply keeps_ret|].
  apply keeps_catch; [|intros _; by apply keeps_ret].
  destruct (writeApi hc); try (by apply keeps_ret);
    (eapply keeps_bind; [|intros _ _]; apply Hframe; intros w;
     unfold sendRecord, writeVersionMap, bind, modify;
     [by destruct (writeAccepted hc) | by destruct (secureSetFails hc)]).
Qed.

Lemma keeps_emitMealUpdated meal : keeps worldOk (emitMealUpdated meal) unit_ok.
Proof. by apply keeps_modify. Qed.

Lemma keeps_analyse c meal : keeps worldOk (analyse c meal) (fun _ => True).
Proof.
  intros w Hw. destruct (analyse_run c meal w) as (r & requests & -> & _).
  by split.
Qed.

Lemma keeps_markFailed c meal : keeps worldOk (markFailed c meal) unit_ok.
Proof.
  unfold markFailed. apply keeps_catch; [|intros _; by apply keeps_ret].
  eapply keeps_bind; [apply keeps_onDisk, keeps_updateMealAnalysisError|].
  intros _ _. apply keeps_emitMealUpdated.
Qed.

Lemma keeps_processMeal c meal : keeps worldOk (processMeal getTime c meal) unit_ok.
Proof.
  unfold processMeal. apply keeps_catch; [|intros _; apply keeps_markFailed].
  destruct (expired getTime c meal).
  - eapply keeps_bind; [apply keeps_onDisk, keeps_updateMealAnalysisError|].
    intros _ _. apply keeps_emitMealUpdated.
  - eapply keeps_bind.
    { unfold retryTransition. apply keeps_when.
      eapply keeps_bind; [apply keeps_onDisk, keeps_updateMealAnalysis|].
      intros _ _. apply keeps_emitMealUpdated. }
    intros _ _. eapply keeps_bind; [apply keeps_analyse|]. intros analysis _.
    eapply keeps_bind; [apply keeps_onDisk, keeps_updateMealAnalysis|]. intros _ _.
    eapply keeps_bind; [|intros _ _; apply keeps_emitMealUpdated].
    apply keeps_when, keeps_catch; [apply keeps_writeMealToHealthConnect|].
    intros _. by apply keeps_ret.
Qed.

Lemma keeps_resumePending start world :
  keeps worldOk (resumePending getTime start world) unit_ok.
Proof.
  unfold resumePending. apply keeps_catch; [|intros _; by apply keeps_ret].
  eapply keeps_bind; [apply keeps_onDisk, keeps_getMealHistory|]. intros meals _.
  generalize 0%nat. induction (List.filter needsRetry meals) as [|meal l IH]; intros i.
  - by apply keeps_ret.
  - simpl. eapply keeps_bind; [|intros _ _; apply IH].
    apply keeps_catch; [apply keeps_processMeal|]. intros _. by apply keeps_ret.
Qed.

Lemma keeps_retryMeal c mealId : keeps worldOk (retryMeal getTime c mealId) unit_ok.
Proof.
  unfold retryMeal.
  eapply keeps_bind; [apply keeps_onDisk, keeps_getMealById|]. intros [meal|] _.
  - apply keeps_processMeal.
  - apply keeps_throw.
Qed.

End IndexInvariant.

(** ** Properties of the record store *)

Section StoreProperties.

Variable documentDirectory : string.
Variable getTime : string -> option Z.

Local Abbreviation imagesDir := (imagesDir documentDirectory).
Local Abbreviation saveMealAnalysis := (saveMealAnalysis documentDirectory).
Local Abbreviation savePendingMeal := (savePendingMeal documentDirectory).
Local Abbreviation updateMealAnalysis := (updateMealAnalysis getTime).
Local Abbreviation clearHistoryByTimeRange := (clearHistoryByTimeRange getTime).
Local Abbreviation mealToSave := (mealToSave documentDirectory).
Local Abbreviation pendingToSave := (pendingToSave documentDirectory).
Local Abbreviation imagesCopyable := (imagesCopyable documentDirectory).
Local Abbreviation storageImageUri := (storageImageUri documentDirectory).

Lemma saveMealAnalysis_invalid now meal d :
  m_id meal = "" \/ m_timestamp meal = "" \/ m_imageUri meal = ""
  \/ m_analysis meal = ANull ->
  saveMealAnalysis now meal d = (Throw MissingRequiredMealData, initialized now d).
Proof.
  intros H. unfold saveMealAnalysis.
  rewrite (bind_ok _ _ _ _ _ (initializeStorage_run now d)).
  assert (negb (Str.truthy (m_id meal)) || negb (Str.truthy (m_timestamp meal))
          || negb (Str.truthy (m_imageUri meal))
          || negb (analysisTruthy (m_analysis meal)) = true) as ->; [|done].
  destruct H as [-> | [-> | [-> | ->]]]; simpl; rewrite ?orb_true_r; done.
Qed.

Lemma hasRequiredMealData_dec meal :
  hasRequiredMealData meal
  \/ (m_id meal = "" \/ m_timestamp meal = "" \/ m_imageUri meal = ""
      \/ m_analysis meal = ANull).
Proof.
  unfold hasRequiredMealData.
  destruct (decide (m_id meal = "")); [by auto|].
  destruct (decide (m_timestamp meal = "")); [by auto|].
  destruct (decide (m_imageUri meal = "")); [by auto 6|].
  destruct (m_analysis meal); [by auto 6|]. left. by repeat split.
Qed.

(** A file of the index that is not the file of [mealId] survives the
    deletion of the files of entries with other ids. *)
Lemma own_file_survives mealId (l : list IndexEntry) m :
  Forall (fun e => e_filename e = mealFilename (e_id e)) l ->
  Forall (fun e => e_id e <> mealId) l ->
  deleteAll (map e_filename l) m !! mealFilename mealId = m !! mealFilename mealId.
Proof.
  intros Hown Hother. rewrite deleteAll_lookup.
  rewrite bool_decide_eq_false_2; [done|].
  intros (e & Hf & He)%list_elem_of_fmap.
  rewrite Forall_forall in Hown, Hother.
  rewrite (Hown e He) in Hf. apply mealFilename_inj in Hf.
  by apply (Hother e He).
Qed.

Lemma withoutId_other mealId l : Forall (fun e => e_id e <> mealId) (withoutId mealId l).
Proof.
  unfold withoutId. apply Forall_forall. intros e He.
  apply list_elem_of_In, filter_In in He as [_ He].
  unfold entryHasId in He. by apply negb_true_iff, bool_decide_eq_false in He.
Qed.

Lemma withoutId_elem mealId l e :
  e ∈ withoutId mealId l <-> e ∈ l /\ e_id e <> mealId.
Proof.
  unfold withoutId. rewrite !list_elem_of_In, filter_In.
  unfold entryHasId. rewrite negb_true_iff, bool_decide_eq_false. done.
Qed.

Lemma withoutId_own mealId l :
  Forall (fun e => e_filename e = mealFilename (e_id e)) l ->
  Forall (fun e => e_filename e = mealFilename (e_id e)) (withoutId mealId l).
Proof.
  rewrite !Forall_forall. intros H e [He _]%withoutId_elem. auto.
Qed.

Lemma drop_cap_cons (x : IndexEntry) l : drop MAX_MEALS (x :: l) = drop 49 l.
Proof. reflexivity. Qed.

(** C2, amended. [saveMealAnalysis] throws its validation error exactly
    when the id, the timestamp, the image URI or the analysis is missing;
    the comment plays no part. A record that has these four fields, and
    whose images to copy are files of the device, is stored: the call
    returns, [getMealById] returns the record with the URIs of the stored
    images, and its entry is the first of the index (the index naming the
    file of each of its ids, as a well formed index does). *)
Theorem create_validation now meal d :
  ((saveMealAnalysis now meal d).1 = Throw MissingRequiredMealData
   <-> (m_id meal = "" \/ m_timestamp meal = "" \/ m_imageUri meal = ""
        \/ m_analysis meal = ANull))
  /\ (hasRequiredMealData meal -> imagesCopyable meal d -> indexNamesOwnFiles d ->
      (saveMealAnalysis now meal d).1 = Ok tt
      /\ (getMealById now (m_id meal) (saveMealAnalysis now meal d).2).1
         = Ok (Some (mealToSave now meal))
      /\ head (indexMeals (saveMealAnalysis now meal d).2)
         = Some (entryOf (m_id meal) (m_timestamp meal))).
Proof.
  split.
  - split.
    + intros Hthrow. destruct (hasRequiredMealData_dec meal) as [Hreq|Hinv]; [|done].
      destruct (saveMealAnalysis_outcomes documentDirectory now meal d Hreq)
        as [Hok|[p Hp]]; congruence.
    + intros Hinv. by rewrite saveMealAnalysis_invalid.
  - intros Hreq Hcopy Hown.
    destruct (saveMealAnalysis_run documentDirectory now meal d Hreq Hcopy)
      as (d' & -> & Hidx & Hfiles & _).
    simpl. split; [done|]. rewrite getMealById_run. simpl. split.
    + f_equal. unfold storedMeal. rewrite Hfiles.
      rewrite drop_cap_cons, own_file_survives.
      * by rewrite lookup_insert_eq.
      * apply Forall_drop. by apply withoutId_own.
      * apply Forall_drop, withoutId_other.
    + rewrite Hidx. done.
Qed.

(** C5, amended. [savePendingMeal] throws its validation error exactly
    when the id or the timestamp is missing; the image and the comment may
    both be missing. A record with an id and a timestamp, whose images to
    copy are files of the device, is stored with [isLoading = true],
    [hasError = false], [analysis = null], the comment defaulting to the
    empty string; its entry is the first of the index and no other entry
    of the index has its id. *)
Theorem createPending_contract now pendingMeal d :
  ((savePendingMeal now pendingMeal d).1 = Throw MissingRequiredPendingMealData
   <-> (missing (p_id pendingMeal) \/ missing (p_timestamp pendingMeal)))
  /\ (~ missing (p_id pendingMeal) -> ~ missing (p_timestamp pendingMeal) ->
      pendingImagesReadable pendingMeal d ->
      let mealId := default "" (p_id pendingMeal) in
      let d' := (savePendingMeal now pendingMeal d).2 in
      (savePendingMeal now pendingMeal d).1 = Ok tt
      /\ (getMealById now mealId d').1 = Ok (Some (pendingToSave now pendingMeal))
      /\ m_isLoading (pendingToSave now pendingMeal) = Some true
      /\ m_hasError (pendingToSave now pendingMeal) = Some false
      /\ m_analysis (pendingToSave now pendingMeal) = ANull
      /\ exists rest,
           indexMeals d' = entryOf mealId (default "" (p_timestamp pendingMeal)) :: rest
           /\ Forall (fun e => e_id e <> mealId) rest).
Proof.
  assert (forall o, missing o \/ ~ missing o) as Hdec.
  { intros [[|c s]|]; unfold missing; auto. right. intros [|]; congruence. }
  split.
  - split.
    + intros Hthrow.
      destruct (Hdec (p_id pendingMeal)) as [|Hid]; [by left|].
      destruct (Hdec (p_timestamp pendingMeal)) as [|Hts]; [by right|].
      by destruct (savePendingMeal_valid_outcome documentDirectory now pendingMeal d Hid Hts).
    + intros Hinv. by rewrite savePendingMeal_invalid.
  - intros Hid Hts Himg mealId d'. subst d'.
    destruct (savePendingMeal_run documentDirectory now pendingMeal d Hid Hts Himg)
      as (d' & -> & Hidx & Hfiles & _).
    simpl. split; [done|]. rewrite getMealById_run. simpl.
    split; [|repeat split].
    + f_equal. unfold storedMeal. rewrite Hfiles. by rewrite lookup_insert_eq.
    + eexists. split; [exact Hidx|]. apply withoutId_other.
Qed.

(** C3. On a stored record, [updateMealAnalysis] returns and leaves the
    record stored with [isLoading = false] and [hasError = false], whatever
    the keys of the update; the index then holds an entry of the record
    with the timestamp of the updated record and, the timestamps of the
    index being dates, is sorted by timestamp, descending. *)
Theorem update_clears_and_sorts now mealId patch d existing :
  storedMeal mealId d = Some existing ->
  let d' := (updateMealAnalysis now mealId patch d).2 in
  let updatedMeal := clearFlags (spread existing patch) in
  (updateMealAnalysis now mealId patch d).1 = Ok tt
  /\ (getMealById now mealId d').1 = Ok (Some updatedMeal)
  /\ m_isLoading updatedMeal = Some false
  /\ m_hasError updatedMeal = Some false
  /\ (exists e, e ∈ indexMeals d' /\ e_id e = mealId
                /\ e_timestamp e = m_timestamp updatedMeal)
  /\ (Forall (validDate getTime) (indexMeals d) ->
      is_Some (getTime (m_timestamp updatedMeal)) ->
      newestFirst getTime (indexMeals d')).
Proof.
  intros Hstored d' updatedMeal. subst d'.
  destruct (updateMealAnalysis_run getTime now mealId patch d existing Hstored)
    as (d' & -> & Hfiles & Hidx & _).
  simpl. split; [done|]. rewrite getMealById_run. simpl.
  split; [|split; [done|split; [done|split]]].
  - f_equal. unfold storedMeal. by rewrite Hfiles, lookup_insert_eq.
  - destruct (syncedEntries_entry mealId (m_timestamp updatedMeal) (indexMeals d))
      as (e & He & Hid & Hts).
    exists e. split; [|done]. fold updatedMeal in Hidx.
    by rewrite Hidx, sortEntries_Permutation.
  - intros Hvalid Hts. fold updatedMeal in Hidx. rewrite Hidx.
    apply sortEntries_sorted. by apply syncedEntries_valid.
Qed.

(** C6. For a range among hour, day, month and year,
    [clearHistoryByTimeRange] returns and, with the cutoff [now - range],
    the range being 3 600 000 ms for the hour, 24 hours for the day, 30
    days for the month and 365 days for the year, writes the index of the
    entries that are not at or after the cutoff, in their order: an entry
    whose timestamp is at or after the cutoff leaves the index and its file
    is deleted; an entry whose timestamp is before the cutoff stays and
    (the entries of the index having distinct files, as in a well formed
    index) its file is untouched; an entry whose timestamp is not a date
    stays. For the range all, the index is emptied and the file of every
    entry is deleted. *)
Theorem clear_by_time_range now timeRange d :
  let d' := (clearHistoryByTimeRange now timeRange d).2 in
  (clearHistoryByTimeRange now timeRange d).1 = Ok tt
  /\ (forall range, millisOfRange timeRange = Some range ->
      let cutoffDate := now - range in
      indexMeals d'
      = List.filter (fun r => negb (atOrAfter getTime cutoffDate r)) (indexMeals d)
      /\ (forall e t, e ∈ indexMeals d -> getTime (e_timestamp e) = Some t ->
                     cutoffDate <= t ->
                     (e ∉ indexMeals d') /\ mealFiles d' !! e_filename e = None)
      /\ (forall e t, e ∈ indexMeals d -> getTime (e_timestamp e) = Some t ->
                     t < cutoffDate ->
                     e ∈ indexMeals d'
                     /\ (NoDup (map e_filename (indexMeals d)) ->
                         mealFiles d' !! e_filename e = mealFiles d !! e_filename e))
      /\ (forall e, e ∈ indexMeals d -> getTime (e_timestamp e) = None ->
                   e ∈ indexMeals d'))
  /\ (timeRange = all ->
      indexMeals d' = []
      /\ forall e, e ∈ indexMeals d -> mealFiles d' !! e_filename e = None).
Proof.
  intros d'. subst d'.
  destruct (decide (timeRange = all)) as [->|Hrange].
  - rewrite clearHistoryByTimeRange_all.
    destruct (clearHistory_run now (initialized now d)) as (d' & -> & Hidx & Hfiles & _).
    simpl. split; [done|]. split; [done|]. intros _. split; [done|].
    intros e He. rewrite Hfiles, deleteAll_lookup, bool_decide_eq_true_2; [done|].
    rewrite initialized_indexMeals. by apply list_elem_of_fmap_2.
  - destruct (clearHistoryByTimeRange_run getTime now timeRange d Hrange)
      as (d' & -> & Hidx & Hfiles & _).
    simpl. split; [done|]. split; [|done]. intros range Hmillis.
    assert (rangeMillis timeRange = range) as Hlength.
    { destruct timeRange; try discriminate Hmillis; injection Hmillis as <-; reflexivity. }
    rewrite Hlength in Hidx, Hfiles. clear Hlength Hmillis.
    split; [done|]. split; [|split].
    + intros e t He Ht Hcut.
      assert (atOrAfter getTime (now - range) e = true) as Hat.
      { unfold atOrAfter. rewrite Ht. by apply Z.leb_le. }
      split.
      * rewrite Hidx, list_elem_of_In, filter_In. intros [_ H]. by rewrite Hat in H.
      * rewrite Hfiles, deleteAll_lookup, bool_decide_eq_true_2; [done|].
        apply list_elem_of_fmap_2, list_elem_of_In, filter_In.
        by rewrite <- list_elem_of_In.
    + intros e t He Ht Hcut.
      assert (atOrAfter getTime (now - range) e = false) as Hat.
      { unfold atOrAfter. rewrite Ht. by apply Z.leb_gt. }
      split.
      * rewrite Hidx, list_elem_of_In, filter_In, <- list_elem_of_In.
        by rewrite Hat.
      * intros Hnodup.
        rewrite Hfiles, deleteAll_lookup, bool_decide_eq_false_2; [done|].
        intros (e' & Hf & He')%list_elem_of_fmap.
        apply list_elem_of_In, filter_In in He' as [He' Hat'].
        apply list_elem_of_In in He'.
        assert (e = e') as <-; [|congruence].
        apply list_elem_of_lookup in He as [i Hi], He' as [j Hj].
        assert (i = j) as <-; [|congruence].
        eapply NoDup_lookup; [exact Hnodup| |];
          rewrite list_lookup_fmap; [by rewrite Hi | rewrite Hj; simpl; congruence].
    + intros e He Ht.
      rewrite Hidx, list_elem_of_In, filter_In, <- list_elem_of_In.
      unfold atOrAfter. by rewrite Ht.
Qed.

End StoreProperties.

(** ** The retention cap of [saveMealAnalysis] *)

Section Retention.

Variable documentDirectory : string.

Local Abbreviation saveMealAnalysis := (saveMealAnalysis documentDirectory).
Local Abbreviation mealToSave := (mealToSave documentDirectory).
Local Abbreviation storageImageUri := (storageImageUri documentDirectory).
Local Abbreviation storageAfterImageUri := (storageAfterImageUri documentDirectory).
Local Abbreviation createAll := (createAll documentDirectory).
Local Abbreviation allCreated := (allCreated documentDirectory).

Lemma createAll_snoc calls c d :
  createAll (calls ++ [c]) d = (saveMealAnalysis c.1 c.2 (createAll calls d)).2.
Proof. revert d. induction calls as [|c' calls IH]; intros d; simpl; [done|apply IH]. Qed.

Lemma allCreated_snoc calls c d :
  allCreated calls d ->
  (saveMealAnalysis c.1 c.2 (createAll calls d)).1 = Ok tt ->
  allCreated (calls ++ [c]) d.
Proof.
  revert d. induction calls as [|c' calls IH]; intros d; simpl; [done|].
  intros [H1 H2] H3. split; [done|]. by apply IH.
Qed.

Lemma withoutId_fresh mealId l :
  Forall (fun e => e_id e <> mealId) l -> withoutId mealId l = l.
Proof.
  unfold withoutId. induction 1 as [|e l He _ IH]; simpl; [done|].
  unfold entryHasId at 1. rewrite bool_decide_eq_false_2 by done. simpl. by rewrite IH.
Qed.

Lemma take_cap_cons (x : IndexEntry) l : take MAX_MEALS (x :: l) = x :: take 49 l.
Proof. reflexivity. Qed.

Lemma imagesOnDisk_copyable meal d :
  imagesOnDisk meal d -> imagesCopyable documentDirectory meal d.
Proof.
  intros [H1 H2]. split; [done|]. intros a Ha [Hne _]%andb_true_iff.
  apply H2; [done|]. by apply truthy_true.
Qed.

Lemma elem_take {A} (x : A) n l : x ∈ take n l -> x ∈ l.
Proof. intros H. exact (elem_of_sublist _ _ _ H (sublist_take _ _)). Qed.

Lemma elem_drop {A} (x : A) n l : x ∈ drop n l -> x ∈ l.
Proof. intros H. exact (elem_of_sublist _ _ _ H (sublist_drop _ _)). Qed.

Lemma entry_ids calls : map e_id (map entryOfCall calls) = map callId calls.
Proof. by rewrite <- list_fmap_compose. Qed.

Lemma storageAfter_source meal now u :
  storageAfterImageUri now meal = Some u -> u <> "" ->
  exists a, m_afterImageUri meal = Some a /\ a <> "".
Proof.
  unfold storageAfterImageUri.
  destruct (m_afterImageUri meal) as [a|]; [|done].
  destruct (Str.truthy a && _) eqn:E.
  - intros _ _. exists a. split; [done|].
    apply andb_true_iff in E as [E _]. by apply truthy_true.
  - intros [= ->] Hne. by exists u.
Qed.

(** The state of the store after a sequence of calls on a fresh disk. *)
Lemma createAll_invariant images calls :
  NoDup (map callId calls) ->
  Forall (fun c => hasRequiredMealData c.2 /\ imagesOnDisk c.2 (freshDisk images)) calls ->
  let d := createAll calls (freshDisk images) in
  allCreated calls (freshDisk images)
  /\ indexMeals d = take MAX_MEALS (reverse (map entryOfCall calls))
  /\ (forall f, is_Some (mealFiles d !! f) ->
                exists e, e ∈ indexMeals d /\ f = e_filename e)
  /\ (forall c, c ∈ calls -> entryOfCall c ∈ indexMeals d ->
                mealFiles d !! mealFilename (callId c)
                = Some (MealJson (mealToSave c.1 c.2)))
  /\ (forall p, is_Some (images !! p) -> is_Some (files d !! p))
  /\ (forall c, c ∈ calls ->
        is_Some (files d !! storageImageUri c.1 c.2)
        /\ forall u, storageAfterImageUri c.1 c.2 = Some u -> u <> "" ->
                     is_Some (files d !! u)).
Proof.
  induction calls as [|c calls IH] using rev_ind; intros Hnodup Hvalid d.
  { subst d. simpl. split; [done|]. split; [done|]. split.
    { intros f [x Hx]. by rewrite lookup_empty in Hx. }
    split; [intros c Hc; by apply elem_of_nil in Hc|].
    split; [done|]. intros c Hc. by apply elem_of_nil in Hc. }
  rewrite map_app in Hnodup. apply NoDup_app in Hnodup as (Hnodup & Hfresh & _).
  apply Forall_app in Hvalid as [Hvalid Hc].
  apply Forall_singleton in Hc as [Hreq Himg].
  destruct (IH Hnodup Hvalid) as (Hall & Hidx & Hfiles & Hcontent & Hmono & Hblobs).
  clear IH. subst d. rewrite createAll_snoc.
  set (d := createAll calls (freshDisk images)) in *.
  assert (forall c', c' ∈ calls -> callId c' <> m_id c.2) as Hfresh'.
  { intros c' Hc' Heq. apply (Hfresh (callId c')); [by apply list_elem_of_fmap_2|].
    rewrite Heq. by left. }
  assert (imagesOnDisk c.2 d) as Himg'.
  { destruct Himg as [H1 H2]. split; [by apply Hmono|].
    intros a Ha Hne. by apply Hmono, H2. }
  destruct (saveMealAnalysis_run documentDirectory c.1 c.2 d Hreq
              (imagesOnDisk_copyable _ _ Himg'))
    as (d' & Hrun & Hidx' & Hfiles' & Hmono' & Hblob' & Hafter').
  rewrite Hrun in *. simpl.
  assert (forall e, e ∈ indexMeals d -> exists c', c' ∈ calls /\ e = entryOfCall c')
    as Hentries.
  { intros e He. rewrite Hidx in He.
    apply elem_take, elem_of_reverse, list_elem_of_fmap in He as (c' & -> & Hc'). eauto. }
  assert (Forall (fun e => e_id e <> m_id c.2) (indexMeals d)) as Hother.
  { apply Forall_forall. intros e (c' & Hc' & ->)%Hentries. by apply Hfresh'. }
  rewrite (withoutId_fresh _ _ Hother) in Hidx', Hfiles'.
  fold (entryOfCall c) in Hidx', Hfiles'.
  set (L := entryOfCall c :: indexMeals d) in *.
  assert (forall e, e ∈ L -> e_filename e = mealFilename (e_id e)) as Hown.
  { intros e [->|(c' & _ & ->)%Hentries]%elem_of_cons; done. }
  assert (NoDup (map e_id L)) as Hnd.
  { unfold L. simpl. apply NoDup_cons. split.
    - intros (e & He1 & He2)%list_elem_of_fmap.
      rewrite Forall_forall in Hother. by apply (Hother _ He2).
    - rewrite Hidx. eapply sublist_NoDup; [|apply fmap_sublist, sublist_take].
      rewrite fmap_reverse, entry_ids, reverse_Permutation. exact Hnodup. }
  rewrite <- (take_drop MAX_MEALS L), map_app in Hnd.
  apply NoDup_app in Hnd as (_ & Hsplit & _).
  assert (forall x, entryOfCall x ∈ take MAX_MEALS L ->
                    mealFilename (callId x) ∉ map e_filename (drop MAX_MEALS L)) as Hkept.
  { intros x Hx (e & Hf & He)%list_elem_of_fmap.
    rewrite (Hown e (elem_drop _ _ _ He)) in Hf. apply mealFilename_inj in Hf.
    apply (Hsplit (callId x)).
    - by apply (list_elem_of_fmap_2 e_id) in Hx.
    - rewrite Hf. by apply list_elem_of_fmap_2. }
  split.
  { apply allCreated_snoc; [done|].
    change ((saveMealAnalysis c.1 c.2 d).1 = Ok tt). by rewrite Hrun. }
  split.
  { rewrite Hidx'. unfold L. rewrite Hidx, map_app. simpl map.
    rewrite reverse_snoc, !take_cap_cons. f_equal. by rewrite take_take. }
  split; [|split; [|split; [|]]].
  - intros f Hf. rewrite Hfiles', deleteAll_lookup in Hf.
    destruct (bool_decide _) eqn:Edel in Hf; [by destruct Hf|].
    apply bool_decide_eq_false in Edel.
    assert (exists e, e ∈ L /\ f = e_filename e) as (e & He & ->).
    { destruct (decide (f = mealFilename (m_id c.2))) as [->|Hne].
      - exists (entryOfCall c). split; [left|done].
      - rewrite lookup_insert_ne in Hf by done.
        destruct (Hfiles f Hf) as (e & He & ->). exists e. split; [by right|done]. }
    exists e. split; [|done]. rewrite Hidx'.
    rewrite <- (take_drop MAX_MEALS L) in He.
    apply elem_of_app in He as [He|He]; [done|].
    exfalso. apply Edel. by apply list_elem_of_fmap_2.
  - intros c0 Hc0 Hin. rewrite Hidx' in Hin. rewrite Hfiles', deleteAll_lookup.
    rewrite bool_decide_eq_false_2 by by apply Hkept.
    apply elem_of_app in Hc0 as [Hc0|Hc0%list_elem_of_singleton].
    + rewrite lookup_insert_ne.
      2:{ intros Heq%mealFilename_inj. by apply (Hfresh' c0 Hc0). }
      apply Hcontent; [done|].
      apply elem_take, elem_of_cons in Hin as [Heq|Hin]; [|done].
      exfalso. apply (Hfresh' c0 Hc0). by apply (f_equal e_id) in Heq.
    + subst c0. unfold callId. by rewrite lookup_insert_eq.
  - intros p Hp. by apply Hmono', Hmono.
  - intros c0 [Hc0|Hc0%list_elem_of_singleton]%elem_of_app.
    + destruct (Hblobs c0 Hc0) as [H1 H2]. split; [by apply Hmono'|].
      intros u Hu Hne. by apply Hmono', H2.
    + subst c0. destruct Himg' as [H1 H2]. split; [by apply Hblob'|].
      intros u Hu Hne. destruct (storageAfter_source _ _ _ Hu Hne) as (a & Ha & Hane).
      apply (Hafter' a u Ha); [|done]. by apply H2.
Qed.

(** C1. A sequence of [50 + k] calls of [saveMealAnalysis] on a fresh
    store, for records with distinct ids, the required fields and images
    on the device: every call returns and the index is left with exactly
    50 entries, those of the last 50 records, most recent first. For each
    of the first [k] records [getMealById] returns [null], while its
    stored image (and its stored after image) is still a file of the
    device; each of the last 50 records is returned by [getMealById]. *)
Theorem retention_cap_on_create images calls k :
  (0 < k)%nat ->
  length calls = (MAX_MEALS + k)%nat ->
  NoDup (map callId calls) ->
  Forall (fun c => hasRequiredMealData c.2 /\ imagesOnDisk c.2 (freshDisk images)) calls ->
  let d := createAll calls (freshDisk images) in
  allCreated calls (freshDisk images)
  /\ (forall now, (getMealCount now d).1 = Ok 50%nat)
  /\ map e_id (indexMeals d) = reverse (map callId (drop k calls))
  /\ (forall now c, c ∈ take k calls -> (getMealById now (callId c) d).1 = Ok None)
  /\ (forall c, c ∈ take k calls ->
        is_Some (files d !! storageImageUri c.1 c.2)
        /\ forall u, storageAfterImageUri c.1 c.2 = Some u -> u <> "" ->
                     is_Some (files d !! u))
  /\ (forall now c, c ∈ drop k calls ->
        (getMealById now (callId c) d).1 = Ok (Some (mealToSave c.1 c.2))).
Proof.
  intros _ Hlen Hnodup Hvalid d.
  destruct (createAll_invariant images calls Hnodup Hvalid)
    as (Hall & Hidx & Hfiles & Hcontent & _ & Hblobs).
  fold d in Hidx, Hfiles, Hcontent, Hblobs.
  assert (indexMeals d = reverse (map entryOfCall (drop k calls))) as Hlast.
  { rewrite Hidx. rewrite <- (take_drop k calls) at 1.
    rewrite map_app, reverse_app. apply take_app_length'.
    rewrite length_reverse, length_map, length_drop. lia. }
  assert (forall c, c ∈ drop k calls -> entryOfCall c ∈ indexMeals d) as Hin.
  { intros c Hc. rewrite Hlast. by apply elem_of_reverse, list_elem_of_fmap_2. }
  split; [done|]. split; [|split; [|split; [|split]]].
  - intros now. rewrite getMealCount_run. simpl.
    rewrite Hlast, length_reverse, length_map, length_drop. f_equal.
    unfold MAX_MEALS in Hlen. lia.
  - by rewrite Hlast, fmap_reverse, entry_ids.
  - intros now c Hc. rewrite getMealById_run. simpl. f_equal. unfold storedMeal.
    destruct (mealFiles d !! mealFilename (callId c)) as [file|] eqn:Hfile; [|done].
    exfalso. destruct (Hfiles _ (mk_is_Some _ _ Hfile)) as (e & He & Hf).
    rewrite Hlast in He.
    apply elem_of_reverse, list_elem_of_fmap in He as (c' & -> & Hc').
    apply mealFilename_inj in Hf.
    rewrite <- (take_drop k calls), map_app in Hnodup.
    apply NoDup_app in Hnodup as (_ & Hsplit & _).
    apply (Hsplit (callId c)); [by apply list_elem_of_fmap_2|].
    rewrite Hf. by apply (list_elem_of_fmap_2 callId) in Hc'.
  - intros c Hc. apply Hblobs. by apply elem_take in Hc.
  - intros now c Hc. rewrite getMealById_run. simpl. f_equal. unfold storedMeal.
    rewrite (Hcontent c); [done| |by apply Hin]. by apply elem_drop in Hc.
Qed.

End Retention.

(** ** Properties of the analysis pipeline *)

Section PipelineProperties.

Variable getTime : string -> option Z.

Local Abbreviation processMeal := (processMeal getTime).
Local Abbreviation retryTransition := (retryTransition getTime).
Local Abbreviation expired := (expired getTime).
Local Abbreviation resumePending := (resumePending getTime).
Local Abbreviation processAll := (processAll getTime).


(** What [processMeal] does on a record it finds expired. *)
Lemma processMeal_expired c meal w :
  expired c meal = true ->
  let w' := (processMeal c meal w).2 in
  geminiRequests w' = geminiRequests w
  /\ healthConnectWrites w' = healthConnectWrites w
  /\ forall existing, storedMeal (m_id meal) (disk w) = Some existing ->
       storedMeal (m_id meal) (disk w') = Some (errorFlags existing)
       /\ mealUpdated w' = withFlags false true meal :: mealUpdated w.
Proof.
  intros Hexp. unfold processMeal, try_catch. fold expired.
  rewrite Hexp.
  destruct (storedMeal (m_id meal) (disk w)) as [existing|] eqn:Hstored.
  - destruct (updateMealAnalysisError_run (now c) _ _ _ Hstored)
      as (d' & Hrun & Hfiles & _).
    rewrite (bind_ok _ _ _ _ _ (onDisk_run _ _ _ _ Hrun)). simpl.
    do 2 (split; [done|]). intros ? [= <-]. split; [|done].
    unfold storedMeal. by rewrite Hfiles, lookup_insert_eq.
  - destruct (updateMealAnalysisError_missing (now c) _ _ Hstored) as (e & Hrun).
    rewrite (bind_throw _ _ _ _ _ (onDisk_run _ _ _ _ Hrun)).
    destruct (markFailed_run c meal (setDisk (initialized (now c) (disk w)) w))
      as (w' & -> & Hg & Hh & _).
    simpl. rewrite Hg, Hh. do 2 (split; [done|]). intros ? [=].
Qed.


(** When the analysis of a stored record fails, [processMeal] leaves the
    record marked. *)
Lemma processMeal_failure c meal w e existing :
  (analyse c meal w).1 = Throw e ->
  storedMeal (m_id meal) (disk w) = Some existing ->
  let w' := (processMeal c meal w).2 in
  exists marked,
    storedMeal (m_id meal) (disk w') = Some marked
    /\ m_hasError marked = Some true /\ m_isLoading marked = Some false
    /\ head (mealUpdated w') = Some (withFlags false true meal).
Proof.
  intros Hfail Hstored w'. subst w'.
  destruct (expired c meal) eqn:Hexp.
  { destruct (processMeal_expired c meal w Hexp) as (_ & _ & Hmark).
    destruct (Hmark existing Hstored) as [Hs He].
    exists (errorFlags existing). by rewrite Hs, He. }
  unfold processMeal, try_catch. fold expired. rewrite Hexp.
  destruct (retryTransition_run getTime c meal w existing Hstored)
    as (w1 & r1 & Hrun & Hs1 & _ & _ & Hfiles & _).
  fold retryTransition. rewrite (bind_ok _ _ _ _ _ Hrun).
  destruct (analyse_run c meal w) as (r & requests & Hw & Hother).
  rewrite Hw in Hfail. simpl in Hfail. subst r.
  destruct (Hother w1 Hfiles) as (requests' & Hw1).
  rewrite (bind_throw _ _ _ _ _ Hw1).
  destruct (markFailed_run c meal (setGeminiRequests requests' w1))
    as (w' & -> & _ & _ & _ & _ & Hmark).
  destruct (Hmark r1 Hs1) as [Hs He].
  exists (errorFlags r1). simpl. by rewrite Hs, He.
Qed.

(** The analysis fails when the inference service does. *)
Lemma analyse_fails_with_gemini c meal w :
  (forall request, gemini c request = None) ->
  exists e, (analyse c meal w).1 = Throw e.
Proof.
  intros Hfail. unfold analyse, callGemini.
  repeat match goal with
         | |- context [if ?b then _ else _] => destruct b
         end;
    unfold bind, modify, throw; rewrite ?readBase64_run;
    repeat match goal with
           | |- context [files ?d !! ?u] => destruct (files d !! u)
           end;
    rewrite ?Hfail; simpl; rewrite ?Hfail; eauto.
Qed.

(** The analysis fails when the record has neither image nor comment. *)
Lemma analyse_fails_without_input c meal w :
m_imageUri meal = "" -> (m_comment meal = None \/ m_comment meal = Some "") ->
(analyse c meal w).1 = Throw NoImageOrComment.
Proof. intros Himg [Hc|Hc]; unfold analyse; by rewrite Himg, Hc. Qed.

(** The analysis fails when the image of the record is not a file of the
    device. *)
Lemma analyse_fails_on_missing_image c meal w :
Str.truthy (Str.trim (m_imageUri meal)) = true ->
files (disk w) !! m_imageUri meal = None ->
(analyse c meal w).1 = Throw (FileNotReadable (m_imageUri meal)).
Proof.
  intros Himg Hfile. unfold analyse.
  assert (Str.truthy (m_imageUri meal) = true) as ->.
  { destruct (m_imageUri meal); [done|done]. }
  rewrite Himg. simpl.
  destruct (Str.truthyOpt (m_afterImageUri meal));
    unfold bind; by rewrite readBase64_run, Hfile.
Qed.

(** C8. [processMeal] returns whatever the inference service and the file
    system do. When the analysis throws (the inference service fails, an
    image file is missing, or there is neither image nor comment), a
    stored record is left with [hasError = true] and [isLoading = false]
    by [updateMealAnalysisError], and the ['mealUpdated'] event carries
    the error state. [resumePending] returns as well, and has called
    [processMeal] on every listed record that is loading or in error,
    whatever the earlier calls did. *)
Theorem process_absorbs_failures :
  (forall c meal w, (processMeal c meal w).1 = Ok tt)
  /\ (forall c meal w e existing,
        (analyse c meal w).1 = Throw e ->
        storedMeal (m_id meal) (disk w) = Some existing ->
        exists marked,
          (getMealById (now c) (m_id meal) (disk (processMeal c meal w).2)).1
          = Ok (Some marked)
          /\ m_hasError marked = Some true /\ m_isLoading marked = Some false
          /\ head (mealUpdated (processMeal c meal w).2)
             = Some (withFlags false true meal))
  /\ (forall start world w, (resumePending start world w).1 = Ok tt)
  /\ (forall start world w,
        exists meals w1,
          onDisk (getMealHistory start) w = (Ok meals, w1)
          /\ (resumePending start world w).2
             = processAll world 0 (List.filter needsRetry meals) w1).
Proof.
  split; [apply processMeal_total|]. split; [|split].
  - intros c meal w e existing Hfail Hstored.
    destruct (processMeal_failure c meal w e existing Hfail Hstored)
      as (marked & Hs & He & Hl & Hev).
    exists marked. rewrite getMealById_run. simpl. by rewrite Hs.
  - intros start world w.
    destruct (getMealHistory_total start (disk w)) as [l Hl].
    by rewrite (resumePending_run getTime start world w _ _ (onDisk_run _ _ _ _ Hl)).
  - intros start world w.
    destruct (getMealHistory_total start (disk w)) as [l Hl].
    eexists _, _. split; [exact (onDisk_run _ _ _ _ Hl)|].
    by rewrite (resumePending_run getTime start world w _ _ (onDisk_run _ _ _ _ Hl)).
Qed.

(** The retry transition of [processMeal] on a stored record in error: the
    record is written with [isLoading = false] and [hasError = false], and
    with the analysis of the record passed to [processMeal]. *)
Lemma retryTransition_persists_idle c meal w existing :
  storedMeal (m_id meal) (disk w) = Some existing ->
  m_hasError meal = Some true ->
  exists persisted,
    storedMeal (m_id meal) (disk (retryTransition c meal w).2) = Some persisted
    /\ m_isLoading persisted = Some false
    /\ m_hasError persisted = Some false
    /\ m_analysis persisted = m_analysis meal.
Proof.
  intros Hstored Herr.
  destruct (retryTransition_run getTime c meal w existing Hstored)
    as (w1 & r1 & Hrun & Hs1 & Hr1 & _).
  fold retryTransition in Hrun. rewrite Hrun. simpl. exists r1.
  split; [done|]. rewrite Hr1; [done|]. by rewrite Herr.
Qed.

End PipelineProperties.

(** ** Properties of the Health Connect bridge *)

Section BridgeProperties.

Variable getTime : string -> option Z.

Local Abbreviation writeMealToHealthConnect := (writeMealToHealthConnect getTime).
Local Abbreviation convertMealToNutritionRecord := (convertMealToNutritionRecord getTime).


(** C10. When the analysis of the meal is [null] or has no
    [total_meal_nutritional_values], [writeMealToHealthConnect] returns
    without a write on Health Connect and leaves the version map as it
    is. *)
Theorem sync_needs_totals hc meal w :
  (m_analysis meal = ANull
   \/ exists a, m_analysis meal = AObject a /\ total_meal_nutritional_values a = None) ->
  let w' := (writeMealToHealthConnect hc meal w).2 in
  (writeMealToHealthConnect hc meal w).1 = Ok tt
  /\ healthConnectWrites w' = healthConnectWrites w
  /\ versionMapItem (secureStore w') = versionMapItem (secureStore w).
Proof.
  intros Hno w'. subst w'.
  assert (convertMealToNutritionRecord meal = None) as Hconv.
  { apply (convert_None getTime). intros (a & totals & Ha & Ht).
    destruct Hno as [Hnull|(a' & Ha' & Hnone)]; congruence. }
  unfold writeMealToHealthConnect.
  assert (exists permitted w1,
    (if negb (platformIsAndroid hc) then ret false else hasWritePermission hc) w
    = (Ok permitted, w1)
    /\ versionMapItem (secureStore w1) = versionMapItem (secureStore w)
    /\ healthConnectWrites w1 = healthConnectWrites w) as (permitted & w1 & Hp & Hv & Hh).
  { destruct (negb (platformIsAndroid hc)); [by eexists _, _|].
    destruct (hasWritePermission_run hc w) as (g & w1 & Hrun & Hv & Hh & _). eauto. }
  rewrite (bind_ok _ _ _ _ _ Hp).
  destruct (negb permitted || negb (moduleLoaded hc)); [done|].
  rewrite (bind_ok _ _ _ _ _ (getNextVersion_run hc (m_id meal) w1)).
  fold convertMealToNutritionRecord. by rewrite Hconv.
Qed.

End BridgeProperties.

(** ** Listing and deleting records *)

Lemma NoDup_fmap_elem_inj {A B} (f : A -> B) (l : list A) x y :
  NoDup (f <$> l) -> x ∈ l -> y ∈ l -> f x = f y -> x = y.
Proof.
  intros Hnodup [i Hi]%list_elem_of_lookup [j Hj]%list_elem_of_lookup Hf.
  assert (i = j) as <-; [|congruence].
  eapply NoDup_lookup; [exact Hnodup| |]; rewrite list_lookup_fmap;
    [by rewrite Hi | rewrite Hj; simpl; congruence].
Qed.

Lemma readableMeal_initialized now d e :
  readableMeal (initialized now d) e = readableMeal d e.
Proof. unfold readableMeal. by rewrite initialized_mealFiles. Qed.

Lemma readMeals_run refs d :
  readMeals refs d = (Ok (omap (readableMeal d) refs), d).
Proof.
  induction refs as [|r refs IH]; [done|].
  cbn [readMeals omap list_omap].
  unfold bind at 1, try_catch, bind at 1, readMealFile, bind at 1, get, readableMeal.
  destruct (mealFiles d !! e_filename r) as [[m|]|]; simpl;
    unfold bind; by rewrite IH.
Qed.

Lemma omap_ext_eq {A B} (f g : A -> option B) (l : list A) :
  (forall x, f x = g x) -> omap f l = omap g l.
Proof.
  intros Hfg. induction l as [|x l IH]; [done|].
  cbn [omap list_omap]. by rewrite Hfg, IH.
Qed.

Lemma getMealHistory_run now d :
  getMealHistory now d
  = (Ok (omap (readableMeal d) (indexMeals d)), initialized now d).
Proof.
  unfold getMealHistory, try_catch.
  rewrite (bind_ok _ _ _ _ _ (initializeStorage_run now d)).
  destruct (readIndex_run now (initialized now d)) as [u Eidx].
  rewrite (bind_ok _ _ _ _ _ Eidx). cbn [meals].
  rewrite readMeals_run, initialized_indexMeals. do 2 f_equal.
  apply omap_ext_eq. intros e. apply readableMeal_initialized.
Qed.

Lemma omap_length_le {A B} (f : A -> option B) (l : list A) :
  (length (omap f l) <= length l)%nat.
Proof.
  induction l as [|x l IH]; [done|].
  cbn [omap list_omap]. destruct (f x); simpl; lia.
Qed.

Lemma omap_length_total {A B} (f : A -> option B) (l : list A) :
  Forall (fun x => is_Some (f x)) l -> length (omap f l) = length l.
Proof.
  induction 1 as [|x l [y Hy] _ IH]; [done|].
  cbn [omap list_omap]. rewrite Hy. simpl. by rewrite IH.
Qed.

(** [getMealHistory] never throws. It returns, in the order of the index,
    the records of the entries whose file is there and parses, and skips
    the other entries; it changes nothing on the disk but what
    [initializeStorage] creates. The list is no longer than the count
    [getMealCount] returns, and as long when every entry of the index leads
    to a record. *)
Theorem history_lists_readable_records now d :
  let listed := omap (readableMeal d) (indexMeals d) in
  getMealHistory now d = (Ok listed, initialized now d)
  /\ (forall m, m ∈ listed <->
        exists e, e ∈ indexMeals d /\ mealFiles d !! e_filename e = Some (MealJson m))
  /\ (forall count, (getMealCount now d).1 = Ok count -> (length listed <= count)%nat)
  /\ (indexBacked d -> (getMealCount now d).1 = Ok (length listed)).
Proof.
  intros listed. split; [apply getMealHistory_run|]. split; [|split].
  - intros m. unfold listed. rewrite list_elem_of_omap.
    split; intros (e & He & Hm); exists e; (split; [done|]);
      unfold readableMeal in *;
      destruct (mealFiles d !! e_filename e) as [[m'|]|]; by simplify_eq.
  - intros count. rewrite getMealCount_run. intros [= <-]. apply omap_length_le.
  - intros Hbacked. rewrite getMealCount_run. simpl. f_equal. symmetry.
    by apply omap_length_total.
Qed.

Lemma find_entry_None mealId l :
  List.find (entryHasId mealId) l = None <-> mealId ∉ map e_id l.
Proof.
  induction l as [|e l IH]; simpl.
  - split; [intros _; apply not_elem_of_nil | done].
  - unfold entryHasId at 1. rewrite not_elem_of_cons.
    destruct (decide (e_id e = mealId)) as [He|He].
    + rewrite bool_decide_eq_true_2 by done. split; [done|]. intros [H _]. by destruct H.
    + rewrite bool_decide_eq_false_2 by done. rewrite IH. split; [by split|by intros [_ ?]].
Qed.

Lemma find_entry_Some mealId l e :
  List.find (entryHasId mealId) l = Some e -> e ∈ l /\ e_id e = mealId.
Proof.
  intros [He Hid]%find_some. split; [by apply list_elem_of_In|].
  unfold entryHasId in Hid. by apply bool_decide_eq_true in Hid.
Qed.

Lemma deleteMeal_listed now mealId d e :
  List.find (entryHasId mealId) (indexMeals d) = Some e ->
  deleteMeal now mealId d
  = (Ok tt,
     {| mealFiles := delete (e_filename e) (mealFiles d);
        indexFile := IndexJson {| meals := withoutId mealId (indexMeals d);
                                  lastUpdated := now |};
        files := files d |}).
Proof.
  intros Hfind. unfold deleteMeal.
  rewrite (bind_ok _ _ _ _ _ (initializeStorage_run now d)).
  destruct (readIndex_run now (initialized now d)) as [u Eidx].
  rewrite (bind_ok _ _ _ _ _ Eidx). cbn [meals].
  rewrite initialized_indexMeals, Hfind.
  unfold bind, writeIndex, deleteMealFile, modify, setMealFiles, setIndexFile. simpl.
  by rewrite initialized_mealFiles, initialized_files.
Qed.

Lemma deleteMeal_unlisted now mealId d :
  List.find (entryHasId mealId) (indexMeals d) = None ->
  deleteMeal now mealId d = (Ok tt, initialized now d).
Proof.
  intros Hfind. unfold deleteMeal.
  rewrite (bind_ok _ _ _ _ _ (initializeStorage_run now d)).
  destruct (readIndex_run now (initialized now d)) as [u Eidx].
  rewrite (bind_ok _ _ _ _ _ Eidx). cbn [meals].
  by rewrite initialized_indexMeals, Hfind.
Qed.

Lemma withoutId_absent mealId l : mealId ∉ map e_id (withoutId mealId l).
Proof.
  intros (e & Hid & He)%list_elem_of_fmap.
  apply withoutId_elem in He as [_ He]. done.
Qed.

Lemma withoutId_length mealId l :
  NoDup (map e_id l) -> mealId ∈ map e_id l ->
  length (withoutId mealId l) = (length l - 1)%nat.
Proof.
  unfold withoutId. induction l as [|e l IH]; simpl; intros Hnodup Hin.
  - by apply elem_of_nil in Hin.
  - apply NoDup_cons in Hnodup as [Hfresh Hnodup]. unfold entryHasId at 1.
    destruct (decide (e_id e = mealId)) as [He|He].
    + rewrite bool_decide_eq_true_2 by done. simpl. rewrite Nat.sub_0_r.
      subst mealId. clear IH Hin.
      assert (Forall (fun x => negb (entryHasId (e_id e) x) = true) l) as Hall.
      { apply Forall_forall. intros x Hx. unfold entryHasId.
        apply negb_true_iff, bool_decide_eq_false. intros Heq.
        apply Hfresh. rewrite <- Heq. by apply list_elem_of_fmap_2. }
      clear Hfresh Hnodup. induction Hall as [|x l Hx _ IH]; [done|].
      simpl. rewrite Hx. simpl. by rewrite IH.
    + rewrite bool_decide_eq_false_2 by done. simpl.
      apply elem_of_cons in Hin as [Hin|Hin]; [congruence|].
      rewrite IH by done.
      destruct l; [by apply elem_of_nil in Hin | simpl; lia].
Qed.

(** [deleteMeal] on a record of a well formed index: the call returns, the
    entry leaves the index (the other entries stay, in their order), the
    file of the record is deleted, so that [getMealById] returns [null],
    every other record and every image stay as they are, and
    [getMealCount] is one less. *)
Theorem delete_removes_record now mealId d :
  wellFormedIndex d -> mealId ∈ map e_id (indexMeals d) ->
  let d' := (deleteMeal now mealId d).2 in
  (deleteMeal now mealId d).1 = Ok tt
  /\ indexMeals d' = withoutId mealId (indexMeals d)
  /\ (mealId ∉ map e_id (indexMeals d'))
  /\ (forall e, e ∈ indexMeals d -> e_id e <> mealId -> e ∈ indexMeals d')
  /\ (getMealById now mealId d').1 = Ok None
  /\ (forall other, other <> mealId -> storedMeal other d' = storedMeal other d)
  /\ files d' = files d
  /\ (getMealCount now d').1 = Ok (length (indexMeals d) - 1)%nat.
Proof.
  intros [Hown Hnodup] Hin d'. subst d'.
  destruct (List.find (entryHasId mealId) (indexMeals d)) as [e|] eqn:Hfind.
  2:{ apply find_entry_None in Hfind. done. }
  rewrite (deleteMeal_listed now mealId d e Hfind).
  apply find_entry_Some in Hfind as [He Hid].
  assert (e_filename e = mealFilename mealId) as Hname.
  { rewrite Forall_forall in Hown. rewrite (Hown e He). by rewrite Hid. }
  cbn [fst snd]. split; [done|]. split; [done|].
  split; [apply withoutId_absent|].
  split; [by intros e' He' Hne; apply withoutId_elem|].
  split; [|split; [|split]].
  - rewrite getMealById_run. unfold storedMeal. simpl.
    by rewrite Hname, lookup_delete_eq.
  - intros other Hother. unfold storedMeal. simpl.
    rewrite Hname, lookup_delete_ne; [done|].
    intros Heq. by apply mealFilename_inj in Heq.
  - done.
  - rewrite getMealCount_run. simpl. f_equal. unfold indexMeals at 1. simpl.
    by apply withoutId_length.
Qed.

(** [deleteMeal] looks the record up in the index only. On an id the index
    does not list it returns and changes nothing: a record whose file is
    there but which the index has lost cannot be deleted. Deleting twice is
    deleting once. *)
Theorem delete_goes_by_the_index now now' mealId d :
  (mealId ∉ map e_id (indexMeals d) ->
   deleteMeal now mealId d = (Ok tt, initialized now d)
   /\ (getMealById now' mealId (deleteMeal now mealId d).2).1 = Ok (storedMeal mealId d))
  /\ deleteMeal now' mealId (deleteMeal now mealId d).2
     = (Ok tt, (deleteMeal now mealId d).2).
Proof.
  split.
  - intros Hnot. apply find_entry_None in Hnot.
    rewrite (deleteMeal_unlisted _ _ _ Hnot). split; [done|].
    rewrite getMealById_run. simpl. by rewrite initialized_storedMeal.
  - destruct (List.find (entryHasId mealId) (indexMeals d)) as [e|] eqn:Hfind.
    + rewrite (deleteMeal_listed now mealId d e Hfind). simpl.
      rewrite deleteMeal_unlisted; [done|].
      apply find_entry_None. unfold indexMeals. simpl. apply withoutId_absent.
    + rewrite (deleteMeal_unlisted _ _ _ Hfind). simpl.
      rewrite deleteMeal_unlisted by by rewrite initialized_indexMeals.
      f_equal. unfold initialized. by destruct d as [? [| |?] ?].
Qed.

(** ** Saving, copying and updating records *)

Section StoreSaving.

Variable documentDirectory : string.
Variable getTime : string -> option Z.

Local Abbreviation imagesDir := (imagesDir documentDirectory).
Local Abbreviation copyImageToStorage := (copyImageToStorage documentDirectory).
Local Abbreviation saveMealAnalysis := (saveMealAnalysis documentDirectory).
Local Abbreviation updateMealAnalysis := (updateMealAnalysis getTime).
Local Abbreviation mealToSave := (mealToSave documentDirectory).
Local Abbreviation imagesCopyable := (imagesCopyable documentDirectory).
Local Abbreviation imagesInStorage := (imagesInStorage documentDirectory).
Local Abbreviation storageImageUri := (storageImageUri documentDirectory).
Local Abbreviation storageAfterImageUri := (storageAfterImageUri documentDirectory).

Lemma saveCommentMeal_run now mealId timestamp comment d :
  saveCommentMeal now mealId timestamp comment d
  = (Ok tt,
     {| mealFiles :=
          <[mealFilename mealId := MealJson (commentMealToSave mealId timestamp comment)]>
            (mealFiles d);
        indexFile :=
          IndexJson {| meals := entryOf mealId timestamp :: withoutId mealId (indexMeals d);
                       lastUpdated := now |};
        files := files d |}).
Proof.
  unfold saveCommentMeal.
  rewrite (bind_ok _ _ _ _ _ (initializeStorage_run now d)).
  unfold bind at 1, writeMealFile at 1, modify at 1.
  set (d1 := setMealFiles _ _).
  destruct (readIndex_run now d1) as [u Eidx].
  rewrite (bind_ok _ _ _ _ _ Eidx). cbn [meals].
  assert (indexMeals d1 = indexMeals d) as ->.
  { rewrite <- (initialized_indexMeals now d). done. }
  unfold writeIndex, modify, setIndexFile, d1, commentMealToSave. simpl.
  rewrite initialized_mealFiles, initialized_files.
  by destruct comment.
Qed.

(** [saveCommentMeal] has no guard on its arguments: whatever the id, the
    timestamp and the comment, the empty ones included, it throws neither of
    the validation errors of [saveMealAnalysis] and [savePendingMeal]. When
    the call returns, the record stored has no image, the empty analysis
    (with totals, all zero), the comment, and neither flag set:
    [resumePending] never sends it to the inference service. Its entry is in
    front of the index, every other entry of its id has left the index, and
    no other record or image has changed. *)
Theorem comment_meal_is_stored_settled now mealId timestamp comment d :
  let result := (saveCommentMeal now mealId timestamp comment d).1 in
  let d' := (saveCommentMeal now mealId timestamp comment d).2 in
  let stored := commentMealToSave mealId timestamp comment in
  result <> Throw MissingRequiredMealData
  /\ result <> Throw MissingRequiredPendingMealData
  /\ (result = Ok tt ->
      (getMealById now mealId d').1 = Ok (Some stored)
      /\ indexMeals d' = entryOf mealId timestamp :: withoutId mealId (indexMeals d)
      /\ (forall other, other <> mealId -> storedMeal other d' = storedMeal other d)
      /\ files d' = files d
      /\ needsRetry stored = false
      /\ hasTotals stored).
Proof.
  intros result d' stored. subst result d'. rewrite saveCommentMeal_run. cbn [fst snd].
  split; [done|]. split; [done|]. intros _.
  split; [|split; [done|split; [|split; [done|split; [done|]]]]].
  - rewrite getMealById_run. unfold storedMeal. simpl. by rewrite lookup_insert_eq.
  - intros other Hother. unfold storedMeal. simpl.
    rewrite lookup_insert_ne; [done|]. intros Heq. by apply mealFilename_inj in Heq.
  - by eexists _, _.
Qed.

(** *** Saving a record whose images are in the store already *)

Lemma storageImageUri_inside now meal :
  Str.startsWith (storageImageUri now meal) imagesDir = true.
Proof.
  unfold storageImageUri.
  destruct (Str.startsWith (m_imageUri meal) imagesDir) eqn:E; simpl; [done|].
  apply startsWith_app.
Qed.

Lemma imagesInStorage_saved now meal : imagesInStorage (mealToSave now meal).
Proof.
  split; [apply storageImageUri_inside|]. simpl. unfold storageAfterImageUri.
  intros a. destruct (m_afterImageUri meal) as [a0|]; [|done].
  destruct (Str.truthy a0) eqn:Et; simpl.
  - destruct (Str.startsWith a0 imagesDir) eqn:Es; simpl; intros [= <-]; right;
      [done | apply startsWith_app].
  - intros [= <-]. left. by apply truthy_false.
Qed.

Lemma mealToSave_inside now meal :
  imagesInStorage meal -> mealToSave now meal = meal.
Proof.
  intros [Himg Hafter]. unfold mealToSave, storageImageUri, storageAfterImageUri.
  rewrite Himg. simpl. destruct meal as [i t u a an c l e]. simpl in *. f_equal.
  destruct a as [a|]; [|done].
  destruct (Hafter a eq_refl) as [-> | ->]; [done|]. by rewrite andb_false_r.
Qed.

Lemma imagesInStorage_copyable meal d : imagesInStorage meal -> imagesCopyable meal d.
Proof.
  intros [Himg Hafter]. split.
  - rewrite Himg. done.
  - intros a Ha. destruct (Hafter a Ha) as [-> | ->]; [done|].
    by rewrite andb_false_r.
Qed.

Lemma hasRequiredMealData_saved now meal :
  hasRequiredMealData meal -> hasRequiredMealData (mealToSave now meal).
Proof.
  intros (A & B & C & D). repeat split; simpl; try done.
  unfold storageImageUri. destruct (negb _); [|done].
  unfold imagesDir. destruct documentDirectory; discriminate.
Qed.

(** What [saveMealAnalysis] does with a record whose images are in the
    images directory: it copies nothing (and does not look whether the
    image files are there), and stores the record as given. *)
Lemma saveMealAnalysis_inside now meal d :
  hasRequiredMealData meal -> imagesInStorage meal -> wellFormedIndex d ->
  let unshifted :=
    entryOf (m_id meal) (m_timestamp meal) :: withoutId (m_id meal) (indexMeals d) in
  exists d',
    saveMealAnalysis now meal d = (Ok tt, d')
    /\ files d' = files d
    /\ indexMeals d' = take MAX_MEALS unshifted
    /\ mealFiles d'
       = deleteAll (map e_filename (drop MAX_MEALS unshifted))
           (<[mealFilename (m_id meal) := MealJson meal]> (mealFiles d))
    /\ storedMeal (m_id meal) d' = Some meal.
Proof.
  intros Hreq Hin [Hown Hnodup] unshifted.
  pose proof Hin as [Himg Hafter].
  unfold saveMealAnalysis.
  rewrite (bind_ok _ _ _ _ _ (initializeStorage_run now d)).
  rewrite (required_passes _ Hreq). unfold when. rewrite bind_ret.
  rewrite Himg. simpl negb. cbv iota. rewrite bind_ret.
  assert ((match m_afterImageUri meal with
           | Some a =>
               if Str.truthy a && negb (Str.startsWith a imagesDir)
               then (u <- copyImageToStorage now a (m_id meal) "after" ;; ret (Some u))
               else ret (Some a)
           | None => ret None
           end) (initialized now d)
          = (Ok (m_afterImageUri meal), initialized now d)) as Eafter.
  { destruct (m_afterImageUri meal) as [a|]; [|done].
    destruct (Hafter a eq_refl) as [-> | ->]; [done|]. by rewrite andb_false_r. }
  rewrite (bind_ok _ _ _ _ _ Eafter).
  replace {| m_id := m_id meal; m_timestamp := m_timestamp meal;
             m_imageUri := m_imageUri meal; m_afterImageUri := m_afterImageUri meal;
             m_analysis := m_analysis meal; m_comment := m_comment meal;
             m_isLoading := m_isLoading meal; m_hasError := m_hasError meal |}
    with meal by by destruct meal.
  unfold bind at 1, writeMealFile at 1, modify at 1.
  set (d3 := setMealFiles _ _).
  destruct (readIndex_run now d3) as [u Eidx].
  rewrite (bind_ok _ _ _ _ _ Eidx). cbn [meals].
  assert (indexMeals d3 = indexMeals d) as ->.
  { rewrite <- (initialized_indexMeals now d). done. }
  fold unshifted.
  rewrite (bind_ok _ _ _ _ _ (keepLastMeals_run unshifted d3)).
  unfold writeIndex, modify. eexists. split; [reflexivity|].
  unfold indexMeals, storedMeal; simpl.
  rewrite initialized_files, initialized_mealFiles.
  split; [done|]. split; [done|]. split; [done|].
  rewrite own_file_survives.
  - by rewrite lookup_insert_eq.
  - eapply Forall_drop, withoutId_own, Hown.
  - eapply Forall_drop, withoutId_other.
Qed.

Lemma withoutId_fresh_id mealId l :
  Forall (fun e => e_id e <> mealId) l -> withoutId mealId l = l.
Proof.
  unfold withoutId. induction 1 as [|e l He _ IH]; [done|].
  simpl. unfold entryHasId at 1. rewrite bool_decide_eq_false_2 by done.
  simpl. by rewrite IH.
Qed.

(** Saving twice is saving once. After [saveMealAnalysis] has stored a
    record, saving the stored record again copies no image and leaves the
    meal files, the images and the entries of the index as they are. *)
Theorem save_twice_is_save_once now now' meal d :
  hasRequiredMealData meal -> imagesCopyable meal d -> wellFormedIndex d ->
  let d1 := (saveMealAnalysis now meal d).2 in
  let stored := mealToSave now meal in
  let d2 := (saveMealAnalysis now' stored d1).2 in
  (getMealById now' (m_id meal) d1).1 = Ok (Some stored)
  /\ (saveMealAnalysis now' stored d1).1 = Ok tt
  /\ mealFiles d2 = mealFiles d1
  /\ files d2 = files d1
  /\ indexMeals d2 = indexMeals d1.
Proof.
  intros Hreq Hcopy Hwf d1 stored d2. subst d1 d2.
  destruct (saveMealAnalysis_run documentDirectory now meal d Hreq Hcopy)
    as (d1 & E1 & Hidx1 & Hfiles1 & _).
  rewrite E1. cbn [snd].
  assert (wellFormedIndex d1) as Hwf1.
  { pose proof (keeps_saveMealAnalysis documentDirectory now meal d Hwf) as [H _].
    by rewrite E1 in H. }
  assert (storedMeal (m_id meal) d1 = Some stored) as Hstored1.
  { unfold storedMeal. rewrite Hfiles1, drop_cap_cons, own_file_survives.
    - by rewrite lookup_insert_eq.
    - destruct Hwf as [Hown _]. eapply Forall_drop, withoutId_own, Hown.
    - eapply Forall_drop, withoutId_other. }
  split. { rewrite getMealById_run. simpl. by rewrite Hstored1. }
  destruct (saveMealAnalysis_inside now' stored d1
              (hasRequiredMealData_saved now meal Hreq)
              (imagesInStorage_saved now meal) Hwf1)
    as (d2 & E2 & Hf2 & Hidx2 & Hfiles2 & _).
  rewrite E2. cbn [fst snd]. split; [done|].
  assert (withoutId (m_id meal) (indexMeals d1)
          = take 49 (withoutId (m_id meal) (indexMeals d))) as Hrest.
  { rewrite Hidx1. cbn [take MAX_MEALS]. unfold withoutId at 1. simpl.
    unfold entryHasId at 1. simpl. rewrite bool_decide_eq_true_2 by done. simpl.
    apply withoutId_fresh_id, Forall_take, withoutId_other. }
  assert (length (entryOf (m_id meal) (m_timestamp meal)
                    :: withoutId (m_id meal) (indexMeals d1)) <= MAX_MEALS)%nat as Hlen.
  { rewrite Hrest. simpl. rewrite length_take. unfold MAX_MEALS. lia. }
  change (m_id stored) with (m_id meal) in Hidx2, Hfiles2.
  change (m_timestamp stored) with (m_timestamp meal) in Hidx2, Hfiles2.
  rewrite take_ge in Hidx2 by exact Hlen. rewrite drop_ge in Hfiles2 by exact Hlen.
  split; [|split; [done|]].
  - rewrite Hfiles2. simpl. unfold deleteAll. simpl.
    apply insert_id. unfold storedMeal in Hstored1.
    destruct (mealFiles d1 !! mealFilename (m_id meal)) as [[m|]|]; by simplify_eq.
  - rewrite Hidx2, Hrest, Hidx1. done.
Qed.

(** *** The copy of an image *)

Lemma string_app_assoc (a b c : string) : (a ++ b) ++ c = a ++ (b ++ c).
Proof.
  induction a as [|x a IH]; [done|]. rewrite !append_cons. by rewrite IH.
Qed.

Lemma dotFree_app a b : dotFree (a ++ b) = dotFree a && dotFree b.
Proof.
  induction a as [|x a IH]; [done|]. rewrite append_cons. simpl.
  by rewrite IH, andb_assoc.
Qed.

Lemma lastSegmentFrom_dotFree acc s :
  dotFree s = true -> Str.lastSegmentFrom acc s = acc ++ s.
Proof.
  revert acc. induction s as [|c s IH]; intros acc; simpl.
  - intros _. induction acc as [|x acc IHa]; [done|]. rewrite append_cons. by f_equal.
  - intros [Hc Hs]%andb_true_iff. apply negb_true_iff in Hc. rewrite Hc.
    rewrite IH by done. by rewrite string_app_assoc.
Qed.

Lemma lastSegmentFrom_has_no_dot acc s :
  dotFree acc = true -> dotFree (Str.lastSegmentFrom acc s) = true.
Proof.
  revert acc. induction s as [|c s IH]; intros acc Hacc; simpl; [done|].
  destruct (Ascii.eqb c ".") eqn:Hc; apply IH; [done|].
  rewrite dotFree_app, Hacc. simpl. by rewrite Hc.
Qed.

Lemma lastSegmentFrom_behind_dot acc x e :
  dotFree e = true -> Str.lastSegmentFrom acc (x ++ "." ++ e) = e.
Proof.
  intros He. revert acc. induction x as [|c x IH]; intros acc.
  - rewrite append_nil. simpl. by rewrite lastSegmentFrom_dotFree.
  - rewrite append_cons. simpl. destruct (Ascii.eqb c "."); apply IH.
Qed.

Lemma extensionOf_dotFree sourceUri : dotFree (extensionOf sourceUri) = true.
Proof.
  unfold extensionOf, Str.lastSegment.
  destruct (Str.truthy _); [|done]. by apply lastSegmentFrom_has_no_dot.
Qed.

Lemma imageFilename_extension now sourceUri mealId suffix :
  exists stem,
    imagesDir ++ imageFilename now sourceUri mealId suffix
    = stem ++ "." ++ extensionOf sourceUri.
Proof.
  unfold imageFilename. fold (extensionOf sourceUri).
  exists (imagesDir ++ mealId ++ (if Str.truthy suffix then "_" ++ suffix else "")
            ++ "_" ++ pretty now).
  by rewrite !string_app_assoc.
Qed.

(** [copyImageToStorage] on a file of the device returns the URI of a new
    file in the images directory that holds the content of the source; no
    other file changes, and no meal file and no entry of the index. The
    copy keeps the extension of the source: what follows its last dot, or
    [jpg] when nothing follows it; so does a copy of the copy. On a source
    that is not a file of the device the call throws and changes
    nothing. *)
Theorem copy_lands_in_the_images_directory now sourceUri mealId suffix d :
  let dest := imagesDir ++ imageFilename now sourceUri mealId suffix in
  (forall content, files d !! sourceUri = Some content ->
     exists d',
       copyImageToStorage now sourceUri mealId suffix d = (Ok dest, d')
       /\ files d' !! dest = Some content
       /\ (forall p, p <> dest -> files d' !! p = files d !! p)
       /\ mealFiles d' = mealFiles d /\ indexFile d' = indexFile d)
  /\ (files d !! sourceUri = None ->
      copyImageToStorage now sourceUri mealId suffix d
      = (Throw (FileNotReadable sourceUri), d))
  /\ Str.startsWith dest imagesDir = true
  /\ Str.lastSegment dest = extensionOf sourceUri
  /\ extensionOf dest = extensionOf sourceUri.
Proof.
  intros dest.
  assert (Str.lastSegment dest = extensionOf sourceUri) as Hext.
  { destruct (imageFilename_extension now sourceUri mealId suffix) as [stem Hstem].
    unfold dest. rewrite Hstem. unfold Str.lastSegment.
    apply lastSegmentFrom_behind_dot, extensionOf_dotFree. }
  split; [|split; [|split; [|split]]].
  - intros content Hcontent.
    rewrite (copyImageToStorage_run documentDirectory _ _ _ _ _ _ Hcontent).
    eexists. split; [reflexivity|]. simpl.
    split; [by rewrite lookup_insert_eq|].
    split; [|done]. intros p Hp. by rewrite lookup_insert_ne.
  - apply copyImageToStorage_missing.
  - apply startsWith_app.
  - exact Hext.
  - unfold extensionOf at 1. rewrite Hext.
    assert (Str.truthy (extensionOf sourceUri) = true) as ->; [|done].
    unfold extensionOf. by destruct (Str.truthy (Str.lastSegment sourceUri)) eqn:E.
Qed.

(** *** Updating a record *)

Lemma readMealFile_missing mealId d :
  storedMeal mealId d = None ->
  exists e,
    readMealFile (mealFilename mealId) d = (Throw e, d)
    /\ (e = FileNotReadable (mealFilename mealId)
        \/ e = JsonSyntaxError (mealFilename mealId)).
Proof.
  unfold storedMeal, readMealFile, bind, get.
  destruct (mealFiles d !! mealFilename mealId) as [[m|]|]; [done| |];
    intros _; eexists; split; eauto.
Qed.

(** [updateMealAnalysis] and [updateMealAnalysisError] need the file of the
    record: when it is missing or does not parse, whether the index lists
    the id or not, they throw the error of the read and change nothing on
    the disk but what [initializeStorage] creates; no record is created and
    the index is not touched. *)
Theorem update_needs_the_record_file now mealId patch d :
  storedMeal mealId d = None ->
  let failure e :=
    e = FileNotReadable (mealFilename mealId) \/ e = JsonSyntaxError (mealFilename mealId) in
  (exists e, updateMealAnalysis now mealId patch d = (Throw e, initialized now d)
             /\ failure e)
  /\ (exists e, updateMealAnalysisError now mealId d = (Throw e, initialized now d)
                /\ failure e)
  /\ (getMealById now mealId (initialized now d)).1 = Ok None
  /\ indexMeals (initialized now d) = indexMeals d.
Proof.
  intros Hstored failure.
  destruct (readMealFile_missing mealId (initialized now d)) as (e & Hread & He).
  { by rewrite initialized_storedMeal. }
  split; [|split; [|split]].
  - exists e. split; [|done]. unfold updateMealAnalysis.
    rewrite (bind_ok _ _ _ _ _ (initializeStorage_run now d)).
    by rewrite (bind_throw _ _ _ _ _ Hread).
  - exists e. split; [|done]. unfold updateMealAnalysisError.
    rewrite (bind_ok _ _ _ _ _ (initializeStorage_run now d)).
    by rewrite (bind_throw _ _ _ _ _ Hread).
  - rewrite getMealById_run. simpl. by rewrite !initialized_storedMeal, Hstored.
  - apply initialized_indexMeals.
Qed.

Lemma syncedEntries_others mealId timestamp l e :
  e_id e <> mealId -> (e ∈ syncedEntries mealId timestamp l <-> e ∈ l).
Proof.
  intros Hne. unfold syncedEntries.
  destruct (findIndex (entryHasId mealId) l) as [i|] eqn:Ei.
  - apply findIndex_Some in Ei as (x & Hx & Hp).
    unfold entryHasId in Hp. apply bool_decide_eq_true in Hp.
    rewrite !list_elem_of_lookup. split; intros [j Hj].
    + destruct (decide (i = j)) as [<-|Hij].
      * rewrite list_lookup_alter_eq, Hx in Hj. simpl in Hj.
        injection Hj as <-. simpl in Hne. congruence.
      * rewrite list_lookup_alter_ne in Hj by done. eauto.
    + destruct (decide (i = j)) as [<-|Hij]; [congruence|].
      exists j. by rewrite list_lookup_alter_ne.
  - rewrite elem_of_cons. split; [|by right].
    intros [->|H]; [|done]. simpl in Hne. congruence.
Qed.

Lemma syncedEntries_length mealId timestamp l :
  length (syncedEntries mealId timestamp l)
  = if bool_decide (mealId ∈ map e_id l) then length l else S (length l).
Proof.
  unfold syncedEntries.
  destruct (findIndex (entryHasId mealId) l) as [i|] eqn:Ei.
  - apply findIndex_Some in Ei as (x & Hx & Hp).
    unfold entryHasId in Hp. apply bool_decide_eq_true in Hp.
    rewrite bool_decide_eq_true_2.
    + apply length_alter.
    + rewrite <- Hp. apply list_elem_of_fmap_2. by eapply list_elem_of_lookup_2.
  - apply findIndex_None in Ei. rewrite bool_decide_eq_false_2; [done|].
    intros (e & Hid & He)%list_elem_of_fmap.
    rewrite Forall_forall in Ei. specialize (Ei e He).
    unfold entryHasId in Ei. by apply bool_decide_eq_false in Ei.
Qed.

Lemma syncedEntries_timestamp mealId timestamp l e :
  NoDup (map e_id l) -> e ∈ syncedEntries mealId timestamp l -> e_id e = mealId ->
  e_timestamp e = timestamp.
Proof.
  intros Hnodup He Hid. unfold syncedEntries in He.
  destruct (findIndex (entryHasId mealId) l) as [i|] eqn:Ei.
  - apply findIndex_Some in Ei as (x & Hx & Hp).
    unfold entryHasId in Hp. apply bool_decide_eq_true in Hp.
    apply list_elem_of_lookup in He as [j Hj].
    destruct (decide (i = j)) as [<-|Hij].
    + rewrite list_lookup_alter_eq, Hx in Hj. by injection Hj as <-.
    + rewrite list_lookup_alter_ne in Hj by done. exfalso. apply Hij.
      eapply NoDup_lookup; [exact Hnodup| |]; rewrite list_lookup_fmap;
        [by rewrite Hx | rewrite Hj; simpl; congruence].
  - apply findIndex_None in Ei. apply elem_of_cons in He as [->|He]; [done|].
    rewrite Forall_forall in Ei. specialize (Ei e He).
    unfold entryHasId in Ei. by apply bool_decide_eq_false in Ei.
Qed.

(** [updateMealAnalysis] on a stored record neither drops nor duplicates an
    entry of the index: the entries of the other records are those there
    were, the index lists the record (its entry is put back when the index
    had lost it, and the index is one longer then), no other record and no
    image changes. In a well formed index the entry of the record carries
    the timestamp of the updated record. *)
Theorem update_keeps_the_other_entries now mealId patch d existing :
  storedMeal mealId d = Some existing ->
  let d' := (updateMealAnalysis now mealId patch d).2 in
  let updatedMeal := clearFlags (spread existing patch) in
  (forall e, e_id e <> mealId -> (e ∈ indexMeals d' <-> e ∈ indexMeals d))
  /\ (mealId ∈ map e_id (indexMeals d'))
  /\ length (indexMeals d')
     = (if bool_decide (mealId ∈ map e_id (indexMeals d))
        then length (indexMeals d) else S (length (indexMeals d)))
  /\ (forall other, other <> mealId -> storedMeal other d' = storedMeal other d)
  /\ files d' = files d
  /\ (wellFormedIndex d ->
      forall e, e ∈ indexMeals d' -> e_id e = mealId ->
                e_timestamp e = m_timestamp updatedMeal).
Proof.
  intros Hstored d' updatedMeal. subst d'.
  destruct (updateMealAnalysis_run getTime now mealId patch d existing Hstored)
    as (d' & -> & Hfiles & Hidx & Himg).
  fold updatedMeal in Hidx, Hfiles. cbn [snd].
  split; [|split; [|split; [|split; [|split; [done|]]]]].
  - intros e Hne. rewrite Hidx, sortEntries_Permutation.
    by apply syncedEntries_others.
  - destruct (syncedEntries_entry mealId (m_timestamp updatedMeal) (indexMeals d))
      as (e & He & Hid & _).
    rewrite <- Hid. apply list_elem_of_fmap_2.
    by rewrite Hidx, sortEntries_Permutation.
  - rewrite Hidx, sortEntries_Permutation. apply syncedEntries_length.
  - intros other Hother. unfold storedMeal. rewrite Hfiles.
    rewrite lookup_insert_ne; [done|]. intros Heq. by apply mealFilename_inj in Heq.
  - intros [_ Hnodup] e He Hid. rewrite Hidx, sortEntries_Permutation in He.
    by eapply syncedEntries_timestamp.
Qed.

End StoreSaving.

(** ** The store stays consistent *)

Lemma readable_iff d e :
  is_Some (readableMeal d e)
  <-> exists m, mealFiles d !! e_filename e = Some (MealJson m).
Proof.
  unfold readableMeal.
  destruct (mealFiles d !! e_filename e) as [[m|]|]; split;
    try (intros [m' H]; by simplify_eq); eauto.
Qed.

(** The entries of a list each lead to a record among the meal files. *)
Lemma consistentStore_intro d' l (mf : gmap string MealFile) :
  indexMeals d' = l -> mealFiles d' = mf -> wellFormedEntries l ->
  (forall e, e ∈ l -> exists m, mf !! e_filename e = Some (MealJson m)) ->
  consistentStore d'.
Proof.
  intros Hl Hmf Hwf Hb. split; [unfold wellFormedIndex; by rewrite Hl|].
  unfold indexBacked. rewrite Hl. apply Forall_forall. intros e He.
  apply readable_iff. rewrite Hmf. auto.
Qed.

Lemma consistentStore_backed d e :
  consistentStore d -> e ∈ indexMeals d ->
  exists m, mealFiles d !! e_filename e = Some (MealJson m).
Proof.
  intros [_ Hb] He. apply readable_iff.
  unfold indexBacked in Hb. rewrite Forall_forall in Hb. auto.
Qed.

Lemma consistentStore_same d d' :
  indexMeals d' = indexMeals d -> mealFiles d' = mealFiles d ->
  consistentStore d -> consistentStore d'.
Proof.
  intros Hl Hmf Hd. eapply consistentStore_intro; [exact Hl|exact Hmf|apply Hd|].
  intros e He. by apply consistentStore_backed.
Qed.

Lemma consistentStore_initialized now d :
  consistentStore d -> consistentStore (initialized now d).
Proof.
  apply consistentStore_same;
    [apply initialized_indexMeals | apply initialized_mealFiles].
Qed.

Lemma wellFormedEntries_filenames l :
  wellFormedEntries l -> NoDup (map e_filename l).
Proof.
  intros [Hown Hnodup].
  assert (map e_filename l = map mealFilename (map e_id l)) as ->.
  { rewrite map_map. apply map_ext_in. intros e He.
    rewrite Forall_forall in Hown. apply Hown. by apply list_elem_of_In. }
  assert (Inj (=) (=) mealFilename) by (intros a b; apply mealFilename_inj).
  by apply NoDup_fmap_2.
Qed.

(** In a list whose entries have distinct files, the file of an entry that
    stays is not the file of an entry that goes. *)
Lemma kept_file_survives (l kept gone : list IndexEntry) (mf : gmap string MealFile) e :
  NoDup (map e_filename l) ->
  (forall x, x ∈ kept -> x ∈ l) -> (forall x, x ∈ gone -> x ∈ l) ->
  (forall x, x ∈ kept -> x ∉ gone) ->
  e ∈ kept ->
  deleteAll (map e_filename gone) mf !! e_filename e = mf !! e_filename e.
Proof.
  intros Hnodup Hkept Hgone Hdisj He. rewrite deleteAll_lookup.
  rewrite bool_decide_eq_false_2; [done|].
  intros (x & Hf & Hx)%list_elem_of_fmap.
  assert (e = x) as ->; [|by apply (Hdisj x)].
  eapply (NoDup_fmap_elem_inj e_filename l); eauto.
Qed.

Lemma take_drop_disjoint {A} n (l : list A) x :
  NoDup l -> x ∈ take n l -> x ∉ drop n l.
Proof.
  intros Hnodup Ht Hd. rewrite <- (take_drop n l) in Hnodup.
  apply NoDup_app in Hnodup as (_ & Hdisj & _). by apply (Hdisj x).
Qed.

Lemma NoDup_entries l : wellFormedEntries l -> NoDup l.
Proof.
  intros [_ Hnodup]. by apply (NoDup_fmap_1 e_id).
Qed.

(** The state [saveMealAnalysis] leaves when it returns: the entry in front,
    at most [MAX_MEALS] entries, the files of the entries beyond deleted. *)
Lemma consistentStore_capped d d' mealId timestamp m :
  consistentStore d ->
  let unshifted := entryOf mealId timestamp :: withoutId mealId (indexMeals d) in
  indexMeals d' = take MAX_MEALS unshifted ->
  mealFiles d'
  = deleteAll (map e_filename (drop MAX_MEALS unshifted))
      (<[mealFilename mealId := MealJson m]> (mealFiles d)) ->
  consistentStore d'.
Proof.
  intros Hd unshifted Hidx Hfiles.
  assert (wellFormedEntries unshifted) as Hwf.
  { apply wellFormedEntries_unshift, Hd. }
  eapply consistentStore_intro; [exact Hidx|exact Hfiles| |].
  { eapply wellFormedEntries_sublist; [apply sublist_take|exact Hwf]. }
  intros e He.
  rewrite (kept_file_survives unshifted (take MAX_MEALS unshifted)
             (drop MAX_MEALS unshifted)).
  - apply elem_take in He. apply elem_of_cons in He as [->|He].
    + simpl. rewrite lookup_insert_eq. eauto.
    + apply withoutId_elem in He as [He Hne].
      pose proof Hd as [[Hown _] _].
      rewrite Forall_forall in Hown. rewrite (Hown e He).
      rewrite lookup_insert_ne.
      * rewrite <- (Hown e He). by apply consistentStore_backed.
      * intros Heq. apply mealFilename_inj in Heq. congruence.
  - by apply wellFormedEntries_filenames.
  - intros x. apply elem_take.
  - intros x. apply elem_drop.
  - intros x. apply take_drop_disjoint. by apply NoDup_entries.
  - exact He.
Qed.

(** The state [savePendingMeal] and [saveCommentMeal] leave when they
    return. *)
Lemma consistentStore_unshifted d d' mealId timestamp m :
  consistentStore d ->
  indexMeals d' = entryOf mealId timestamp :: withoutId mealId (indexMeals d) ->
  mealFiles d' = <[mealFilename mealId := MealJson m]> (mealFiles d) ->
  consistentStore d'.
Proof.
  intros Hd Hidx Hfiles.
  eapply consistentStore_intro; [exact Hidx|exact Hfiles| |].
  { apply wellFormedEntries_unshift, Hd. }
  intros e [->|He]%elem_of_cons.
  - simpl. rewrite lookup_insert_eq. eauto.
  - apply withoutId_elem in He as [He Hne].
    destruct (decide (e_filename e = mealFilename mealId)) as [->|Hf].
    + rewrite lookup_insert_eq. eauto.
    + rewrite lookup_insert_ne by done. by apply consistentStore_backed.
Qed.

Section StoreConsistency.

Variable documentDirectory : string.
Variable getTime : string -> option Z.

Local Abbreviation imagesDir := (imagesDir documentDirectory).
Local Abbreviation copyImageToStorage := (copyImageToStorage documentDirectory).
Local Abbreviation saveMealAnalysis := (saveMealAnalysis documentDirectory).
Local Abbreviation savePendingMeal := (savePendingMeal documentDirectory).
Local Abbreviation updateMealAnalysis := (updateMealAnalysis getTime).
Local Abbreviation afterStoreCall := (afterStoreCall documentDirectory getTime).
Local Abbreviation afterCall := (afterCall documentDirectory getTime).
Local Abbreviation afterCalls := (afterCalls documentDirectory getTime).
Local Abbreviation storeMethodsReturn := (storeMethodsReturn documentDirectory getTime).
Local Abbreviation unit_ok := (fun _ : unit => True).

(** A computation that touches neither the meal files nor the index. *)
Local Abbreviation framed c :=
  (forall d r d1, c d = (r, d1) -> mealFiles d1 = mealFiles d /\ indexFile d1 = indexFile d).

Lemma framed_ret {A} (a : A) : framed (ret (S := Disk) a).
Proof. by intros d r d1 [= <- <-]. Qed.

Lemma framed_copy now sourceUri mealId suffix :
  framed (copyImageToStorage now sourceUri mealId suffix).
Proof.
  intros d r d1. unfold copyImageToStorage, bind, get, modify, ret, throw.
  destruct (files d !! sourceUri); by intros [= <- <-].
Qed.

Lemma framed_bind {A B} (c : M Disk A) (k : A -> M Disk B) :
  framed c -> (forall a, framed (k a)) -> framed (bind c k).
Proof.
  intros Hc Hk d r d2. unfold bind.
  destruct (c d) as [[a|e] d1] eqn:E; destruct (Hc _ _ _ E) as [H1 H2].
  - intros Ek. destruct (Hk _ _ _ _ Ek) as [H3 H4]. split; congruence.
  - by intros [= <- <-].
Qed.

Lemma indexMeals_framed d d1 : indexFile d1 = indexFile d -> indexMeals d1 = indexMeals d.
Proof. unfold indexMeals. by intros ->. Qed.

(** The two ways [saveMealAnalysis] ends: it returns with the record
    stored, or it throws before it has written a meal file or the index. *)
Lemma saveMealAnalysis_cases now meal d :
  let unshifted :=
    entryOf (m_id meal) (m_timestamp meal) :: withoutId (m_id meal) (indexMeals d) in
  match saveMealAnalysis now meal d with
  | (Ok _, d') =>
      indexMeals d' = take MAX_MEALS unshifted
      /\ exists m,
           mealFiles d'
           = deleteAll (map e_filename (drop MAX_MEALS unshifted))
               (<[mealFilename (m_id meal) := MealJson m]> (mealFiles d))
  | (Throw _, d') => mealFiles d' = mealFiles d /\ indexMeals d' = indexMeals d
  end.
Proof.
  intros unshifted. unfold saveMealAnalysis.
  rewrite (bind_ok _ _ _ _ _ (initializeStorage_run now d)).
  destruct (_ || _); unfold when.
  { simpl. by rewrite initialized_mealFiles, initialized_indexMeals. }
  rewrite bind_ret. unfold bind at 1.
  match goal with
  | |- context [match ?c (initialized now d) with _ => _ end] =>
      destruct (c (initialized now d)) as [[u1|e1] d1] eqn:E1;
      assert (framed c) as F1
        by (destruct (negb _); [exact (framed_copy _ _ _ _) | exact (framed_ret _)])
  end;
    destruct (F1 _ _ _ E1) as [M1 I1];
    rewrite initialized_mealFiles in M1.
  2:{ split; [done|].
      by rewrite (indexMeals_framed _ _ I1), initialized_indexMeals. }
  unfold bind at 1.
  match goal with
  | |- context [match ?c d1 with _ => _ end] =>
      destruct (c d1) as [[u2|e2] d2] eqn:E2;
      assert (framed c) as F2
  end.
  1,3: destruct (m_afterImageUri meal) as [a|]; [|exact (framed_ret _)];
       destruct (_ && _); [|exact (framed_ret _)];
       refine (framed_bind _ _ _ _); [exact (framed_copy _ _ _ _) | intros u; exact (framed_ret _)].
  all: destruct (F2 _ _ _ E2) as [M2 I2].
  2:{ split; [congruence|].
      rewrite (indexMeals_framed _ _ I2), (indexMeals_framed _ _ I1).
      apply initialized_indexMeals. }
  unfold bind at 1, writeMealFile at 1, modify at 1.
  set (d3 := setMealFiles _ d2).
  destruct (readIndex_run now d3) as [u Eidx].
  rewrite (bind_ok _ _ _ _ _ Eidx). cbn [meals].
  assert (indexMeals d3 = indexMeals d) as ->.
  { rewrite <- (initialized_indexMeals now d). unfold indexMeals, d3. simpl.
    by rewrite I2, I1. }
  fold unshifted.
  rewrite (bind_ok _ _ _ _ _ (keepLastMeals_run unshifted d3)).
  unfold writeIndex, modify.
  unfold indexMeals; simpl. split; [done|]. eexists. by rewrite M2, M1.
Qed.

Lemma savePendingMeal_cases now pendingMeal d :
  let mealId := default "" (p_id pendingMeal) in
  match savePendingMeal now pendingMeal d with
  | (Ok _, d') =>
      indexMeals d'
      = entryOf mealId (default "" (p_timestamp pendingMeal))
          :: withoutId mealId (indexMeals d)
      /\ exists m, mealFiles d' = <[mealFilename mealId := MealJson m]> (mealFiles d)
  | (Throw _, d') => mealFiles d' = mealFiles d /\ indexMeals d' = indexMeals d
  end.
Proof.
  intros mealId. unfold savePendingMeal.
  rewrite (bind_ok _ _ _ _ _ (initializeStorage_run now d)).
  destruct (_ || _); unfold when.
  { simpl. by rewrite initialized_mealFiles, initialized_indexMeals. }
  rewrite bind_ret. fold mealId. unfold bind at 1.
  match goal with
  | |- context [match ?c (initialized now d) with _ => _ end] =>
      destruct (c (initialized now d)) as [[u1|e1] d1] eqn:E1;
      assert (framed c) as F1
        by (destruct (p_imageUri pendingMeal) as [i|]; [|exact (framed_ret _)];
            destruct (_ && _); [exact (framed_copy _ _ _ _) | exact (framed_ret _)])
  end;
    destruct (F1 _ _ _ E1) as [M1 I1];
    rewrite initialized_mealFiles in M1.
  2:{ split; [done|].
      by rewrite (indexMeals_framed _ _ I1), initialized_indexMeals. }
  unfold bind at 1.
  match goal with
  | |- context [match ?c d1 with _ => _ end] =>
      destruct (c d1) as [[u2|e2] d2] eqn:E2;
      assert (framed c) as F2
  end.
  1,3: destruct (p_afterImageUri pendingMeal) as [a|]; [|exact (framed_ret _)];
       destruct (_ && _); [|exact (framed_ret _)];
       refine (framed_bind _ _ _ _); [exact (framed_copy _ _ _ _) | intros u; exact (framed_ret _)].
  all: destruct (F2 _ _ _ E2) as [M2 I2].
  2:{ split; [congruence|].
      rewrite (indexMeals_framed _ _ I2), (indexMeals_framed _ _ I1).
      apply initialized_indexMeals. }
  unfold bind at 1, writeMealFile at 1, modify at 1.
  set (d3 := setMealFiles _ d2).
  destruct (readIndex_run now d3) as [u Eidx].
  rewrite (bind_ok _ _ _ _ _ Eidx). cbn [meals].
  assert (indexMeals d3 = indexMeals d) as ->.
  { rewrite <- (initialized_indexMeals now d). unfold indexMeals, d3. simpl.
    by rewrite I2, I1. }
  unfold writeIndex, modify.
  unfold indexMeals; simpl. split; [done|]. eexists. by rewrite M2, M1.
Qed.

Lemma consistent_saveMealAnalysis now meal :
  keeps consistentStore (saveMealAnalysis now meal) unit_ok.
Proof.
  intros d Hd. split; [|done].
  pose proof (saveMealAnalysis_cases now meal d) as H.
  destruct (saveMealAnalysis now meal d) as [[[]|e] d'];
    cbv beta iota zeta in H; cbn [snd].
  - destruct H as (Hidx & m & Hfiles). by eapply consistentStore_capped.
  - destruct H as [Hfiles Hidx]. by eapply consistentStore_same.
Qed.

Lemma consistent_savePendingMeal now pendingMeal :
  keeps consistentStore (savePendingMeal now pendingMeal) unit_ok.
Proof.
  intros d Hd. split; [|done].
  pose proof (savePendingMeal_cases now pendingMeal d) as H.
  destruct (savePendingMeal now pendingMeal d) as [[[]|e] d'];
    cbv beta iota zeta in H; cbn [snd].
  - destruct H as (Hidx & m & Hfiles). by eapply consistentStore_unshifted.
  - destruct H as [Hfiles Hidx]. by eapply consistentStore_same.
Qed.

Lemma consistent_saveCommentMeal now mealId timestamp comment :
  keeps consistentStore (saveCommentMeal now mealId timestamp comment) unit_ok.
Proof.
  intros d Hd. split; [|done]. rewrite saveCommentMeal_run. simpl.
  by eapply consistentStore_unshifted.
Qed.

Lemma syncedEntries_filenames mealId timestamp l e :
  e ∈ syncedEntries mealId timestamp l ->
  e_filename e = mealFilename mealId \/ exists x, x ∈ l /\ e_filename x = e_filename e.
Proof.
  unfold syncedEntries.
  destruct (findIndex (entryHasId mealId) l) as [i|] eqn:Ei.
  - intros [j Hj]%list_elem_of_lookup. right.
    destruct (decide (i = j)) as [<-|Hij].
    + apply findIndex_Some in Ei as (x & Hx & _).
      rewrite list_lookup_alter_eq, Hx in Hj. injection Hj as <-.
      exists x. split; [by eapply list_elem_of_lookup_2|done].
    + rewrite list_lookup_alter_ne in Hj by done.
      exists e. split; [by eapply list_elem_of_lookup_2|done].
  - intros [->|He]%elem_of_cons; [by left|]. right. by exists e.
Qed.

Lemma consistent_updateMealAnalysis now mealId patch :
  keeps consistentStore (updateMealAnalysis now mealId patch) unit_ok.
Proof.
  intros d Hd. split; [|done].
  destruct (storedMeal mealId d) as [existing|] eqn:Hstored.
  - destruct (updateMealAnalysis_run getTime now mealId patch d existing Hstored)
      as (d' & -> & Hfiles & Hidx & _). simpl.
    eapply consistentStore_intro; [exact Hidx|exact Hfiles| |].
    + eapply wellFormedEntries_Permutation; [symmetry; apply sortEntries_Permutation|].
      apply wellFormedEntries_synced, Hd.
    + intros e He. rewrite sortEntries_Permutation in He.
      destruct (decide (e_filename e = mealFilename mealId)) as [->|Hf].
      { rewrite lookup_insert_eq. eauto. }
      rewrite lookup_insert_ne by done.
      apply syncedEntries_filenames in He as [He|(x & Hx & <-)]; [done|].
      by apply consistentStore_backed.
  - destruct (updateMealAnalysis_missing getTime now mealId patch d Hstored) as (e & ->).
    by apply consistentStore_initialized.
Qed.

Lemma consistent_updateMealAnalysisError now mealId :
  keeps consistentStore (updateMealAnalysisError now mealId) unit_ok.
Proof.
  intros d Hd. split; [|done].
  destruct (storedMeal mealId d) as [existing|] eqn:Hstored.
  - destruct (updateMealAnalysisError_run now mealId d existing Hstored)
      as (d' & -> & Hfiles & Hidx & _). simpl.
    eapply consistentStore_intro; [exact Hidx|exact Hfiles|apply Hd|].
    intros e He.
    destruct (decide (e_filename e = mealFilename mealId)) as [->|Hf].
    { rewrite lookup_insert_eq. eauto. }
    rewrite lookup_insert_ne by done. by apply consistentStore_backed.
  - destruct (updateMealAnalysisError_missing now mealId d Hstored) as (e & ->).
    by apply consistentStore_initialized.
Qed.

Lemma consistent_deleteMeal now mealId :
  keeps consistentStore (deleteMeal now mealId) unit_ok.
Proof.
  intros d Hd. split; [|done].
  destruct (List.find (entryHasId mealId) (indexMeals d)) as [e|] eqn:Hfind.
  - rewrite (deleteMeal_listed now mealId d e Hfind). simpl.
    apply find_entry_Some in Hfind as [He Hid].
    eapply consistentStore_intro; [reflexivity|reflexivity| |].
    + eapply wellFormedEntries_sublist; [apply withoutId_sublist|apply Hd].
    + intros x [Hx Hne]%withoutId_elem. simpl.
      rewrite lookup_delete_ne; [by apply consistentStore_backed|].
      pose proof Hd as [[Hown _] _]. rewrite Forall_forall in Hown.
      rewrite (Hown e He), (Hown x Hx). intros Heq.
      apply mealFilename_inj in Heq. congruence.
  - rewrite (deleteMeal_unlisted now mealId d Hfind). simpl.
    by apply consistentStore_initialized.
Qed.

Lemma consistent_clearHistory now : keeps consistentStore (clearHistory now) unit_ok.
Proof.
  intros d Hd. split; [|done].
  destruct (clearHistory_run now d) as (d' & -> & Hidx & Hfiles & _). simpl.
  eapply consistentStore_intro; [exact Hidx|exact Hfiles|apply wellFormedEntries_nil|].
  intros e He. by apply elem_of_nil in He.
Qed.

Lemma consistent_clearHistoryByTimeRange now timeRange :
  keeps consistentStore (clearHistoryByTimeRange getTime now timeRange) unit_ok.
Proof.
  intros d Hd. split; [|done].
  destruct (decide (timeRange = all)) as [->|Hrange].
  - rewrite clearHistoryByTimeRange_all.
    apply consistent_clearHistory. by apply consistentStore_initialized.
  - destruct (clearHistoryByTimeRange_run getTime now timeRange d Hrange)
      as (d' & -> & Hidx & Hfiles & _). simpl.
    eapply consistentStore_intro; [exact Hidx|exact Hfiles| |].
    + eapply wellFormedEntries_sublist; [apply filter_sublist|apply Hd].
    + intros e He.
      rewrite (kept_file_survives (indexMeals d)
                 (List.filter (fun r => negb (atOrAfter getTime (now - rangeMillis timeRange) r))
                    (indexMeals d))
                 (List.filter (atOrAfter getTime (now - rangeMillis timeRange))
                    (indexMeals d)) _ e
                 (wellFormedEntries_filenames _ (proj1 Hd))).
      * apply consistentStore_backed; [done|].
        by apply list_elem_of_In, filter_In in He as [He%list_elem_of_In _].
      * intros x Hx. by apply list_elem_of_In, filter_In in Hx as [Hx%list_elem_of_In _].
      * intros x Hx. by apply list_elem_of_In, filter_In in Hx as [Hx%list_elem_of_In _].
      * intros x Hx Hx'.
        apply list_elem_of_In, filter_In in Hx as [_ Hx].
        apply list_elem_of_In, filter_In in Hx' as [_ Hx'].
        by rewrite Hx' in Hx.
      * exact He.
Qed.

Lemma consistent_getMealById now mealId :
  keeps consistentStore (getMealById now mealId) (fun _ => True).
Proof.
  intros d Hd. rewrite getMealById_run. simpl. split; [|done].
  by apply consistentStore_initialized.
Qed.

Lemma consistent_getMealHistory now :
  keeps consistentStore (getMealHistory now) (fun _ => True).
Proof.
  intros d Hd. rewrite getMealHistory_run. simpl. split; [|done].
  by apply consistentStore_initialized.
Qed.

Lemma consistent_afterStoreCall now c d :
  consistentStore d -> consistentStore (afterStoreCall now c d).
Proof.
  intros Hd. destruct c as [| | | | | | | | | | |sourceUri mealId sfx|]; simpl.
  - by apply consistent_saveMealAnalysis.
  - by apply consistent_savePendingMeal.
  - by apply consistent_saveCommentMeal.
  - by apply consistent_updateMealAnalysis.
  - by apply consistent_updateMealAnalysisError.
  - by apply consistent_getMealHistory.
  - by apply consistent_deleteMeal.
  - by apply consistent_clearHistory.
  - by apply consistent_clearHistoryByTimeRange.
  - by apply consistent_getMealById.
  - rewrite getMealCount_run. by apply consistentStore_initialized.
  - destruct (copyImageToStorage now sourceUri mealId sfx d) as [r d1] eqn:E.
    destruct (framed_copy _ _ _ _ _ _ _ E) as [M1 I1]. simpl.
    eapply consistentStore_same; [by apply indexMeals_framed|exact M1|exact Hd].
  - rewrite initializeStorage_run. by apply consistentStore_initialized.
Qed.

(** *** The pipeline and the bridge *)

Local Abbreviation worldOk := (fun w : World => consistentStore (disk w)).

Lemma consistent_onDisk {A} (c : M Disk A) R :
  keeps consistentStore c R -> keeps worldOk (onDisk c) R.
Proof.
  intros Hc w Hw. unfold onDisk. destruct (Hc (disk w) Hw) as [Hd Ha].
  by destruct (c (disk w)) as [r d'].
Qed.

Lemma consistent_frame {A} (c : M World A) :
  (forall w, disk (c w).2 = disk w) -> keeps worldOk c (fun _ => True).
Proof. intros Hc w Hw. split; [|done]. by rewrite Hc. Qed.

Lemma writeMealToHealthConnect_disk hc meal w :
  disk (writeMealToHealthConnect getTime hc meal w).2 = disk w.
Proof.
  unfold writeMealToHealthConnect.
  assert (forall A B (c : M World A) (k : A -> M World B),
            (forall w1, disk (c w1).2 = disk w1) ->
            (forall a w1, disk (k a w1).2 = disk w1) ->
            forall w0, disk (bind c k w0).2 = disk w0) as Hbind.
  { intros A B c k Hc Hk w0. unfold bind. specialize (Hc w0).
    destruct (c w0) as [[a|e] w1]; simpl in *; [by rewrite Hk|done]. }
  apply Hbind; clear w.
  { intros w. destruct (negb _); [done|].
    by destruct (hasWritePermission_run hc w) as (g & w1 & -> & _ & _ & Hd & _). }
  intros permitted w. destruct (_ || _); [done|].
  apply Hbind; clear w; [intros w; by rewrite getNextVersion_run|].
  intros [version map] w.
  destruct (convertMealToNutritionRecord getTime meal) as [builder|] eqn:Hconv; [|done].
  apply Hbind; clear w.
  { intros w. by destruct (convert_Some getTime meal builder version w Hconv)
      as [[e ->]|(record & -> & _)]. }
  intros record w. apply Hbind; clear w.
  { intros w. unfold ensureInitialized. by destruct (_ || _). }
  intros initOK w. destruct (negb initOK); [done|].
  unfold try_catch, sendRecord, writeVersionMap, bind, modify.
  by destruct (writeApi hc), (writeAccepted hc), (secureSetFails hc).
Qed.

Lemma consistent_emit meal : keeps worldOk (emitMealUpdated meal) unit_ok.
Proof. by apply keeps_modify. Qed.

Lemma consistent_markFailed c meal : keeps worldOk (markFailed c meal) unit_ok.
Proof.
  unfold markFailed. apply keeps_catch; [|intros _; by apply keeps_ret].
  eapply keeps_bind; [apply consistent_onDisk, consistent_updateMealAnalysisError|].
  intros _ _. apply consistent_emit.
Qed.

Lemma consistent_processMeal c meal :
  keeps worldOk (processMeal getTime c meal) unit_ok.
Proof.
  unfold processMeal. apply keeps_catch; [|intros _; apply consistent_markFailed].
  destruct (expired getTime c meal).
  - eapply keeps_bind; [apply consistent_onDisk, consistent_updateMealAnalysisError|].
    intros _ _. apply consistent_emit.
  - eapply keeps_bind.
    { unfold retryTransition. apply keeps_when.
      eapply keeps_bind; [apply consistent_onDisk, consistent_updateMealAnalysis|].
      intros _ _. apply consistent_emit. }
    intros _ _. eapply (keeps_bind _ _ _ (fun _ => True)).
    { apply consistent_frame. intros w.
      by destruct (analyse_run c meal w) as (r & requests & -> & _). }
    intros analysis _.
    eapply keeps_bind; [apply consistent_onDisk, consistent_updateMealAnalysis|].
    intros _ _.
    eapply keeps_bind; [|intros _ _; apply consistent_emit].
    apply keeps_when, keeps_catch; [|intros _; by apply keeps_ret].
    apply consistent_frame. intros w. apply writeMealToHealthConnect_disk.
Qed.

Lemma consistent_resumePending start world :
  keeps worldOk (resumePending getTime start world) unit_ok.
Proof.
  unfold resumePending. apply keeps_catch; [|intros _; by apply keeps_ret].
  eapply keeps_bind; [apply consistent_onDisk, consistent_getMealHistory|].
  intros meals _.
  generalize 0%nat. induction (List.filter needsRetry meals) as [|meal l IH]; intros i.
  - by apply keeps_ret.
  - simpl. eapply keeps_bind; [|intros _ _; apply IH].
    apply keeps_catch; [apply consistent_processMeal|]. intros _. by apply keeps_ret.
Qed.

Lemma consistent_retryMeal c mealId :
  keeps worldOk (retryMeal getTime c mealId) unit_ok.
Proof.
  unfold retryMeal.
  eapply keeps_bind; [apply consistent_onDisk, consistent_getMealById|].
  intros [meal|] _; [apply consistent_processMeal | apply keeps_throw].
Qed.

Lemma consistent_afterCall c w : worldOk w -> worldOk (afterCall c w).
Proof.
  intros Hw. destruct c; simpl.
  - by apply consistent_afterStoreCall.
  - by apply consistent_processMeal.
  - by apply consistent_resumePending.
  - by apply consistent_retryMeal.
  - by rewrite writeMealToHealthConnect_disk.
Qed.

Lemma consistent_afterCalls calls w : worldOk w -> worldOk (afterCalls calls w).
Proof.
  revert w. induction calls as [|c calls IH]; intros w Hw; [done|].
  apply IH. by apply consistent_afterCall.
Qed.

(** Whatever calls of the record store, the pipeline and the bridge are
    made on a consistent store (a fresh one is consistent), in whatever
    order, if the calls of the record store return, the store stays
    consistent: the entries of the index have distinct ids, each names the
    file of its own id, and each leads to a record. So [getMealHistory]
    lists one record for each entry of the index, as many as [getMealCount]
    counts, and [getMealById] finds the record of every id of the index.
    (A call of the store that throws is left out: when a write fails after
    [saveMealAnalysis], [clearHistory] or [clearHistoryByTimeRange] have
    deleted files, the index keeps entries without a file.) *)
Theorem calls_keep_the_store_consistent calls w now :
  consistentStore (disk w) ->
  storeMethodsReturn calls w ->
  let d := disk (afterCalls calls w) in
  consistentStore d
  /\ NoDup (map e_id (indexMeals d))
  /\ (exists listed,
        (getMealHistory now d).1 = Ok listed
        /\ (getMealCount now d).1 = Ok (length listed)
        /\ length listed = length (indexMeals d))
  /\ (forall e, e ∈ indexMeals d ->
        exists m, (getMealById now (e_id e) d).1 = Ok (Some m)).
Proof.
  intros Hw _ d.
  assert (consistentStore d) as Hd by by apply consistent_afterCalls.
  split; [done|]. split; [apply Hd|]. split.
  - exists (omap (readableMeal d) (indexMeals d)).
    rewrite getMealHistory_run, getMealCount_run. simpl.
    rewrite omap_length_total by apply Hd. done.
  - intros e He. rewrite getMealById_run. simpl.
    destruct (consistentStore_backed d e Hd He) as [m Hm].
    exists m. unfold storedMeal.
    pose proof Hd as [[Hown _] _]. rewrite Forall_forall in Hown.
    by rewrite <- (Hown e He), Hm.
Qed.

End StoreConsistency.

(** ** Further properties of the analysis pipeline *)

Section PipelineCompletion.

Variable documentDirectory : string.
Variable getTime : string -> option Z.

Local Abbreviation processMeal := (processMeal getTime).
Local Abbreviation retryTransition := (retryTransition getTime).
Local Abbreviation expired := (expired getTime).
Local Abbreviation resumePending := (resumePending getTime).
Local Abbreviation retryMeal := (retryMeal getTime).
Local Abbreviation processAll := (processAll getTime).
Local Abbreviation updateMealAnalysis := (updateMealAnalysis getTime).
Local Abbreviation writeMealToHealthConnect := (writeMealToHealthConnect getTime).
Local Abbreviation savePendingMeal := (savePendingMeal documentDirectory).
Local Abbreviation imagesDir := (imagesDir documentDirectory).

(** What the bridge leaves as it is. *)
Local Abbreviation aside w w' :=
  (disk w' = disk w /\ mealUpdated w' = mealUpdated w
   /\ geminiRequests w' = geminiRequests w).

Lemma aside_bind {A B} (c : M World A) (k : A -> M World B) :
  (forall w, aside w (c w).2) -> (forall a w, aside w (k a w).2) ->
  forall w, aside w (bind c k w).2.
Proof.
  intros Hc Hk w. unfold bind. specialize (Hc w).
  destruct (c w) as [[a|e] w1]; simpl in *; [|done].
  destruct (Hk a w1) as (H1 & H2 & H3), Hc as (H4 & H5 & H6).
  repeat split; congruence.
Qed.

Lemma writeMealToHealthConnect_aside hc meal w :
  aside w (writeMealToHealthConnect hc meal w).2.
Proof.
  unfold writeMealToHealthConnect. revert w. apply aside_bind.
  { intros w. destruct (negb _); [done|].
    by destruct (hasWritePermission_run hc w) as (g & w1 & -> & _ & _ & Hd & Hg & Hm). }
  intros permitted w. destruct (_ || _); [done|].
  revert w. apply aside_bind; [intros w; by rewrite getNextVersion_run|].
  intros [version map] w.
  destruct (convertMealToNutritionRecord getTime meal) as [builder|] eqn:Hconv; [|done].
  revert w. apply aside_bind.
  { intros w. by destruct (convert_Some getTime meal builder version w Hconv)
      as [[e ->]|(record & -> & _)]. }
  intros record. apply aside_bind.
  { intros w. unfold ensureInitialized. by destruct (_ || _). }
  intros initOK w. destruct (negb initOK); [done|].
  unfold try_catch, sendRecord, writeVersionMap, bind, modify.
  by destruct (writeApi hc), (writeAccepted hc), (secureSetFails hc).
Qed.

(** [analyse] returns an analysis after one request to the inference
    service, which the service answered with this analysis. *)
Lemma analyse_ok c meal w analysis w1 :
  analyse c meal w = (Ok analysis, w1) ->
  exists request,
    gemini c request = Some analysis
    /\ w1 = setGeminiRequests (request :: geminiRequests w) w.
Proof.
  assert (forall request w0,
            callGemini c request w0 = (Ok analysis, w1) ->
            gemini c request = Some analysis
            /\ w1 = setGeminiRequests (request :: geminiRequests w0) w0) as Hcall.
  { intros request w0. unfold callGemini, bind, modify.
    destruct (gemini c request); [|done]. by intros [= -> <-]. }
  unfold analyse.
  destruct (_ || _).
  - destruct (_ || _); [done|]. intros H. eexists. by apply Hcall.
  - destruct (Str.truthyOpt (m_afterImageUri meal)).
    + unfold bind at 1. rewrite readBase64_run.
      destruct (files (disk w) !! m_imageUri meal); [|done].
      unfold bind at 1. rewrite readBase64_run.
      destruct (files (disk w) !! default "" (m_afterImageUri meal)); [|done].
      intros H. eexists. by apply Hcall.
    + unfold bind at 1. rewrite readBase64_run.
      destruct (files (disk w) !! m_imageUri meal); [|done].
      intros H. eexists. by apply Hcall.
Qed.

(** Spreading a whole record a second time overrides the first spreading. *)
Lemma spread_twice existing (m1 m2 : MealAnalysis) :
  m_afterImageUri m1 = m_afterImageUri m2 -> m_comment m1 = m_comment m2 ->
  is_Some (m_isLoading m2) -> is_Some (m_hasError m2) ->
  spread (clearFlags (spread existing (patchOf m1))) (patchOf m2)
  = spread existing (patchOf m2).
Proof.
  intros Ha Hc [l Hl] [e He]. unfold spread, patchOf, clearFlags. simpl.
  rewrite Ha, Hc, Hl, He. simpl. f_equal.
  - by destruct (m_afterImageUri m2).
  - by destruct (m_comment m2).
Qed.

(** What [processMeal] does when the analysis succeeds. *)
Lemma processMeal_completed c meal w existing analysis :
  expired c meal = false ->
  storedMeal (m_id meal) (disk w) = Some existing ->
  (analyse c meal w).1 = Ok analysis ->
  let completedMeal := withFlags false false (withAnalysis (AObject analysis) meal) in
  exists w' request,
    processMeal c meal w = (Ok tt, w')
    /\ storedMeal (m_id meal) (disk w')
       = Some (clearFlags (spread existing (patchOf completedMeal)))
    /\ mealUpdated w'
       = completedMeal
           :: ((if flag (m_hasError meal) then [withFlags true false meal] else [])
               ++ mealUpdated w)%list
    /\ gemini c request = Some analysis
    /\ geminiRequests w' = request :: geminiRequests w
    /\ files (disk w') = files (disk w)
    /\ (forall other, other <> m_id meal ->
          storedMeal other (disk w') = storedMeal other (disk w)).
Proof.
  intros Hexp Hstored Hok completedMeal.
  unfold processMeal, try_catch. fold expired. rewrite Hexp.
  (* the retry transition *)
  assert (exists w1 r1,
    retryTransition c meal w = (Ok tt, w1)
    /\ storedMeal (m_id meal) (disk w1) = Some r1
    /\ clearFlags (spread r1 (patchOf completedMeal))
       = clearFlags (spread existing (patchOf completedMeal))
    /\ mealUpdated w1
       = ((if flag (m_hasError meal) then [withFlags true false meal] else [])
          ++ mealUpdated w)%list
    /\ files (disk w1) = files (disk w)
    /\ geminiRequests w1 = geminiRequests w
    /\ (forall other, other <> m_id meal ->
          storedMeal other (disk w1) = storedMeal other (disk w)))
    as (w1 & r1 & Hretry & Hs1 & Hspread & Hev1 & Hfiles1 & Hg1 & Hother1).
  { unfold retryTransition, when. destruct (flag (m_hasError meal)).
    - destruct (updateMealAnalysis_run getTime (now c) (m_id meal)
                  (patchOf (withFlags true false meal)) _ _ Hstored)
        as (d' & Hrun & Hmf & _ & Himg).
      rewrite (bind_ok _ _ _ _ _ (onDisk_run _ _ _ _ Hrun)).
      eexists _, _. split; [reflexivity|]. simpl.
      split; [unfold storedMeal; by rewrite Hmf, lookup_insert_eq|].
      split; [by rewrite spread_twice|].
      split; [done|]. split; [done|]. split; [done|].
      intros other Hother. unfold storedMeal. rewrite Hmf, lookup_insert_ne; [done|].
      intros Heq. by apply mealFilename_inj in Heq.
    - exists w, existing. by repeat split. }
  fold retryTransition. rewrite (bind_ok _ _ _ _ _ Hretry).
  (* the analysis *)
  destruct (analyse_run c meal w) as (r & requests & Hw & Hsame).
  rewrite Hw in Hok. simpl in Hok. subst r.
  destruct (Hsame w1 Hfiles1) as (requests1 & Hw1).
  destruct (analyse_ok _ _ _ _ _ Hw1) as (request & Hanswer & Hreq).
  rewrite (bind_ok _ _ _ _ _ Hw1).
  apply (f_equal geminiRequests) in Hreq. simpl in Hreq. subst requests1.
  (* the update *)
  set (w2 := setGeminiRequests _ w1).
  destruct (updateMealAnalysis_run getTime (now c) (m_id meal) (patchOf completedMeal)
              (disk w2) r1 Hs1) as (d3 & Hrun3 & Hmf3 & _ & Himg3).
  fold completedMeal. rewrite (bind_ok _ _ _ _ _ (onDisk_run _ _ _ _ Hrun3)).
  (* the bridge *)
  set (w3 := setDisk d3 w2).
  assert (exists w4,
    when (platformIsAndroid (healthConnect c))
      (try_catch (writeMealToHealthConnect (healthConnect c) completedMeal)
         (fun _ => ret tt)) w3 = (Ok tt, w4)
    /\ aside w3 w4) as (w4 & Hbridge & Hd4 & Hm4 & Hg4).
  { unfold when. destruct (platformIsAndroid (healthConnect c)); [|by eexists].
    unfold try_catch.
    pose proof (writeMealToHealthConnect_aside (healthConnect c) completedMeal w3) as Ha.
    destruct (writeMealToHealthConnect (healthConnect c) completedMeal w3)
      as [[[]|e] w4]; by eexists. }
  rewrite (bind_ok _ _ _ _ _ Hbridge).
  unfold emitMealUpdated, modify. eexists _, request. split; [reflexivity|]. simpl.
  rewrite Hd4, Hm4, Hg4. simpl.
  split; [unfold storedMeal; by rewrite Hmf3, lookup_insert_eq, Hspread|].
  split; [by rewrite Hev1|]. split; [done|]. split; [by rewrite Hg1|].
  split; [by rewrite Himg3|].
  intros other Hother. rewrite <- (Hother1 other Hother).
  unfold storedMeal. rewrite Hmf3, lookup_insert_ne; [done|].
  intros Heq. by apply mealFilename_inj in Heq.
Qed.

(** When the analysis of a stored record that has not expired succeeds,
    [processMeal] returns after one request to the inference service; the
    stored record then carries the analysis and neither flag, so that
    [resumePending] no longer selects it, and the id, the timestamp and the
    image URI of the record passed to [processMeal]; no other record and no
    image changes; the last ['mealUpdated'] event carries the completed
    record, after the event of the retry transition when the record was in
    error. *)
Theorem process_stores_the_analysis c meal w existing analysis :
  expired c meal = false ->
  storedMeal (m_id meal) (disk w) = Some existing ->
  (analyse c meal w).1 = Ok analysis ->
  let w' := (processMeal c meal w).2 in
  let completedMeal := withFlags false false (withAnalysis (AObject analysis) meal) in
  let stored := clearFlags (spread existing (patchOf completedMeal)) in
  (processMeal c meal w).1 = Ok tt
  /\ (getMealById (now c) (m_id meal) (disk w')).1 = Ok (Some stored)
  /\ m_analysis stored = AObject analysis
  /\ needsRetry stored = false
  /\ m_id stored = m_id meal /\ m_timestamp stored = m_timestamp meal
  /\ m_imageUri stored = m_imageUri meal
  /\ mealUpdated w'
     = completedMeal
         :: ((if flag (m_hasError meal) then [withFlags true false meal] else [])
             ++ mealUpdated w)%list
  /\ (exists request,
        gemini c request = Some analysis
        /\ geminiRequests w' = request :: geminiRequests w)
  /\ files (disk w') = files (disk w)
  /\ (forall other, other <> m_id meal ->
        storedMeal other (disk w') = storedMeal other (disk w)).
Proof.
  intros Hexp Hstored Hok w' completedMeal stored. subst w'.
  destruct (processMeal_completed c meal w existing analysis Hexp Hstored Hok)
    as (w' & request & -> & Hs & Hev & Hanswer & Hreq & Hfiles & Hother).
  cbn [fst snd]. split; [done|]. rewrite getMealById_run. cbn [fst].
  split; [by rewrite Hs|]. do 5 (split; [done|]).
  split; [exact Hev|]. split; [by exists request|]. by split.
Qed.

(** [retryMeal] throws exactly when the file of the record is missing or
    does not parse: it then makes no request and emits no event. On a
    record that is stored and in error, not expired, and whose analysis
    succeeds, it returns with the record stored with the analysis and
    neither flag, after the events of the retry transition and of the
    completion. *)
Theorem retry_needs_a_stored_record c mealId w :
  let w0 := setDisk (initialized (now c) (disk w)) w in
  (storedMeal mealId (disk w) = None ->
   retryMeal c mealId w = (Throw (MealNotFound mealId), w0))
  /\ (forall meal, storedMeal mealId (disk w) = Some meal ->
        (retryMeal c mealId w).1 = Ok tt
        /\ retryMeal c mealId w = processMeal c meal w0)
  /\ (forall meal analysis,
        storedMeal mealId (disk w) = Some meal -> m_id meal = mealId ->
        m_hasError meal = Some true -> expired c meal = false ->
        (analyse c meal w).1 = Ok analysis ->
        let w' := (retryMeal c mealId w).2 in
        exists stored,
          storedMeal mealId (disk w') = Some stored
          /\ m_analysis stored = AObject analysis
          /\ m_isLoading stored = Some false /\ m_hasError stored = Some false
          /\ mealUpdated w'
             = withFlags false false (withAnalysis (AObject analysis) meal)
                 :: withFlags true false meal :: mealUpdated w).
Proof.
  intros w0.
  assert (onDisk (getMealById (now c) mealId) w = (Ok (storedMeal mealId (disk w)), w0))
    as Hfound by (apply onDisk_run, getMealById_run).
  split; [|split].
  - intros Hnone. unfold retryMeal.
    rewrite (bind_ok _ _ _ _ _ Hfound). by rewrite Hnone.
  - intros meal Hsome. unfold retryMeal.
    rewrite (bind_ok _ _ _ _ _ Hfound), Hsome.
    split; [apply processMeal_total | done].
  - intros meal analysis Hsome Hid Herr Hexp Hok w'. subst w'.
    unfold retryMeal. rewrite (bind_ok _ _ _ _ _ Hfound), Hsome.
    assert (storedMeal (m_id meal) (disk w0) = Some meal) as Hs0.
    { rewrite Hid. unfold w0. simpl. by rewrite initialized_storedMeal. }
    assert ((analyse c meal w0).1 = Ok analysis) as Hok0.
    { destruct (analyse_run c meal w) as (r & requests & Hw & Hsame).
      rewrite Hw in Hok. simpl in Hok. subst r.
      destruct (Hsame w0) as (requests0 & ->); [|done].
      unfold w0. simpl. apply initialized_files. }
    destruct (processMeal_completed c meal w0 meal analysis Hexp Hs0 Hok0)
      as (w' & request & -> & Hs & Hev & _).
    cbn [snd]. eexists. rewrite <- Hid. split; [exact Hs|]. rewrite Hev, Herr. done.
Qed.

(** [resumePending] leaves the settled records alone: when no record the
    index leads to is loading or in error, it returns without a request to
    the inference service, without an event and without a write on Health
    Connect; on the disk it writes nothing but the index that
    [initializeStorage] sets up when there is none. *)
Theorem resume_skips_settled_records start world w :
  (forall e m, e ∈ indexMeals (disk w) -> readableMeal (disk w) e = Some m ->
               needsRetry m = false) ->
  resumePending start world w = (Ok tt, setDisk (initialized start (disk w)) w).
Proof.
  intros Hsettled.
  rewrite (resumePending_run getTime start world w _ _
             (onDisk_run _ _ _ _ (getMealHistory_run start (disk w)))).
  f_equal.
  assert (List.filter needsRetry (omap (readableMeal (disk w)) (indexMeals (disk w))) = [])
    as ->; [|done].
  induction (indexMeals (disk w)) as [|e l IH]; [done|].
  cbn [omap list_omap].
  destruct (readableMeal (disk w) e) as [m|] eqn:Hm.
  - simpl. rewrite (Hsettled e m) by (done || left).
    apply IH. intros e' m' He'. apply Hsettled. by right.
  - apply IH. intros e' m' He'. apply Hsettled. by right.
Qed.

(** [savePendingMeal] on a pending meal with a photo and no second photo. *)
Lemma savePendingMeal_photo now pendingMeal d mealId timestamp source content :
  p_id pendingMeal = Some mealId -> mealId <> "" ->
  p_timestamp pendingMeal = Some timestamp -> timestamp <> "" ->
  p_imageUri pendingMeal = Some source -> toCopy (Some source) = Some source ->
  p_afterImageUri pendingMeal = None ->
  files d !! source = Some content ->
  exists d1,
    savePendingMeal now pendingMeal d = (Ok tt, d1)
    /\ mealFiles d1
       = <[mealFilename mealId
           := MealJson (pendingToSave documentDirectory now pendingMeal)]> (mealFiles d)
    /\ files d1 = <[imagesDir ++ imageFilename now source mealId "" := content]> (files d).
Proof.
  intros Hid Hid' Hts Hts' Himg Hcopy Hafter Hcontent.
  assert (~ missing (p_id pendingMeal)) as Hpid
    by (rewrite Hid; intros [H|H]; congruence).
  assert (~ missing (p_timestamp pendingMeal)) as Hpts
    by (rewrite Hts; intros [H|H]; congruence).
  assert (pendingToSave documentDirectory now pendingMeal
          = {| m_id := mealId; m_timestamp := timestamp;
               m_imageUri := imagesDir ++ imageFilename now source mealId "";
               m_afterImageUri := None; m_analysis := ANull;
               m_comment := Some (default "" (p_comment pendingMeal));
               m_isLoading := Some true; m_hasError := Some false |}) as ->.
  { unfold pendingToSave. by rewrite Himg, Hcopy, Hafter, Hid, Hts. }
  unfold savePendingMeal.
  rewrite (bind_ok _ _ _ _ _ (initializeStorage_run now d)).
  rewrite (present_truthy _ Hpid), (present_truthy _ Hpts). unfold when. simpl negb.
  simpl orb. cbv iota. rewrite bind_ret.
  rewrite Himg, Hafter, Hid, Hts. cbn [default].
  assert (Str.truthy source && Str.truthy (Str.trim source) = true) as ->.
  { unfold toCopy in Hcopy. by destruct (_ && _). }
  erewrite bind_ok;
    [|apply copyImageToStorage_run; rewrite initialized_files; exact Hcontent].
  rewrite bind_ret, comment_default.
  unfold bind at 1, writeMealFile at 1, modify at 1.
  set (d3 := setMealFiles _ _).
  destruct (readIndex_run now d3) as [u Eidx].
  rewrite (bind_ok _ _ _ _ _ Eidx). cbn [meals].
  unfold writeIndex, modify. eexists. split; [reflexivity|]. simpl.
  by rewrite initialized_mealFiles, initialized_files.
Qed.

(** [processMeal] writes the image URI of the record it is given over the
    one that is stored. [savePendingMeal] copies the photo of a pending meal
    into the images directory and stores the URI of the copy; when
    [processMeal] is then given the pending meal with the URI of the photo
    (as [AddMealModal] does) and the analysis succeeds, the stored record
    points to the photo again, outside the store, and the copy is left in
    the images directory with no record pointing to it. *)
Theorem processing_restores_the_source_uri now c pendingMeal meal d w content analysis :
  p_id pendingMeal = Some (m_id meal) -> m_id meal <> "" ->
  p_timestamp pendingMeal = Some (m_timestamp meal) -> m_timestamp meal <> "" ->
  p_imageUri pendingMeal = Some (m_imageUri meal) ->
  toCopy (Some (m_imageUri meal)) = Some (m_imageUri meal) ->
  p_afterImageUri pendingMeal = None -> m_afterImageUri meal = None ->
  Str.startsWith (m_imageUri meal) imagesDir = false ->
  files d !! m_imageUri meal = Some content ->
  flag (m_hasError meal) = false -> expired c meal = false ->
  gemini c (AnalyzeFood content (m_comment meal)) = Some analysis ->
  let copy := imagesDir ++ imageFilename now (m_imageUri meal) (m_id meal) "" in
  let d1 := (savePendingMeal now pendingMeal d).2 in
  let w' := (processMeal c meal (setDisk d1 w)).2 in
  (m_imageUri <$> storedMeal (m_id meal) d1) = Some copy
  /\ (m_imageUri <$> storedMeal (m_id meal) (disk w')) = Some (m_imageUri meal)
  /\ (m_analysis <$> storedMeal (m_id meal) (disk w')) = Some (AObject analysis)
  /\ copy <> m_imageUri meal
  /\ files (disk w') !! copy = Some content.
Proof.
  intros Hid Hid' Hts Hts' Himg Hcopy Hafter Hafter' Houtside Hcontent Herr Hexp Hanswer
    copy d1 w'.
  destruct (savePendingMeal_photo now pendingMeal d _ _ _ _
              Hid Hid' Hts Hts' Himg Hcopy Hafter Hcontent) as (d1' & Hsave & Hmf1 & Hf1).
  assert (d1 = d1') as Hd1 by (unfold d1; by rewrite Hsave).
  clearbody d1. subst d1'. fold copy in Hf1.
  assert (storedMeal (m_id meal) d1
          = Some (pendingToSave documentDirectory now pendingMeal)) as Hs1.
  { unfold storedMeal. by rewrite Hmf1, lookup_insert_eq. }
  assert (m_imageUri (pendingToSave documentDirectory now pendingMeal) = copy) as Huri.
  { unfold pendingToSave. simpl. rewrite Himg, Hcopy, Hid. done. }
  assert (copy <> m_imageUri meal) as Hne.
  { intros Heq. rewrite <- Heq in Houtside. unfold copy in Houtside.
    by rewrite startsWith_app in Houtside. }
  assert (files d1 !! m_imageUri meal = Some content) as Hcontent1.
  { rewrite Hf1, lookup_insert_ne by done. exact Hcontent. }
  assert ((analyse c meal (setDisk d1 w)).1 = Ok analysis) as Hok.
  { unfold analyse.
    unfold toCopy in Hcopy.
    destruct (Str.truthy (m_imageUri meal)) eqn:E1; [|done].
    destruct (Str.truthy (Str.trim (m_imageUri meal))) eqn:E2; [|done].
    simpl. rewrite Hafter'. simpl.
    unfold bind at 1. rewrite readBase64_run. simpl. rewrite Hcontent1.
    unfold callGemini, bind, modify. by rewrite Hanswer. }
  destruct (processMeal_completed c meal (setDisk d1 w) _ analysis Hexp Hs1 Hok)
    as (w2 & request & Hrun & Hs2 & _ & _ & _ & Hfiles2 & _).
  subst w'. rewrite Hrun. cbn [snd].
  split.
  { rewrite Hs1.
    change (Some (m_imageUri (pendingToSave documentDirectory now pendingMeal))
            = Some copy).
    by rewrite Huri. }
  split; [by rewrite Hs2|]. split; [by rewrite Hs2|]. split; [done|].
  rewrite Hfiles2. simpl. by rewrite Hf1, lookup_insert_eq.
Qed.

End PipelineCompletion.

(** ** Further properties of the bridge *)

Section BridgePermission.

Variable getTime : string -> option Z.

Local Abbreviation writeMealToHealthConnect := (writeMealToHealthConnect getTime).
Local Abbreviation convertMealToNutritionRecord := (convertMealToNutritionRecord getTime).

Lemma hasWritePermission_native hc w granted :
  platformIsAndroid hc = true -> moduleLoaded hc = true ->
  grantedPermissions hc = Some granted ->
  hasWritePermission hc w
  = (Ok (existsb isNutritionWrite granted),
     if secureSetFails hc then w
     else setSecureStore
            {| permissionItem :=
                 if existsb isNutritionWrite granted then Some "true" else None;
               versionMapItem := versionMapItem (secureStore w) |} w).
Proof.
  intros Ha Hm Hl. unfold hasWritePermission, ensureInitialized, setPermissionGranted.
  rewrite Ha, Hm, Hl. simpl. unfold bind, ret, modify.
  by destruct (secureSetFails hc).
Qed.

Lemma hasWritePermission_fallback hc w :
  platformIsAndroid hc = true -> moduleLoaded hc = true ->
  grantedPermissions hc = None ->
  hasWritePermission hc w
  = (Ok (if secureGetFails hc then false
         else bool_decide (permissionItem (secureStore w) = Some "true")), w).
Proof.
  intros Ha Hm Hl. unfold hasWritePermission, ensureInitialized, getPersistedPermission.
  rewrite Ha, Hm, Hl. simpl. unfold bind, ret, get.
  by destruct (secureGetFails hc).
Qed.

(** [hasWritePermission] asks Health Connect and remembers the answer. Off
    Android, or without the native module, it returns [false] and touches
    nothing. When Health Connect lists the granted permissions, it returns
    whether the write permission for nutrition records is among them and
    (the secure store taking the write) persists this answer, so that a
    revocation clears the flag. When the list cannot be had, it returns the
    persisted answer: the one of the last check that had the list. It never
    throws. *)
Theorem permission_check_is_remembered hc w :
  (exists granted, (hasWritePermission hc w).1 = Ok granted)
  /\ (platformIsAndroid hc = false \/ moduleLoaded hc = false ->
      hasWritePermission hc w = (Ok false, w))
  /\ (forall granted hc',
        platformIsAndroid hc = true -> moduleLoaded hc = true ->
        grantedPermissions hc = Some granted ->
        let w1 := (hasWritePermission hc w).2 in
        (hasWritePermission hc w).1 = Ok (existsb isNutritionWrite granted)
        /\ (secureSetFails hc = false ->
            permissionItem (secureStore w1)
            = (if existsb isNutritionWrite granted then Some "true" else None)
            /\ (platformIsAndroid hc' = true -> moduleLoaded hc' = true ->
                grantedPermissions hc' = None -> secureGetFails hc' = false ->
                hasWritePermission hc' w1 = (Ok (existsb isNutritionWrite granted), w1)))).
Proof.
  split; [|split].
  - destruct (hasWritePermission_run hc w) as (g & w1 & -> & _). by exists g.
  - intros H. unfold hasWritePermission.
    destruct H as [-> | ->]; simpl; [done|]. by rewrite orb_true_r.
  - intros granted hc' Ha Hm Hl w1. subst w1.
    rewrite (hasWritePermission_native hc w granted Ha Hm Hl). cbn [fst snd].
    split; [done|]. intros ->. simpl. split; [done|].
    intros Ha' Hm' Hl' Hget.
    rewrite (hasWritePermission_fallback hc' _ Ha' Hm' Hl'), Hget. simpl.
    by destruct (existsb isNutritionWrite granted).
Qed.



End BridgePermission.

(** ** The full sync and the permission request of the settings screen *)

Section SettingsFacts.

Variable getTime : string -> option Z.
Variable messageOf : Error -> option string.

Local Abbreviation toSyncRecords := (toSyncRecords getTime).
Local Abbreviation syncMealsToHealthConnect := (syncMealsToHealthConnect getTime messageOf).
Local Abbreviation requestHealthConnectPermission :=
  (requestHealthConnectPermission getTime messageOf).
Local Abbreviation syncRecordOf := (syncRecordOf getTime).
Local Abbreviation datedTotals := (datedTotals getTime).

Lemma toSyncRecords_dated meals s :
  datedTotals meals -> toSyncRecords meals s = (Ok (omap syncRecordOf meals), s).
Proof.
  induction meals as [|meal rest IH]; [done|].
  unfold datedTotals, withTotals. cbn [List.filter toSyncRecords omap list_omap].
  unfold syncRecordOf at 1.
  destruct (totalsOf meal) as [[a totals]|] eqn:Ht.
  - rewrite bool_decide_eq_true_2 by eauto. intros [[t Hd] Hrest]%Forall_cons.
    rewrite Hd. unfold bind. by rewrite IH.
  - rewrite bool_decide_eq_false_2 by (by intros [? ?]). intros H. by rewrite IH.
Qed.

Lemma toSyncRecords_undated meals s :
  ~ datedTotals meals -> toSyncRecords meals s = (Throw InvalidTimeValue, s).
Proof.
  induction meals as [|meal rest IH].
  - intros []. apply Forall_nil_2.
  - unfold datedTotals, withTotals. cbn [List.filter toSyncRecords].
    destruct (totalsOf meal) as [[a totals]|] eqn:Ht.
    + rewrite bool_decide_eq_true_2 by eauto. intros Hnot.
      destruct (getTime (m_timestamp meal)) as [t|] eqn:Hd; [|done].
      unfold bind. rewrite IH; [done|].
      intros Hrest. apply Hnot, Forall_cons. split; [by rewrite Hd|done].
    + rewrite bool_decide_eq_false_2 by (by intros [? ?]). apply IH.
Qed.

Lemma toSyncRecords_cases meals s :
  (datedTotals meals /\ toSyncRecords meals s = (Ok (omap syncRecordOf meals), s))
  \/ (~ datedTotals meals /\ toSyncRecords meals s = (Throw InvalidTimeValue, s)).
Proof.
  destruct (decide (datedTotals meals)) as [H|H].
  - left. split; [done|]. by apply toSyncRecords_dated.
  - right. split; [done|]. by apply toSyncRecords_undated.
Qed.


Lemma setDisk_id w : setDisk (disk w) w = w.
Proof. by destruct w. Qed.

Lemma history_onScreen now s :
  onWorld (onDisk (getMealHistory now)) s
  = (Ok (omap (readableMeal (disk (world s))) (indexMeals (disk (world s)))),
     setWorld (setDisk (initialized now (disk (world s))) (world s)) s).
Proof. unfold onWorld, onDisk. by rewrite getMealHistory_run. Qed.

Lemma existsb_nonempty {A} (f : A -> bool) l :
  existsb f l = true -> (0 <? length l)%nat && existsb f l = true.
Proof. intros H. rewrite H. by destruct l. Qed.


Lemma sync_undated now p s permissions :
  healthConnectReady (dialogHealthConnect p) ->
  requestPermissionResult p = Some permissions ->
  existsb isNutritionWrite permissions = true ->
  ~ datedTotals (omap (readableMeal (disk (world s))) (indexMeals (disk (world s)))) ->
  syncMealsToHealthConnect now p s
  = (Ok tt,
     {| world := setDisk (initialized now (disk (world s))) (world s);
        alerts :=
          {| alertTitle := "Sync failed";
             alertMessage := "Failed to sync with Health Connect: "
                               ++ messageOr messageOf "Unknown error" InvalidTimeValue |}
          :: alerts s;
        healthConnectBatches := healthConnectBatches s |}).
Proof.
  intros (Ha & Hm & Hi) Hl Hg Hundated.
  unfold syncMealsToHealthConnect. rewrite Ha, Hm, Hi, Hl.
  cbn [negb]. unfold try_catch at 1. rewrite !bind_ret. cbn [negb]. rewrite bind_ret.
  cbv zeta. rewrite (existsb_nonempty _ _ Hg). cbn [negb].
  rewrite (bind_ok _ _ _ _ _ (history_onScreen now s)).
  destruct (omap _ _) as [|meal meals] eqn:Hlisted.
  { destruct Hundated. apply Forall_nil_2. }
  by rewrite (bind_throw _ _ _ _ _ (toSyncRecords_undated _ _ Hundated)).
Qed.

(** What a sync leaves, whatever Health Connect does. *)
Lemma sync_outcome now p s :
  exists a d' batch,
    syncMealsToHealthConnect now p s
    = (Ok tt,
       {| world := setDisk d' (world s);
          alerts := a :: alerts s;
          healthConnectBatches := (batch ++ healthConnectBatches s)%list |})
    /\ (d' = disk (world s) \/ d' = initialized now (disk (world s)))
    /\ (batch = [] \/ exists record records,
          batch = [(record :: records, batchAccepted p)]).
Proof.
  assert (forall t m, alert t m s
    = (Ok tt, {| world := setDisk (disk (world s)) (world s);
                 alerts := {| alertTitle := t; alertMessage := m |} :: alerts s;
                 healthConnectBatches := ([] ++ healthConnectBatches s)%list |})) as Halert.
  { intros t m. unfold alert, modify, setAlerts. by rewrite setDisk_id. }
  unfold syncMealsToHealthConnect.
  destruct (platformIsAndroid (dialogHealthConnect p)); cbn [negb];
    [|rewrite Halert; eexists _, _, _; eauto].
  destruct (moduleLoaded (dialogHealthConnect p)); cbn [negb];
    [|rewrite Halert; eexists _, _, _; eauto].
  unfold try_catch at 1.
  destruct (initializeResult (dialogHealthConnect p)) as [[|]|]; cbn [negb];
    [|rewrite bind_ret; cbn [negb]; rewrite Halert; eexists _, _, _; eauto
     |rewrite (bind_throw (throw HealthConnectFailure) _ s _ s eq_refl), Halert;
      eexists _, _, _; eauto].
  rewrite bind_ret. cbn [negb].
  destruct (requestPermissionResult p) as [permissions|];
    [|rewrite (bind_throw (throw HealthConnectFailure) _ s _ s eq_refl), Halert;
      eexists _, _, _; eauto].
  rewrite bind_ret. cbv zeta.
  destruct ((0 <? length permissions)%nat && existsb isNutritionWrite permissions);
    cbn [negb]; [|rewrite Halert; eexists _, _, _; eauto].
  rewrite (bind_ok _ _ _ _ _ (history_onScreen now s)).
  destruct (omap _ _) as [|meal meals] eqn:Hlisted.
  { unfold alert, modify, setAlerts. simpl. eexists _, _, []. eauto. }
  destruct (toSyncRecords_cases (meal :: meals)
              (setWorld (setDisk (initialized now (disk (world s))) (world s)) s))
    as [[_ Hrun]|[_ Hrun]].
  2:{ rewrite (bind_throw _ _ _ _ _ Hrun).
      unfold alert, modify, setAlerts. simpl. eexists _, _, []. eauto. }
  rewrite (bind_ok _ _ _ _ _ Hrun).
  destruct (omap syncRecordOf (meal :: meals)) as [|record records].
  { unfold alert, modify, setAlerts. simpl. eexists _, _, []. eauto. }
  unfold try_catch, sendBatch, bind, modify, alert, throw.
  destruct (writeApi (dialogHealthConnect p)), (batchAccepted p) eqn:Hacc; simpl;
    first [by eexists _, _, []; eauto
          |eexists _, _, [_]; split; [reflexivity|]; rewrite <- ?Hacc;
           split; [by right|right; by eexists _, _]].
Qed.


Lemma full_sync_keeps_secureStore now p s :
  secureStore (world (syncMealsToHealthConnect now p s).2) = secureStore (world s).
Proof. by destruct (sync_outcome now p s) as (a & d' & batch & -> & _). Qed.

(** [syncMealsToHealthConnect] never throws and closes with exactly one
    alert, whatever Health Connect does. It is outside the bookkeeping of
    the single writes: the secure store (the persisted permission and the
    version map) and the log of the single writes stay as they are, and so
    do the records and the index. It sends at most one batch, which is not
    empty. *)
Theorem full_sync_returns_with_one_alert now p s :
  let s' := (syncMealsToHealthConnect now p s).2 in
  (syncMealsToHealthConnect now p s).1 = Ok tt
  /\ (exists a, alerts s' = a :: alerts s)
  /\ secureStore (world s') = secureStore (world s)
  /\ healthConnectWrites (world s') = healthConnectWrites (world s)
  /\ mealFiles (disk (world s')) = mealFiles (disk (world s))
  /\ indexMeals (disk (world s')) = indexMeals (disk (world s))
  /\ (healthConnectBatches s' = healthConnectBatches s
      \/ exists record records,
           healthConnectBatches s'
           = (record :: records, batchAccepted p) :: healthConnectBatches s).
Proof.
  intros s'. subst s'.
  destruct (sync_outcome now p s) as (a & d' & batch & -> & Hd & Hbatch).
  cbn [fst snd world alerts healthConnectBatches setDisk disk secureStore
       healthConnectWrites].
  split; [done|]. split; [by exists a|]. split; [done|]. split; [done|].
  split; [|split].
  - destruct Hd as [-> | ->]; [done|apply initialized_mealFiles].
  - destruct Hd as [-> | ->]; [done|apply initialized_indexMeals].
  - destruct Hbatch as [-> | (record & records & ->)]; [by left|].
    right. by exists record, records.
Qed.


(** The full sync is all or nothing: one listed meal that has totals and
    whose timestamp is not a date makes [toISOString] throw while the batch
    is built, so that no record of any meal is sent; the sync closes with
    the alert of the outer handler. *)
Theorem full_sync_is_all_or_nothing now p s meal :
  healthConnectReady (dialogHealthConnect p) ->
  grantsNutritionWrite p ->
  meal ∈ omap (readableMeal (disk (world s))) (indexMeals (disk (world s))) ->
  is_Some (totalsOf meal) ->
  getTime (m_timestamp meal) = None ->
  let s' := (syncMealsToHealthConnect now p s).2 in
  healthConnectBatches s' = healthConnectBatches s
  /\ alerts s'
     = {| alertTitle := "Sync failed";
          alertMessage := "Failed to sync with Health Connect: "
                            ++ messageOr messageOf "Unknown error" InvalidTimeValue |}
       :: alerts s.
Proof.
  intros Hready (permissions & Hl & Hg) Hin Htotals Hdate s'. subst s'.
  rewrite (sync_undated now p s permissions); [done..|].
  intros Hdated. unfold datedTotals in Hdated. rewrite Forall_forall in Hdated.
  destruct (Hdated meal) as [t Ht]; [|congruence].
  apply list_elem_of_In, filter_In. split; [by apply list_elem_of_In|].
  by apply bool_decide_eq_true.
Qed.

Lemma setWorld_id s : setWorld (world s) s = s.
Proof. by destruct s. Qed.

Lemma ensureInitialized_onScreen hc s :
  onWorld (ensureInitialized hc) s
  = (Ok (if negb (platformIsAndroid hc) || negb (moduleLoaded hc) then false
         else default false (initializeResult hc)), s).
Proof.
  unfold onWorld, ensureInitialized.
  destruct (negb (platformIsAndroid hc) || negb (moduleLoaded hc));
    unfold ret; by rewrite setWorld_id.
Qed.

Lemma request_unready now p pSync s :
  ~ healthConnectReady (dialogHealthConnect p) ->
  exists a,
    requestHealthConnectPermission now p pSync s = (Ok false, setAlerts (a :: alerts s) s).
Proof.
  intros Hnot. unfold requestHealthConnectPermission.
  destruct (platformIsAndroid (dialogHealthConnect p)) eqn:Ha; cbn [negb];
    [|by eexists].
  destruct (moduleLoaded (dialogHealthConnect p)) eqn:Hm; cbn [negb];
    [|by eexists].
  rewrite (bind_ok _ _ _ _ _ (ensureInitialized_onScreen _ s)), Ha, Hm. cbn [negb orb].
  destruct (initializeResult (dialogHealthConnect p)) as [[|]|] eqn:Hi; cbn [default negb];
    [|by eexists..].
  by destruct Hnot.
Qed.

Lemma request_answered now p pSync s permissions :
  healthConnectReady (dialogHealthConnect p) ->
  requestPermissionResult p = Some permissions ->
  requestHealthConnectPermission now p pSync s
  = if existsb isNutritionWrite permissions
    then (Ok true,
          (syncMealsToHealthConnect now pSync
             (onWorld (setPermissionGranted (dialogHealthConnect p) true) s).2).2)
    else (Ok false,
          (onWorld (setPermissionGranted (dialogHealthConnect p) false)
             (alert "Permission not granted" "Nutrition write permission was declined."
                s).2).2).
Proof.
  intros (Ha & Hm & Hi) Hl. unfold requestHealthConnectPermission.
  rewrite Ha, Hm. cbn [negb].
  rewrite (bind_ok _ _ _ _ _ (ensureInitialized_onScreen _ s)), Ha, Hm, Hi, Hl.
  change (default false (Some true)) with true. cbn [negb orb].
  unfold try_catch at 1. rewrite bind_ret. cbv zeta.
  destruct (existsb isNutritionWrite permissions).
  - unfold bind at 1.
    destruct (onWorld (setPermissionGranted (dialogHealthConnect p) true) s)
      as [r s1] eqn:Hset.
    assert (r = Ok tt) as ->.
    { revert Hset. unfold onWorld, setPermissionGranted, modify, ret.
      destruct (secureSetFails _); by intros [= <- _]. }
    cbn [snd]. unfold bind at 1, try_catch.
    destruct (sync_outcome now pSync s1) as (a & d' & batch & -> & _). done.
  - unfold bind at 1, alert at 1, modify at 1. cbn [snd].
    unfold bind at 1.
    destruct (onWorld (setPermissionGranted (dialogHealthConnect p) false) _)
      as [r s1] eqn:Hset.
    assert (r = Ok tt) as ->; [|done].
    revert Hset. unfold onWorld, setPermissionGranted, modify, ret.
    destruct (secureSetFails _); by intros [= <- _].
Qed.

Lemma request_failed now p pSync s :
  healthConnectReady (dialogHealthConnect p) ->
  requestPermissionResult p = None ->
  requestHealthConnectPermission now p pSync s
  = (Ok false,
     setAlerts ({| alertTitle := "Permission error";
                   alertMessage := default "Unknown error requesting permission."
                                     (messageOf HealthConnectFailure) |} :: alerts s) s).
Proof.
  intros (Ha & Hm & Hi) Hl. unfold requestHealthConnectPermission.
  rewrite Ha, Hm. cbn [negb].
  rewrite (bind_ok _ _ _ _ _ (ensureInitialized_onScreen _ s)), Ha, Hm, Hi, Hl.
  by change (default false (Some true)) with true.
Qed.

Lemma permission_onScreen hc granted s :
  secureSetFails hc = false ->
  permissionItem (secureStore (world (onWorld (setPermissionGranted hc granted) s).2))
  = if granted then Some "true" else None.
Proof. intros Hset. unfold onWorld, setPermissionGranted. by rewrite Hset. Qed.

(** [requestHealthConnectPermission] never throws. It returns [true]
    exactly when Health Connect is ready and the answer to the request
    holds the write permission for nutrition records. It then persists the
    permission and runs the full sync, with its alert. When the answer does
    not hold the permission, the persisted permission is cleared; when the
    request throws, it is left as it was. Whenever the call returns [false]
    it shows exactly one alert and sends nothing. *)
Theorem permission_request_outcome now p pSync s :
  let hc := dialogHealthConnect p in
  let s' := (requestHealthConnectPermission now p pSync s).2 in
  (exists granted,
     (requestHealthConnectPermission now p pSync s).1 = Ok granted
     /\ (granted = true <-> healthConnectReady hc /\ grantsNutritionWrite p)
     /\ (granted = false ->
         healthConnectBatches s' = healthConnectBatches s
         /\ exists a, alerts s' = a :: alerts s))
  /\ (healthConnectReady hc -> grantsNutritionWrite p ->
      s' = (syncMealsToHealthConnect now pSync
              (onWorld (setPermissionGranted hc true) s).2).2
      /\ (secureSetFails hc = false ->
          permissionItem (secureStore (world s')) = Some "true"))
  /\ (healthConnectReady hc -> secureSetFails hc = false ->
      forall permissions, requestPermissionResult p = Some permissions ->
        existsb isNutritionWrite permissions = false ->
        permissionItem (secureStore (world s')) = None)
  /\ (healthConnectReady hc -> requestPermissionResult p = None ->
      secureStore (world s') = secureStore (world s)).
Proof.
  intros hc s'. subst hc s'. split; [|split; [|split]].
  - destruct (decide (healthConnectReady (dialogHealthConnect p))) as [Hready|Hnot].
    2:{ destruct (request_unready now p pSync s Hnot) as [a ->]. exists false.
        split; [done|]. split; [|intros _; split; [done|by exists a]].
        split; [done|]. by intros [? _]. }
    destruct (requestPermissionResult p) as [permissions|] eqn:Hl.
    2:{ rewrite (request_failed now p pSync s Hready Hl). exists false.
        split; [done|]. split; [|intros _; split; [done|by eexists]].
        split; [done|]. intros [_ (l & Hl' & _)]. congruence. }
    rewrite (request_answered now p pSync s permissions Hready Hl).
    destruct (existsb isNutritionWrite permissions) eqn:Hg.
    + exists true. split; [done|]. split; [|done].
      split; [|done]. intros _. split; [done|]. by exists permissions.
    + exists false. split; [done|]. split.
      * split; [done|]. intros [_ (l & Hl' & Hg')]. congruence.
      * intros _. unfold onWorld, setPermissionGranted, alert, modify, ret. cbn [snd].
        destruct (secureSetFails _); cbn; split; by eauto.
  - intros Hready (permissions & Hl & Hg).
    rewrite (request_answered now p pSync s permissions Hready Hl), Hg. cbn [snd].
    split; [done|]. intros Hset.
    rewrite (full_sync_keeps_secureStore now pSync
               (onWorld (setPermissionGranted (dialogHealthConnect p) true) s).2).
    by apply permission_onScreen.
  - intros Hready Hset permissions Hl Hg.
    rewrite (request_answered now p pSync s permissions Hready Hl), Hg. cbn [snd].
    by apply permission_onScreen.
  - intros Hready Hl. by rewrite (request_failed now p pSync s Hready Hl).
Qed.

End SettingsFacts.

(** ** The settings services *)

Lemma xbind_done {S A B} (c : X S A) (k : A -> X S B) s a s' :
  c s = (Done a, s') -> xbind c k s = k a s'.
Proof. unfold xbind. by intros ->. Qed.

Lemma xbind_failed {S A B} (c : X S A) (k : A -> X S B) s e s' :
  c s = (Failed e, s') -> xbind c k s = (Failed e, s').
Proof. unfold xbind. by intros ->. Qed.

Lemma xbind_ret {S A B} (a : A) (k : A -> X S B) s : xbind (xret a) k s = k a s.
Proof. reflexivity. Qed.

Lemma xcatch_rethrow {S A} (c : X S A) s :
  xcatch c (fun error => xthrow error) s = c s.
Proof. unfold xcatch, xthrow. by destruct (c s) as [[a|e] s']. Qed.

Lemma setAsyncStorage_id s : setAsyncStorage (asyncStorage s) s = s.
Proof. by destruct s. Qed.

Lemma getItem_run {A} platform (item : AsyncStorage -> option A) s :
  getItem platform item s
  = (if asyncGetFails platform then Failed AsyncStorageFailure
     else Done (item (asyncStorage s)), s).
Proof. unfold getItem. by destruct (asyncGetFails platform). Qed.

Lemma setItem_run platform store s :
  setItem platform store s
  = if asyncSetFails platform then (Failed AsyncStorageFailure, s)
    else (Done tt, setAsyncStorage (store (asyncStorage s)) s).
Proof. unfold setItem. by destruct (asyncSetFails platform). Qed.

Lemma getDailyGoals_run platform s :
  getDailyGoals platform s = (Done (goalsRead platform s), s).
Proof.
  unfold getDailyGoals, goalsRead, xcatch, xbind. rewrite getItem_run.
  by destruct (asyncGetFails platform).
Qed.

Lemma updateGoal_run platform nutrientType value s :
  updateGoal platform nutrientType value s
  = if asyncSetFails platform then (Failed AsyncStorageFailure, s)
    else (Done tt,
          setAsyncStorage
            (setDailyGoalsItem (Some (withGoal nutrientType value (goalsRead platform s)))
               (asyncStorage s)) s).
Proof.
  unfold updateGoal. rewrite xcatch_rethrow.
  rewrite (xbind_done _ _ _ _ _ (getDailyGoals_run platform s)).
  unfold saveDailyGoals. rewrite xcatch_rethrow. apply setItem_run.
Qed.

Lemma goalOf_withGoal nutrientType value goals other :
  goalOf other (withGoal nutrientType value goals)
  = if bool_decide (other = nutrientType) then value else goalOf other goals.
Proof. by destruct nutrientType, other. Qed.

(** [updateGoal] sets one goal and keeps the three others as
    [getDailyGoals] reads them: a later read returns the value for that
    goal and, for the others, what the read before the update returned.
    When the read inside [updateGoal] fails, [getDailyGoals] hides the
    failure behind the default goals, and the update stores the default
    values for the three other goals, over the ones that were stored. When
    the write fails, [updateGoal] throws and stores nothing. *)
Theorem goal_update_outcome platform nutrientType value s :
  let s' := (updateGoal platform nutrientType value s).2 in
  (asyncSetFails platform = true ->
   updateGoal platform nutrientType value s = (Failed AsyncStorageFailure, s))
  /\ (asyncSetFails platform = false ->
      (updateGoal platform nutrientType value s).1 = Done tt
      /\ deviceDisk s' = deviceDisk s
      /\ userProfileItem (asyncStorage s') = userProfileItem (asyncStorage s)
      /\ (forall later, asyncGetFails later = false ->
            exists goals,
              (getDailyGoals later s').1 = Done goals
              /\ goalOf nutrientType goals = value
              /\ (forall other, other <> nutrientType ->
                    goalOf other goals = goalOf other (goalsRead platform s)))
      /\ (asyncGetFails platform = true ->
          dailyGoalsItem (asyncStorage s')
          = Some (withGoal nutrientType value DEFAULT_GOALS))).
Proof.
  intros s'. subst s'. rewrite updateGoal_run. split.
  - by intros ->.
  - intros ->. cbn [fst snd]. split; [done|]. split; [done|]. split; [done|]. split.
    + intros later Hget.
      exists (withGoal nutrientType value (goalsRead platform s)).
      rewrite getDailyGoals_run. unfold goalsRead at 1. rewrite Hget. cbn [fst].
      split; [done|]. split.
      * rewrite goalOf_withGoal. by rewrite bool_decide_eq_true_2.
      * intros other Hother. rewrite goalOf_withGoal.
        by rewrite bool_decide_eq_false_2.
    + intros Hget. unfold goalsRead. by rewrite Hget.
Qed.

Lemma getAIModel_run platform s :
  getAIModel platform s
  = (if asyncGetFails platform then Failed AsyncStorageFailure
     else Done (if Str.truthyOpt (aiModelItem (asyncStorage s))
                then default "" (aiModelItem (asyncStorage s)) else "gemini-2.5-flash"), s).
Proof.
  unfold getAIModel, xbind. rewrite getItem_run. by destruct (asyncGetFails platform).
Qed.

Lemma getReminders_run platform s :
  getReminders platform s
  = if asyncGetFails platform then (Done DEFAULT_REMINDERS, s)
    else match mealRemindersItem (asyncStorage s) with
         | Some reminders => (Done reminders, s)
         | None =>
             (Done DEFAULT_REMINDERS,
              if asyncSetFails platform then s
              else setAsyncStorage
                     (setMealRemindersItem (Some DEFAULT_REMINDERS) (asyncStorage s)) s)
         end.
Proof.
  unfold getReminders, xcatch, xbind at 1. rewrite getItem_run.
  destruct (asyncGetFails platform); [done|].
  destruct (mealRemindersItem (asyncStorage s)) as [reminders|]; [done|].
  unfold saveReminders. unfold xbind. rewrite xcatch_rethrow, setItem_run.
  by destruct (asyncSetFails platform).
Qed.

(** What is saved is read back, on a platform whose storage works: the
    profile, the goals, the reminders, and the model unless it is the empty
    string, which reads as the default model. Without anything stored,
    [getProfile] returns [null], [getDailyGoals] the default goals,
    [getAIModel] the default model, and [getReminders] the default
    reminders, which it stores. When reads fail, [getDailyGoals] and
    [getReminders] return their defaults and [getProfile] and [getAIModel]
    throw. *)
Theorem settings_are_read_back platform s :
  (storageWorks platform ->
   (forall profile,
      (getProfile platform (saveProfile platform profile s).2).1 = Done (Some profile))
   /\ (forall goals,
         (getDailyGoals platform (saveDailyGoals platform goals s).2).1 = Done goals)
   /\ (forall reminders,
         (getReminders platform (saveReminders platform reminders s).2).1 = Done reminders)
   /\ (forall model,
         (getAIModel platform (saveAIModel platform model s).2).1
         = Done (if Str.truthy model then model else "gemini-2.5-flash"))
   /\ (userProfileItem (asyncStorage s) = None -> getProfile platform s = (Done None, s))
   /\ (aiModelItem (asyncStorage s) = None ->
       getAIModel platform s = (Done "gemini-2.5-flash", s))
   /\ (mealRemindersItem (asyncStorage s) = None ->
       (getReminders platform s).1 = Done DEFAULT_REMINDERS
       /\ mealRemindersItem (asyncStorage (getReminders platform s).2)
          = Some DEFAULT_REMINDERS))
  /\ (asyncGetFails platform = true ->
      getDailyGoals platform s = (Done DEFAULT_GOALS, s)
      /\ getReminders platform s = (Done DEFAULT_REMINDERS, s)
      /\ getProfile platform s = (Failed AsyncStorageFailure, s)
      /\ getAIModel platform s = (Failed AsyncStorageFailure, s)).
Proof.
  split.
  - intros [Hget Hset].
    split; [|split; [|split; [|split; [|split; [|split]]]]].
    + intros profile. unfold getProfile, saveProfile.
      by rewrite getItem_run, setItem_run, Hget, Hset.
    + intros goals. rewrite getDailyGoals_run. unfold saveDailyGoals, goalsRead.
      by rewrite xcatch_rethrow, setItem_run, Hget, Hset.
    + intros reminders. rewrite getReminders_run. unfold saveReminders.
      by rewrite xcatch_rethrow, setItem_run, Hget, Hset.
    + intros model. unfold getAIModel, saveAIModel, xbind.
      rewrite getItem_run, setItem_run, Hget, Hset. by destruct model.
    + intros Hnone. unfold getProfile. by rewrite getItem_run, Hget, Hnone.
    + intros Hnone. unfold getAIModel, xbind. by rewrite getItem_run, Hget, Hnone.
    + rewrite getReminders_run, Hget, Hset. by intros ->.
  - intros Hget. split; [|split; [|split]].
    + rewrite getDailyGoals_run. unfold goalsRead. by rewrite Hget.
    + by rewrite getReminders_run, Hget.
    + unfold getProfile. by rewrite getItem_run, Hget.
    + unfold getAIModel, xbind. by rewrite getItem_run, Hget.
Qed.

(** ** The import of an export file *)

Section ImportFacts.

Variable documentDirectory : string.
Variable platform : Platform.
Variable clock : ImportClock.

Local Abbreviation imagesDir := (imagesDir documentDirectory).
Local Abbreviation saveMealAnalysis := (saveMealAnalysis documentDirectory).
Local Abbreviation copyImageToStorage := (copyImageToStorage documentDirectory).
Local Abbreviation tempImportUri := (tempImportUri documentDirectory).
Local Abbreviation temporary := (temporary documentDirectory).
Local Abbreviation keepsFiles := (keepsFiles documentDirectory).
Local Abbreviation importedImageUri := (importedImageUri documentDirectory).
Local Abbreviation importedMeal := (importedMeal documentDirectory clock).
Local Abbreviation decodable := (decodable platform).
Local Abbreviation importable := (importable platform).
Local Abbreviation base64ToImage := (base64ToImage documentDirectory platform).
Local Abbreviation importMeal := (importMeal documentDirectory platform clock).
Local Abbreviation importMeals := (importMeals documentDirectory platform clock).
Local Abbreviation importSettings := (importSettings platform).
Local Abbreviation importData := (importData documentDirectory platform clock).

(** *** Reading and validating the file *)

Lemma validateMeals_valid meals (s : Device) :
  Forall identified meals -> validateMeals meals s = (Done tt, s).
Proof.
  induction 1 as [|m meals [Hid Hts] _ IH]; [done|].
  cbn [validateMeals]. by rewrite Hid, Hts.
Qed.

Lemma validateMeals_invalid meals (s : Device) :
  ~ Forall identified meals -> validateMeals meals s = (Failed InvalidMealData, s).
Proof.
  induction meals as [|m meals IH]; intros Hnot.
  - destruct Hnot. apply Forall_nil_2.
  - cbn [validateMeals].
    destruct (Str.truthyOpt (x_id m)) eqn:Hid; [|done].
    destruct (Str.truthyOpt (x_timestamp m)) eqn:Hts; [|done].
    apply IH. intros Hrest. apply Hnot. by apply Forall_cons.
Qed.

#[local] Instance identified_dec m : Decision (identified m).
Proof. unfold identified. apply _. Defined.

Lemma validateExportData_valid data meals (s : Device) :
  validExport data meals -> validateExportData (JsonObject data) s = (Done data, s).
Proof.
  intros (Hv & Hd & Hm & Hall). unfold validateExportData.
  rewrite Hv, Hd, Hm. cbn [negb].
  by rewrite (xbind_done _ _ _ _ _ (validateMeals_valid meals s Hall)).
Qed.

Lemma validateExportData_outcome document (s : Device) :
  (validateExportData document s).2 = s
  /\ (forall f, (validateExportData document s).1 = Failed f -> rejectsFile f)
  /\ (forall data, (validateExportData document s).1 = Done data ->
        document = JsonObject data /\ exists meals, validExport data meals).
Proof.
  assert (forall f (s : Device), rejectsFile f ->
            (xthrow (A := ExportData) f s).2 = s
            /\ (forall f', (xthrow (A := ExportData) f s).1 = Failed f' -> rejectsFile f')
            /\ (forall data, (xthrow (A := ExportData) f s).1 = Done data ->
                  document = JsonObject data /\ exists meals, validExport data meals))
    as Hthrow.
  { intros f s0 Hf. split; [done|]. split; [by intros f' [= <-]|]. by intros data' [=]. }
  unfold validateExportData.
  destruct document as [| |data];
    [apply Hthrow; unfold rejectsFile; by auto 10..|].
  destruct (Str.truthyOpt (x_version data)) eqn:Hv; cbn [negb];
    [|apply Hthrow; unfold rejectsFile; by auto 10].
  destruct (Str.truthyOpt (x_export_date data)) eqn:Hd; cbn [negb];
    [|apply Hthrow; unfold rejectsFile; by auto 10].
  destruct (x_meals data) as [meals|] eqn:Hm;
    [|apply Hthrow; unfold rejectsFile; by auto 10].
  destruct (decide (Forall identified meals)) as [Hall|Hnot].
  - rewrite (xbind_done _ _ _ _ _ (validateMeals_valid meals s Hall)).
    split; [done|]. split; [done|]. intros data' [= <-]. split; [done|].
    by exists meals.
  - rewrite (xbind_failed _ _ _ _ _ (validateMeals_invalid meals s Hnot)).
    split; [done|]. split; [|done]. intros f [= <-]. unfold rejectsFile. by auto 10.
Qed.

(** *** The settings *)

Lemma importSettings_works data s :
  asyncSetFails platform = false ->
  importSettings data s
  = (Done tt, setAsyncStorage (importedSettings data (asyncStorage s)) s).
Proof.
  intros Hset. unfold importSettings, saveProfile, saveDailyGoals, saveReminders, saveAIModel.
  destruct s as [d [profile model goals reminders] docs log].
  unfold importedSettings, setItem. rewrite Hset.
  destruct (x_user_profile data) as [p'|], (x_daily_goals data) as [g'|],
    (x_meal_reminders data) as [[|r' l']|], (x_ai_model data) as [[|c m']|]; reflexivity.
Qed.

Lemma importSettings_outcome data s :
  deviceDisk (importSettings data s).2 = deviceDisk s
  /\ documents (importSettings data s).2 = documents s
  /\ (forall f, (importSettings data s).1 = Failed f ->
        f = AsyncStorageFailure /\ (importSettings data s).2 = s).
Proof.
  destruct (asyncSetFails platform) eqn:Hset.
  - unfold importSettings, saveProfile, saveDailyGoals, saveReminders, saveAIModel.
    unfold setItem. rewrite Hset.
    destruct (x_user_profile data) as [p'|], (x_daily_goals data) as [g'|],
      (x_meal_reminders data) as [[|r' l']|], (x_ai_model data) as [[|c m']|];
      cbn; (split; [done|]; split; [done|]; by intros f [= <-]).
  - rewrite (importSettings_works data s Hset). cbn. split; [done|]. split; [done|].
    by intros f [=].
Qed.

(** *** Computations on the disk only *)

Lemma diskOnly_xret {A} (a : A) : diskOnly (xret a).
Proof. intros s. split; [done|]. split; [done|]. split; [done|]. by intros f [=]. Qed.

Lemma diskOnly_xbind {A B} (c : X Device A) (k : A -> X Device B) :
  diskOnly c -> (forall a, diskOnly (k a)) -> diskOnly (xbind c k).
Proof.
  intros Hc Hk s. unfold xbind. destruct (Hc s) as (Ha & Hd & Hl & Hf).
  destruct (c s) as [[a|e] s1]; cbn [fst snd] in *.
  - destruct (Hk a s1) as (Ha' & Hd' & Hl' & Hf'). rewrite Ha', Hd', Hl'.
    split; [done|]. split; [done|]. split; [done|]. exact Hf'.
  - split; [done|]. split; [done|]. split; [done|]. intros f [= <-]. by apply Hf.
Qed.

Lemma diskOnly_rethrow {A} (c : X Device A) :
  diskOnly c -> diskOnly (xcatch c (fun error => xthrow error)).
Proof. intros Hc s. rewrite xcatch_rethrow. apply Hc. Qed.

Lemma diskOnly_fromStore {A} (c : M Disk A) : diskOnly (fromStore c).
Proof.
  intros s. unfold fromStore. destruct (c (deviceDisk s)) as [[a|e] d]; cbn.
  - split; [done|]. split; [done|]. split; [done|]. by intros f [=].
  - split; [done|]. split; [done|]. split; [done|]. intros f [= <-]. left. by eexists.
Qed.

Lemma diskOnly_writeBase64 fileUri base64Data :
  diskOnly (writeBase64 platform fileUri base64Data).
Proof.
  intros s. unfold writeBase64. destruct (base64Write platform base64Data); cbn.
  - split; [done|]. split; [done|]. split; [done|]. by intros f [=].
  - split; [done|]. split; [done|]. split; [done|]. intros f [= <-]. right. by eexists.
Qed.

Lemma diskOnly_deleteFile uri : diskOnly (deleteFile uri).
Proof. intros s. split; [done|]. split; [done|]. split; [done|]. by intros f [=]. Qed.

Lemma diskOnly_base64ToImage dataUri filename : diskOnly (base64ToImage dataUri filename).
Proof.
  apply diskOnly_rethrow, diskOnly_xbind; [apply diskOnly_writeBase64|].
  intros _. apply diskOnly_xret.
Qed.

Lemma diskOnly_importMeal i m : diskOnly (importMeal i m).
Proof.
  unfold importMeal. apply diskOnly_xbind.
  { destruct (Str.truthyOpt (x_image_data m)); [|apply diskOnly_xret].
    apply diskOnly_xbind; [apply diskOnly_base64ToImage|]. intros temp.
    apply diskOnly_xbind; [apply diskOnly_fromStore|]. intros uri.
    apply diskOnly_xbind; [apply diskOnly_deleteFile|]. intros _. apply diskOnly_xret. }
  intros imageUri. apply diskOnly_xbind.
  { destruct (Str.truthyOpt (x_after_image_data m)); [|apply diskOnly_xret].
    apply diskOnly_xbind; [apply diskOnly_base64ToImage|]. intros temp.
    apply diskOnly_xbind; [apply diskOnly_fromStore|]. intros uri.
    apply diskOnly_xbind; [apply diskOnly_deleteFile|]. intros _. apply diskOnly_xret. }
  intros afterImageUri. apply diskOnly_fromStore.
Qed.

Lemma diskOnly_importMeals i meals : diskOnly (importMeals i meals).
Proof.
  revert i. induction meals as [|m meals IH]; intros i; [apply diskOnly_xret|].
  apply diskOnly_xbind; [apply diskOnly_importMeal|]. intros _. apply IH.
Qed.

(** *** The structure of [importData] *)

Lemma readDocument_run fileUri s :
  readDocument fileUri s
  = (match documents s !! fileUri with
     | None => Failed (FileSystemFailure fileUri)
     | Some NotJson => Failed JsonSyntaxFailure
     | Some data => Done data
     end, s).
Proof.
  unfold readDocument, xbind, xget.
  by destruct (documents s !! fileUri) as [[| |data]|].
Qed.

Lemma importData_unreadable fileUri s :
  documents s !! fileUri = None ->
  importData fileUri s = (Failed (FileSystemFailure fileUri), s).
Proof.
  intros Hdoc. unfold importData. rewrite xcatch_rethrow.
  rewrite (xbind_failed _ _ _ (FileSystemFailure fileUri) s); [done|].
  by rewrite readDocument_run, Hdoc.
Qed.

Lemma importData_not_json fileUri s :
  documents s !! fileUri = Some NotJson ->
  importData fileUri s = (Failed JsonSyntaxFailure, s).
Proof.
  intros Hdoc. unfold importData. rewrite xcatch_rethrow.
  rewrite (xbind_failed _ _ _ JsonSyntaxFailure s); [done|].
  by rewrite readDocument_run, Hdoc.
Qed.

Lemma importData_json fileUri s document :
  documents s !! fileUri = Some document -> document <> NotJson ->
  readDocument fileUri s = (Done document, s).
Proof. intros Hdoc Hjson. rewrite readDocument_run, Hdoc. by destruct document. Qed.

Lemma importData_valid fileUri s data meals :
  documents s !! fileUri = Some (JsonObject data) -> validExport data meals ->
  importData fileUri s = xbind (importSettings data) (fun _ => importMeals 0 meals) s.
Proof.
  intros Hdoc Hvalid. unfold importData. rewrite xcatch_rethrow.
  rewrite (xbind_done _ _ _ _ _ (importData_json fileUri s _ Hdoc ltac:(done))).
  rewrite (xbind_done _ _ _ _ _ (validateExportData_valid data meals s Hvalid)).
  destruct Hvalid as (_ & _ & -> & _). done.
Qed.

Lemma importData_invalid fileUri s document f :
  documents s !! fileUri = Some document -> document <> NotJson ->
  (validateExportData document s).1 = Failed f ->
  importData fileUri s = (Failed f, s).
Proof.
  intros Hdoc Hjson Hf. unfold importData. rewrite xcatch_rethrow.
  rewrite (xbind_done _ _ _ _ _ (importData_json fileUri s _ Hdoc Hjson)).
  destruct (validateExportData_outcome document s) as (Hs & _).
  destruct (validateExportData document s) as [r s1] eqn:Hv. cbn [fst snd] in *.
  subst r s1. by rewrite (xbind_failed _ _ _ _ _ Hv).
Qed.

Lemma rejectsFile_not_disk f : rejectsFile f -> diskFailure f -> False.
Proof.
  unfold rejectsFile.
  intros Hf [[e ->]|[uri ->]]; by repeat destruct Hf as [Hf|Hf].
Qed.

Lemma rejectsFile_not_storage : ~ rejectsFile AsyncStorageFailure.
Proof. unfold rejectsFile. intros Hf. by repeat destruct Hf as [Hf|Hf]. Qed.

(** [importData] rejects a file before it writes anything: when it fails
    with the failure of [JSON.parse] or with one of [validateExportData],
    the device is as it was. One meal without id or without timestamp,
    wherever it is in the array and whatever the other meals are, rejects
    the whole file; so does a version or a date that is missing or empty.
    An import that returns has read an object that passes the
    validation. *)
Theorem import_validates_before_writing fileUri s :
  (forall f, (importData fileUri s).1 = Failed f -> rejectsFile f ->
             (importData fileUri s).2 = s)
  /\ (forall data meals meal,
        documents s !! fileUri = Some (JsonObject data) ->
        Str.truthyOpt (x_version data) = true ->
        Str.truthyOpt (x_export_date data) = true ->
        x_meals data = Some meals -> meal ∈ meals -> ~ identified meal ->
        importData fileUri s = (Failed InvalidMealData, s))
  /\ (forall data,
        documents s !! fileUri = Some (JsonObject data) ->
        (Str.truthyOpt (x_version data) = false ->
         importData fileUri s = (Failed InvalidVersionField, s))
        /\ (Str.truthyOpt (x_version data) = true ->
            Str.truthyOpt (x_export_date data) = false ->
            importData fileUri s = (Failed InvalidExportDateField, s)))
  /\ (documents s !! fileUri = None ->
      importData fileUri s = (Failed (FileSystemFailure fileUri), s))
  /\ ((importData fileUri s).1 = Done tt ->
      exists data meals,
        documents s !! fileUri = Some (JsonObject data) /\ validExport data meals).
Proof.
  assert (forall document, documents s !! fileUri = Some document ->
            document <> NotJson ->
            forall data, (validateExportData document s).1 = Done data ->
            exists meals,
              document = JsonObject data /\ validExport data meals
              /\ importData fileUri s
                 = xbind (importSettings data) (fun _ => importMeals 0 meals) s)
    as Hvalid.
  { intros document Hdoc Hjson data Hdone.
    destruct (validateExportData_outcome document s) as (_ & _ & Hd).
    destruct (Hd data Hdone) as (-> & meals & Hv). exists meals.
    split; [done|]. split; [done|]. by apply importData_valid. }
  split; [|split; [|split; [|split]]].
  - intros f Hf Hreject.
    destruct (documents s !! fileUri) as [document|] eqn:Hdoc.
    2:{ by rewrite (importData_unreadable fileUri s Hdoc). }
    assert (document = NotJson \/ document <> NotJson) as [->|Hjson]
      by (destruct document; [by left|by right..]).
    { by rewrite (importData_not_json fileUri s Hdoc). }
    destruct (validateExportData document s).1 as [data|f'] eqn:Hv.
    2:{ by rewrite (importData_invalid fileUri s document f' Hdoc Hjson Hv). }
    destruct (Hvalid document eq_refl Hjson data Hv) as (meals & _ & _ & Hrun).
    exfalso. rewrite Hrun in Hf. unfold xbind in Hf.
    destruct (importSettings_outcome data s) as (_ & _ & Hsettings).
    destruct (importSettings data s) as [[[]|f1] s1]; cbn [fst snd] in *.
    + destruct (diskOnly_importMeals 0 meals s1) as (_ & _ & _ & Hdisk).
      by apply (rejectsFile_not_disk f Hreject), Hdisk.
    + injection Hf as <-. destruct (Hsettings f1 eq_refl) as [-> _].
      by apply rejectsFile_not_storage.
  - intros data meals meal Hdoc Hversion Hdate Hmeals Hin Hnot.
    apply (importData_invalid fileUri s (JsonObject data)); [done|done|].
    unfold validateExportData. rewrite Hversion, Hdate, Hmeals. cbn [negb].
    rewrite (xbind_failed _ _ _ InvalidMealData s); [done|].
    apply validateMeals_invalid. intros Hall. rewrite Forall_forall in Hall. by apply Hnot, Hall.
  - intros data Hdoc. split.
    + intros Hversion. apply (importData_invalid fileUri s (JsonObject data)); [done|done|].
      unfold validateExportData. by rewrite Hversion.
    + intros Hversion Hdate.
      apply (importData_invalid fileUri s (JsonObject data)); [done|done|].
      unfold validateExportData. by rewrite Hversion, Hdate.
  - apply importData_unreadable.
  - intros Hdone.
    destruct (documents s !! fileUri) as [document|] eqn:Hdoc.
    2:{ by rewrite (importData_unreadable fileUri s Hdoc) in Hdone. }
    assert (document = NotJson \/ document <> NotJson) as [->|Hjson]
      by (destruct document; [by left|by right..]).
    { by rewrite (importData_not_json fileUri s Hdoc) in Hdone. }
    destruct (validateExportData document s).1 as [data|f'] eqn:Hv.
    2:{ by rewrite (importData_invalid fileUri s document f' Hdoc Hjson Hv) in Hdone. }
    destruct (Hvalid document eq_refl Hjson data Hv) as (meals & -> & Hvalid' & _).
    by exists data, meals.
Qed.

(** *** The import of one meal *)

Lemma startsWith_common (p a b : string) :
  Str.startsWith (p ++ a) (p ++ b) = Str.startsWith a b.
Proof.
  unfold Str.startsWith. induction p as [|c p IH]; [done|].
  rewrite !append_cons. simpl. by destruct (ascii_dec c c).
Qed.

Lemma temporary_temp filename : temporary (tempImportUri filename) = true.
Proof.
  unfold temporary, tempImportUri.
  rewrite <- (string_app_assoc documentDirectory "temp_import_" filename).
  apply startsWith_app.
Qed.

Lemma temporary_imported now mealId suffix :
  temporary (importedImageUri now mealId suffix) = false.
Proof.
  unfold temporary, importedImageUri, imagesDir.
  rewrite (string_app_assoc documentDirectory). by rewrite startsWith_common.
Qed.

Lemma importedImageUri_inside now mealId suffix :
  Str.startsWith (importedImageUri now mealId suffix) imagesDir = true.
Proof. unfold importedImageUri. apply startsWith_app. Qed.

Lemma importedImageUri_truthy now mealId suffix :
  importedImageUri now mealId suffix <> "".
Proof.
  intros H. apply (f_equal String.length) in H.
  unfold importedImageUri, imagesDir in H. rewrite !string_length_app in H.
  simpl in H. lia.
Qed.

Lemma temp_copy_uri now base mealId suffix :
  imagesDir ++ imageFilename now (tempImportUri (base ++ ".jpg")) mealId suffix
  = importedImageUri now mealId suffix.
Proof.
  unfold imageFilename, importedImageUri, tempImportUri.
  assert (Str.lastSegment (documentDirectory ++ "temp_import_" ++ base ++ ".jpg") = "jpg")
    as ->; [|done].
  unfold Str.lastSegment.
  rewrite <- (string_app_assoc "temp_import_" base ".jpg").
  rewrite <- (string_app_assoc documentDirectory ("temp_import_" ++ base) ".jpg").
  by apply (lastSegmentFrom_behind_dot "" (documentDirectory ++ "temp_import_" ++ base) "jpg").
Qed.

Lemma keepsFiles_refl d : keepsFiles d d.
Proof. by split. Qed.

Lemma keepsFiles_trans d1 d2 d3 : keepsFiles d1 d2 -> keepsFiles d2 d3 -> keepsFiles d1 d3.
Proof. intros [A1 B1] [A2 B2]. split; intros uri Ht H; [apply A2, A1|apply B2, B1]; done. Qed.

Lemma keepsFiles_same d d' : files d' = files d -> keepsFiles d d'.
Proof. intros H. split; intros uri _; by rewrite H. Qed.

Lemma keepsFiles_imported temp dest content d d' :
  temporary temp = true -> temporary dest = false ->
  files d' = importedFiles temp dest content (files d) ->
  keepsFiles d d' /\ files d' !! dest = Some content.
Proof.
  intros Htemp Hdest Heq. unfold keepsFiles.
  rewrite Heq. unfold importedFiles.
  assert (dest <> temp) as Hne by (intros ->; congruence).
  split; [split|].
  - intros uri Huri Hsome. assert (uri <> temp) by (intros ->; congruence).
    rewrite lookup_delete_ne by done.
    destruct (decide (uri = dest)) as [->|Hd]; [by rewrite lookup_insert_eq|].
    by rewrite !lookup_insert_ne.
  - intros uri Huri Hnone. destruct (decide (uri = temp)) as [->|Ht].
    + by rewrite lookup_delete_eq.
    + assert (uri <> dest) by (intros ->; congruence).
      by rewrite lookup_delete_ne, !lookup_insert_ne.
  - by rewrite lookup_delete_ne, lookup_insert_eq.
Qed.

(** The three steps that bring the image of an exported meal into the
    images directory. *)
Lemma importImage_run {A} now dataUri base mealId suffix (f : string -> A) s content :
  base64Write platform (secondSegment dataUri) = Some content ->
  xbind (base64ToImage dataUri (base ++ ".jpg"))
    (fun tempUri =>
       xbind (fromStore (copyImageToStorage now tempUri mealId suffix))
         (fun uri => xbind (deleteFile tempUri) (fun _ => xret (f uri)))) s
  = (Done (f (importedImageUri now mealId suffix)),
     setDeviceDisk
       (setFiles (importedFiles (tempImportUri (base ++ ".jpg"))
                    (importedImageUri now mealId suffix) content (files (deviceDisk s)))
          (deviceDisk s)) s).
Proof.
  intros Hwrite.
  assert (base64ToImage dataUri (base ++ ".jpg") s
          = (Done (tempImportUri (base ++ ".jpg")),
             setDeviceDisk
               (setFiles (<[tempImportUri (base ++ ".jpg") := content]> (files (deviceDisk s)))
                  (deviceDisk s)) s)) as Htemp.
  { unfold base64ToImage. rewrite xcatch_rethrow. unfold writeBase64. by rewrite Hwrite. }
  rewrite (xbind_done _ _ _ _ _ Htemp).
  unfold fromStore at 1, xbind at 1. cbn [deviceDisk setDeviceDisk].
  rewrite (copyImageToStorage_run documentDirectory now _ mealId suffix _ content)
    by (cbn [files setFiles]; apply lookup_insert_eq).
  rewrite temp_copy_uri. done.
Qed.

Lemma importMeal_withoutImages i m s :
  withoutImages m ->
  importMeal i m s
  = (Failed (StoreFailure MissingRequiredMealData),
     setDeviceDisk (initialized (mealSaved clock i) (deviceDisk s)) s).
Proof.
  intros [Himage Hafter]. unfold importMeal. rewrite Himage, Hafter, !xbind_ret.
  unfold fromStore. rewrite saveMealAnalysis_invalid; [done|]. by right; right; left.
Qed.

Lemma identified_ids m :
  identified m -> importedId m <> "" /\ default "" (x_timestamp m) <> "".
Proof.
  unfold identified, importedId. intros [Hid Hts].
  destruct (x_id m) as [[|c a]|], (x_timestamp m) as [[|c' b]|]; by simplify_eq/=.
Qed.

Lemma importMeal_run i m s :
  identified m -> importable m -> wellFormedIndex (deviceDisk s) ->
  let unshifted :=
    importedEntry m :: withoutId (importedId m) (indexMeals (deviceDisk s)) in
  exists d',
    importMeal i m s = (Done tt, setDeviceDisk d' s)
    /\ wellFormedIndex d'
    /\ indexMeals d' = take MAX_MEALS unshifted
    /\ mealFiles d'
       = deleteAll (map e_filename (drop MAX_MEALS unshifted))
           (<[mealFilename (importedId m) := MealJson (importedMeal i m)]>
              (mealFiles (deviceDisk s)))
    /\ storedMeal (importedId m) d' = Some (importedMeal i m)
    /\ keepsFiles (deviceDisk s) d'
    /\ is_Some (files d' !! m_imageUri (importedMeal i m)).
Proof.
  intros Hident [[Himage [content Hcontent]] Hafter] Hwf unshifted.
  destruct (identified_ids m Hident) as [Hid Hts].
  unfold importMeal. rewrite Himage.
  (* the first image *)
  pose proof (importImage_run (imageCopied clock i) (default "" (x_image_data m))
                (default "" (x_id m) ++ "_main") (default "" (x_id m)) ""
                (fun uri => uri) s content Hcontent) as Hmain.
  rewrite string_app_assoc in Hmain.
  rewrite (xbind_done _ _ _ _ _ Hmain). clear Hmain.
  set (d1 := setFiles _ (deviceDisk s)).
  assert (keepsFiles (deviceDisk s) d1
          /\ files d1 !! importedImageUri (imageCopied clock i) (default "" (x_id m)) ""
             = Some content) as [Hkeep1 Hfile1].
  { eapply keepsFiles_imported; [apply temporary_temp|apply temporary_imported|done]. }
  assert (wellFormedIndex d1) as Hwf1 by done.
  (* the second image *)
  assert (exists d2,
    (if Str.truthyOpt (x_after_image_data m)
     then
       xbind (base64ToImage (default "" (x_after_image_data m))
                (default "" (x_id m) ++ "_after.jpg"))
         (fun tempAfterImageUri =>
            xbind (fromStore (copyImageToStorage (afterImageCopied clock i)
                                tempAfterImageUri (default "" (x_id m)) "after"))
              (fun afterImageUri =>
                 xbind (deleteFile tempAfterImageUri)
                   (fun _ => xret (Some afterImageUri))))
     else xret None) (setDeviceDisk d1 s)
    = (Done (m_afterImageUri (importedMeal i m)), setDeviceDisk d2 s)
    /\ keepsFiles d1 d2 /\ mealFiles d2 = mealFiles d1 /\ indexFile d2 = indexFile d1)
    as (d2 & Hsecond & Hkeep2 & Hmeals2 & Hindex2).
  { unfold importedMeal. cbn [m_afterImageUri].
    destruct (Str.truthyOpt (x_after_image_data m)) eqn:Ha.
    - destruct (Hafter eq_refl) as [_ [content2 Hcontent2]].
      pose proof (importImage_run (afterImageCopied clock i)
                    (default "" (x_after_image_data m))
                    (default "" (x_id m) ++ "_after") (default "" (x_id m)) "after"
                    Some (setDeviceDisk d1 s) content2 Hcontent2) as Hrun.
      rewrite string_app_assoc in Hrun. eexists. split; [exact Hrun|].
      split; [|done].
      eapply keepsFiles_imported; [apply temporary_temp|apply temporary_imported|done].
    - exists d1. split; [done|]. split; [apply keepsFiles_refl|done]. }
  rewrite (xbind_done _ _ _ _ _ Hsecond). clear Hsecond.
  assert (wellFormedIndex d2) as Hwf2.
  { unfold wellFormedIndex, indexMeals in *. by rewrite Hindex2. }
  (* the record *)
  destruct (saveMealAnalysis_inside documentDirectory (mealSaved clock i) (importedMeal i m) d2)
    as (d3 & Hsave & Hfiles3 & Hidx3 & Hmeals3 & Hstored3); [| |exact Hwf2|].
  { split; [exact Hid|]. split; [exact Hts|]. split; [apply importedImageUri_truthy|].
    cbn. by destruct (x_analysis m). }
  { split; [apply importedImageUri_inside|]. intros a. cbn.
    destruct (Str.truthyOpt (x_after_image_data m)); [|done].
    intros [= <-]. right. apply importedImageUri_inside. }
  exists d3.
  change (m_id (importedMeal i m)) with (importedId m) in *.
  change (m_timestamp (importedMeal i m)) with (default "" (x_timestamp m)) in *.
  assert (fromStore (saveMealAnalysis (mealSaved clock i) (importedMeal i m))
            (setDeviceDisk d2 s) = (Done tt, setDeviceDisk d3 s)) as Hrun.
  { unfold fromStore. cbn [deviceDisk setDeviceDisk]. by rewrite Hsave. }
  assert (indexMeals d2 = indexMeals (deviceDisk s)) as Hsameidx.
  { unfold indexMeals. by rewrite Hindex2. }
  split; [exact Hrun|]. split.
  { pose proof (keeps_saveMealAnalysis documentDirectory (mealSaved clock i)
                  (importedMeal i m) d2 Hwf2) as [H _]. by rewrite Hsave in H. }
  split; [by rewrite Hidx3, Hsameidx|].
  split; [by rewrite Hmeals3, Hsameidx, Hmeals2|].
  split; [done|]. split.
  - eapply keepsFiles_trans; [exact Hkeep1|].
    eapply keepsFiles_trans; [exact Hkeep2|]. by apply keepsFiles_same.
  - rewrite Hfiles3. destruct Hkeep2 as [Hsurvive _].
    apply Hsurvive; [apply temporary_imported|]. exact (mk_is_Some _ _ Hfile1).
Qed.

(** *** The loop over the meals *)

Lemma importMeals_cons i m rest :
  importMeals i (m :: rest) = xbind (importMeal i m) (fun _ => importMeals (S i) rest).
Proof. reflexivity. Qed.

Lemma importMeals_app i before after s :
  importMeals i (before ++ after) s
  = xbind (importMeals i before) (fun _ => importMeals (i + length before) after) s.
Proof.
  revert i s. induction before as [|m before IH]; intros i s.
  - cbn. by rewrite Nat.add_0_r.
  - cbn [app length]. rewrite !importMeals_cons. unfold xbind.
    destruct (importMeal i m s) as [[[]|f] s1]; [|done].
    rewrite IH. unfold xbind.
    by replace (S i + length before)%nat with (i + S (length before))%nat by lia.
Qed.

Lemma importSettings_done data s s1 :
  importSettings data s = (Done tt, s1) ->
  s1 = setAsyncStorage (importedSettings data (asyncStorage s)) s.
Proof.
  destruct (asyncSetFails platform) eqn:Hset.
  - unfold importSettings, saveProfile, saveDailyGoals, saveReminders, saveAIModel.
    unfold setItem. rewrite Hset. unfold importedSettings.
    destruct s as [d [profile model goals reminders] docs log].
    destruct (x_user_profile data) as [p'|], (x_daily_goals data) as [g'|],
      (x_meal_reminders data) as [[|r' l']|], (x_ai_model data) as [[|c m']|];
      cbn; by intros [= <-].
  - rewrite (importSettings_works data s Hset). by intros [= <-].
Qed.

Lemma importMeal_needs_image i m s :
  Str.truthyOpt (x_image_data m) = false -> (importMeal i m s).1 <> Done tt.
Proof.
  intros Himage. unfold importMeal. rewrite Himage, xbind_ret. unfold xbind.
  match goal with |- context [match ?c s with _ => _ end] => destruct (c s) as [[a|f] s1] end;
    [|done].
  unfold fromStore. rewrite saveMealAnalysis_invalid; [done|]. by right; right; left.
Qed.

Lemma importMeals_need_images meals :
  forall i s m,
    m ∈ meals -> Str.truthyOpt (x_image_data m) = false ->
    (importMeals i meals s).1 <> Done tt.
Proof.
  induction meals as [|m' meals IH]; intros i s m Hin Himage.
  - by apply elem_of_nil in Hin.
  - rewrite importMeals_cons. unfold xbind.
    destruct (importMeal i m' s) as [[[]|f] s1] eqn:Hrun; [|done].
    apply elem_of_cons in Hin as [<-|Hin].
    + pose proof (importMeal_needs_image i m s Himage) as Hnot. by rewrite Hrun in Hnot.
    + by apply (IH (S i) s1 m).
Qed.

Lemma importData_done fileUri s :
  (importData fileUri s).1 = Done tt ->
  exists data meals s1,
    documents s !! fileUri = Some (JsonObject data)
    /\ validExport data meals
    /\ importSettings data s = (Done tt, s1)
    /\ (importMeals 0 meals s1).1 = Done tt.
Proof.
  intros Hdone.
  destruct (documents s !! fileUri) as [document|] eqn:Hdoc.
  2:{ by rewrite (importData_unreadable fileUri s Hdoc) in Hdone. }
  assert (document = NotJson \/ document <> NotJson) as [->|Hjson]
    by (destruct document; [by left|by right..]).
  { by rewrite (importData_not_json fileUri s Hdoc) in Hdone. }
  destruct (validateExportData document s).1 as [data|f'] eqn:Hv.
  2:{ by rewrite (importData_invalid fileUri s document f' Hdoc Hjson Hv) in Hdone. }
  destruct (validateExportData_outcome document s) as (_ & _ & Hd).
  destruct (Hd data Hv) as (-> & meals & Hvalid).
  rewrite (importData_valid fileUri s data meals Hdoc Hvalid) in Hdone.
  unfold xbind in Hdone.
  destruct (importSettings data s) as [[[]|f] s1] eqn:Hsettings; [|done].
  by exists data, meals, s1.
Qed.

Lemma importData_needs_images fileUri s data meals m :
  documents s !! fileUri = Some (JsonObject data) ->
  x_meals data = Some meals -> m ∈ meals -> Str.truthyOpt (x_image_data m) = false ->
  (importData fileUri s).1 <> Done tt.
Proof.
  intros Hdoc Hmeals Hin Himage Hdone.
  destruct (importData_done fileUri s Hdone)
    as (data' & meals' & s1 & Hdoc' & (_ & _ & Hmeals' & _) & _ & Hrun).
  assert (data' = data) as -> by congruence.
  assert (meals' = meals) as -> by congruence.
  by apply (importMeals_need_images meals 0 s1 m Hin Himage).
Qed.

(** An exported meal without image data stops the import, although it
    passes the validation: [saveMealAnalysis] rejects the record, whose
    image URI is empty. The import then fails with the error of the record
    store, and leaves the device as the import of the meals before that meal
    leaves it: the settings of the file are in place, as are the meals
    before it; the meal and the meals behind it are not imported. *)
Theorem import_stops_at_a_meal_without_image fileUri cutUri s s1 data before meal after :
  documents s !! fileUri = Some (JsonObject data) ->
  validExport data (before ++ meal :: after) ->
  withoutImages meal ->
  documents s !! cutUri = Some (JsonObject (withMeals before data)) ->
  importData cutUri s = (Done tt, s1) ->
  importData fileUri s
  = (Failed (StoreFailure MissingRequiredMealData),
     setDeviceDisk (initialized (mealSaved clock (length before)) (deviceDisk s1)) s1)
  /\ asyncStorage s1 = importedSettings data (asyncStorage s).
Proof.
  intros Hdoc Hvalid Hwithout Hcut Hdone.
  assert (validExport (withMeals before data) before) as Hvalid'.
  { destruct Hvalid as (Hv & Hd & _ & Hall). split; [done|]. split; [done|].
    split; [done|]. by apply Forall_app in Hall as [Hall _]. }
  rewrite (importData_valid cutUri s _ before Hcut Hvalid') in Hdone.
  rewrite (importData_valid fileUri s data _ Hdoc Hvalid).
  change (importSettings (withMeals before data)) with (importSettings data) in Hdone.
  unfold xbind at 1 in Hdone. unfold xbind at 1.
  destruct (importSettings data s) as [[[]|f] s0] eqn:Hsettings; [|done].
  apply importSettings_done in Hsettings.
  rewrite importMeals_app. rewrite (xbind_done _ _ _ _ _ Hdone).
  rewrite importMeals_cons.
  rewrite (xbind_failed _ _ _ _ _ (importMeal_withoutImages _ meal s1 Hwithout)).
  split; [by rewrite Nat.add_0_l|].
  destruct (diskOnly_importMeals 0 before s0) as (Hasync & _).
  rewrite Hdone in Hasync. cbn [snd] in Hasync. rewrite Hasync, Hsettings. done.
Qed.

Lemma storedMeal_other_file other mealId stored d d' :
  other <> mealId ->
  mealFiles d' = <[mealFilename mealId := stored]> (mealFiles d) ->
  storedMeal other d' = storedMeal other d.
Proof.
  intros Hne Hfiles. unfold storedMeal. rewrite Hfiles, lookup_insert_ne; [done|].
  intros Heq. by apply mealFilename_inj in Heq.
Qed.

Lemma importMeals_run meals :
  forall i s,
    Forall identified meals -> Forall importable meals ->
    wellFormedIndex (deviceDisk s) -> newToStore meals (deviceDisk s) ->
    exists d',
      importMeals i meals s = (Done tt, setDeviceDisk d' s)
      /\ wellFormedIndex d'
      /\ indexMeals d' = (rev (map importedEntry meals) ++ indexMeals (deviceDisk s))%list
      /\ (forall k m, meals !! k = Some m ->
            storedMeal (importedId m) d' = Some (importedMeal (i + k) m)
            /\ is_Some (files d' !! m_imageUri (importedMeal (i + k) m)))
      /\ (forall other, other ∉ map importedId meals ->
            storedMeal other d' = storedMeal other (deviceDisk s))
      /\ keepsFiles (deviceDisk s) d'.
Proof.
  induction meals as [|m meals IH]; intros i s Hident Himport Hwf (Hnodup & Hfresh & Hroom).
  - exists (deviceDisk s). split; [by destruct s|]. split; [done|]. split; [done|].
    split; [by intros k m'|]. split; [done|]. apply keepsFiles_refl.
  - apply Forall_cons in Hident as [Hident1 Hident].
    apply Forall_cons in Himport as [Himport1 Himport].
    cbn [map] in Hnodup. apply NoDup_cons in Hnodup as [Hhead Hnodup].
    destruct (importMeal_run i m s Hident1 Himport1 Hwf)
      as (d1 & Hrun1 & Hwf1 & Hidx1 & Hfiles1 & Hstored1 & Hkeep1 & Himage1).
    assert (withoutId (importedId m) (indexMeals (deviceDisk s))
            = indexMeals (deviceDisk s)) as Hwithout.
    { apply withoutId_fresh_id, Forall_forall. intros e He Heq.
      apply (Hfresh m); [left|]. rewrite <- Heq. by apply list_elem_of_fmap_2. }
    assert (length (importedEntry m :: indexMeals (deviceDisk s)) <= MAX_MEALS)%nat
      as Hlen by (cbn [length] in *; lia).
    rewrite Hwithout in Hidx1, Hfiles1.
    rewrite take_ge in Hidx1 by exact Hlen. rewrite drop_ge in Hfiles1 by exact Hlen.
    cbn [map] in Hfiles1. unfold deleteAll in Hfiles1. cbn [foldl] in Hfiles1.
    destruct (IH (S i) (setDeviceDisk d1 s) Hident Himport Hwf1)
      as (d' & Hrun & Hwf' & Hidx' & Hstored' & Hothers' & Hkeep').
    { split; [exact Hnodup|]. split.
      - intros m' Hm'. cbn [deviceDisk setDeviceDisk]. rewrite Hidx1. cbn [map].
        apply not_elem_of_cons. split.
        + intros Heq. apply Hhead.
          change (e_id (importedEntry m)) with (importedId m) in Heq.
          rewrite <- Heq. by apply list_elem_of_fmap_2.
        + apply Hfresh. by right.
      - cbn [deviceDisk setDeviceDisk]. rewrite Hidx1. cbn [length] in *. lia. }
    cbn [deviceDisk setDeviceDisk] in *.
    exists d'. split.
    { rewrite importMeals_cons, (xbind_done _ _ _ _ _ Hrun1). exact Hrun. }
    split; [exact Hwf'|]. split.
    { rewrite Hidx', Hidx1. cbn [map rev]. by rewrite <- app_assoc. }
    split; [|split].
    + intros [|k] m' Hm'.
      * injection Hm' as <-. rewrite Nat.add_0_r. split.
        -- by rewrite (Hothers' (importedId m) Hhead).
        -- destruct Hkeep' as [Hsurvive _].
           apply Hsurvive; [apply temporary_imported|exact Himage1].
      * replace (i + S k)%nat with (S i + k)%nat by lia. by apply Hstored'.
    + intros other Hother. cbn [map] in Hother.
      apply not_elem_of_cons in Hother as [Hne Hother].
      rewrite (Hothers' other Hother).
      by apply (storedMeal_other_file other (importedId m) (MealJson (importedMeal i m))).
    + by apply (keepsFiles_trans _ d1).
Qed.

(** The import of a file that validates, on a platform whose storage takes
    the writes, every meal having an image the platform takes, the meals
    being new to the store and the store having room for them: the import
    returns; the settings of the file are in place; every meal is stored,
    with both flags cleared, with the empty analysis when it had none, and
    with the URI of the copy of its image, which is a file of the images
    directory named [.jpg]; the entries of the meals are in front of the
    index in the reverse of their order in the file; no other record
    changes, no file of the device is lost and no temporary file is left. *)
Theorem import_stores_the_meals fileUri s data meals :
  documents s !! fileUri = Some (JsonObject data) ->
  validExport data meals ->
  asyncSetFails platform = false ->
  Forall importable meals ->
  wellFormedIndex (deviceDisk s) ->
  newToStore meals (deviceDisk s) ->
  let s' := (importData fileUri s).2 in
  (importData fileUri s).1 = Done tt
  /\ asyncStorage s' = importedSettings data (asyncStorage s)
  /\ indexMeals (deviceDisk s')
     = (rev (map importedEntry meals) ++ indexMeals (deviceDisk s))%list
  /\ (forall i m, meals !! i = Some m ->
        (getMealById (mealSaved clock i) (importedId m) (deviceDisk s')).1
        = Ok (Some (importedMeal i m))
        /\ is_Some (files (deviceDisk s') !! m_imageUri (importedMeal i m))
        /\ Str.startsWith (m_imageUri (importedMeal i m)) imagesDir = true
        /\ Str.lastSegment (m_imageUri (importedMeal i m)) = "jpg"
        /\ needsRetry (importedMeal i m) = false
        /\ m_analysis (importedMeal i m) <> ANull)
  /\ (forall other, other ∉ map importedId meals ->
        storedMeal other (deviceDisk s') = storedMeal other (deviceDisk s))
  /\ keepsFiles (deviceDisk s) (deviceDisk s').
Proof.
  intros Hdoc Hvalid Hset Himport Hwf Hnew s'. subst s'.
  rewrite (importData_valid fileUri s data meals Hdoc Hvalid).
  rewrite (xbind_done _ _ _ _ _ (importSettings_works data s Hset)).
  destruct Hvalid as (_ & _ & _ & Hident).
  destruct (importMeals_run meals 0
              (setAsyncStorage (importedSettings data (asyncStorage s)) s)
              Hident Himport Hwf Hnew)
    as (d' & -> & _ & Hidx & Hstored & Hothers & Hkeep).
  cbn [fst snd deviceDisk asyncStorage setDeviceDisk setAsyncStorage] in *.
  split; [done|]. split; [done|]. split; [exact Hidx|].
  split; [|split; [exact Hothers|exact Hkeep]].
  intros i m Hm. destruct (Hstored i m Hm) as [Hrecord Himage].
  rewrite Nat.add_0_l in Hrecord, Himage.
  split; [by rewrite getMealById_run, Hrecord|]. split; [exact Himage|].
  split; [apply importedImageUri_inside|]. split; [|split].
  - unfold importedMeal. cbn [m_imageUri]. unfold importedImageUri, Str.lastSegment.
    rewrite <- !string_app_assoc.
    by apply (lastSegmentFrom_behind_dot "" _ "jpg").
  - done.
  - unfold importedMeal. cbn [m_analysis]. by destruct (x_analysis m).
Qed.

End ImportFacts.

(** ** The export *)

Section ExportFacts.

Variable documentDirectory : string.
Variable platform : Platform.
Variable saving : Saving.
Variable clock : ExportClock.

Local Abbreviation imageToBase64 := imageToBase64.
Local Abbreviation fallbackToSharing := (fallbackToSharing documentDirectory saving).
Local Abbreviation saveFileAndroid := (saveFileAndroid documentDirectory saving).
Local Abbreviation saveFileIOS := (saveFileIOS documentDirectory saving).
Local Abbreviation exportData := (exportData documentDirectory platform saving clock).
Local Abbreviation exportedDocument := (exportedDocument clock).

(** The name of the export file and the URI of the temporary file that is
    shared. *)
Local Abbreviation exportFilename := ("OpenMeal_Export_" ++ exportDay clock ++ ".json").
Local Abbreviation exportTempUri := (documentDirectory ++ exportFilename).

(** *** Gathering the data *)

Lemma imageToBase64_run uri s :
  imageToBase64 uri s = (Done (imageData (deviceDisk s) uri), s).
Proof.
  unfold imageToBase64, imageData, xcatch.
  destruct (negb (Str.truthy uri) || negb (Str.truthy (Str.trim uri))); [done|].
  unfold readImage, xbind, xget. by destruct (files (deviceDisk s) !! uri).
Qed.

Lemma exportMeals_run meals s :
  exportMeals meals s = (Done (map (exportedMeal (deviceDisk s)) meals), s).
Proof.
  induction meals as [|meal meals IH]; [done|].
  cbn [exportMeals map]. unfold exportedMeal at 1.
  assert ((if Str.truthy (m_imageUri meal) then imageToBase64 (m_imageUri meal)
           else xret None) s
          = (Done (if Str.truthy (m_imageUri meal)
                   then imageData (deviceDisk s) (m_imageUri meal) else None), s)) as Hmain.
  { destruct (Str.truthy (m_imageUri meal)); [apply imageToBase64_run|done]. }
  assert ((if Str.truthyOpt (m_afterImageUri meal)
           then imageToBase64 (default "" (m_afterImageUri meal))
           else xret None) s
          = (Done (if Str.truthyOpt (m_afterImageUri meal)
                   then imageData (deviceDisk s) (default "" (m_afterImageUri meal))
                   else None), s)) as Hafter.
  { destruct (Str.truthyOpt (m_afterImageUri meal)); [apply imageToBase64_run|done]. }
  rewrite (xbind_done _ _ _ _ _ Hmain), (xbind_done _ _ _ _ _ Hafter).
  by rewrite (xbind_done _ _ _ _ _ IH).
Qed.

Lemma exportedMeal_initialized now d meal :
  exportedMeal (initialized now d) meal = exportedMeal d meal.
Proof. unfold exportedMeal, imageData. by rewrite initialized_files. Qed.

(** The device once the data are gathered. *)
Lemma exportData_gathered s :
  asyncGetFails platform = false ->
  exists s1,
    exportData s
    = (if savingOnAndroid saving
       then saveFileAndroid (exportedDocument s) exportFilename
       else saveFileIOS (exportedDocument s) exportFilename) s1
    /\ keepsData s s1
    /\ documents s1 = documents s /\ shareLog s1 = shareLog s.
Proof.
  intros Hget. unfold exportData. rewrite xcatch_rethrow.
  unfold getProfile. rewrite (xbind_done _ _ _ (userProfileItem (asyncStorage s)) s)
    by (by rewrite getItem_run, Hget).
  rewrite (xbind_done _ _ _ _ _ (getDailyGoals_run platform s)).
  unfold goalsRead. rewrite Hget.
  pose proof (getReminders_run platform s) as Hreminders. rewrite Hget in Hreminders.
  set (s0 := match mealRemindersItem (asyncStorage s) with
             | Some _ => s
             | None =>
                 if asyncSetFails platform then s
                 else setAsyncStorage
                        (setMealRemindersItem (Some DEFAULT_REMINDERS) (asyncStorage s)) s
             end).
  assert (getReminders platform s
          = (Done (default DEFAULT_REMINDERS (mealRemindersItem (asyncStorage s))), s0))
    as Hread.
  { rewrite Hreminders. unfold s0. by destruct (mealRemindersItem (asyncStorage s)). }
  rewrite (xbind_done _ _ _ _ _ Hread).
  assert (deviceDisk s0 = deviceDisk s /\ documents s0 = documents s
          /\ shareLog s0 = shareLog s
          /\ userProfileItem (asyncStorage s0) = userProfileItem (asyncStorage s)
          /\ aiModelItem (asyncStorage s0) = aiModelItem (asyncStorage s)
          /\ dailyGoalsItem (asyncStorage s0) = dailyGoalsItem (asyncStorage s)
          /\ (mealRemindersItem (asyncStorage s0) = mealRemindersItem (asyncStorage s)
              \/ (mealRemindersItem (asyncStorage s) = None
                  /\ mealRemindersItem (asyncStorage s0) = Some DEFAULT_REMINDERS)))
    as (Hd0 & Hdoc0 & Hlog0 & Hp0 & Hm0 & Hg0 & Hr0).
  { unfold s0. destruct (mealRemindersItem (asyncStorage s)) eqn:Hitem.
    - by rewrite Hitem; auto 10.
    - destruct (asyncSetFails platform); cbn; rewrite ?Hitem; auto 10. }
  pose proof (getAIModel_run platform s0) as Hmodel. rewrite Hget, Hm0 in Hmodel.
  rewrite (xbind_done _ _ _ _ _ Hmodel).
  assert (fromStore (getMealHistory (historyRead clock)) s0
          = (Done (listedMeals (deviceDisk s)),
             setDeviceDisk (initialized (historyRead clock) (deviceDisk s)) s0)) as Hlist.
  { unfold fromStore. by rewrite getMealHistory_run, Hd0. }
  rewrite (xbind_done _ _ _ _ _ Hlist).
  rewrite (xbind_done _ _ _ _ _ (exportMeals_run _ _)).
  cbn [deviceDisk setDeviceDisk].
  rewrite (map_ext _ _ (exportedMeal_initialized (historyRead clock) (deviceDisk s))).
  exists (setDeviceDisk (initialized (historyRead clock) (deviceDisk s)) s0).
  split; [done|]. split; [|done].
  unfold keepsData. cbn [deviceDisk asyncStorage setDeviceDisk].
  rewrite initialized_mealFiles, initialized_indexMeals, initialized_files. auto 10.
Qed.

(** *** Saving the file *)

Lemma fallbackToSharing_run content filename s :
  let temp := documentDirectory ++ filename in
  let sheet := shareSheets saving (length (shareLog s)) in
  fallbackToSharing content filename s
  = if shares sheet
    then (Done tt,
          {| deviceDisk := deviceDisk s; asyncStorage := asyncStorage s;
             documents := delete temp (<[temp := JsonObject content]> (documents s));
             shareLog := (temp, sheet) :: shareLog s |})
    else (Failed (shareFailure sheet),
          {| deviceDisk := deviceDisk s; asyncStorage := asyncStorage s;
             documents := <[temp := JsonObject content]> (documents s);
             shareLog := (temp, sheet) :: shareLog s |}).
Proof.
  intros temp sheet.
  unfold fallbackToSharing, writeDocument, xbind, xget, xmodify, shares, shareFailure.
  cbn [shareLog setDocuments setShareLog documents deviceDisk asyncStorage].
  fold temp. fold sheet.
  by destruct (isAvailable sheet) as [[|]|], (shareResolves sheet).
Qed.

Lemma documentsOnly_fallbackToSharing content filename :
  documentsOnly (fallbackToSharing content filename).
Proof.
  intros s. rewrite fallbackToSharing_run. by destruct (shares _).
Qed.

Lemma documentsOnly_xret {A} (a : A) : documentsOnly (xret a).
Proof. by intros s. Qed.

Lemma documentsOnly_xthrow {A} f : documentsOnly (xthrow (A := A) f).
Proof. by intros s. Qed.

Lemma documentsOnly_xbind {A B} (c : X Device A) (k : A -> X Device B) :
  documentsOnly c -> (forall a, documentsOnly (k a)) -> documentsOnly (xbind c k).
Proof.
  intros Hc Hk s. unfold xbind. destruct (Hc s) as [Hd Ha].
  destruct (c s) as [[a|e] s1]; cbn [fst snd] in *; [|done].
  destruct (Hk a s1) as [Hd' Ha']. by rewrite Hd', Ha'.
Qed.

Lemma documentsOnly_xcatch {A} (c : X Device A) (handler : Failure -> X Device A) :
  documentsOnly c -> (forall e, documentsOnly (handler e)) ->
  documentsOnly (xcatch c handler).
Proof.
  intros Hc Hh s. unfold xcatch. destruct (Hc s) as [Hd Ha].
  destruct (c s) as [[a|e] s1]; cbn [fst snd] in *; [done|].
  destruct (Hh e s1) as [Hd' Ha']. by rewrite Hd', Ha'.
Qed.

Lemma documentsOnly_setDocuments (f : Device -> gmap string Document) :
  documentsOnly (xmodify (fun s => setDocuments (f s) s)).
Proof. by intros s. Qed.

Lemma documentsOnly_saveFileAndroid content filename :
  documentsOnly (saveFileAndroid content filename).
Proof.
  unfold saveFileAndroid.
  apply documentsOnly_xcatch; [|intros _; apply documentsOnly_fallbackToSharing].
  apply documentsOnly_xbind.
  { destruct (directoryPermissions saving);
      [apply documentsOnly_xret|apply documentsOnly_xthrow]. }
  intros [directoryUri|]; [|apply documentsOnly_fallbackToSharing].
  apply documentsOnly_xbind.
  - destruct (createdFile saving) as [fileUri|]; [|apply documentsOnly_xthrow].
    apply documentsOnly_xbind; [|intros _; apply documentsOnly_xret].
    apply (documentsOnly_setDocuments (fun s => <[fileUri := NotJson]> (documents s))).
  - intros fileUri. destruct (createdFileWritten saving); [|apply documentsOnly_xthrow].
    apply (documentsOnly_setDocuments (fun s => <[fileUri := JsonObject content]> (documents s))).
Qed.

Lemma saveFileAndroid_saved content filename fileUri s :
  savesTo saving fileUri ->
  saveFileAndroid content filename s
  = (Done tt, setDocuments (<[fileUri := JsonObject content]> (documents s)) s).
Proof.
  intros (_ & [directoryUri Hdir] & Hfile & Hwritten).
  unfold saveFileAndroid, xcatch, xbind, writeDocument, xmodify.
  rewrite Hdir, Hfile, Hwritten. cbn. unfold setDocuments. cbn. by rewrite insert_insert_eq.
Qed.

Lemma saveFileAndroid_denied content filename s :
  directoryPermissions saving = Some None ->
  saveFileAndroid content filename s
  = xcatch (fallbackToSharing content filename)
      (fun _ => fallbackToSharing content filename) s.
Proof. intros Hdir. unfold saveFileAndroid. by rewrite Hdir. Qed.

Lemma keepsData_refl s : keepsData s s.
Proof. unfold keepsData. auto 10. Qed.

Lemma keepsData_documents s1 s2 s :
  keepsData s s1 -> deviceDisk s2 = deviceDisk s1 -> asyncStorage s2 = asyncStorage s1 ->
  keepsData s s2.
Proof. unfold keepsData. by intros H -> ->. Qed.

(** Whatever the platform does, [exportData] leaves the data of the
    device as they are, whether it returns or throws: the records, the
    index, the images, the profile, the goals and the model; of the
    settings it stores the default reminders only, when no reminders were
    stored. When [AsyncStorage] does not take the reads, it throws before
    anything is written or shared. *)
Theorem export_leaves_the_data s :
  let s' := (exportData s).2 in
  keepsData s s'
  /\ (asyncGetFails platform = true -> exportData s = (Failed AsyncStorageFailure, s))
  /\ (asyncGetFails platform = false ->
      (length (shareLog s') <= length (shareLog s) + 2)%nat
      /\ (savingOnAndroid saving = false ->
          (length (shareLog s') = length (shareLog s) + 1)%nat)).
Proof.
  intros s'. subst s'.
  destruct (asyncGetFails platform) eqn:Hget.
  - assert (exportData s = (Failed AsyncStorageFailure, s)) as Hrun.
    { unfold exportData. rewrite xcatch_rethrow.
      rewrite (xbind_failed _ _ _ AsyncStorageFailure s); [done|].
      unfold getProfile. by rewrite getItem_run, Hget. }
    rewrite Hrun. split; [apply keepsData_refl|]. by split.
  - destruct (exportData_gathered s Hget) as (s1 & -> & Hkeep & Hdocs & Hlog).
    split; [|split; [done|intros _]].
    + destruct (savingOnAndroid saving).
      * destruct (documentsOnly_saveFileAndroid (exportedDocument s) exportFilename s1)
          as [Hd Ha]. by apply (keepsData_documents s1).
      * destruct (documentsOnly_fallbackToSharing (exportedDocument s) exportFilename s1)
          as [Hd Ha]. by apply (keepsData_documents s1).
    + rewrite <- Hlog. destruct (savingOnAndroid saving).
      * split; [|done]. unfold saveFileAndroid, xcatch, xbind at 1.
        destruct (directoryPermissions saving) as [[directoryUri|]|]; cbn [xret xthrow].
        -- unfold xbind, writeDocument, xmodify.
           destruct (createdFile saving) as [fileUri|]; cbn [xret xthrow fst snd].
           ++ destruct (createdFileWritten saving); cbn [xthrow]; [cbn; lia|].
              rewrite fallbackToSharing_run. destruct (shares _); cbn; lia.
           ++ rewrite fallbackToSharing_run. destruct (shares _); cbn; lia.
        -- rewrite fallbackToSharing_run. destruct (shares _); [cbn; lia|].
           rewrite fallbackToSharing_run. destruct (shares _); cbn; lia.
        -- rewrite fallbackToSharing_run. destruct (shares _); cbn; lia.
      * split; [|intros _]; unfold saveFileIOS; rewrite fallbackToSharing_run;
          destruct (shares _); cbn; lia.
Qed.

Lemma exportData_saved s fileUri :
  asyncGetFails platform = false -> savesTo saving fileUri ->
  exists s',
    exportData s = (Done tt, s')
    /\ documents s' !! fileUri = Some (JsonObject (exportedDocument s)).
Proof.
  intros Hget Hsaves.
  destruct (exportData_gathered s Hget) as (s1 & -> & _).
  pose proof Hsaves as (-> & _).
  rewrite (saveFileAndroid_saved _ _ fileUri s1 Hsaves).
  eexists. split; [done|]. cbn. apply lookup_insert_eq.
Qed.

(** On Android, when the permission for a directory is not granted, the
    export shares the file; when the share sheet does not take it, the
    handler of [saveFileAndroid] shares it a second time: the share sheet is
    asked twice with the same file, and the export fails only when it
    refuses twice. The temporary file that is shared is deleted when the
    export returns and left in the document directory when it throws. *)
Theorem export_asks_the_share_sheet_twice s :
  asyncGetFails platform = false ->
  savingOnAndroid saving = true ->
  directoryPermissions saving = Some None ->
  let first := shareSheets saving (length (shareLog s)) in
  let second := shareSheets saving (S (length (shareLog s))) in
  let s' := (exportData s).2 in
  (shares first = true ->
   (exportData s).1 = Done tt
   /\ shareLog s' = (exportTempUri, first) :: shareLog s
   /\ documents s' !! exportTempUri = None)
  /\ (shares first = false ->
      shareLog s' = (exportTempUri, second) :: (exportTempUri, first) :: shareLog s
      /\ (shares second = true ->
          (exportData s).1 = Done tt /\ documents s' !! exportTempUri = None)
      /\ (shares second = false ->
          (exportData s).1 = Failed (shareFailure second)
          /\ documents s' !! exportTempUri = Some (JsonObject (exportedDocument s)))).
Proof.
  intros Hget Handroid Hdenied first second s'. subst s'.
  destruct (exportData_gathered s Hget) as (s1 & -> & _ & _ & Hlog).
  rewrite Handroid, (saveFileAndroid_denied _ _ s1 Hdenied).
  unfold xcatch. rewrite fallbackToSharing_run. rewrite Hlog. fold first.
  split.
  - intros ->. cbn [fst snd shareLog documents]. split; [done|]. split; [done|].
    apply lookup_delete_eq.
  - intros ->. rewrite fallbackToSharing_run. cbn [shareLog length].
    fold second. split; [by destruct (shares second)|]. split.
    + intros ->. cbn [fst snd documents]. split; [done|]. apply lookup_delete_eq.
    + intros ->. cbn [fst snd documents]. split; [done|]. apply lookup_insert_eq.
Qed.

Lemma imageData_truthy d uri x : imageData d uri = Some x -> Str.truthy x = true.
Proof.
  unfold imageData. destruct (negb _ || negb _); [done|].
  destruct (files d !! uri); [|done]. by intros [= <-].
Qed.

Lemma imageData_needs_uri d uri : is_Some (imageData d uri) -> Str.truthy uri = true.
Proof.
  unfold imageData. destruct (Str.truthy uri); [done|]. by intros [? ?].
Qed.

(** A record whose image cannot be read when the history is exported (it
    has no image, as a text-only meal, or the file of its image is gone) is
    exported without image data, and a file that has such a meal cannot be
    imported: whatever the device, the platform and the clock, [importData]
    does not return on it. *)
Theorem unreadable_image_blocks_the_import s fileUri meal :
  asyncGetFails platform = false ->
  savesTo saving fileUri ->
  meal ∈ listedMeals (deviceDisk s) ->
  imageData (deviceDisk s) (m_imageUri meal) = None ->
  let s' := (exportData s).2 in
  (exportData s).1 = Done tt
  /\ documents s' !! fileUri = Some (JsonObject (exportedDocument s))
  /\ forall importDirectory importPlatform importClock pickedUri device,
       documents device !! pickedUri = Some (JsonObject (exportedDocument s)) ->
       (importData importDirectory importPlatform importClock pickedUri device).1
       <> Done tt.
Proof.
  intros Hget Hsaves Hin Himage s'. subst s'.
  destruct (exportData_saved s fileUri Hget Hsaves) as (s' & -> & Hdoc).
  split; [done|]. split; [exact Hdoc|].
  intros importDirectory importPlatform importClock pickedUri device Hpicked.
  apply (importData_needs_images importDirectory importPlatform importClock pickedUri device
           (exportedDocument s)
           (map (exportedMeal (deviceDisk s)) (listedMeals (deviceDisk s)))
           (exportedMeal (deviceDisk s) meal)); [done|done| |].
  - by apply list_elem_of_fmap_2.
  - unfold exportedMeal. cbn [x_image_data]. rewrite Himage.
    by destruct (Str.truthy (m_imageUri meal)).
Qed.

Lemma exported_importable importPlatform d meal :
  (forall payload, is_Some (base64Write importPlatform payload)) ->
  exportable d meal ->
  identified (exportedMeal d meal) /\ importable importPlatform (exportedMeal d meal).
Proof.
  intros Htakes (Hid & Hts & Himage & Hafter).
  apply truthy_true in Hid, Hts. split; [by split|].
  unfold importable, decodable, exportedMeal. cbn [x_image_data x_after_image_data].
  rewrite (imageData_needs_uri _ _ Himage). split.
  - split; [|apply Htakes]. destruct Himage as [x Hx]. rewrite Hx.
    by apply (imageData_truthy d (m_imageUri meal)).
  - destruct (Str.truthyOpt (m_afterImageUri meal)); [|done]. intros _.
    split; [|apply Htakes]. destruct (Hafter eq_refl) as [x Hx]. rewrite Hx.
    by apply (imageData_truthy d (default "" (m_afterImageUri meal))).
Qed.

Lemma restored_imported importDirectory importClock d meal i :
  exportable d meal ->
  restored meal (importedMeal importDirectory importClock i (exportedMeal d meal)).
Proof.
  intros (_ & _ & _ & Hafter). unfold restored, importedMeal, exportedMeal.
  cbn [m_id m_timestamp m_comment m_analysis m_isLoading m_hasError m_afterImageUri
       x_id x_timestamp x_comment x_analysis x_after_image_data default].
  split; [done|]. split; [done|]. split; [done|]. split; [done|].
  split; [done|]. split; [done|].
  destruct (Str.truthyOpt (m_afterImageUri meal)) eqn:Ha.
  - destruct (Hafter eq_refl) as [x Hx]. rewrite Hx.
    cbn [Str.truthyOpt]. rewrite (imageData_truthy _ _ _ Hx). by split; [|eexists].
  - cbn. split; [by intros [? ?]|done].
Qed.

(** An export, saved through the Storage Access Framework, followed by the
    import of the file on a device whose store is empty, on a platform that
    takes the writes: when every record listed has an id, a timestamp and
    images that are files of the device, the ids being distinct and the
    records no more than the store retains, both calls return, and every
    record is found again by its id, with its timestamp, its comment and
    its analysis (the empty analysis when it had none) and with both flags
    cleared, whatever they were. The index of the importing device lists
    the records in the reverse of the order of the exporting one. The goals
    and the model the exporting device read are stored, and its profile when
    it has one. *)
Theorem export_then_import_restores_the_meals
    s fileUri importDirectory importPlatform importClock pickedUri device :
  asyncGetFails platform = false ->
  savesTo saving fileUri ->
  exportDate clock <> "" ->
  Forall (exportable (deviceDisk s)) (listedMeals (deviceDisk s)) ->
  NoDup (map m_id (listedMeals (deviceDisk s))) ->
  (length (listedMeals (deviceDisk s)) <= MAX_MEALS)%nat ->
  documents device !! pickedUri = documents (exportData s).2 !! fileUri ->
  indexMeals (deviceDisk device) = [] ->
  asyncSetFails importPlatform = false ->
  (forall payload, is_Some (base64Write importPlatform payload)) ->
  let device' :=
    (importData importDirectory importPlatform importClock pickedUri device).2 in
  (exportData s).1 = Done tt
  /\ (importData importDirectory importPlatform importClock pickedUri device).1 = Done tt
  /\ map e_id (indexMeals (deviceDisk device'))
     = rev (map m_id (listedMeals (deviceDisk s)))
  /\ (forall meal, meal ∈ listedMeals (deviceDisk s) ->
        exists m,
          storedMeal (m_id meal) (deviceDisk device') = Some m
          /\ restored meal m
          /\ is_Some (files (deviceDisk device') !! m_imageUri m))
  /\ dailyGoalsItem (asyncStorage device')
     = Some (default DEFAULT_GOALS (dailyGoalsItem (asyncStorage s)))
  /\ aiModelItem (asyncStorage device') = x_ai_model (exportedDocument s)
  /\ (forall profile, userProfileItem (asyncStorage s) = Some profile ->
        userProfileItem (asyncStorage device') = Some profile).
Proof.
  intros Hget Hsaves Hdate Hexportable Hnodup Hroom Hpicked Hempty Hset Htakes device'.
  subst device'.
  destruct (exportData_saved s fileUri Hget Hsaves) as (s' & Hexport & Hdoc).
  rewrite Hexport in Hpicked |- *. cbn [fst snd] in *. rewrite Hdoc in Hpicked.
  split; [done|].
  set (listed := listedMeals (deviceDisk s)) in *.
  set (exported := map (exportedMeal (deviceDisk s)) listed).
  assert (Forall identified exported /\ Forall (importable importPlatform) exported)
    as [Hident Himport].
  { unfold exported. split; apply Forall_fmap; eapply Forall_impl; try exact Hexportable;
      intros meal Hmeal; by apply (exported_importable importPlatform). }
  assert (validExport (exportedDocument s) exported) as Hvalid.
  { split; [done|]. split; [by apply truthy_true|]. by split. }
  assert (map (fun meal => importedId (exportedMeal (deviceDisk s) meal)) listed
          = map m_id listed) as Hids.
  { by apply map_ext. }
  rewrite (importData_valid importDirectory importPlatform importClock pickedUri device
             _ exported Hpicked Hvalid).
  rewrite (xbind_done _ _ _ _ _ (importSettings_works importPlatform _ device Hset)).
  destruct (importMeals_run importDirectory importPlatform importClock exported 0
              (setAsyncStorage
                 (importedSettings (exportedDocument s) (asyncStorage device)) device)
              Hident Himport)
    as (d' & -> & _ & Hidx & Hstored & _ & _).
  { cbn [deviceDisk setAsyncStorage]. unfold wellFormedIndex. rewrite Hempty.
    apply wellFormedEntries_nil. }
  { unfold newToStore. cbn [deviceDisk setAsyncStorage]. rewrite Hempty. unfold exported.
    split; [by rewrite map_map, Hids|]. split.
    - intros m _. apply not_elem_of_nil.
    - rewrite length_map. cbn [length]. lia. }
  cbn [fst snd deviceDisk asyncStorage setDeviceDisk setAsyncStorage] in *.
  split; [done|]. split.
  { rewrite Hidx, Hempty, app_nil_r, map_rev. f_equal. unfold exported.
    by rewrite !map_map. }
  split.
  { intros meal [k Hk]%list_elem_of_lookup.
    destruct (Hstored k (exportedMeal (deviceDisk s) meal)) as [Hrecord Himage].
    { unfold exported. by rewrite list_lookup_fmap, Hk. }
    eexists. split; [exact Hrecord|]. split; [|exact Himage].
    apply restored_imported. rewrite Forall_forall in Hexportable.
    by apply Hexportable, list_elem_of_lookup_2 with k. }
  split; [done|]. split.
  - unfold importedSettings, exportedDocument. cbn [aiModelItem x_ai_model].
    by destruct (aiModelItem (asyncStorage s)) as [[|c model]|].
  - unfold importedSettings, exportedDocument. cbn [userProfileItem x_user_profile].
    by intros profile ->.
Qed.

End ExportFacts.

(** ** The home screen *)

Lemma replaced_ids meal l : idsOf (replaced meal l) = idsOf l.
Proof.
  unfold idsOf, replaced. rewrite map_map. apply map_ext. intros m.
  by case_bool_decide.
Qed.

Lemma replaced_absent meal l : m_id meal ∉ idsOf l -> replaced meal l = l.
Proof.
  unfold idsOf, replaced. induction l as [|m l IH]; [done|]. cbn [map].
  intros Hnot. apply not_elem_of_cons in Hnot as [Hm Hl].
  rewrite bool_decide_eq_false_2 by done. by rewrite IH.
Qed.

Lemma findIndex_id_None meal l :
  findIndex (fun m => bool_decide (m_id m = m_id meal)) l = None -> m_id meal ∉ idsOf l.
Proof.
  intros Hall%findIndex_None. unfold idsOf. induction Hall as [|m l Hm _ IH].
  - apply not_elem_of_nil.
  - cbn [map]. apply not_elem_of_cons. split; [|done].
    apply bool_decide_eq_false in Hm. congruence.
Qed.

Lemma findIndex_id_Some meal l i :
  findIndex (fun m => bool_decide (m_id m = m_id meal)) l = Some i ->
  NoDup (idsOf l) ->
  <[i := meal]> l = replaced meal l /\ m_id meal ∈ idsOf l.
Proof.
  unfold idsOf. revert i. induction l as [|m l IH]; intros i; [done|].
  cbn [findIndex map]. intros Hi Hnodup. apply NoDup_cons in Hnodup as [Hm Hl].
  case_bool_decide as Hid.
  - injection Hi as <-. split; [|rewrite Hid; apply elem_of_cons; by left].
    unfold replaced. cbn [map]. rewrite bool_decide_eq_true_2 by done.
    cbn. f_equal. symmetry. apply replaced_absent. by rewrite <- Hid.
  - destruct (findIndex _ l) as [j|] eqn:Ej; [|done]. injection Hi as <-.
    destruct (IH j eq_refl Hl) as [Hins Hin]. split; [|apply elem_of_cons; by right].
    unfold replaced. cbn [map]. rewrite bool_decide_eq_false_2 by done.
    cbn. f_equal. exact Hins.
Qed.

Section HomeFacts.

Variable toDateString : string -> string.

Local Abbreviation countsToday := (countsToday toDateString).
Local Abbreviation calculateDailyNutrition := (calculateDailyNutrition toDateString).
Local Abbreviation addMealToState := (addMealToState toDateString).
Local Abbreviation updateMealInState := (updateMealInState toDateString).
Local Abbreviation loadMeals := (loadMeals toDateString).
Local Abbreviation countedOn := (countedOn toDateString).
Local Abbreviation shows := (shows toDateString).

Lemma reduceNutrition_run acc l (s : Home) :
  complete l ->
  reduceNutrition acc l s
  = (Done {| d_calories := sumOver (totalOf total_calories) (d_calories acc) l;
             d_protein := sumOver (totalOf total_protein_g) (d_protein acc) l;
             d_fats := sumOver (totalOf total_total_fat_g) (d_fats acc) l;
             d_carbs := sumOver (totalOf total_total_carbohydrate_g) (d_carbs acc) l |}, s).
Proof.
  intros Hall. revert acc. induction Hall as [|meal l [[a totals] Hmeal] _ IH]; intros acc.
  - cbn. by destruct acc.
  - cbn [reduceNutrition]. unfold sumOver. cbn [fold_left].
    unfold totalOf at 2 4 6 8. rewrite Hmeal.
    unfold totalsOf in Hmeal. unfold addNutrition, xbind.
    destruct (m_analysis meal) as [|a']; [done|].
    destruct (total_meal_nutritional_values a') as [totals'|]; [|done].
    injection Hmeal as -> ->. cbn [xret]. by rewrite IH.
Qed.

Lemma reduceNutrition_fails acc l (s : Home) :
  ~ complete l -> reduceNutrition acc l s = (Failed TypeErrorFailure, s).
Proof.
  revert acc. induction l as [|meal l IH]; intros acc Hnot.
  - destruct Hnot. apply Forall_nil_2.
  - cbn [reduceNutrition]. unfold addNutrition, xbind.
    destruct (m_analysis meal) as [|a] eqn:Ha; [done|].
    destruct (total_meal_nutritional_values a) as [totals|] eqn:Ht; [|done].
    cbn [xret]. apply IH. intros Hall. apply Hnot, Forall_cons. split; [|done].
    unfold totalsOf. rewrite Ha, Ht. by eexists.
Qed.

Lemma calculateDailyNutrition_run today l s :
  complete (countedOn today l) ->
  calculateDailyNutrition today l s
  = (Done tt, setDailyNutrition (nutritionOf (countedOn today l)) s).
Proof.
  intros Hall. unfold calculateDailyNutrition. fold (countedOn today l).
  by rewrite (xbind_done _ _ _ _ _ (reduceNutrition_run _ _ s Hall)).
Qed.

Lemma calculateDailyNutrition_fails today l s :
  ~ complete (countedOn today l) ->
  calculateDailyNutrition today l s = (Failed TypeErrorFailure, s).
Proof.
  intros Hnot. unfold calculateDailyNutrition. fold (countedOn today l).
  by rewrite (xbind_failed _ _ _ _ _ (reduceNutrition_fails _ _ s Hnot)).
Qed.

Lemma complete_dec l : complete l \/ ~ complete l.
Proof.
  unfold complete. induction l as [|meal l [IH|IH]].
  - left. apply Forall_nil_2.
  - destruct (totalsOf meal) as [t|] eqn:Et.
    + left. apply Forall_cons. split; [by eexists|done].
    + right. intros [Hmeal _]%Forall_cons. rewrite Et in Hmeal. by destruct Hmeal.
  - right. by intros [_ Hl]%Forall_cons.
Qed.

Lemma setMeals_after_calculate today l s :
  (complete (countedOn today l) ->
   exists s', xbind (calculateDailyNutrition today l) (fun _ => xmodify (setMeals l)) s
              = (Done tt, s') /\ shows today l s s')
  /\ (~ complete (countedOn today l) ->
      xbind (calculateDailyNutrition today l) (fun _ => xmodify (setMeals l)) s
      = (Failed TypeErrorFailure, s)).
Proof.
  split; intros Hall.
  - rewrite (xbind_done _ _ _ _ _ (calculateDailyNutrition_run today l s Hall)).
    eexists. split; [reflexivity|]. by repeat split.
  - by rewrite (xbind_failed _ _ _ _ _ (calculateDailyNutrition_fails today l s Hall)).
Qed.

Lemma addMealToState_list meal l :
  NoDup (idsOf l) ->
  match findIndex (fun m => bool_decide (m_id m = m_id meal)) l with
  | Some existingIndex => <[existingIndex := meal]> l
  | None => meal :: l
  end
  = if bool_decide (m_id meal ∈ idsOf l) then replaced meal l else meal :: l.
Proof.
  intros Hnodup.
  destruct (findIndex _ l) as [i|] eqn:Ei.
  - destruct (findIndex_id_Some meal l i Ei Hnodup) as [-> Hin].
    by rewrite bool_decide_eq_true_2.
  - apply findIndex_id_None in Ei. by rewrite bool_decide_eq_false_2.
Qed.

Lemma addMealToState_run today meal s :
  addMealToState today meal s
  = let l := match findIndex (fun m => bool_decide (m_id m = m_id meal)) (h_meals s) with
             | Some existingIndex => <[existingIndex := meal]> (h_meals s)
             | None => meal :: h_meals s
             end in
    xbind (calculateDailyNutrition today l) (fun _ => xmodify (setMeals l)) s.
Proof.
  unfold addMealToState. unfold xbind at 1, xget. cbv zeta.
  by destruct (findIndex _ (h_meals s)).
Qed.

(** [calculateDailyNutrition] counts the records of the day that have an
    analysis and are neither loading nor in error, and no other record: the
    nutrition of the day becomes the sums of their totals, added from the
    left, a missing total counting for [0]. When one of the records counted
    has an analysis without totals the call throws a [TypeError] and leaves
    the nutrition of the day as it was. [loadMeals] never throws: it shows
    the history that the record store returns, and the nutrition of the day
    follows it only when the records counted have totals; otherwise the
    nutrition shown is the one of the list shown before. *)
Theorem daily_nutrition_counts_the_settled_meals_of_today now today l s :
  (complete (countedOn today l) ->
   calculateDailyNutrition today l s
   = (Done tt, setDailyNutrition (nutritionOf (countedOn today l)) s))
  /\ (~ complete (countedOn today l) ->
      calculateDailyNutrition today l s = (Failed TypeErrorFailure, s))
  /\ (forall meal, needsRetry meal = true \/ m_analysis meal = ANull
                   \/ toDateString (m_timestamp meal) <> today ->
        calculateDailyNutrition today (meal :: l) s = calculateDailyNutrition today l s)
  /\ exists history s',
       getMealHistory now (homeDisk s) = (Ok history, homeDisk s')
       /\ loadMeals now today s = (Done tt, s')
       /\ h_meals s' = history
       /\ (complete (countedOn today history) ->
           h_dailyNutrition s' = nutritionOf (countedOn today history))
       /\ (~ complete (countedOn today history) ->
           h_dailyNutrition s' = h_dailyNutrition s).
Proof.
  split; [apply calculateDailyNutrition_run|].
  split; [apply calculateDailyNutrition_fails|]. split.
  - intros meal Hout.
    assert (countsToday today meal = false) as Hcount.
    { unfold countsToday, needsRetry in *.
      destruct Hout as [Hretry|[->|Hday]].
      - apply orb_true_iff in Hretry as [-> | ->]; cbn; by rewrite ?andb_false_r.
      - cbn. by rewrite andb_false_r.
      - apply String.eqb_neq in Hday. by rewrite Hday. }
    unfold calculateDailyNutrition.
    cbn [List.filter]. by rewrite Hcount.
  - destruct (getMealHistory_total now (homeDisk s)) as [history Hhistory].
    exists history.
    unfold loadMeals, xcatch, xbind at 1, onHomeDisk. rewrite Hhistory.
    unfold xbind at 1, xmodify.
    set (s1 := setMeals history (setHomeDisk (initialized now (homeDisk s)) s)).
    destruct (complete_dec (countedOn today history)) as [Hall|Hnot].
    + rewrite (calculateDailyNutrition_run today history s1 Hall).
      eexists. split; [|split; [reflexivity|]]; [done|]. by repeat split.
    + rewrite (calculateDailyNutrition_fails today history s1 Hnot).
      exists s1. by repeat split.
Qed.

(** While the ids of the list shown are distinct, [addMealToState] replaces
    the record of the id of the meal, or puts the meal in front when the id
    is not shown: the ids stay distinct, the meal is shown and the records
    of other ids stay. [updateMealInState] replaces the record of the id and
    shows the same ids: the update of a meal that is not shown is dropped.
    Both set the nutrition of the day from the new list, and throw a
    [TypeError] when a record counted in it has no totals. *)
Theorem home_list_follows_the_events today meal s :
  NoDup (idsOf (h_meals s)) ->
  let prev := h_meals s in
  let added :=
    if bool_decide (m_id meal ∈ idsOf prev) then replaced meal prev else meal :: prev in
  (complete (countedOn today added) ->
   exists s', addMealToState today meal s = (Done tt, s') /\ shows today added s s')
  /\ (~ complete (countedOn today added) ->
      (addMealToState today meal s).1 = Failed TypeErrorFailure)
  /\ NoDup (idsOf added)
  /\ meal ∈ added
  /\ (forall m, m ∈ prev -> m_id m <> m_id meal -> m ∈ added)
  /\ (complete (countedOn today (replaced meal prev)) ->
      exists s', updateMealInState today meal s = (Done tt, s')
                 /\ shows today (replaced meal prev) s s')
  /\ (~ complete (countedOn today (replaced meal prev)) ->
      (updateMealInState today meal s).1 = Failed TypeErrorFailure)
  /\ idsOf (replaced meal prev) = idsOf prev
  /\ (m_id meal ∉ idsOf prev -> replaced meal prev = prev).
Proof.
  intros Hnodup prev added.
  assert (addMealToState today meal s
          = xbind (calculateDailyNutrition today added) (fun _ => xmodify (setMeals added)) s)
    as Hadd.
  { rewrite addMealToState_run. cbv zeta. by rewrite (addMealToState_list meal _ Hnodup). }
  assert (updateMealInState today meal s
          = xbind (calculateDailyNutrition today (replaced meal prev))
              (fun _ => xmodify (setMeals (replaced meal prev))) s) as Hupdate.
  { unfold updateMealInState. unfold xbind at 1, xget. reflexivity. }
  destruct (setMeals_after_calculate today added s) as [Hadded Hthrown].
  destruct (setMeals_after_calculate today (replaced meal prev) s) as [Hupdated Hfailed].
  split; [intros Hall; rewrite Hadd; by apply Hadded|].
  split; [intros Hnot; rewrite Hadd; by rewrite Hthrown|].
  split.
  { unfold added. case_bool_decide as Hin.
    - by rewrite replaced_ids.
    - unfold idsOf. cbn [map]. by apply NoDup_cons. }
  split.
  { unfold added. case_bool_decide as Hin; [|apply elem_of_cons; by left].
    unfold idsOf in Hin. apply list_elem_of_fmap in Hin as (m & Hid & Hm).
    unfold replaced. apply list_elem_of_fmap. exists m. split; [|done].
    by rewrite bool_decide_eq_true_2. }
  split.
  { intros m Hm Hid. unfold added. case_bool_decide as Hin; [|apply elem_of_cons; by right].
    unfold replaced. apply list_elem_of_fmap. exists m. split; [|done].
    by rewrite bool_decide_eq_false_2. }
  split; [intros Hall; rewrite Hupdate; by apply Hupdated|].
  split; [intros Hnot; rewrite Hupdate; by rewrite Hfailed|].
  split; [apply replaced_ids | apply replaced_absent].
Qed.

End HomeFacts.

(** ** The statements on the sample data *)

(** C2: a record with an id, a timestamp and a comment, and no image, is
    rejected by [saveMealAnalysis]; so is a record with an id, a timestamp
    and an image whose analysis is [null]. *)
Lemma create_rejects_comment_only :
  m_id commentOnlyMeal <> "" /\ m_timestamp commentOnlyMeal <> ""
  /\ m_comment commentOnlyMeal = Some "lentil soup"
  /\ (saveMealAnalysis sampleDirectory sampleNow commentOnlyMeal (freshDisk sampleImages)).1
     = Throw MissingRequiredMealData
  /\ m_id unanalysedPhotoMeal <> "" /\ m_timestamp unanalysedPhotoMeal <> ""
  /\ m_imageUri unanalysedPhotoMeal = "file:///cache/Camera/before.jpg"
  /\ (saveMealAnalysis sampleDirectory sampleNow unanalysedPhotoMeal
        (freshDisk sampleImages)).1
     = Throw MissingRequiredMealData.
Proof.
  split; [discriminate|]. split; [discriminate|]. split; [reflexivity|].
  split; [vm_compute; reflexivity|].
  split; [discriminate|]. split; [discriminate|]. split; [reflexivity|].
  vm_compute. reflexivity.
Qed.

Lemma create_validation_witness :
  (saveMealAnalysis sampleDirectory sampleNow photoMeal (freshDisk sampleImages)).1 = Ok tt
  /\ (getMealById sampleNow (m_id photoMeal)
        (saveMealAnalysis sampleDirectory sampleNow photoMeal (freshDisk sampleImages)).2).1
     = Ok (Some (mealToSave sampleDirectory sampleNow photoMeal))
  /\ head (indexMeals
             (saveMealAnalysis sampleDirectory sampleNow photoMeal (freshDisk sampleImages)).2)
     = Some (entryOf (m_id photoMeal) (m_timestamp photoMeal)).
Proof.
  apply (create_validation sampleDirectory sampleNow photoMeal (freshDisk sampleImages)).
  - repeat split; discriminate.
  - split; [intros _; by eexists | intros a; discriminate].
  - constructor.
Defined.

(** C5: a pending record with neither image nor comment is accepted by
    [savePendingMeal] and stored; and after 51 calls of [savePendingMeal]
    with distinct ids the index has 51 entries. *)
Lemma createPending_accepts_no_image_no_comment :
  Str.truthyOpt (p_imageUri emptyPendingMeal) = false
  /\ Str.truthyOpt (p_comment emptyPendingMeal) = false
  /\ (savePendingMeal sampleDirectory sampleNow emptyPendingMeal (freshDisk sampleImages)).1
     = Ok tt
  /\ (getMealById sampleNow "1718000000000"
        (savePendingMeal sampleDirectory sampleNow emptyPendingMeal
           (freshDisk sampleImages)).2).1
     = Ok (Some {| m_id := "1718000000000";
                   m_timestamp := "2024-06-10T06:13:20.000Z";
                   m_imageUri := "";
                   m_afterImageUri := None;
                   m_analysis := ANull;
                   m_comment := Some "";
                   m_isLoading := Some true;
                   m_hasError := Some false |})
  /\ (getMealCount sampleNow numberedPendingDisk).1 = Ok 51%nat.
Proof. repeat split; vm_compute; reflexivity. Qed.

Lemma createPending_contract_witness :
  let d' := (savePendingMeal sampleDirectory sampleNow emptyPendingMeal
               (freshDisk sampleImages)).2 in
  (savePendingMeal sampleDirectory sampleNow emptyPendingMeal (freshDisk sampleImages)).1
  = Ok tt
  /\ (getMealById sampleNow "1718000000000" d').1
     = Ok (Some (pendingToSave sampleDirectory sampleNow emptyPendingMeal))
  /\ m_isLoading (pendingToSave sampleDirectory sampleNow emptyPendingMeal) = Some true
  /\ m_hasError (pendingToSave sampleDirectory sampleNow emptyPendingMeal) = Some false
  /\ m_analysis (pendingToSave sampleDirectory sampleNow emptyPendingMeal) = ANull
  /\ exists rest,
       indexMeals d'
       = entryOf "1718000000000" "2024-06-10T06:13:20.000Z" :: rest
       /\ Forall (fun e => e_id e <> "1718000000000") rest.
Proof.
  apply (createPending_contract sampleDirectory sampleNow emptyPendingMeal
           (freshDisk sampleImages)).
  - intros [H|H]; discriminate H.
  - intros [H|H]; discriminate H.
  - split; intros u; discriminate.
Defined.

(** C1 on 51 records: the index holds 50 entries, the first record is gone,
    its images are still there. *)
Lemma retention_cap_on_create_witness :
  let d := createAll sampleDirectory numberedCalls (freshDisk sampleImages) in
  (getMealCount sampleNow d).1 = Ok 50%nat
  /\ (getMealById sampleNow "meal0" d).1 = Ok None
  /\ is_Some (files d !! storageImageUri sampleDirectory sampleNow (numberedCall 0).2).
Proof.
  assert (NoDup (map callId numberedCalls)) as Hnodup.
  { apply (bool_decide_unpack (NoDup (map callId numberedCalls))). vm_compute. exact I. }
  assert (Forall (fun c => hasRequiredMealData c.2
                           /\ imagesOnDisk c.2 (freshDisk sampleImages)) numberedCalls)
    as Hvalid.
  { unfold numberedCalls. apply Forall_fmap, Forall_forall. intros i _. split.
    - repeat split; discriminate.
    - split; [by eexists|]. intros a [= <-] _. by eexists. }
  destruct (retention_cap_on_create sampleDirectory sampleImages numberedCalls 1)
    as (_ & Hcount & _ & Hgone & Hblob & _); [lia | reflexivity | done | done |].
  split; [apply Hcount|]. split.
  - apply (Hgone sampleNow (numberedCall 0)). vm_compute. left.
  - destruct (Hblob (numberedCall 0)) as [H _]; [vm_compute; left | exact H].
Defined.

(** C3 on the record whose analysis failed, with an update of the comment
    only. *)
Lemma update_clears_and_sorts_witness :
  let d' := (updateMealAnalysis Iso.getTime (sampleNow + 7200000) "1718000000000"
               commentPatch (disk erroredWorld)).2 in
  m_hasError erroredSoup = Some true
  /\ (getMealById sampleNow "1718000000000" d').1
     = Ok (Some (clearFlags (spread erroredSoup commentPatch)))
  /\ newestFirst Iso.getTime (indexMeals d').
Proof.
  destruct (update_clears_and_sorts Iso.getTime (sampleNow + 7200000) "1718000000000"
              commentPatch (disk erroredWorld) erroredSoup)
    as (_ & Hstored & _ & _ & _ & Hsorted); [by vm_compute|].
  split; [done|]. split.
  - rewrite getMealById_run in Hstored |- *. exact Hstored.
  - apply Hsorted.
    + assert (indexMeals (disk erroredWorld)
              = [entryOf "1718003600000" "2024-06-10T07:13:20.000Z";
                 entryOf "1718000000000" "2024-06-10T06:13:20.000Z"]) as ->
        by (vm_compute; reflexivity).
      repeat constructor; eexists; vm_compute; reflexivity.
    + eexists; vm_compute; reflexivity.
Defined.

(** C4: the retry transition of [processMeal] on the record whose analysis
    failed writes a record that is neither loading nor in error and has no
    analysis. *)
Lemma retry_transition_persists_idle_record :
  (getMealById sampleNow "1718000000000" (disk erroredWorld)).1 = Ok (Some erroredSoup)
  /\ (getMealById sampleNow "1718000000000"
        (disk (retryTransition Iso.getTime failingCall erroredSoup erroredWorld).2)).1
     = Ok (Some {| m_id := "1718000000000";
                   m_timestamp := "2024-06-10T06:13:20.000Z";
                   m_imageUri := "";
                   m_afterImageUri := None;
                   m_analysis := ANull;
                   m_comment := Some "lentil soup";
                   m_isLoading := Some false;
                   m_hasError := Some false |}).
Proof. split; vm_compute; reflexivity. Qed.

(** C6 on the five meals of 30 minutes, 12 hours, 3 days, 40 days and 400
    days: clearing the last day deletes the two meals of the last 24 hours
    and keeps the three others; clearing the last hour deletes the first
    only, the last month the first three, the last year all but the meal of
    400 days; clearing all deletes the five. *)
Lemma clear_by_time_range_witness :
  let after timeRange := (clearHistoryByTimeRange Iso.getTime sampleNow timeRange agedDisk).2 in
  map e_id (indexMeals (after day)) = ["age3d"; "age40d"; "age400d"]
  /\ mealFiles (after day) !! "meal_age30m.json" = None
  /\ mealFiles (after day) !! "meal_age12h.json" = None
  /\ mealFiles (after day) !! "meal_age3d.json" = mealFiles agedDisk !! "meal_age3d.json"
  /\ map e_id (indexMeals (after hour)) = ["age12h"; "age3d"; "age40d"; "age400d"]
  /\ map e_id (indexMeals (after month)) = ["age40d"; "age400d"]
  /\ map e_id (indexMeals (after year)) = ["age400d"]
  /\ indexMeals (after all) = [].
Proof.
  intros after.
  destruct (clear_by_time_range Iso.getTime sampleNow day agedDisk)
    as (_ & Hday & _).
  destruct (clear_by_time_range Iso.getTime sampleNow hour agedDisk)
    as (_ & Hhour & _).
  destruct (clear_by_time_range Iso.getTime sampleNow month agedDisk)
    as (_ & Hmonth & _).
  destruct (clear_by_time_range Iso.getTime sampleNow year agedDisk)
    as (_ & Hyear & _).
  destruct (clear_by_time_range Iso.getTime sampleNow all agedDisk)
    as (_ & _ & Hall).
  destruct (Hday 86400000 eq_refl) as (Hidx & Hrecent & Hold & _).
  destruct (Hhour 3600000 eq_refl) as (Hidx1 & _).
  destruct (Hmonth 2592000000 eq_refl) as (Hidx30 & _).
  destruct (Hyear 31536000000 eq_refl) as (Hidx365 & _).
  destruct (Hall eq_refl) as [Hempty _].
  split; [unfold after; rewrite Hidx; by vm_compute|].
  split; [|split; [|split; [|split; [|split; [|split]]]]].
  - apply (Hrecent (entryOf "age30m" "2024-06-10T05:43:20.000Z") 1717998200000);
      [by vm_compute; left | by vm_compute | by vm_compute].
  - apply (Hrecent (entryOf "age12h" "2024-06-09T18:13:20.000Z") 1717956800000);
      [by vm_compute; right; left | by vm_compute | by vm_compute].
  - apply (Hold (entryOf "age3d" "2024-06-07T06:13:20.000Z") 1717740800000);
      [by vm_compute; right; right; left | by vm_compute | by vm_compute |].
    apply (bool_decide_unpack (NoDup (map e_filename (indexMeals agedDisk)))).
    by vm_compute.
  - unfold after. rewrite Hidx1. by vm_compute.
  - unfold after. rewrite Hidx30. by vm_compute.
  - unfold after. rewrite Hidx365. by vm_compute.
  - exact Hempty.
Defined.


(** C8 on the pending text-only meal with an inference service that fails:
    the meal is left in error; [resumePending] then processes it again. *)
Lemma process_absorbs_failures_witness :
  (processMeal Iso.getTime failingCall soupMeal pendingWorld).1 = Ok tt
  /\ (exists marked,
        (getMealById (now failingCall) "1718000000000" (disk erroredWorld)).1
        = Ok (Some marked)
        /\ m_hasError marked = Some true /\ m_isLoading marked = Some false)
  /\ (resumePending Iso.getTime sampleNow (fun _ => failingCall) erroredWorld).1 = Ok tt.
Proof.
  destruct (process_absorbs_failures Iso.getTime) as (Htotal & Hmark & Hresume & _).
  split; [apply Htotal|]. split; [|apply Hresume].
  destruct (Hmark failingCall soupMeal pendingWorld AnalysisFailure soupMeal)
    as (marked & Hs & He & Hl & _); [by vm_compute | by vm_compute |].
  exists marked. done.
Defined.

(** [resumePending] goes on after a failure: of the two meals that are
    loading, the first is processed with an inference service that fails
    and the second with one that answers; the first is left in error and the
    second is analysed. *)
Lemma resumePending_continues_after_failure :
  let world := fun i : nat => match i with O => failingCall | _ => answeringCall end in
  let w' := (resumePending Iso.getTime sampleNow world pendingWorld).2 in
  (resumePending Iso.getTime sampleNow world pendingWorld).1 = Ok tt
  /\ length (geminiRequests w') = 2%nat
  /\ (m_hasError <$> storedMeal "1718003600000" (disk w')) = Some (Some true)
  /\ (m_analysis <$> storedMeal "1718000000000" (disk w')) = Some (AObject sampleAnalysis).
Proof. repeat split; vm_compute; reflexivity. Qed.



(** C10 on the pending text-only meal, whose analysis is [null]. *)
Lemma sync_needs_totals_witness :
  healthConnectWrites (writeMealToHealthConnect Iso.getTime healthOn soupMeal pendingWorld).2
  = []
  /\ versionMapItem
       (secureStore (writeMealToHealthConnect Iso.getTime healthOn soupMeal pendingWorld).2)
     = None.
Proof.
  destruct (sync_needs_totals Iso.getTime healthOn soupMeal pendingWorld)
    as (_ & Hw & Hv); [by left|].
  split; [exact Hw | exact Hv].
Defined.

(** ** The further statements on the sample data *)

Lemma pendingWorld_index :
  indexMeals (disk pendingWorld)
  = [ entryOf "1718003600000" "2024-06-10T07:13:20.000Z";
      entryOf "1718000000000" "2024-06-10T06:13:20.000Z" ].
Proof. vm_compute. reflexivity. Qed.

Lemma pendingWorld_wellFormed : wellFormedIndex (disk pendingWorld).
Proof.
  unfold wellFormedIndex. rewrite pendingWorld_index. split.
  - repeat constructor.
  - apply (bool_decide_unpack _). vm_compute. exact I.
Qed.

(** Deleting the text-only meal of the two meals entered: the photographed
    meal is left in the index, and one meal is counted. *)
Lemma delete_removes_record_witness :
  let d' := (deleteMeal sampleNow "1718000000000" (disk pendingWorld)).2 in
  map e_id (indexMeals d') = ["1718003600000"]
  /\ (getMealById sampleNow "1718000000000" d').1 = Ok None
  /\ (getMealCount sampleNow d').1 = Ok 1%nat.
Proof.
  destruct (delete_removes_record sampleNow "1718000000000" (disk pendingWorld))
    as (_ & Hidx & _ & _ & Hgone & _ & _ & Hcount).
  - exact pendingWorld_wellFormed.
  - rewrite pendingWorld_index. vm_compute. right. left.
  - split; [|split].
    + rewrite Hidx, pendingWorld_index. vm_compute. reflexivity.
    + exact Hgone.
    + rewrite Hcount, pendingWorld_index. reflexivity.
Defined.

(** A comment meal with an empty id, an empty timestamp and an empty
    comment, saved on a fresh store. *)
Lemma comment_meal_is_stored_settled_witness :
  let d' := (saveCommentMeal sampleNow "" "" "" (freshDisk sampleImages)).2 in
  (saveCommentMeal sampleNow "" "" "" (freshDisk sampleImages)).1 = Ok tt
  /\ (getMealById sampleNow "" d').1 = Ok (Some (commentMealToSave "" "" ""))
  /\ indexMeals d' = [entryOf "" ""].
Proof.
  assert ((saveCommentMeal sampleNow "" "" "" (freshDisk sampleImages)).1 = Ok tt) as Hreturns
    by (vm_compute; reflexivity).
  destruct (comment_meal_is_stored_settled sampleNow "" "" "" (freshDisk sampleImages))
    as (_ & _ & Hstored).
  destruct (Hstored Hreturns) as (Hfound & Hindex & _).
  split; [exact Hreturns|]. split; [exact Hfound|].
  rewrite Hindex. vm_compute. reflexivity.
Defined.

(** Saving the stored photographed meal a second time, a second later. *)
Lemma save_twice_is_save_once_witness :
  let d1 := (saveMealAnalysis sampleDirectory sampleNow photoMeal (freshDisk sampleImages)).2 in
  let stored := mealToSave sampleDirectory sampleNow photoMeal in
  let d2 := (saveMealAnalysis sampleDirectory (sampleNow + 1000) stored d1).2 in
  (saveMealAnalysis sampleDirectory (sampleNow + 1000) stored d1).1 = Ok tt
  /\ files d2 = files d1
  /\ indexMeals d2 = indexMeals d1.
Proof.
  destruct (save_twice_is_save_once sampleDirectory sampleNow (sampleNow + 1000) photoMeal
              (freshDisk sampleImages))
    as (_ & Hok & _ & Hfiles & Hidx).
  - repeat split; discriminate.
  - split; [intros _; by eexists | intros a; discriminate].
  - apply wellFormedIndex_fresh.
  - split; [exact Hok|]. split; [exact Hfiles | exact Hidx].
Defined.

(** An update of a record that was never stored. *)
Lemma update_needs_the_record_file_witness :
  (updateMealAnalysis Iso.getTime sampleNow "missing" commentPatch (disk pendingWorld)).1
  = Throw (FileNotReadable "meal_missing.json")
  /\ (updateMealAnalysisError sampleNow "missing" (disk pendingWorld)).1
     = Throw (FileNotReadable "meal_missing.json")
  /\ (getMealById sampleNow "missing" (initialized sampleNow (disk pendingWorld))).1 = Ok None.
Proof.
  destruct (update_needs_the_record_file Iso.getTime sampleNow "missing" commentPatch
              (disk pendingWorld))
    as (_ & _ & Hgone & _); [by vm_compute|].
  split; [by vm_compute|]. split; [by vm_compute|]. exact Hgone.
Defined.

(** An update of the comment of the record whose analysis failed: the index
    keeps its two entries. *)
Lemma update_keeps_the_other_entries_witness :
  let d' := (updateMealAnalysis Iso.getTime (sampleNow + 7200000) "1718000000000"
               commentPatch (disk erroredWorld)).2 in
  length (indexMeals d') = 2%nat
  /\ files d' = files (disk erroredWorld)
  /\ storedMeal "1718003600000" d' = storedMeal "1718003600000" (disk erroredWorld).
Proof.
  destruct (update_keeps_the_other_entries Iso.getTime (sampleNow + 7200000)
              "1718000000000" commentPatch (disk erroredWorld) erroredSoup)
    as (_ & _ & Hlen & Hothers & Hfiles & _); [by vm_compute|].
  split; [|split].
  - rewrite Hlen. vm_compute. reflexivity.
  - exact Hfiles.
  - apply Hothers. discriminate.
Defined.

(** The store after the sample session, on a fresh device. *)
Lemma calls_keep_the_store_consistent_witness :
  let d := disk (afterCalls sampleDirectory Iso.getTime sampleSession
                   (worldOf (freshDisk sampleImages))) in
  consistentStore d
  /\ exists listed,
       (getMealHistory (sampleNow + 6000) d).1 = Ok listed
       /\ (getMealCount (sampleNow + 6000) d).1 = Ok (length listed).
Proof.
  destruct (calls_keep_the_store_consistent sampleDirectory Iso.getTime sampleSession
              (worldOf (freshDisk sampleImages)) (sampleNow + 6000))
    as (Hconsistent & _ & (listed & Hlisted & Hcount & _) & _).
  - split; [apply wellFormedIndex_fresh|]. apply Forall_nil_2.
  - vm_compute. repeat split.
  - split; [exact Hconsistent|]. exists listed. split; [exact Hlisted | exact Hcount].
Defined.

(** White space is more than the ASCII blanks: a text-only meal whose
    comment is one ideographic space has no comment for [processMeal], which
    makes no request and marks the record in error. *)
Lemma blank_comment_is_not_analysed :
  let w' := (processMeal Iso.getTime blankCall blankMeal blankWorld).2 in
  (analyse blankCall blankMeal blankWorld).1 = Throw NoImageOrComment
  /\ geminiRequests w' = []
  /\ (m_hasError <$> storedMeal "1718007200000" (disk w')) = Some (Some true)
  /\ (m_analysis <$> storedMeal "1718007200000" (disk w')) = Some ANull.
Proof. repeat split; vm_compute; reflexivity. Qed.

(** The analysis of the pending text-only meal succeeds. *)
Lemma process_stores_the_analysis_witness :
  let w' := (processMeal Iso.getTime answeringCall soupMeal pendingWorld).2 in
  (processMeal Iso.getTime answeringCall soupMeal pendingWorld).1 = Ok tt
  /\ (getMealById (now answeringCall) "1718000000000" (disk w')).1 = Ok (Some analysedSoup)
  /\ mealUpdated w' = [analysedSoup].
Proof.
  destruct (process_stores_the_analysis Iso.getTime answeringCall soupMeal pendingWorld
              soupMeal sampleAnalysis)
    as (Hok & Hstored & _ & _ & _ & _ & _ & Hevents & _);
    [by vm_compute | by vm_compute | by vm_compute |].
  split; [exact Hok|]. split; [exact Hstored | exact Hevents].
Defined.

(** Resuming after the text-only meal was analysed and the photographed
    meal deleted: nothing is pending. *)
Lemma resume_skips_settled_records_witness :
  let w := setDisk (deleteMeal sampleNow "1718003600000" (disk analysedWorld)).2
             analysedWorld in
  (resumePending Iso.getTime sampleNow (fun _ => answeringCall) w).2 = w.
Proof.
  intros w.
  rewrite (resume_skips_settled_records Iso.getTime sampleNow (fun _ => answeringCall) w).
  - by vm_compute.
  - assert (indexMeals (disk w) = [entryOf "1718000000000" "2024-06-10T06:13:20.000Z"])
      as -> by (vm_compute; reflexivity).
    intros e m [->|[]%elem_of_nil]%elem_of_cons. vm_compute. by intros [= <-].
Defined.

(** The photographed meal is entered and analysed as [AddMealModal] does:
    the stored record ends with the URI of the photo of the camera, and the
    copy [savePendingMeal] made is still in the images directory. *)
Lemma processing_restores_the_source_uri_witness :
  let d1 := (savePendingMeal sampleDirectory (sampleNow + 3600000) saladPending
               (freshDisk sampleImages)).2 in
  let w' := (processMeal Iso.getTime answeringCall saladMeal
               (setDisk d1 (worldOf (freshDisk sampleImages)))).2 in
  (m_imageUri <$> storedMeal "1718003600000" d1)
  = Some "file:///data/user/0/openmeal/files/meals/images/1718003600000_1718003600000.jpg"
  /\ (m_imageUri <$> storedMeal "1718003600000" (disk w'))
     = Some "file:///cache/Camera/before.jpg"
  /\ files (disk w')
       !! "file:///data/user/0/openmeal/files/meals/images/1718003600000_1718003600000.jpg"
     = Some "QkVGT1JF".
Proof.
  destruct (processing_restores_the_source_uri sampleDirectory Iso.getTime
              (sampleNow + 3600000) answeringCall saladPending saladMeal
              (freshDisk sampleImages) (worldOf (freshDisk sampleImages))
              "QkVGT1JF" sampleAnalysis)
    as (Hcopy & Hstored & _ & _ & Hfile);
    [first [discriminate | by vm_compute] ..|].
  split; [exact Hcopy|]. split; [exact Hstored | exact Hfile].
Defined.


(** The full sync with a meal whose timestamp is not a date in the history:
    nothing is sent, not even the meal that has a date. *)
Lemma full_sync_is_all_or_nothing_witness :
  let s' := (syncMealsToHealthConnect Iso.getTime sampleMessageOf sampleNow grantingDialog
               (screenOf undatedWorld)).2 in
  healthConnectBatches s' = []
  /\ alerts s'
     = [ {| alertTitle := "Sync failed";
            alertMessage := "Failed to sync with Health Connect: Invalid time value" |} ].
Proof.
  destruct (full_sync_is_all_or_nothing Iso.getTime sampleMessageOf sampleNow grantingDialog
              (screenOf undatedWorld) (mealToSave sampleDirectory sampleNow undatedMeal))
    as (Hbatch & Halerts).
  - by vm_compute.
  - eexists. split; [reflexivity|]. by vm_compute.
  - vm_compute. left.
  - eexists. by vm_compute.
  - by vm_compute.
  - split; [exact Hbatch | exact Halerts].
Defined.

(** ** The statements of the export and of the import on the sample data *)

(** The file with a photographed meal and a text-only meal: the import
    fails at the second meal, with the first one and the settings
    imported. *)
Lemma import_stops_at_a_meal_without_image_witness :
  let s' := (importData sampleDirectory samplePlatform sampleImportClock
               "file:///cache/export.json" pickedDevice).2 in
  (importData sampleDirectory samplePlatform sampleImportClock
     "file:///cache/export.json" pickedDevice).1
  = Failed (StoreFailure MissingRequiredMealData)
  /\ map e_id (indexMeals (deviceDisk s')) = ["1718000000000"]
  /\ userProfileItem (asyncStorage s') = Some sampleProfile.
Proof.
  destruct (import_stops_at_a_meal_without_image sampleDirectory samplePlatform
              sampleImportClock "file:///cache/export.json" "file:///cache/cut.json"
              pickedDevice
              (importData sampleDirectory samplePlatform sampleImportClock
                 "file:///cache/cut.json" pickedDevice).2
              (sampleExport [photoExported; textExported])
              [photoExported] textExported [])
    as [Hrun Hsettings].
  - by vm_compute.
  - split; [done|]. split; [done|]. split; [done|]. by repeat constructor.
  - by split.
  - by vm_compute.
  - by vm_compute.
  - rewrite Hrun. cbn [fst snd]. split; [done|]. split; [by vm_compute|].
    cbn [asyncStorage setDeviceDisk]. by rewrite Hsettings.
Defined.

(** The file cut before the text-only meal: the import returns, the meal is
    stored with the URI of the copy of its image. *)
Lemma import_stores_the_meals_witness :
  let s' := (importData sampleDirectory samplePlatform sampleImportClock
               "file:///cache/cut.json" pickedDevice).2 in
  (importData sampleDirectory samplePlatform sampleImportClock
     "file:///cache/cut.json" pickedDevice).1 = Done tt
  /\ (m_imageUri <$> storedMeal "1718000000000" (deviceDisk s'))
     = Some "file:///data/user/0/openmeal/files/meals/images/1718000000000_1718086400000.jpg"
  /\ dailyGoalsItem (asyncStorage s') = Some DEFAULT_GOALS.
Proof.
  destruct (import_stores_the_meals sampleDirectory samplePlatform sampleImportClock
              "file:///cache/cut.json" pickedDevice (sampleExport [photoExported])
              [photoExported])
    as (Hdone & Hsettings & _ & Hstored & _).
  - by vm_compute.
  - split; [done|]. split; [done|]. split; [done|]. by repeat constructor.
  - done.
  - apply Forall_cons. split; [|apply Forall_nil_2].
    split; [split; [done|by eexists]|done].
  - apply wellFormedIndex_fresh.
  - split; [|split].
    + apply (bool_decide_unpack _). by vm_compute.
    + intros m _. apply not_elem_of_nil.
    + cbn. unfold MAX_MEALS. lia.
  - cbv zeta. split; [exact Hdone|]. split; [|by rewrite Hsettings].
    destruct (Hstored 0%nat photoExported eq_refl) as (Hrecord & _).
    rewrite getMealById_run in Hrecord.
    change (importedId photoExported) with "1718000000000" in Hrecord.
    assert (storedMeal "1718000000000"
              (deviceDisk (importData sampleDirectory samplePlatform sampleImportClock
                             "file:///cache/cut.json" pickedDevice).2)
            = Some (importedMeal sampleDirectory sampleImportClock 0 photoExported)) as ->
      by (cbn [fst] in Hrecord; congruence).
    by vm_compute.
Defined.

(** The user grants no directory and dismisses the share sheet twice: the
    export fails, and its file is left in the document directory. *)
Lemma export_asks_the_share_sheet_twice_witness :
  let s' := (exportData sampleDirectory samplePlatform deniedSaving sampleExportClock
               photoDevice).2 in
  (exportData sampleDirectory samplePlatform deniedSaving sampleExportClock photoDevice).1
  = Failed SharingFailure
  /\ length (shareLog s') = 2%nat
  /\ is_Some (documents s'
                !! "file:///data/user/0/openmeal/files/OpenMeal_Export_2024-06-10.json").
Proof.
  destruct (export_asks_the_share_sheet_twice sampleDirectory samplePlatform deniedSaving
              sampleExportClock photoDevice)
    as (_ & Htwice); [done|done|done|].
  destruct Htwice as (Hlog & _ & Hfails); [done|].
  destruct Hfails as (Hrun & Hdoc); [done|].
  split; [exact Hrun|]. split; [by rewrite Hlog|]. by eexists.
Defined.

(** The export of the device that has a text-only meal: the file is
    written, and its import on the device with the empty store does not
    return. *)
Lemma unreadable_image_blocks_the_import_witness :
  let exported :=
    exportedDocument sampleExportClock mixedDevice in
  (exportData sampleDirectory samplePlatform sampleSaving sampleExportClock mixedDevice).1
  = Done tt
  /\ (importData sampleDirectory samplePlatform sampleImportClock "file:///cache/picked.json"
        (importingDevice (<["file:///cache/picked.json" := JsonObject exported]> ∅))).1
     <> Done tt.
Proof.
  destruct (unreadable_image_blocks_the_import sampleDirectory samplePlatform sampleSaving
              sampleExportClock mixedDevice
              "content://documents/tree/downloads/OpenMeal_Export_2024-06-10.json"
              analysedSoup)
    as (Hdone & _ & Hblocked).
  - done.
  - split; [done|]. split; [by eexists|]. by split.
  - vm_compute. right. left.
  - done.
  - split; [exact Hdone|]. apply Hblocked. apply lookup_insert_eq.
Defined.

(** The export of the device that has the photographed meal, imported on
    the device with the empty store: the meal is found again, and so is the
    profile. *)
Lemma export_then_import_restores_the_meals_witness :
  let exported := exportedDocument sampleExportClock photoDevice in
  let device' :=
    (importData sampleDirectory samplePlatform sampleImportClock "file:///cache/picked.json"
       (importingDevice (<["file:///cache/picked.json" := JsonObject exported]> ∅))).2 in
  map e_id (indexMeals (deviceDisk device')) = ["1718000000000"]
  /\ (exists m,
        storedMeal "1718000000000" (deviceDisk device') = Some m
        /\ m_analysis m = AObject sampleAnalysis /\ m_comment m = Some "lunch")
  /\ userProfileItem (asyncStorage device') = Some sampleProfile.
Proof.
  assert (listedMeals (deviceDisk photoDevice)
          = [mealToSave sampleDirectory sampleNow photoMeal]) as Hlisted
    by (vm_compute; reflexivity).
  destruct (export_then_import_restores_the_meals sampleDirectory samplePlatform
              sampleSaving sampleExportClock photoDevice
              "content://documents/tree/downloads/OpenMeal_Export_2024-06-10.json"
              sampleDirectory samplePlatform sampleImportClock "file:///cache/picked.json"
              (importingDevice
                 (<["file:///cache/picked.json"
                    := JsonObject (exportedDocument sampleExportClock photoDevice)]> ∅)))
    as (_ & _ & Hindex & Hrestored & _ & _ & Hprofile).
  - done.
  - split; [done|]. split; [by eexists|]. by split.
  - done.
  - rewrite Hlisted. repeat constructor; try done; by eexists.
  - rewrite Hlisted. apply (bool_decide_unpack _). by vm_compute.
  - rewrite Hlisted. cbn. unfold MAX_MEALS. lia.
  - by vm_compute.
  - done.
  - done.
  - intros payload. by eexists.
  - split; [by rewrite Hindex, Hlisted|]. split; [|by apply Hprofile].
    destruct (Hrestored (mealToSave sampleDirectory sampleNow photoMeal))
      as (m & Hstored & (_ & _ & Hcomment & Hanalysis & _) & _).
    { rewrite Hlisted. left. }
    exists m. split; [exact Hstored|]. split; [exact Hanalysis | exact Hcomment].
Defined.

(** The analysis of the salad arrives on the home screen that shows the salad
    as loading: its record is replaced in place, and both meals of the day
    are counted. *)
Lemma home_list_follows_the_events_witness :
  NoDup (idsOf (h_meals sampleHome))
  /\ exists s', addMealToState sampleDay "2024-06-10" settledSalad sampleHome = (Done tt, s')
                /\ h_meals s' = [settledSalad; photoMeal]
                /\ d_calories (h_dailyNutrition s') = 460.
Proof.
  assert (NoDup (idsOf (h_meals sampleHome))) as Hnodup.
  { apply (bool_decide_unpack _). vm_compute. exact I. }
  split; [exact Hnodup|].
  destruct (home_list_follows_the_events sampleDay "2024-06-10" settledSalad sampleHome Hnodup)
    as (Hadd & _).
  destruct Hadd as (s' & Hrun & Hmeals & _ & Hnutrition).
  - vm_compute. repeat constructor; by eexists.
  - exists s'. split; [exact Hrun|]. split.
    + rewrite Hmeals. vm_compute. reflexivity.
    + rewrite Hnutrition. vm_compute. reflexivity.
Defined.
